(* ===== verification/_CoqProject ===== *)
-Q . S2P
Prelude.v
Geodesy.v
Haversine.v
StreetMapper.v
Resample.v
Metrics.v
Validator.v
Generator.v
Waypoints.v
PyStr.v
Templates.v
Neighborhood.v
Llm.v
HoodData.v
Predictors.v
Ideas.v
Pipeline.v
Routers.v
Config.v
