(* ===== verification/Prelude.v ===== *)
(** * Ghost Tracks: a verification development of the route-shape core

    The repository (src/backend) turns a shape description into a running
    route drawn through a city's streets: it picks a neighbourhood, obtains
    an outline (control points) from a language model or from parametric
    templates, snaps it to street-friendly waypoints, routes them through
    an external street router, scores how well the routed polyline
    reproduces the outline, and retries with deviation-targeted edits when
    the score is too low.  This library models that core in Rocq and
    proves the properties that make it correct.

    ** The program and how its parts interact

    - src/backend/services/shape_generator.py, [generate_from_description]:
      [_find_neighborhood] (language-model pick, else the ranking of
      neighborhood.py) -> [_generate_control_points] (language-model
      outline with at least three points, else a template of
      shape_templates.py) -> [StreetMapper.map_to_streets] ->
      [_route_waypoints] -> [_extract_waypoints] ->
      [ShapeValidator.validate] -> at most [MAX_RETRIES] retries, each
      editing the outline with [_tighten_control_points];
      [_difficulty_for_distance] rates the result.
    - src/backend/services/street_mapper.py: the geodesy kernel
      ([haversine_distance_m], [_bearing_deg]) and [StreetMapper], whose
      [map_to_streets] is [scale_to_bbox] -> [densify] -> [deduplicate].
    - src/backend/services/shape_validator.py: the scorer.  Its metrics are
      [_modified_hausdorff_distance], [_ordered_sampling_score] (on curves
      resampled by [_resample_curve]) and [_raster_iou_score], normalised
      by [_compute_diameter] of the target; [_validate_algorithmic] blends
      them 0.55/0.35/0.10; [validate] tries an optional vision judge first.
    - src/backend/services/shape_templates.py: the closed templates, the
      block letters and the dispatcher [get_parametric_shape].
    - src/backend/services/neighborhood.py: [_normalize_shape_term],
      [find_best_for_shape] (term overlap, layout preference, size test,
      md5 tie-breaker) and [get_by_name].
    - src/backend/models/schemas.py: [Coordinate], [BoundingBox],
      [ValidationResult], [WaypointMarker], [Neighborhood], [ShapeIdea],
      the request and response records.
    - src/backend/routers: the HTTP handlers [generate_shapes] (mode A,
      [generate_for_neighborhood]), [describe_shape] (mode B) and
      [health_check]; a [ValueError] becomes status 400, any other
      exception 500.

    ** Files (in dependency order) and what each models

    - [Prelude] (this file): Python floats as exact rationals [Q]; Python
      exceptions [PyExc] and the [Outcome] of a call that may raise; Python's
      [min], [max], [round] (half to even), [int], [x or d], [sum],
      [range] and float [%]; a stable insertion sort (Python's [sort] is
      stable), sub-sequences, adjacent pairs; the [geo] scope and hint
      database and the comparison tactics [qcase] and [qlra].
    - [Geodesy]: [Coordinate] with pydantic's range check
      ([mk_coordinate], and [new_coords] for the points a function
      builds), [BoundingBox] and its [center()] ([bbox_center], checked),
      the coordinate setoid, the geodesy kernel as the interface
      [Geodesy] with its laws [GeodesyLaws]; [lerp] and [midpoint] as the
      code writes them.
    - [Haversine]: the two kernel formulas over the reals, and the proof
      that they satisfy [GeodesyLaws].
    - [StreetMapper]: every method of [StreetMapper]; [scale_to_bbox]
      and [map_to_streets] return [None] when pydantic rejects a scaled
      point.
    - [Resample]: [_resample_curve].
    - [Metrics]: the percentile, the Hausdorff distances,
      [_compute_diameter] (its seeded sampler is the interface
      [SampleRng]) and [_ordered_sampling_score].
    - [Validator]: rasterisation (PIL's line drawing is the interface
      [LineDrawer]), [_raster_iou_score], [ValidationResult] with
      pydantic's range check, [_validate_algorithmic], [validate].
    - [Generator]: [_tighten_control_points] and the retry loop, as a
      function and as the step relation [retry_step]; routing and
      validation are effects threading an explicit state.
    - [Waypoints]: [_extract_waypoints], [_route_waypoints] (proxy,
      the token lookup; one Directions call per chunk answers a route, no
      route, or raises, and the exception propagates as in the code:
      [Outcome]),
      [_difficulty_for_distance].
    - [PyStr]: Python's [str] methods on ASCII strings ([lower], [upper],
      [strip], [split], [isalpha], [endswith], [in], slicing).
    - [Templates]: shape_templates.py and [_generate_control_points]
      (whose template fallback raises when pydantic rejects the box's
      centre or a template point); [math.sin], [math.cos], [math.pi] are
      the interface [Trig].
    - [Neighborhood]: neighborhood.py's normaliser, ranking and lookup, and
      [_find_neighborhood]; md5, diacritic stripping and the iteration
      order of a Python [set] are parameters.
    - [Llm]: llm.py's parsing of the model's answers (fences, the bracket
      fallback, [coords_from_raw] with pydantic's range check) as a
      function of [json.loads], the model branch of
      [_generate_control_points], and the reply parsing of
      [_validate_with_vision] ([vision_judge], a judge for [validate]).
    - [HoodData]: neighborhood.py's loader ([_load] on the data file's
      text, [_parse] with pydantic's checks of [Neighborhood]) and
      [get_summary_string].
    - [Predictors]: the three dspy signatures of llm.py as records of
      their input and output fields, a [dspy.Predict] as a function from
      a signature's inputs to its outputs ([None] when the call raises),
      the [Model] behind them, and the inputs shape_generator.py builds
      for each call (the bounding-box f-string, the neighbourhood summary,
      the count); [str] of a float is the interface [FloatRepr].
    - [Ideas]: mode A, [generate_for_neighborhood] with
      [_generate_with_llm] and [_generate_with_templates], [ShapeIdea] and
      [GenerateResponse] with pydantic's checks, [_emoji_for_description].
    - [Pipeline]: mode B, [generate_from_description]: the composition of
      all the above, the retry loop of [Generator] instantiated with
      [_route_waypoints] and [validate], and [DescribeResponse].  Both
      modes return an [Outcome] (declared in [Prelude]): the response, or
      the exception raised ([ValueError], pydantic's [ValidationError] of
      the routed [Coordinate]s, [ShapeIdea] or [DescribeResponse] with its
      [int] duration, [AttributeError], or the exception of a Directions
      call); after routing raised, the retry loop does nothing more and
      stops ([RouteState]), as the exception leaves the loop in Python.
    - [Routers]: the three handlers of routers/ with FastAPI's validation
      of the JSON body against [GenerateRequest] and [DescribeRequest]
      (422), and the [except ValueError] / [except Exception] mapping to
      400 and 500 with [str(exc)] as the detail.
    - [Config]: every read of the environment ([MAX_RETRIES],
      [VALIDATION_THRESHOLD], [SVELTEKIT_URL], the Mapbox token,
      [GLM_API_KEY] in [configure_llm] and [ShapeValidator.__init__]),
      [ShapeGenerator.__init__], the start-up of the two routers'
      generators, and the mounted POST endpoints, which compose [Routers]
      with that state (each generator holds its three predictors, built
      from the configured [Model] only when there is a model; the judge
      is [vision_judge]).

    ** What the theorems show (claims C1..C40 of PROJECT.json)

    - end to end: a response of [generate_from_description] is about a
      listed neighbourhood, scores in [0,100], has a positive distance
      with its difficulty, markers of its own route and at most three
      other neighbourhoods as alternatives; every idea of
      [generate_for_neighborhood] passes pydantic's checks and lies in
      its neighbourhood's padded box, and there are never more than the
      requested count; the control points are valid model
      points or inside the target box; the model's fenced answers and
      coordinate lists parse back exactly.  pydantic's [Coordinate]
      checks of the outline and of the mapping fail only for a
      neighbourhood whose box is out of the coordinate range.
    - errors: [describe_shape] answers 422 for a rejected body; 400 for an
      unknown neighbourhood, outline or mapped points out of range (a box
      out of range), routed coordinates, a distance or a duration
      pydantic rejects; 400 or 500 with the exception's text when a
      Directions call raises ([_route_waypoints] raises exactly when a
      call on a chunk of two or more points raises, the earlier chunks
      having answered); and 500 otherwise only when the service has no
      neighbourhood at all; [generate_shapes] never answers 500.
      test_api.py's expected status codes are replayed as an example.
    - start-up: after a successful start both generators serve
      neighbourhoods that passed pydantic's checks, and the model, its
      predictors and the vision judge are all on or all off; without a
      key, applications started with different language models are the
      same and nothing the vision model would answer can change a
      response of the two POST endpoints; the bounding box handed to the
      model splits back into its four coordinates in the promised order.
      Every theorem about a caller of a predictor holds for every
      predictor.

    - validation: every result has a score in [0,100] and passes only at
      or above the threshold; identical shapes score at least 90, far
      shapes at most 10; empty and degenerate inputs, a missing key and a
      failing judge take the documented fallbacks; pixels stay on canvas.
    - generation: for every retry budget, the retry loop makes at most
      [MAX_RETRIES + 1] attempts, and makes exactly that many when every
      attempt fails, with a fuel one larger than the guard allows, so the
      guard and not the fuel stops it; it agrees with its step relation, and
      the step relation is live (every run is finite and one reaches a
      stopping configuration); tightening inserts exactly
      [max(1, m / 2)] midpoints into the worst segments and keeps the
      outline; the fallback control points number at least three and lie
      in the target box; the templates are closed.
    - street mapping and resampling: waypoints stay in the padded box;
      every pair [deduplicate] keeps is at least the minimum spacing apart
      or its second point turns by more than 20 degrees toward the next
      kept point, and the last point is either the last kept one (near
      the input's last point) or the input's last point appended; the
      resampled points lie on the input polyline.
    - routing and turns: stitching the chunk routes gives back the
      waypoints, the chunks cover the waypoints with one point of overlap,
      the straight-line fallback (no token, or no chunk routed) is exact,
      the markers are Start, turns,
      Finish, and the turn classifier follows its thresholds.
    - neighbourhoods: the ranking is a permutation sorted by score, is
      independent of the set order when at most one term has a layout,
      and the choice fails only without
      neighbourhoods; [get_by_name] finds a listed name in any case and
      returns the first neighbourhood of that name; the loader reads back a data file of well-formed
      neighbourhoods exactly, and every neighbourhood it returns passed
      pydantic's checks.
    - findings (PROJECT.json): examples that show the last-pair spacing of
      [deduplicate], the retry loop returning the last attempt, a
      degenerate outline making [generate_from_description] raise (a 400
      for a valid request), one bad
      model idea discarding its whole answer, the letter search reading
      "a letter M" as A, the set-order dependence of the ranking, the
      normaliser missing hyphenated words and plurals in "es", a
      Directions error escaping [_route_waypoints], and the two places
      where float rounding changes the result (below).

    ** Numeric model, bounds and fuel

    Python floats are exact rationals here, so IEEE rounding is not
    modelled.  Where it matters it is a finding, and no claim depends on
    it: [_resample_curve]'s [n] points are [n] only in exact arithmetic
    (with doubles the accumulated step can overshoot the total and the
    loop yields one point fewer), and the planar bound on densified
    segments ([StreetMapper.densify_segments_bounded]) assumes a distance
    homogeneous along a segment, which haversine is not.  The transcendental
    functions are interfaces ([Geodesy], [Trig]); the haversine laws are
    proved over the reals in [Haversine], and the [** 0.5] of
    neighborhood.py is proved equal to the squared test over the reals.
    Loops are structural recursion over the list or range the source
    iterates, except the retry loop: [retry_loop] takes fuel, and
    [generate_route] gives it [MAX_RETRIES + 1], one more than the
    iterations the guard allows, a parameter (the environment's
    integer through [Z.to_nat], which keeps Python's guard for negative
    values too: [Config.retries_guard_to_nat]); the loop's own guard
    [retries < MAX_RETRIES] stops it first, so the fuel never runs out
    ([generate_route_refines] shows the result is the stopping
    configuration of the step relation).  Strings are ASCII: Python's
    Unicode tables agree on ASCII text.

    ** Not modelled

    loading .env.local and the FastAPI app's title, version and CORS
    origins in main.py (web-framework configuration, no logic of its own),
    pydantic's lax coercion of a JSON value to [int] or [float] and the
    text of its validation errors (parameters of [Routers]), the
    docstrings and field descriptions of the dspy signatures (prompt text
    for the language model) and what the model answers (any function of
    a signature's inputs: [Predictor]), Python's [str] of a float
    (the interface [FloatRepr], whose one law is that it prints no
    comma),
    [os.environ.get] and [int] of a string (parameters of [Config]), the
    PNG rendering and the HTTP call of [_validate_with_vision] (a function
    that returns the reply text or fails), opening the neighbourhood data
    file (its text is an input), the HTTP calls of [_route_waypoints] (the
    proxy and the Directions API, as functions that may fail or raise),
    the [Coordinate] check of each point [densify] and [_resample_curve]
    interpolate (it always passes: an interpolation of two checked points
    is in range, [StreetMapper.densify_valid]), and library
    code used through its contract only: [json.loads] and [float] of a
    string (parameters), PIL's line drawing, CPython's Mersenne-Twister
    sampler, md5 and Unicode normalisation. *)

From Stdlib Require Import QArith Qround Qabs Lqa List Lia Sorted Permutation.
From Stdlib Require Import Morphisms Setoid PeanoNat.
From Stdlib Require String.
Import ListNotations.

(** ** Notations of the development *)

Declare Scope geo_scope.
Delimit Scope geo_scope with geo.

(** Python's [a < b] on floats, as a boolean. *)
Definition Qlt_bool (x y : Q) : bool := negb (Qle_bool y x).

Notation "x <=? y" := (Qle_bool x y) (at level 70, no associativity) : geo_scope.
Notation "x <? y" := (Qlt_bool x y) (at level 70, no associativity) : geo_scope.
Notation "x =? y" := (Qeq_bool x y) (at level 70, no associativity) : geo_scope.

Open Scope Q_scope.
Open Scope geo_scope.

Create HintDb geo.

(** ** Python's builtins on floats *)

(** [min(a, b)] keeps [a] unless [b < a]. *)
Definition py_min (a b : Q) : Q := if b <? a then b else a.
(** [max(a, b)] keeps [a] unless [b > a]. *)
Definition py_max (a b : Q) : Q := if a <? b then b else a.

(** [min(xs)] and [max(xs)]: [ValueError] on an empty sequence. *)
Definition list_min (xs : list Q) : option Q :=
  match xs with [] => None | x :: r => Some (fold_left py_min r x) end.
Definition list_max (xs : list Q) : option Q :=
  match xs with [] => None | x :: r => Some (fold_left py_max r x) end.

(** [x or d] on a float: [d] when [x] is zero. *)
Definition or_default (x d : Q) : Q := if x =? 0 then d else x.

(** [sum(xs)] adds from the left starting at [0]. *)
Definition py_sum (xs : list Q) : Q := fold_left Qplus xs 0.

(** [round(x)]: nearest integer, ties to the even one. *)
Definition py_round (q : Q) : Z :=
  let f := Qfloor q in
  let r := q - inject_Z f in
  if r <? (1 # 2) then f
  else if (1 # 2) <? r then (f + 1)%Z
  else if Z.even f then f else (f + 1)%Z.

(** [int(x)]: truncation toward zero. *)
Definition py_int (q : Q) : Z := Z.quot (Qnum q) (Zpos (Qden q)).

(** [math.ceil(x)]. *)
Definition py_ceil (q : Q) : Z := Qceiling q.

(** ** Generic list functions *)

(** Consecutive pairs [(l[i], l[i+1])]. *)
Fixpoint adjacent {A} (l : list A) : list (A * A) :=
  match l with
  | x :: ((y :: _) as r) => (x, y) :: adjacent r
  | _ => []
  end.

(** [range(start, stop, step)] for [step > 0]: [start + k * step] while
    below [stop]. *)
Definition py_range (start stop step : nat) : list nat :=
  map (fun k => start + k * step)%nat (seq 0 ((stop - start + step - 1) / step)).

(** Python's float [x % m] for [m > 0]: the result has the sign of [m]. *)
Definition py_qmod (x m : Q) : Q := x - m * inject_Z (Qfloor (x / m)).

(** [[f(x) for x in xs]] where [f] may raise. *)
Fixpoint traverse_opt {A B} (f : A -> option B) (xs : list A) : option (list B) :=
  match xs with
  | [] => Some []
  | x :: xs' =>
      match f x, traverse_opt f xs' with
      | Some y, Some ys => Some (y :: ys)
      | _, _ => None
      end
  end.

(** Order-preserving selection of elements (a Python list filtered by a
    loop that appends some of its items). *)
Inductive subseq {A} : list A -> list A -> Prop :=
| subseq_nil : subseq [] []
| subseq_skip x l1 l2 : subseq l1 l2 -> subseq l1 (x :: l2)
| subseq_take x l1 l2 : subseq l1 l2 -> subseq (x :: l1) (x :: l2).

#[export] Hint Constructors subseq : geo.

Section Sort.
Context {A : Type} (le : A -> A -> bool).

Fixpoint insert_by (x : A) (l : list A) : list A :=
    match l with
    | [] => [x]
    | y :: ys => if le x y then x :: y :: ys else y :: insert_by x ys
    end.

  (** A stable insertion sort: an element goes before the first element it
      is [le] to, so equal elements keep their input order. *)
Fixpoint isort_by (l : list A) : list A :=
    match l with
    | [] => []
    | x :: xs => insert_by x (isort_by xs)
    end.
End Sort.

(** ** Python exceptions *)

(** The exceptions that reach the routers: [ValueError(msg)] (also
    [json.JSONDecodeError], a subclass), pydantic's [ValidationError] for
    a model (a subclass of [ValueError]), the [AttributeError] of reading
    an attribute of [None], and an exception of any other class (an HTTP
    client error, a [KeyError]) with its [str()]. *)
Inductive PyExc :=
| ValueError (msg : String.string)
| ValidationError (model : String.string)
| AttributeError (attr : String.string)
| OtherError (msg : String.string).

(** [isinstance(exc, ValueError)]. *)
Definition is_value_error (e : PyExc) : bool :=
  match e with
  | ValueError _ | ValidationError _ => true
  | AttributeError _ | OtherError _ => false
  end.

(** A call that returns a value or raises. *)
Inductive Outcome (A : Type) :=
| Returned (a : A)
| Raised (e : PyExc).
Arguments Returned {A} a.
Arguments Raised {A} e.

(** A loop whose body may raise, collecting its results
    ([for x in xs: out.append(f(x))]): the first exception propagates. *)
Fixpoint traverse_out {A B} (f : A -> Outcome B) (xs : list A) : Outcome (list B) :=
  match xs with
  | [] => Returned []
  | x :: xs' =>
      match f x with
      | Raised e => Raised e
      | Returned y =>
          match traverse_out f xs' with
          | Returned ys => Returned (y :: ys)
          | Raised e => Raised e
          end
      end
  end.

(** ** Comparison lemmas and the [qcase] tactic *)

Lemma Qle_bool_false x y : Qle_bool x y = false -> y < x.
Proof.
  intros H. destruct (Qlt_le_dec y x) as [Hlt|Hle]; [exact Hlt|].
  apply Qle_bool_iff in Hle. congruence.
Qed.

Lemma Qle_boolP x y : BoolSpec (x <= y) (y < x) (Qle_bool x y).
Proof.
  destruct (Qle_bool x y) eqn:E; constructor.
  - now apply Qle_bool_iff.
  - now apply Qle_bool_false.
Qed.

Lemma Qlt_boolP x y : BoolSpec (x < y) (y <= x) (Qlt_bool x y).
Proof.
  unfold Qlt_bool. destruct (Qle_boolP y x); constructor; auto.
Qed.

Lemma Qeq_boolP x y : BoolSpec (x == y) (~ x == y) (Qeq_bool x y).
Proof.
  destruct (Qeq_bool x y) eqn:E; constructor.
  - now apply Qeq_bool_iff.
  - intros H. apply Qeq_bool_iff in H. congruence.
Qed.

(** Division by a positive literal is multiplication by its inverse; [lra]
    only reads the latter. *)
Lemma Qdiv_pos_lit x p : x / (Zpos p # 1) = x * (1 # p).
Proof. reflexivity. Qed.

(** [lra] after turning divisions by literals into products. *)
Ltac qlra := rewrite ?Qdiv_pos_lit in *; lra.

(** Case on every float comparison of the goal, with the two outcomes as
    hypotheses. *)
Ltac qcase :=
  repeat match goal with
  | |- context [Qle_bool ?x ?y] => destruct (Qle_boolP x y)
  | |- context [Qlt_bool ?x ?y] => destruct (Qlt_boolP x y)
  | |- context [Qeq_bool ?x ?y] => destruct (Qeq_boolP x y)
  end.

Lemma py_min_le_l a b : py_min a b <= a.
Proof. unfold py_min. qcase; lra. Qed.
Lemma py_min_le_r a b : py_min a b <= b.
Proof. unfold py_min. qcase; lra. Qed.
Lemma py_min_glb a b c : c <= a -> c <= b -> c <= py_min a b.
Proof. unfold py_min. qcase; lra. Qed.
Lemma py_max_ge_l a b : a <= py_max a b.
Proof. unfold py_max. qcase; lra. Qed.
Lemma py_max_ge_r a b : b <= py_max a b.
Proof. unfold py_max. qcase; lra. Qed.
Lemma py_max_lub a b c : a <= c -> b <= c -> py_max a b <= c.
Proof. unfold py_max. qcase; lra. Qed.

#[export] Instance Qle_bool_proper : Proper (Qeq ==> Qeq ==> eq) Qle_bool.
Proof. intros x x' Hx y y' Hy. destruct (Qle_boolP x y), (Qle_boolP x' y'); auto; lra. Qed.

#[export] Instance Qlt_bool_proper : Proper (Qeq ==> Qeq ==> eq) Qlt_bool.
Proof. intros x x' Hx y y' Hy. unfold Qlt_bool. now rewrite Hx, Hy. Qed.

#[export] Instance Qeq_bool_proper : Proper (Qeq ==> Qeq ==> eq) Qeq_bool.
Proof. intros x x' Hx y y' Hy. destruct (Qeq_boolP x y), (Qeq_boolP x' y'); auto; lra. Qed.

#[export] Instance py_min_proper : Proper (Qeq ==> Qeq ==> Qeq) py_min.
Proof. intros x x' Hx y y' Hy. unfold py_min. rewrite Hx, Hy. now destruct (_ <? _). Qed.

#[export] Instance py_max_proper : Proper (Qeq ==> Qeq ==> Qeq) py_max.
Proof. intros x x' Hx y y' Hy. unfold py_max. rewrite Hx, Hy. now destruct (_ <? _). Qed.

#[export] Hint Resolve py_min_le_l py_min_le_r py_min_glb : geo.
#[export] Hint Resolve py_max_ge_l py_max_ge_r py_max_lub : geo.

(** ** Folds of [min] and [max] *)

Lemma fold_min_le_init r x : fold_left py_min r x <= x.
Proof.
  revert x. induction r as [|y r IH]; intros x; simpl; [lra|].
  eapply Qle_trans; [apply IH|apply py_min_le_l].
Qed.

Lemma fold_min_le r x y : In y r -> fold_left py_min r x <= y.
Proof.
  revert x. induction r as [|z r IH]; intros x Hin; simpl in *; [easy|].
  destruct Hin as [<-|Hin]; [|now apply IH].
  eapply Qle_trans; [apply fold_min_le_init|apply py_min_le_r].
Qed.

Lemma fold_min_glb r x c :
  c <= x -> (forall y, In y r -> c <= y) -> c <= fold_left py_min r x.
Proof.
  revert x. induction r as [|z r IH]; intros x Hx Hr; simpl; [easy|].
  apply IH; [apply py_min_glb; auto with datatypes|auto with datatypes].
Qed.

Lemma fold_max_ge_init r x : x <= fold_left py_max r x.
Proof.
  revert x. induction r as [|y r IH]; intros x; simpl; [lra|].
  eapply Qle_trans; [apply py_max_ge_l|apply IH].
Qed.

Lemma fold_max_ge r x y : In y r -> y <= fold_left py_max r x.
Proof.
  revert x. induction r as [|z r IH]; intros x Hin; simpl in *; [easy|].
  destruct Hin as [<-|Hin]; [|now apply IH].
  eapply Qle_trans; [apply py_max_ge_r|apply fold_max_ge_init].
Qed.

Lemma fold_max_lub r x c :
  x <= c -> (forall y, In y r -> y <= c) -> fold_left py_max r x <= c.
Proof.
  revert x. induction r as [|z r IH]; intros x Hx Hr; simpl; [easy|].
  apply IH; [apply py_max_lub; auto with datatypes|auto with datatypes].
Qed.

(** A running maximum of [f] over a list, from [m]. *)
Lemma fold_max_f_ge_init {A} (f : A -> Q) l m :
  m <= fold_left (fun acc x => py_max acc (f x)) l m.
Proof.
  revert m. induction l as [|x l IH]; intros m; simpl; [lra|].
  eapply Qle_trans; [apply py_max_ge_l|apply IH].
Qed.

Lemma fold_max_f_ge {A} (f : A -> Q) l m x :
  In x l -> f x <= fold_left (fun acc y => py_max acc (f y)) l m.
Proof.
  revert m. induction l as [|y l IH]; intros m Hx; simpl in *; [easy|].
  destruct Hx as [<-|Hx]; [|now apply IH].
  eapply Qle_trans; [apply py_max_ge_r|apply fold_max_f_ge_init].
Qed.

Lemma fold_max_f_lub {A} (f : A -> Q) l m c :
  m <= c -> (forall x, In x l -> f x <= c) -> fold_left (fun acc x => py_max acc (f x)) l m <= c.
Proof.
  revert m. induction l as [|y l IH]; intros m Hm Hl; simpl; [exact Hm|].
  apply IH; [apply py_max_lub; auto with datatypes|auto with datatypes].
Qed.

Lemma list_min_spec xs m :
  list_min xs = Some m -> forall y, In y xs -> m <= y.
Proof.
  destruct xs as [|x r]; simpl; [discriminate|]. intros [= <-] y [<-|Hin].
  - apply fold_min_le_init.
  - now apply fold_min_le.
Qed.

Lemma list_min_glb xs m c :
  list_min xs = Some m -> (forall y, In y xs -> c <= y) -> c <= m.
Proof.
  destruct xs as [|x r]; simpl; [discriminate|]. intros [= <-] H.
  apply fold_min_glb; auto.
Qed.

Lemma list_max_spec xs m :
  list_max xs = Some m -> forall y, In y xs -> y <= m.
Proof.
  destruct xs as [|x r]; simpl; [discriminate|]. intros [= <-] y [<-|Hin].
  - apply fold_max_ge_init.
  - now apply fold_max_ge.
Qed.

Lemma list_max_lub xs m c :
  list_max xs = Some m -> (forall y, In y xs -> y <= c) -> m <= c.
Proof.
  destruct xs as [|x r]; simpl; [discriminate|]. intros [= <-] H.
  apply fold_max_lub; auto.
Qed.

Lemma list_min_Some xs : xs <> [] -> exists m, list_min xs = Some m.
Proof. destruct xs; simpl; [easy|eauto]. Qed.

Lemma list_max_Some xs : xs <> [] -> exists m, list_max xs = Some m.
Proof. destruct xs; simpl; [easy|eauto]. Qed.

Lemma list_min_max_le xs m M : list_min xs = Some m -> list_max xs = Some M -> m <= M.
Proof.
  intros Hm HM. destruct xs as [|x r]; [discriminate|].
  apply (Qle_trans _ x); [apply (list_min_spec _ _ Hm)|apply (list_max_spec _ _ HM)]; left; reflexivity.
Qed.

(** ** [sum] *)

Lemma fold_plus_shift xs a : fold_left Qplus xs a == a + fold_left Qplus xs 0.
Proof.
  revert a. induction xs as [|x xs IH]; intros a; simpl; [lra|].
  rewrite (IH (a + x)), (IH (0 + x)). lra.
Qed.

Lemma py_sum_cons x xs : py_sum (x :: xs) == x + py_sum xs.
Proof. unfold py_sum; simpl. rewrite fold_plus_shift. lra. Qed.

Lemma py_sum_nonneg xs : Forall (fun x => 0 <= x) xs -> 0 <= py_sum xs.
Proof.
  induction 1 as [|x xs Hx _ IH]; [unfold py_sum; simpl; lra|].
  rewrite py_sum_cons. lra.
Qed.

Lemma py_sum_zero xs : Forall (fun x => x == 0) xs -> py_sum xs == 0.
Proof.
  induction 1 as [|x xs Hx _ IH]; [reflexivity|].
  rewrite py_sum_cons. lra.
Qed.

(** ** [round] *)

Lemma Qfloor_ge_Z z q : inject_Z z <= q -> (z <= Qfloor q)%Z.
Proof. intros H. rewrite <- (Qfloor_Z z). now apply Qfloor_resp_le. Qed.

Lemma py_round_cases q : py_round q = Qfloor q \/ py_round q = (Qfloor q + 1)%Z.
Proof.
  unfold py_round. qcase; auto. destruct (Z.even _); auto.
Qed.

(** Rounding never crosses an integer bound from above... *)
Lemma py_round_le q z : q <= inject_Z z -> (py_round q <= z)%Z.
Proof.
  intros Hq. pose proof (Qfloor_le q) as Hf.
  assert (Hfz : (Qfloor q <= z)%Z).
  { rewrite Zle_Qle. lra. }
  destruct (Z.eq_dec (Qfloor q) z) as [Heq|Hne].
  - assert (Hr : q - inject_Z (Qfloor q) == 0) by (rewrite Heq in *; lra).
    unfold py_round. qcase; lia || lra.
  - destruct (py_round_cases q) as [-> | ->]; lia.
Qed.

(** ... nor from below. *)
Lemma py_round_ge q z : inject_Z z <= q -> (z <= py_round q)%Z.
Proof.
  intros Hq. pose proof (Qfloor_ge_Z z q Hq).
  destruct (py_round_cases q) as [-> | ->]; lia.
Qed.

Lemma py_round_Z z : py_round (inject_Z z) = z.
Proof.
  apply Z.le_antisymm; [apply py_round_le|apply py_round_ge]; lra.
Qed.

(** An integer score in [[0, 100]], read as a float. *)
Lemma inject_Z_score z : (0 <= z <= 100)%Z -> 0 <= inject_Z z <= 100.
Proof.
  intros [H0 H1]. split; [change 0 with (inject_Z 0)|change 100 with (inject_Z 100)];
    now rewrite <- Zle_Qle.
Qed.

(** [int(q)] of a non-negative float is its floor. *)
Lemma py_int_floor q : 0 <= q -> py_int q = Qfloor q.
Proof.
  destruct q as [n d]. unfold py_int, Qle. cbn. intros Hn.
  apply Z.quot_div_nonneg; lia.
Qed.

(** A fraction in [[0, 1]] scaled to [size - 1] truncates to an index of
    [[0, size - 1]]. *)
Lemma py_int_unit_scale x s :
  0 <= x <= 1 -> (1 <= s)%Z -> (0 <= py_int (x * inject_Z (s - 1)) <= s - 1)%Z.
Proof.
  intros [H0 H1] Hs.
  assert (Hk : 0 <= inject_Z (s - 1))
    by (change 0 with (inject_Z 0); rewrite <- Zle_Qle; lia).
  assert (Hx0 : 0 <= x * inject_Z (s - 1)) by (apply Qmult_le_0_compat; assumption).
  assert (Hx1 : x * inject_Z (s - 1) <= inject_Z (s - 1)).
  { setoid_replace (inject_Z (s - 1)) with (1 * inject_Z (s - 1)) at 2 by ring.
    apply Qmult_le_compat_r; assumption. }
  rewrite py_int_floor by assumption. split.
  - apply Qfloor_ge_Z. exact Hx0.
  - transitivity (Qfloor (inject_Z (s - 1))); [now apply Qfloor_resp_le|now rewrite Qfloor_Z].
Qed.

Lemma or_default_pos x d : 0 <= x -> 0 < d -> 0 < or_default x d.
Proof.
  intros Hx Hd. unfold or_default. destruct (Qeq_boolP x 0) as [|Hne]; [assumption|].
  destruct (Qle_lt_or_eq _ _ Hx) as [|He]; [assumption|]. exfalso. apply Hne. now symmetry.
Qed.

#[export] Instance py_round_proper : Proper (Qeq ==> eq) py_round.
Proof.
  intros x y Hxy. unfold py_round.
  assert (Hf : Qfloor x = Qfloor y)
    by (apply Z.le_antisymm; apply Qfloor_resp_le; rewrite Hxy; apply Qle_refl).
  rewrite Hf.
  assert (E1 : (x - inject_Z (Qfloor y) <? 1 # 2) = (y - inject_Z (Qfloor y) <? 1 # 2))
    by now rewrite Hxy.
  assert (E2 : (1 # 2 <? x - inject_Z (Qfloor y)) = (1 # 2 <? y - inject_Z (Qfloor y)))
    by now rewrite Hxy.
  rewrite E1, E2. reflexivity.
Qed.

#[export] Hint Resolve py_round_le py_round_ge : geo.

Lemma frac_unit a s : 0 <= a -> a <= s -> 0 < s -> 0 <= a / s <= 1.
Proof.
  intros Ha Has Hs. split.
  - apply Qle_shift_div_l; lra.
  - apply Qle_shift_div_r; lra.
Qed.

(** Interpolation fractions [j / n] lie in [[0, 1]]. *)
Lemma frac_in_unit (j : nat) (n : Z) :
  (Z.of_nat j <= n)%Z -> (0 < n)%Z -> 0 <= inject_Z (Z.of_nat j) / inject_Z n <= 1.
Proof.
  intros Hj Hn. apply frac_unit.
  - change 0 with (inject_Z 0). rewrite <- Zle_Qle. lia.
  - rewrite <- Zle_Qle. lia.
  - change 0 with (inject_Z 0). rewrite <- Zlt_Qlt. lia.
Qed.

(** ** Sub-sequences *)

Lemma subseq_nil_l {A} (l : list A) : subseq [] l.
Proof. induction l; auto with geo. Qed.

Lemma subseq_refl {A} (l : list A) : subseq l l.
Proof. induction l; auto with geo. Qed.

Lemma subseq_app {A} (l1 l2 l3 l4 : list A) :
  subseq l1 l2 -> subseq l3 l4 -> subseq (l1 ++ l3) (l2 ++ l4).
Proof. induction 1; intros Hs; simpl; auto with geo. Qed.

Lemma subseq_app_r {A} (l1 l2 l3 : list A) : subseq l1 l2 -> subseq l1 (l2 ++ l3).
Proof.
  intros H. rewrite <- (app_nil_r l1). apply subseq_app; [easy|apply subseq_nil_l].
Qed.

Lemma subseq_app_l {A} (l1 l2 l3 : list A) : subseq l1 l2 -> subseq l1 (l3 ++ l2).
Proof. intros H. induction l3; simpl; auto with geo. Qed.

Lemma subseq_trans {A} (l1 l2 l3 : list A) :
  subseq l1 l2 -> subseq l2 l3 -> subseq l1 l3.
Proof.
  intros H12 H23. revert l1 H12.
  induction H23 as [|x l2 l3 H23 IH|x l2 l3 H23 IH]; intros l0 Hs; auto with geo.
  inversion Hs; subst; auto with geo.
Qed.

Lemma subseq_In {A} (l1 l2 : list A) x : subseq l1 l2 -> In x l1 -> In x l2.
Proof. induction 1; simpl; intuition. Qed.

Lemma subseq_length {A} (l1 l2 : list A) : subseq l1 l2 -> (length l1 <= length l2)%nat.
Proof. induction 1; simpl; lia. Qed.

(** Dropping the last element of the larger list. *)
Lemma subseq_snoc_inv {A} (l r : list A) x :
  subseq l (r ++ [x]) -> subseq l r \/ exists l', l = l' ++ [x] /\ subseq l' r.
Proof.
  revert l. induction r as [|y r IH]; intros l Hs; simpl in Hs.
  - inversion Hs as [|? ? ? H0|? ? ? H0]; subst; inversion H0; subst.
    + left. constructor.
    + right. exists []. split; [reflexivity|constructor].
  - inversion Hs as [|? ? ? H0|? l1 ? H0]; subst.
    + destruct (IH l H0) as [H1|(l' & -> & H1)]; [left|right]; auto with geo.
      exists l'. auto with geo.
    + destruct (IH l1 H0) as [H1|(l' & -> & H1)]; [left|right]; auto with geo.
      exists (y :: l'). auto with geo.
Qed.

Lemma subseq_Forall {A} (P : A -> Prop) (l1 l2 : list A) :
  subseq l1 l2 -> Forall P l2 -> Forall P l1.
Proof.
  intros Hs H2. apply Forall_forall. intros x Hx.
  eapply Forall_forall; [exact H2|]. eapply subseq_In; eauto.
Qed.

Lemma py_min_idem x : py_min x x = x.
Proof. unfold py_min. now destruct (_ <? _). Qed.

Lemma py_max_idem x : py_max x x = x.
Proof. unfold py_max. now destruct (_ <? _). Qed.

Lemma fold_min_repeat x n : fold_left py_min (repeat x n) x = x.
Proof. induction n; simpl; [reflexivity|now rewrite py_min_idem]. Qed.

Lemma fold_max_repeat x n : fold_left py_max (repeat x n) x = x.
Proof. induction n; simpl; [reflexivity|now rewrite py_max_idem]. Qed.

Lemma adjacent_repeat {A} (c : A) n : Forall (fun xy => xy = (c, c)) (adjacent (repeat c n)).
Proof.
  induction n as [|n IH]; [constructor|].
  destruct n as [|n]; [constructor|]. constructor; [reflexivity|exact IH].
Qed.

Lemma last_repeat {A} (c : A) n : last (repeat c n) c = c.
Proof. induction n as [|n IH]; [reflexivity|]. destruct n; [reflexivity|exact IH]. Qed.

Lemma last_cons_cons {A} (x y : A) l d : last (x :: y :: l) d = last (y :: l) d.
Proof. reflexivity. Qed.

Lemma last_cons_default {A} (y : A) l d1 d2 : last (y :: l) d1 = last (y :: l) d2.
Proof.
  revert y. induction l as [|z l IH]; intros y; [reflexivity|].
  rewrite !last_cons_cons. apply IH.
Qed.

Lemma last_In_or {A} (l : list A) d : last l d = d \/ In (last l d) l.
Proof.
  induction l as [|a l IH]; [now left|]. destruct l as [|b l]; [right; now left|].
  destruct IH as [H|H]; [left; exact H|right; right; exact H].
Qed.

Lemma length_flat_map_single {A B} (f : A -> list B) l :
  (forall x, In x l -> length (f x) = 1%nat) -> length (flat_map f l) = length l.
Proof.
  induction l as [|a l IH]; intros Hf; [reflexivity|]. simpl.
  rewrite length_app, Hf by (left; reflexivity). rewrite IH; [reflexivity|].
  intros x Hx. apply Hf. right. exact Hx.
Qed.

#[export] Hint Resolve subseq_nil_l subseq_refl subseq_app subseq_app_r subseq_app_l : geo.

(** ** The insertion sort *)

Section SortFacts.
Context {A : Type} (le : A -> A -> bool).
Hypothesis le_total : forall x y, le x y = false -> le y x = true.
Hypothesis le_trans : forall x y z, le x y = true -> le y z = true -> le x z = true.

Lemma insert_by_perm x l : Permutation (x :: l) (insert_by le x l).
  Proof.
    induction l as [|y l IH]; simpl; [auto|].
    destruct (le x y); [auto|].
    eapply perm_trans; [apply perm_swap|]. auto.
  Qed.

Lemma isort_by_perm l : Permutation l (isort_by le l).
  Proof.
    induction l as [|x l IH]; simpl; [auto|].
    eapply perm_trans; [apply perm_skip, IH|apply insert_by_perm].
  Qed.

Lemma insert_by_sorted x l :
    StronglySorted (fun a b => le a b = true) l ->
    StronglySorted (fun a b => le a b = true) (insert_by le x l).
  Proof.
    induction 1 as [|y l Hl IH Hy]; simpl; [repeat constructor|].
    destruct (le x y) eqn:Exy.
    - constructor; [constructor; auto|].
      constructor; [auto|]. eapply Forall_impl; [|exact Hy]; eauto.
    - constructor; [exact IH|].
      assert (Hall : Forall (fun b => le y b = true) (x :: l)) by (constructor; auto).
      eapply Permutation_Forall; [apply insert_by_perm|exact Hall].
  Qed.

Lemma isort_by_sorted l : StronglySorted (fun a b => le a b = true) (isort_by le l).
  Proof. induction l; simpl; [constructor|now apply insert_by_sorted]. Qed.
End SortFacts.

Lemma In_skipn {A} k (l : list A) y : In y (skipn k l) -> In y l.
Proof.
  revert l. induction k as [|k IH]; intros [|a l]; simpl; auto.
Qed.

Lemma In_firstn {A} k (l : list A) y : In y (firstn k l) -> In y l.
Proof.
  revert l. induction k as [|k IH]; intros [|a l]; simpl; intuition.
Qed.

Lemma StronglySorted_firstn_skipn {A} (R : A -> A -> Prop) l k x y :
  StronglySorted R l -> In x (firstn k l) -> In y (skipn k l) -> R x y.
Proof.
  intros Hs. revert k. induction Hs as [|a l Hl IH Ha]; intros k Hx Hy.
  - destruct k; simpl in *; easy.
  - destruct k as [|k]; simpl in *; [easy|].
    destruct Hx as [<-|Hx]; [|now apply (IH k)].
    eapply Forall_forall; [exact Ha|]. eapply In_skipn; eauto.
Qed.

Lemma map_fst_combine {A B} (l1 : list A) (l2 : list B) :
  (length l1 <= length l2)%nat -> map fst (combine l1 l2) = l1.
Proof.
  revert l2. induction l1 as [|x l1 IH]; intros [|y l2] Hl; cbn in *; try lia; try reflexivity.
  f_equal. apply IH. lia.
Qed.

Lemma map_snd_combine {A B} (l1 : list A) (l2 : list B) :
  (length l2 <= length l1)%nat -> map snd (combine l1 l2) = l2.
Proof.
  revert l2. induction l1 as [|x l1 IH]; intros [|y l2] Hl; cbn in *; try lia; try reflexivity.
  f_equal. apply IH. lia.
Qed.

Lemma NoDup_firstn {A} k (l : list A) : NoDup l -> NoDup (firstn k l).
Proof.
  revert l. induction k as [|k IH]; intros [|x l] Hl; cbn; try apply NoDup_nil.
  inversion Hl as [|? ? Hx Hl']; subst. constructor; [|now apply IH].
  intros Hin. apply Hx. eapply In_firstn; eauto.
Qed.

(** [x in xs] on a list of indices. *)
Lemma existsb_eqb_In i (l : list nat) : existsb (Nat.eqb i) l = true <-> In i l.
Proof.
  rewrite existsb_exists. split.
  - intros (j & Hj & E). apply Nat.eqb_eq in E. now subst.
  - intros Hi. exists i. split; [exact Hi|apply Nat.eqb_refl].
Qed.

(** The indices of [range(m)] that belong to a duplicate-free list of
    indices below [m] are as many as that list. *)
Lemma filter_seq_mem (sel : list nat) m :
  NoDup sel -> (forall i, In i sel -> (i < m)%nat) ->
  length (filter (fun i => existsb (Nat.eqb i) sel) (seq 0 m)) = length sel.
Proof.
  intros Hnd Hlt.
  assert (H1 : incl (filter (fun i => existsb (Nat.eqb i) sel) (seq 0 m)) sel).
  { intros i (_ & Hi)%filter_In. now apply existsb_eqb_In. }
  assert (H2 : incl sel (filter (fun i => existsb (Nat.eqb i) sel) (seq 0 m))).
  { intros i Hi. apply filter_In. split; [apply in_seq; specialize (Hlt i Hi); lia|].
    now apply existsb_eqb_In. }
  apply Nat.le_antisymm; apply NoDup_incl_length; auto.
  apply NoDup_filter, seq_NoDup.
Qed.

Lemma length_adjacent {A} (l : list A) : length (adjacent l) = (length l - 1)%nat.
Proof.
  induction l as [|x [|y l] IH]; [reflexivity|reflexivity|].
  cbn [adjacent length] in *. rewrite IH. lia.
Qed.

Lemma map_snd_adjacent {A} (x : A) r : map snd (adjacent (x :: r)) = r.
Proof.
  revert x. induction r as [|y r IH]; intros x; [reflexivity|].
  cbn [adjacent map snd]. f_equal. apply IH.
Qed.

(** ** [range] *)

(** [k < ceil(d / step)] exactly when [k * step < d]. *)
Lemma lt_ceil_div k d step :
  (0 < step)%nat -> (k < (d + step - 1) / step <-> k * step < d)%nat.
Proof.
  intros Hs. pose proof (Nat.div_mod (d + step - 1)%nat step ltac:(lia)) as E.
  pose proof (Nat.mod_upper_bound (d + step - 1)%nat step ltac:(lia)) as R.
  set (q := ((d + step - 1) / step)%nat) in *. set (r := ((d + step - 1) mod step)%nat) in *.
  split; intros H; nia.
Qed.

Lemma py_range_spec start stop step i :
  (0 < step)%nat ->
  In i (py_range start stop step) <->
  (start <= i < stop)%nat /\ exists k, i = (start + k * step)%nat.
Proof.
  intros Hs. unfold py_range. rewrite in_map_iff. split.
  - intros (k & <- & Hk%in_seq).
    assert (Hk' : (k * step < stop - start)%nat) by (apply (lt_ceil_div k _ step Hs); lia).
    split; [lia|eauto].
  - intros [Hi (k & ->)]. exists k. split; [reflexivity|]. apply in_seq.
    split; [lia|]. apply (lt_ceil_div k (stop - start)%nat step Hs). lia.
Qed.

Lemma length_py_range start stop step :
  length (py_range start stop step) = ((stop - start + step - 1) / step)%nat.
Proof. unfold py_range. now rewrite length_map, length_seq. Qed.

(** [firstn (a + b)] splits at [a]. *)
Lemma firstn_add {A} a b (l : list A) : firstn (a + b) l = firstn a l ++ firstn b (skipn a l).
Proof.
  revert l. induction a as [|a IH]; intros [|x l]; cbn; rewrite ?firstn_nil; auto.
  now rewrite IH.
Qed.

(** ** Adjacent pairs *)

Lemma adjacent_app_single {A} (l : list A) x y :
  adjacent (l ++ [x; y]) = adjacent (l ++ [x]) ++ [(x, y)].
Proof.
  induction l as [|a l IH]; simpl; [reflexivity|].
  destruct l as [|b l]; simpl in *; [reflexivity|]. now rewrite IH.
Qed.

(** ** Loops that may raise *)

Lemma traverse_out_Forall {A B} (f : A -> Outcome B) (P : B -> Prop) xs ys :
  (forall x y, In x xs -> f x = Returned y -> P y) -> traverse_out f xs = Returned ys -> Forall P ys.
Proof.
  revert ys. induction xs as [|x xs IH]; cbn; intros ys Hf E; [injection E as <-; constructor|].
  destruct (f x) as [y|] eqn:Ex; [|discriminate].
  destruct (traverse_out f xs) as [ys'|]; [|discriminate]. injection E as <-.
  constructor; [exact (Hf x y (or_introl eq_refl) Ex)|apply IH; [|reflexivity]].
  intros x' y' Hin. apply Hf. right. exact Hin.
Qed.

Lemma traverse_out_length {A B} (f : A -> Outcome B) xs ys :
  traverse_out f xs = Returned ys -> length ys = length xs.
Proof.
  revert ys. induction xs as [|x xs IH]; cbn; intros ys E; [injection E as <-; reflexivity|].
  destruct (f x); [|discriminate]. destruct (traverse_out f xs) as [ys'|]; [|discriminate].
  injection E as <-. cbn. f_equal. apply IH. reflexivity.
Qed.

(** The exception of a loop is the exception of one of its iterations. *)
Lemma traverse_out_Raised {A B} (f : A -> Outcome B) xs e :
  traverse_out f xs = Raised e -> exists x, In x xs /\ f x = Raised e.
Proof.
  induction xs as [|x xs IH]; cbn; [discriminate|].
  destruct (f x) as [y|e'] eqn:Ex; [|intros [= <-]; exists x; auto].
  destruct (traverse_out f xs); [discriminate|]. intros E.
  destruct (IH E) as (x' & Hin & Hx). exists x'. auto.
Qed.
