(* ===== verification/Geodesy.v ===== *)
(** * Geodesy: coordinates, bounding boxes and the geodesy kernel interface

    Models [Coordinate] and [BoundingBox] of src/backend/models/schemas.py
    and the interface that the rest of the core uses from
    src/backend/services/street_mapper.py: [haversine_distance_m] and
    [_bearing_deg].  Coordinates compare as floats do (field by field, by
    value), which is the setoid [coord_eq].  The kernel's laws are the
    class [GeodesyLaws]; file [Haversine] proves them of the real-number
    formulas.  [planar_geodesy] is a rational instance (an L1 metric on
    degrees and a piecewise-linear bearing) used to run the models on
    concrete inputs. *)

From Stdlib Require Import QArith Qabs Lqa List Lia Morphisms Setoid.
From S2P Require Import Prelude.
Import ListNotations.
Open Scope Q_scope.
Open Scope geo_scope.

(** ** Data (schemas.py) *)

(** [class Coordinate(BaseModel)]: [lng], [lat] floats. *)
Record Coordinate := mkCoord { lng : Q; lat : Q }.

(** The pydantic field constraints [ge=-180, le=180] and [ge=-90, le=90],
    checked when a [Coordinate] is constructed. *)
Definition coord_valid (c : Coordinate) : Prop :=
  -180 <= lng c <= 180 /\ -90 <= lat c <= 90.

(** [Coordinate(lng=..., lat=...)] with pydantic's [ge]/[le] checks. *)
Definition mk_coordinate (lng lat : Q) : option Coordinate :=
  if (-180 <=? lng) && (lng <=? 180) && (-90 <=? lat) && (lat <=? 90)
  then Some (mkCoord lng lat) else None.

(** A [Coordinate(...)] call for each point of a list, as a comprehension
    or a loop of appends builds them: pydantic rejects the first point out
    of range (the same [ValidationError] whichever point it is), and the
    list is built when none is. *)
Definition new_coords (pts : list Coordinate) : option (list Coordinate) :=
  traverse_opt (fun p => mk_coordinate (lng p) (lat p)) pts.

(** [class BoundingBox(BaseModel)]. *)
Record BoundingBox := mkBBox {
  min_lng : Q; min_lat : Q; max_lng : Q; max_lat : Q }.

Definition width_deg (b : BoundingBox) : Q := max_lng b - min_lng b.
Definition height_deg (b : BoundingBox) : Q := max_lat b - min_lat b.
Definition center (b : BoundingBox) : Coordinate :=
  mkCoord ((min_lng b + max_lng b) / 2) ((min_lat b + max_lat b) / 2).

(** [BoundingBox.center()] (schemas.py 19-23): the [Coordinate] built at
    the centre, which pydantic range-checks. *)
Definition bbox_center (b : BoundingBox) : option Coordinate :=
  mk_coordinate ((min_lng b + max_lng b) / 2) ((min_lat b + max_lat b) / 2).

(** Both corners of a box are valid coordinates (schemas.py does not
    check it of a [BoundingBox]). *)
Definition bbox_in_range (b : BoundingBox) : Prop :=
  coord_valid (mkCoord (min_lng b) (min_lat b)) /\ coord_valid (mkCoord (max_lng b) (max_lat b)).

(** The spec's invariant of a bounding box (schemas.py does not enforce
    it). *)
Definition bbox_valid (b : BoundingBox) : Prop :=
  min_lng b < max_lng b /\ min_lat b < max_lat b.

(** A point lies in a box (closed). *)
Definition in_bbox (b : BoundingBox) (c : Coordinate) : Prop :=
  min_lng b <= lng c <= max_lng b /\ min_lat b <= lat c <= max_lat b.

(** Pydantic's [==] on coordinates: both fields equal as floats. *)
Definition coord_eqb (a b : Coordinate) : bool :=
  (lng a =? lng b) && (lat a =? lat b).

Definition coord_eq (a b : Coordinate) : Prop :=
  lng a == lng b /\ lat a == lat b.

Infix "=c=" := coord_eq (at level 70, no associativity) : geo_scope.

(** Linear interpolation as [densify] and [_resample_curve] write it:
    [a.lng + (b.lng - a.lng) * frac]. *)
Definition lerp (a b : Coordinate) (t : Q) : Coordinate :=
  mkCoord (lng a + (lng b - lng a) * t) (lat a + (lat b - lat a) * t).

(** The midpoint of [_tighten_control_points]: [(a.lng + b.lng) / 2]. *)
Definition midpoint (a b : Coordinate) : Coordinate :=
  mkCoord ((lng a + lng b) / 2) ((lat a + lat b) / 2).

(** ** The geodesy kernel *)

(** The two primitives of street_mapper.py, as an interface: the real
    implementations call [math.sin], [math.atan2] and the like. *)
Class Geodesy := {
  haversine_distance_m : Coordinate -> Coordinate -> Q;
  _bearing_deg : Coordinate -> Coordinate -> Q
}.

(** What the clients rely on.  The bearing is in [[0, 360]] and not
    [[0, 360)]: Python's float [%] maps a tiny negative angle to exactly
    [360.0]. *)
Class GeodesyLaws `{Geodesy} := {
  dist_nonneg : forall a b, 0 <= haversine_distance_m a b;
  dist_sym : forall a b, haversine_distance_m a b == haversine_distance_m b a;
  dist_self : forall a, haversine_distance_m a a == 0;
  dist_proper :: Proper (coord_eq ==> coord_eq ==> Qeq) haversine_distance_m;
  bearing_range : forall a b, 0 <= _bearing_deg a b <= 360;
  bearing_proper :: Proper (coord_eq ==> coord_eq ==> Qeq) _bearing_deg
}.

(** ** A rational instance *)

(** A test kernel that computes: the L1 distance of the degree offsets
    scaled by 111 km per degree, and the "diamond angle", a piecewise-linear
    bearing clockwise from north that is monotone in the true bearing. *)
Definition planar_dist (a b : Coordinate) : Q :=
  Qred ((Qabs (lng b - lng a) + Qabs (lat b - lat a)) * 111000).

Definition diamond_angle (x y : Q) : Q :=
  let s := Qabs x + Qabs y in
  if s =? 0 then 0
  else if (0 <=? x) && (0 <? y) then 90 * (x / s)
  else if (0 <? x) && (y <=? 0) then 90 + 90 * ((- y) / s)
  else if (x <=? 0) && (y <? 0) then 180 + 90 * ((- x) / s)
  else 270 + 90 * (y / s).

Definition diamond_bearing (a b : Coordinate) : Q :=
  diamond_angle (lng b - lng a) (lat b - lat a).

#[export] Instance planar_geodesy : Geodesy :=
  { haversine_distance_m := planar_dist; _bearing_deg := diamond_bearing }.

(** * Lemmas *)

(** ** The coordinate setoid *)

#[export] Instance coord_eq_equiv : Equivalence coord_eq.
Proof.
  split.
  - intros a. split; reflexivity.
  - intros a b [H1 H2]. split; now symmetry.
  - intros a b c [H1 H2] [H3 H4]. split; etransitivity; eauto.
Qed.

Lemma coord_eqb_spec a b : coord_eqb a b = true <-> a =c= b.
Proof.
  unfold coord_eqb, coord_eq. rewrite andb_true_iff, !Qeq_bool_iff. tauto.
Qed.

Lemma coord_eqbP a b : BoolSpec (a =c= b) (~ a =c= b) (coord_eqb a b).
Proof.
  destruct (coord_eqb a b) eqn:E; constructor; rewrite <- coord_eqb_spec; congruence.
Qed.

#[export] Instance lng_proper : Proper (coord_eq ==> Qeq) lng.
Proof. intros a b [H _]. exact H. Qed.
#[export] Instance lat_proper : Proper (coord_eq ==> Qeq) lat.
Proof. intros a b [_ H]. exact H. Qed.

#[export] Instance lerp_proper : Proper (coord_eq ==> coord_eq ==> Qeq ==> coord_eq) lerp.
Proof.
  intros a a' [Ha1 Ha2] b b' [Hb1 Hb2] t t' Ht. unfold lerp, coord_eq; simpl.
  rewrite Ha1, Ha2, Hb1, Hb2, Ht. split; reflexivity.
Qed.

Lemma lerp_0 a b : lerp a b 0 =c= a.
Proof. unfold lerp, coord_eq; simpl. split; ring. Qed.

Lemma lerp_1 a b : lerp a b 1 =c= b.
Proof. unfold lerp, coord_eq; simpl. split; ring. Qed.

(** An interpolated value stays between bounds that hold at both ends. *)
Lemma convex_bound lo hi x y t :
  lo <= x <= hi -> lo <= y <= hi -> 0 <= t <= 1 -> lo <= x + (y - x) * t <= hi.
Proof.
  intros [Hx1 Hx2] [Hy1 Hy2] [Ht1 Ht2].
  assert (0 <= t * (y - lo)) by (apply Qmult_le_0_compat; lra).
  assert (0 <= (1 - t) * (x - lo)) by (apply Qmult_le_0_compat; lra).
  assert (0 <= t * (hi - y)) by (apply Qmult_le_0_compat; lra).
  assert (0 <= (1 - t) * (hi - x)) by (apply Qmult_le_0_compat; lra).
  split; lra.
Qed.

Lemma lerp_valid a b t :
  coord_valid a -> coord_valid b -> 0 <= t <= 1 -> coord_valid (lerp a b t).
Proof.
  unfold coord_valid, lerp; simpl. intros [? ?] [? ?] Ht.
  split; now apply convex_bound.
Qed.

Lemma midpoint_lerp a b : midpoint a b =c= lerp a b (1 # 2).
Proof. unfold midpoint, lerp, coord_eq; simpl. split; field. Qed.

Lemma midpoint_valid a b :
  coord_valid a -> coord_valid b -> coord_valid (midpoint a b).
Proof.
  intros Ha Hb. unfold coord_valid, midpoint; simpl.
  pose proof (lerp_valid a b (1 # 2) Ha Hb) as [H1 H2]; [lra|].
  unfold lerp in H1, H2; simpl in H1, H2.
  setoid_replace ((lng a + lng b) / 2) with (lng a + (lng b - lng a) * (1 # 2)) by field.
  setoid_replace ((lat a + lat b) / 2) with (lat a + (lat b - lat a) * (1 # 2)) by field.
  auto.
Qed.

#[export] Hint Resolve lerp_valid midpoint_valid : geo.

(** ** pydantic's range check *)

Lemma mk_coordinate_Some lng lat c : mk_coordinate lng lat = Some c -> coord_valid c.
Proof.
  unfold mk_coordinate, coord_valid. intros E.
  destruct (_ && _) eqn:Hb; [|discriminate]. injection E as <-. cbn.
  repeat rewrite andb_true_iff in Hb. rewrite !Qle_bool_iff in Hb. tauto.
Qed.

Lemma mk_coordinate_valid c : coord_valid c -> mk_coordinate (lng c) (lat c) = Some c.
Proof.
  destruct c as [x y]. unfold coord_valid, mk_coordinate. cbn. intros [[H1 H2] [H3 H4]].
  apply Qle_bool_iff in H1, H2, H3, H4. rewrite H1, H2, H3, H4. reflexivity.
Qed.

Lemma mk_coordinate_None x y : mk_coordinate x y = None -> ~ coord_valid (mkCoord x y).
Proof. intros E Hv. pose proof (mk_coordinate_valid _ Hv) as E'. cbn in E'. congruence. Qed.

Lemma new_coords_Some pts qs : new_coords pts = Some qs -> qs = pts /\ Forall coord_valid pts.
Proof.
  unfold new_coords. revert qs. induction pts as [|p pts IH]; cbn; intros qs E; [injection E as <-; auto|].
  destruct (mk_coordinate _ _) as [c|] eqn:Ec, (traverse_opt _ pts) as [qs'|]; try discriminate.
  injection E as <-. destruct (IH qs' eq_refl) as [-> Hv].
  pose proof (mk_coordinate_Some _ _ _ Ec) as Hc.
  destruct p as [x y]. unfold mk_coordinate in Ec. destruct (_ && _); [|discriminate].
  injection Ec as <-. split; [reflexivity|constructor; assumption].
Qed.

Lemma new_coords_valid pts : Forall coord_valid pts -> new_coords pts = Some pts.
Proof.
  unfold new_coords. induction 1 as [|p pts Hp _ IH]; [reflexivity|].
  cbn. rewrite (mk_coordinate_valid _ Hp), IH. destruct p; reflexivity.
Qed.

(** A point of a box whose corners are valid coordinates is one. *)
Lemma in_range_valid b c : bbox_in_range b -> in_bbox b c -> coord_valid c.
Proof. unfold bbox_in_range, coord_valid, in_bbox. cbn. intros. lra. Qed.

Lemma new_coords_in_box b pts :
  bbox_in_range b -> Forall (in_bbox b) pts -> new_coords pts = Some pts.
Proof.
  intros Hb Hp. apply new_coords_valid. eapply Forall_impl; [|exact Hp]. intros c. exact (in_range_valid b c Hb).
Qed.

(** pydantic rejects a point of a box only when the box is out of
    range. *)
Lemma new_coords_None_box b pts :
  Forall (in_bbox b) pts -> new_coords pts = None -> ~ bbox_in_range b.
Proof. intros Hp E Hb. rewrite (new_coords_in_box b pts Hb Hp) in E. discriminate E. Qed.

Lemma center_in_bbox b : bbox_valid b -> in_bbox b (center b).
Proof. unfold bbox_valid, in_bbox, center. cbn. intros. qlra. Qed.

Lemma bbox_center_Some b c : bbox_center b = Some c -> c = center b.
Proof. unfold bbox_center, mk_coordinate. destruct (_ && _); [|discriminate]. intros [= <-]. reflexivity. Qed.

Lemma bbox_center_in_range b : bbox_valid b -> bbox_in_range b -> bbox_center b = Some (center b).
Proof.
  intros Hv Hb. exact (mk_coordinate_valid (center b) (in_range_valid b _ Hb (center_in_bbox b Hv))).
Qed.

Lemma bbox_center_None b : bbox_valid b -> bbox_center b = None -> ~ bbox_in_range b.
Proof. intros Hv E Hb. rewrite (bbox_center_in_range b Hv Hb) in E. discriminate E. Qed.

Section KernelFacts.
Context {G : Geodesy} {GL : GeodesyLaws}.

Lemma dist_eq_zero a b : a =c= b -> haversine_distance_m a b == 0.
  Proof. intros Hab. rewrite Hab. apply dist_self. Qed.
End KernelFacts.

#[export] Hint Resolve dist_nonneg dist_self bearing_range : geo.

Lemma Qabs_sub_sym x y : Qabs (x - y) == Qabs (y - x).
Proof. rewrite <- Qabs_opp. apply Qabs_wd. ring. Qed.


Lemma Qabs_bounds x : x <= Qabs x /\ - x <= Qabs x /\ 0 <= Qabs x.
Proof. apply Qabs_case; intros; repeat split; lra. Qed.

Lemma diamond_angle_range x y : 0 <= diamond_angle x y <= 360.
Proof.
  unfold diamond_angle.
  destruct (Qabs_bounds x) as (? & ? & ?). destruct (Qabs_bounds y) as (? & ? & ?).
  destruct (Qeq_boolP (Qabs x + Qabs y) 0) as [|Hs]; [lra|].
  assert (0 < Qabs x + Qabs y).
  { destruct (Qlt_le_dec 0 (Qabs x + Qabs y)); [assumption|exfalso; apply Hs; lra]. }
  qcase; cbn [andb]; try lra;
    match goal with
    | |- context [?n / ?s] => assert (0 <= n / s <= 1) by (apply frac_unit; lra); lra
    end.
Qed.

#[export] Instance diamond_angle_proper : Proper (Qeq ==> Qeq ==> Qeq) diamond_angle.
Proof.
  intros x x' Hx y y' Hy. unfold diamond_angle.
  assert (Hs : Qabs x + Qabs y == Qabs x' + Qabs y') by (rewrite Hx, Hy; reflexivity).
  cbv zeta.
  rewrite (Qeq_bool_proper _ _ Hs 0 0 (Qeq_refl 0)),
    (Qle_bool_proper 0 0 (Qeq_refl 0) _ _ Hx), (Qlt_bool_proper 0 0 (Qeq_refl 0) _ _ Hy),
    (Qlt_bool_proper 0 0 (Qeq_refl 0) _ _ Hx), (Qle_bool_proper _ _ Hy 0 0 (Qeq_refl 0)),
    (Qle_bool_proper _ _ Hx 0 0 (Qeq_refl 0)), (Qlt_bool_proper _ _ Hy 0 0 (Qeq_refl 0)).
  repeat match goal with |- context [if ?b then _ else _] => destruct b end;
    rewrite ?Hx, ?Hy; reflexivity.
Qed.

#[export] Instance planar_laws : GeodesyLaws (H := planar_geodesy).
Proof.
  split; simpl.
  - intros a b. unfold planar_dist. rewrite ?Qred_correct.
    pose proof (Qabs_nonneg (lng b - lng a)). pose proof (Qabs_nonneg (lat b - lat a)). lra.
  - intros a b. unfold planar_dist. rewrite ?Qred_correct. now rewrite (Qabs_sub_sym (lng b)), (Qabs_sub_sym (lat b)).
  - intros a. unfold planar_dist. rewrite ?Qred_correct. setoid_replace (lng a - lng a) with 0 by ring.
    setoid_replace (lat a - lat a) with 0 by ring. reflexivity.
  - intros a a' [Ha1 Ha2] b b' [Hb1 Hb2]. unfold planar_dist. rewrite ?Qred_correct.
    rewrite Ha1, Ha2, Hb1, Hb2. reflexivity.
  - intros a b. apply diamond_angle_range.
  - intros a a' [Ha1 Ha2] b b' [Hb1 Hb2]. unfold diamond_bearing.
    apply diamond_angle_proper; [rewrite Ha1, Hb1|rewrite Ha2, Hb2]; reflexivity.
Qed.

(** The planar metric scales linearly along a segment. *)
Lemma planar_dist_lerp a b s t :
  0 <= s -> s <= t -> t <= 1 ->
  planar_dist (lerp a b s) (lerp a b t) == (t - s) * planar_dist a b.
Proof.
  intros Hs Hst Ht. unfold planar_dist, lerp; cbn [lng lat]. rewrite !Qred_correct.
  setoid_replace (lng a + (lng b - lng a) * t - (lng a + (lng b - lng a) * s))
    with ((lng b - lng a) * (t - s)) by ring.
  setoid_replace (lat a + (lat b - lat a) * t - (lat a + (lat b - lat a) * s))
    with ((lat b - lat a) * (t - s)) by ring.
  rewrite !Qabs_Qmult, (Qabs_pos (t - s)) by lra. ring.
Qed.
