(* ===== verification/Haversine.v ===== *)
(** * Haversine: the geodesy kernel over the real numbers

    [haversine_distance_m] and [_bearing_deg] of
    src/backend/services/street_mapper.py transcribed over Stdlib's reals,
    with [math.atan2] as C's [atan2] and Python's float [%] as
    [x - m * floor (x / m)].  The theorems are the laws that the interface
    [Geodesy.GeodesyLaws] assumes: the distance is zero on a point,
    symmetric and non-negative (and at most half a great circle), the
    haversine term lies in [[0, 1]] for valid latitudes so that
    [sqrt(1 - a)] is defined, and the bearing lies in [[0, 360)]. *)

From Stdlib Require Import Reals Qreals Ratan R_Ifp Lra QArith.
From S2P Require Import Prelude Geodesy.
Open Scope R_scope.

(** [math.radians(x)]: [x * (pi / 180)]. *)
Definition radians (x : R) : R := x * (PI / 180).

(** [math.degrees(x)]: [x * (180 / pi)]. *)
Definition degrees (x : R) : R := x * (180 / PI).

(** C's [atan2(y, x)] on reals (no signed zeros). *)
Definition atan2 (y x : R) : R :=
  if Rlt_dec 0 x then atan (y / x)
  else if Rlt_dec x 0 then
    (if Rle_dec 0 y then atan (y / x) + PI else atan (y / x) - PI)
  else if Rlt_dec 0 y then PI / 2
  else if Rlt_dec y 0 then - (PI / 2)
  else 0.

(** Python's [x % m] for floats with [m > 0]. *)
Definition py_mod (x m : R) : R := x - m * IZR (Int_part (x / m)).

(** [R = 6_371_000]. *)
Definition earth_radius : R := 6371000.

(** The haversine term [a_val] of [haversine_distance_m]. *)
Definition hav_term (a b : Coordinate) : R :=
  let phi1 := radians (Q2R (lat a)) in
  let phi2 := radians (Q2R (lat b)) in
  let d_phi := radians (Q2R (lat b - lat a)) in
  let d_lambda := radians (Q2R (lng b - lng a)) in
  sin (d_phi / 2) ^ 2 + cos phi1 * cos phi2 * sin (d_lambda / 2) ^ 2.

(** [haversine_distance_m(a, b)]. *)
Definition haversine_R (a b : Coordinate) : R :=
  let a_val := hav_term a b in
  earth_radius * 2 * atan2 (sqrt a_val) (sqrt (1 - a_val)).

(** [_bearing_deg(a, b)]. *)
Definition bearing_R (a b : Coordinate) : R :=
  let d_lng := radians (Q2R (lng b - lng a)) in
  let lat1 := radians (Q2R (lat a)) in
  let lat2 := radians (Q2R (lat b)) in
  let x := sin d_lng * cos lat2 in
  let y := cos lat1 * sin lat2 - sin lat1 * cos lat2 * cos d_lng in
  py_mod (degrees (atan2 x y)) 360.

(** A latitude of a valid coordinate, in radians. *)
Definition lat_ok (c : Coordinate) : Prop := (-90 <= lat c <= 90)%Q.

(** ** Helper lemmas *)

Lemma radians_lat_bound c : lat_ok c ->
  - (PI / 2) <= radians (Q2R (lat c)) <= PI / 2.
Proof.
  intros [H1 H2]. apply Qle_Rle in H1, H2.
  replace (Q2R (-90)) with (-90) in H1 by (unfold Q2R; simpl; lra).
  replace (Q2R 90) with 90 in H2 by (unfold Q2R; simpl; lra).
  pose proof PI_RGT_0. unfold radians. split; nra.
Qed.

Lemma cos_lat_nonneg c : lat_ok c -> 0 <= cos (radians (Q2R (lat c))).
Proof. intros H. destruct (radians_lat_bound c H). now apply cos_ge_0. Qed.

Lemma atan2_nonneg_first y x : 0 <= y -> 0 <= x -> 0 <= atan2 y x <= PI / 2.
Proof.
  intros Hy Hx. pose proof PI_RGT_0. unfold atan2.
  destruct (Rlt_dec 0 x) as [Hx0|Hx0].
  - pose proof (atan_bound (y / x)).
    assert (0 <= y / x) by (apply Rmult_le_pos; [lra|apply Rlt_le, Rinv_0_lt_compat; lra]).
    destruct (Req_dec (y / x) 0) as [->|Hne]; [rewrite atan_0; lra|].
    pose proof (atan_increasing 0 (y / x)). rewrite atan_0 in *. split; lra.
  - destruct (Rlt_dec x 0); [lra|].
    destruct (Rlt_dec 0 y); [lra|]. destruct (Rlt_dec y 0); lra.
Qed.

Lemma py_mod_range x m : 0 < m -> 0 <= py_mod x m < m.
Proof.
  intros Hm. unfold py_mod.
  destruct (base_fp (x / m)) as [H1 H2]. unfold frac_part in H1, H2.
  set (k := IZR (Int_part (x / m))) in *.
  replace (x - m * k) with (m * (x / m - k)) by (field; lra).
  split; nra.
Qed.

(** ** The laws *)

(** The haversine term is in [[0, 1]] for valid latitudes. *)
Lemma hav_term_unit a b : lat_ok a -> lat_ok b -> 0 <= hav_term a b <= 1.
Proof.
  intros Ha Hb. unfold hav_term.
  set (phi1 := radians (Q2R (lat a))). set (phi2 := radians (Q2R (lat b))).
  assert (Hd : radians (Q2R (lat b - lat a)) = phi2 - phi1)
    by (unfold phi1, phi2, radians; rewrite Q2R_minus; ring).
  rewrite Hd. set (dl := radians (Q2R (lng b - lng a))).
  pose proof (cos_lat_nonneg a Ha) as Hc1. pose proof (cos_lat_nonneg b Hb) as Hc2.
  fold phi1 in Hc1. fold phi2 in Hc2.
  set (u := sin ((phi2 - phi1) / 2)). set (v := sin (dl / 2)).
  assert (Hc : cos phi1 * cos phi2 <= 1 - u ^ 2).
  { pose proof (cos_minus phi2 phi1). pose proof (cos_plus phi2 phi1).
    pose proof (COS_bound (phi2 + phi1)).
    pose proof (cos_2a_sin ((phi2 - phi1) / 2)) as H2.
    replace (2 * ((phi2 - phi1) / 2)) with (phi2 - phi1) in H2 by field.
    unfold u. nra. }
  pose proof (SIN_bound (dl / 2)). fold v in H.
  assert (0 <= cos phi1 * cos phi2) by (apply Rmult_le_pos; lra).
  assert (0 <= v ^ 2 <= 1) by (split; nra).
  split; nra.
Qed.

(** The distance from a point to itself is zero. *)
Theorem haversine_self a : haversine_R a a = 0.
Proof.
  unfold haversine_R, hav_term.
  rewrite !Q2R_minus, !Rminus_diag. unfold radians.
  replace (0 * (PI / 180) / 2) with 0 by field. rewrite sin_0.
  replace (0 ^ 2 + cos (Q2R (lat a) * (PI / 180)) * cos (Q2R (lat a) * (PI / 180)) * 0 ^ 2)
    with 0 by ring.
  rewrite Rminus_0_r, sqrt_0, sqrt_1. unfold atan2.
  destruct (Rlt_dec 0 1); [|lra]. replace (0 / 1) with 0 by field.
  rewrite atan_0. ring.
Qed.

(** The distance is symmetric. *)
Theorem haversine_sym a b : haversine_R a b = haversine_R b a.
Proof.
  unfold haversine_R, hav_term. rewrite !Q2R_minus.
  replace (radians (Q2R (lat a) - Q2R (lat b)) / 2)
    with (- (radians (Q2R (lat b) - Q2R (lat a)) / 2)) by (unfold radians; field).
  replace (radians (Q2R (lng a) - Q2R (lng b)) / 2)
    with (- (radians (Q2R (lng b) - Q2R (lng a)) / 2)) by (unfold radians; field).
  rewrite !sin_neg.
  replace ((- sin (radians (Q2R (lat b) - Q2R (lat a)) / 2)) ^ 2)
    with (sin (radians (Q2R (lat b) - Q2R (lat a)) / 2) ^ 2) by ring.
  replace ((- sin (radians (Q2R (lng b) - Q2R (lng a)) / 2)) ^ 2)
    with (sin (radians (Q2R (lng b) - Q2R (lng a)) / 2) ^ 2) by ring.
  rewrite (Rmult_comm (cos (radians (Q2R (lat b))))). reflexivity.
Qed.

(** The distance lies between [0] and half a great circle, [pi * R]. *)
Theorem haversine_bounds a b : 0 <= haversine_R a b <= PI * earth_radius.
Proof.
  unfold haversine_R.
  pose proof (atan2_nonneg_first (sqrt (hav_term a b)) (sqrt (1 - hav_term a b))
    (sqrt_pos _) (sqrt_pos _)).
  unfold earth_radius in *. split; nra.
Qed.

(** The distance only depends on the values of the coordinates. *)
Lemma haversine_R_proper a a' b b' :
  a =c= a' -> b =c= b' -> haversine_R a b = haversine_R a' b'.
Proof.
  intros [Ha1 Ha2] [Hb1 Hb2]. unfold haversine_R, hav_term. rewrite !Q2R_minus.
  rewrite (Qeq_eqR _ _ Ha1), (Qeq_eqR _ _ Ha2), (Qeq_eqR _ _ Hb1), (Qeq_eqR _ _ Hb2).
  reflexivity.
Qed.

(** The bearing lies in [[0, 360)]. *)
Theorem bearing_R_range a b : 0 <= bearing_R a b < 360.
Proof. unfold bearing_R. apply py_mod_range. lra. Qed.

(** ** Witness *)

Lemma hav_term_unit_witness :
  (lat_ok (mkCoord 14 50) /\ lat_ok (mkCoord 15 (-40))) /\
  0 <= hav_term (mkCoord 14 50) (mkCoord 15 (-40)) <= 1.
Proof.
  assert (Ha : lat_ok (mkCoord 14 50)) by (split; vm_compute; discriminate).
  assert (Hb : lat_ok (mkCoord 15 (-40))) by (split; vm_compute; discriminate).
  split; [split; assumption|]. exact (hav_term_unit _ _ Ha Hb).
Defined.
