(* ===== verification/StreetMapper.v ===== *)
(** * StreetMapper: from control points to street-snappable waypoints

    Models the class [StreetMapper] of src/backend/services/street_mapper.py:
    [scale_to_bbox], [densify], [deduplicate] (with its curvature test),
    [map_to_streets] (the three stages with the source's constants: 10%
    padding, 80 m segments, 12 m spacing) and [estimate_distance_km].  All
    operations are generic in the geodesy kernel ([Geodesy.Geodesy]) and
    their theorems use only its laws. *)

From Stdlib Require Import QArith Qround Qabs Lqa List Lia ZArith Morphisms Setoid.
From S2P Require Import Prelude Geodesy.
Import ListNotations.
Open Scope Q_scope.
Open Scope geo_scope.

Section StreetMapper.
Context {G : Geodesy} {GL : GeodesyLaws}.

  (** ** [scale_to_bbox] *)

  (** [x or 1e-6]. *)
Definition eps_extent (x : Q) : Q := or_default x (1 # 1000000).

  (** The scale factor: [min(t_width / s_width, t_height / s_height)] for
      the shape extents of [points] (lines 51-69). *)
Definition scale_factor (p0 : Coordinate) (rest : list Coordinate)
      (target_bbox : BoundingBox) (padding_pct : Q) : Q :=
    let s_min_lng := fold_left py_min (map lng rest) (lng p0) in
    let s_max_lng := fold_left py_max (map lng rest) (lng p0) in
    let s_min_lat := fold_left py_min (map lat rest) (lat p0) in
    let s_max_lat := fold_left py_max (map lat rest) (lat p0) in
    let s_width := eps_extent (s_max_lng - s_min_lng) in
    let s_height := eps_extent (s_max_lat - s_min_lat) in
    let pad_lng := width_deg target_bbox * padding_pct in
    let pad_lat := height_deg target_bbox * padding_pct in
    let t_width := width_deg target_bbox - 2 * pad_lng in
    let t_height := height_deg target_bbox - 2 * pad_lat in
    py_min (t_width / s_width) (t_height / s_height).

  (** [scale_to_bbox] (lines 38-76): [None] when pydantic rejects one
      of the [Coordinate]s the comprehension builds (a point out of range,
      which happens only for a box out of range: [scale_to_bbox_None]). *)
Definition scale_to_bbox (points : list Coordinate) (target_bbox : BoundingBox)
      (padding_pct : Q) : option (list Coordinate) :=
    match points with
    | [] => Some []
    | p0 :: rest =>
        let s_cx := (fold_left py_min (map lng rest) (lng p0)
                     + fold_left py_max (map lng rest) (lng p0)) / 2 in
        let s_cy := (fold_left py_min (map lat rest) (lat p0)
                     + fold_left py_max (map lat rest) (lat p0)) / 2 in
        let t_cx := (min_lng target_bbox + max_lng target_bbox) / 2 in
        let t_cy := (min_lat target_bbox + max_lat target_bbox) / 2 in
        let scale := scale_factor p0 rest target_bbox padding_pct in
        new_coords (map (fun p => mkCoord (t_cx + (lng p - s_cx) * scale)
                                          (t_cy + (lat p - s_cy) * scale)) points)
    end.

  (** ** [densify] *)

  (** The points appended for the segment [a -> b] (lines 90-100):
      [n_segments - 1] interpolated points when the segment is longer than
      [max_segment_m], then [b].  pydantic's check of each interpolated
      [Coordinate] passes whenever [a] and [b] passed theirs (the point is
      a convex combination: [densify_valid]), so it is not repeated. *)
Definition densify_segment (max_segment_m : Q) (a b : Coordinate) : list Coordinate :=
    let dist := haversine_distance_m a b in
    (if max_segment_m <? dist then
       let n_segments := py_ceil (dist / max_segment_m) in
       map (fun j => lerp a b (inject_Z (Z.of_nat j) / inject_Z n_segments))
           (seq 1 (Z.to_nat n_segments - 1))
     else []) ++ [b].

Fixpoint densify_from (max_segment_m : Q) (a : Coordinate) (rest : list Coordinate)
      : list Coordinate :=
    match rest with
    | [] => []
    | b :: rest' => densify_segment max_segment_m a b ++ densify_from max_segment_m b rest'
    end.

Definition densify (points : list Coordinate) (max_segment_m : Q) : list Coordinate :=
    if Nat.ltb (length points) 2 then points
    else match points with
         | [] => []
         | p0 :: rest => p0 :: densify_from max_segment_m p0 rest
         end.

  (** ** [deduplicate] *)

  (** The turn at [p] (lines 128-132): the bearing change folded into
      [[0, 180]]. *)
Definition angle_change (prev p next_p : Coordinate) : Q :=
    let b_in := _bearing_deg prev p in
    let b_out := _bearing_deg p next_p in
    let ac := Qabs (b_out - b_in) in
    if 180 <? ac then 360 - ac else ac.

  (** The loop of lines 118-134: [last] is [result[-1]]; returns the points
      appended to [result], in order. *)
Fixpoint dedup_loop (min_distance_m : Q) (last : Coordinate) (rest : list Coordinate)
      : list Coordinate :=
    match rest with
    | [] => []
    | p :: rest' =>
        if min_distance_m <=? haversine_distance_m last p
        then p :: dedup_loop min_distance_m p rest'
        else match rest' with
             | [] => dedup_loop min_distance_m last rest'
             | next_p :: _ =>
                 if 20 <? angle_change last p next_p
                 then p :: dedup_loop min_distance_m p rest'
                 else dedup_loop min_distance_m last rest'
             end
    end.

  (** [result] after the loop, before the final append. *)
Definition dedup_kept (points : list Coordinate) (min_distance_m : Q) : list Coordinate :=
    match points with
    | [] => []
    | p0 :: rest => p0 :: dedup_loop min_distance_m p0 rest
    end.

Definition deduplicate (points : list Coordinate) (min_distance_m : Q) : list Coordinate :=
    if Nat.ltb (length points) 2 then points
    else match points with
         | [] => []
         | p0 :: _ =>
             let result := dedup_kept points min_distance_m in
             let lastp := last points p0 in
             if coord_eqb (last result p0) lastp then result else result ++ [lastp]
         end.

  (** ** [map_to_streets] and [estimate_distance_km] *)

  (** [map_to_streets] (lines 141-154): [None] when [scale_to_bbox]
      raises. *)
Definition map_to_streets (control_points : list Coordinate) (target_bbox : BoundingBox)
      : option (list Coordinate) :=
    match scale_to_bbox control_points target_bbox (1 # 10) with
    | None => None
    | Some scaled =>
        let dense := densify scaled 80 in
        Some (deduplicate dense 12)
    end.

  (** [round(x, 1)] on the exact value: ties to even at one decimal. *)
Definition round1 (x : Q) : Q := inject_Z (py_round (x * 10)) / 10.

Definition estimate_distance_km (points : list Coordinate) : Q :=
    let total := py_sum (map (fun '(a, b) => haversine_distance_m a b) (adjacent points)) in
    round1 (total / 1000).

(** ** Predicates used by the theorems *)

(** The box [target_bbox] shrunk by [padding_pct] of its size on each side. *)
Definition padded_box (tb : BoundingBox) (padding_pct : Q) : BoundingBox :=
  mkBBox (min_lng tb + width_deg tb * padding_pct) (min_lat tb + height_deg tb * padding_pct)
         (max_lng tb - width_deg tb * padding_pct) (max_lat tb - height_deg tb * padding_pct).


End StreetMapper.

(** * Properties *)

Section StreetMapperFacts.
Context {G : Geodesy} {GL : GeodesyLaws}.

(** ** Scaling *)

Lemma eps_extent_pos x : 0 <= x -> 0 < eps_extent x.
Proof. unfold eps_extent, or_default. qcase; [reflexivity|]. intros. lra. Qed.

Lemma eps_extent_zero_or x : eps_extent x == 1 # 1000000 \/ eps_extent x == x.
Proof. unfold eps_extent, or_default. qcase; [left|right]; reflexivity. Qed.

(** The extent of a list of values brackets each of them. *)
Lemma fold_extent_bounds (f : Coordinate -> Q) p0 rest p :
  In p (p0 :: rest) ->
  fold_left py_min (map f rest) (f p0) <= f p <= fold_left py_max (map f rest) (f p0).
Proof.
  intros [<-|Hin]; split.
  - apply fold_min_le_init.
  - apply fold_max_ge_init.
  - apply fold_min_le, in_map, Hin.
  - apply fold_max_ge, in_map, Hin.
Qed.

(** One axis of [scale_to_bbox]: an offset from the centre of the shape's
    extent, scaled by at most [tw / extent], moves at most [tw / 2]. *)
Lemma axis_offset_bound lo hi v sc tw :
  lo <= v <= hi -> 0 <= sc -> sc <= tw / eps_extent (hi - lo) -> 0 <= tw ->
  - (tw / 2) <= (v - (lo + hi) / 2) * sc <= tw / 2.
Proof.
  intros Hv Hsc Hle Htw. unfold eps_extent, or_default in Hle.
  destruct (Qeq_boolP (hi - lo) 0) as [H0|H0].
  - setoid_replace (v - (lo + hi) / 2) with 0 by qlra. qlra.
  - assert (Hpos : 0 < hi - lo).
    { destruct (Qle_lt_or_eq 0 (hi - lo)) as [|Heq]; [lra|assumption|].
      exfalso. apply H0. now symmetry. }
    assert (Hm : sc * (hi - lo) <= tw).
    { setoid_replace tw with ((tw / (hi - lo)) * (hi - lo)) by (field; lra).
      apply Qmult_le_compat_r; lra. }
    assert (0 <= ((hi - lo) / 2 - (v - (lo + hi) / 2)) * sc) by (apply Qmult_le_0_compat; qlra).
    assert (0 <= ((hi - lo) / 2 + (v - (lo + hi) / 2)) * sc) by (apply Qmult_le_0_compat; qlra).
    split; qlra.
Qed.

Lemma scale_factor_bounds p0 rest tb padding_pct :
  bbox_valid tb -> 0 <= padding_pct <= 1 # 2 ->
  let f := scale_factor p0 rest tb padding_pct in
  0 <= f /\
  f <= (width_deg tb - 2 * (width_deg tb * padding_pct))
         / eps_extent (fold_left py_max (map lng rest) (lng p0)
                       - fold_left py_min (map lng rest) (lng p0)) /\
  f <= (height_deg tb - 2 * (height_deg tb * padding_pct))
         / eps_extent (fold_left py_max (map lat rest) (lat p0)
                       - fold_left py_min (map lat rest) (lat p0)).
Proof.
  intros [Hw Hh] Hp f. unfold f, scale_factor, width_deg, height_deg in *.
  assert (Hx : fold_left py_min (map lng rest) (lng p0) <= fold_left py_max (map lng rest) (lng p0))
    by (destruct (fold_extent_bounds lng p0 rest p0) as [? ?]; [left; reflexivity|lra]).
  assert (Hy : fold_left py_min (map lat rest) (lat p0) <= fold_left py_max (map lat rest) (lat p0))
    by (destruct (fold_extent_bounds lat p0 rest p0) as [? ?]; [left; reflexivity|lra]).
  pose proof (eps_extent_pos (fold_left py_max (map lng rest) (lng p0)
                               - fold_left py_min (map lng rest) (lng p0)) ltac:(lra)) as Ex.
  pose proof (eps_extent_pos (fold_left py_max (map lat rest) (lat p0)
                               - fold_left py_min (map lat rest) (lat p0)) ltac:(lra)) as Ey.
  assert (0 <= ((1 # 2) - padding_pct) * (max_lng tb - min_lng tb)) by (apply Qmult_le_0_compat; lra).
  assert (0 <= ((1 # 2) - padding_pct) * (max_lat tb - min_lat tb)) by (apply Qmult_le_0_compat; lra).
  repeat split; [|apply py_min_le_l|apply py_min_le_r].
  apply py_min_glb; apply Qle_shift_div_l; try assumption; lra.
Qed.

(** The points [scale_to_bbox] builds (before pydantic's check) lie
    inside the target box shrunk by the padding on each side. *)
Lemma scale_to_bbox_cases points tb padding_pct :
  exists raw, scale_to_bbox points tb padding_pct = new_coords raw /\
    (bbox_valid tb -> 0 <= padding_pct <= 1 # 2 -> Forall (in_bbox (padded_box tb padding_pct)) raw).
Proof.
  destruct points as [|p0 rest]; [exists []; split; [reflexivity|constructor]|].
  eexists. split; [reflexivity|]. intros Hv Hp. apply Forall_forall. intros q Hq.
  apply in_map_iff in Hq as [p [<- Hin]].
  destruct (scale_factor_bounds p0 rest tb padding_pct Hv Hp) as (H0 & Hsx & Hsy).
  destruct Hv as [Hw Hh]. unfold in_bbox, padded_box, width_deg, height_deg in *; simpl.
  assert (0 <= ((1 # 2) - padding_pct) * (max_lng tb - min_lng tb)) by (apply Qmult_le_0_compat; lra).
  assert (0 <= ((1 # 2) - padding_pct) * (max_lat tb - min_lat tb)) by (apply Qmult_le_0_compat; lra).
  pose proof (axis_offset_bound _ _ _ _ _ (fold_extent_bounds lng p0 rest p Hin)
               H0 Hsx ltac:(lra)).
  pose proof (axis_offset_bound _ _ _ _ _ (fold_extent_bounds lat p0 rest p Hin)
               H0 Hsy ltac:(lra)).
  split; split; qlra.
Qed.

Lemma padded_in_bbox tb pad q :
  bbox_valid tb -> 0 <= pad <= 1 # 2 -> in_bbox (padded_box tb pad) q -> in_bbox tb q.
Proof.
  unfold bbox_valid, in_bbox, padded_box, width_deg, height_deg. cbn. intros [Hw Hh] Hp Hq.
  assert (0 <= (max_lng tb - min_lng tb) * pad) by (apply Qmult_le_0_compat; lra).
  assert (0 <= (max_lat tb - min_lat tb) * pad) by (apply Qmult_le_0_compat; lra).
  lra.
Qed.

(** Every point that [scale_to_bbox] returns lies inside the target box
    shrunk by the padding on each side. *)
Theorem scale_to_bbox_within points tb padding_pct qs :
  bbox_valid tb -> 0 <= padding_pct <= 1 # 2 ->
  scale_to_bbox points tb padding_pct = Some qs -> Forall (in_bbox (padded_box tb padding_pct)) qs.
Proof.
  intros Hv Hp E. destruct (scale_to_bbox_cases points tb padding_pct) as (raw & Er & Hraw).
  rewrite Er in E. destruct (new_coords_Some _ _ E) as [-> _]. exact (Hraw Hv Hp).
Qed.

(** pydantic rejects a scaled point only when the target box is out of
    range; for a box in range the points are built. *)
Lemma scale_to_bbox_None points tb padding_pct :
  bbox_valid tb -> 0 <= padding_pct <= 1 # 2 ->
  scale_to_bbox points tb padding_pct = None -> ~ bbox_in_range tb.
Proof.
  intros Hv Hp E. destruct (scale_to_bbox_cases points tb padding_pct) as (raw & Er & Hraw).
  rewrite Er in E. apply (new_coords_None_box tb raw); [|exact E].
  eapply Forall_impl; [|exact (Hraw Hv Hp)]. intros q. exact (padded_in_bbox tb _ q Hv Hp).
Qed.

(** ** Densification *)

Lemma densify_segment_snoc m a b :
  exists mids, densify_segment m a b = mids ++ [b].
Proof. unfold densify_segment. eexists. reflexivity. Qed.

Lemma densify_unfold m points :
  (2 <= length points)%nat ->
  exists p0 rest, points = p0 :: rest /\ densify points m = p0 :: densify_from m p0 rest.
Proof.
  intros Hl. unfold densify. destruct (Nat.ltb_spec (length points) 2); [lia|].
  destruct points as [|p0 rest]; [simpl in Hl; lia|]. eauto.
Qed.

Lemma densify_from_subseq m a rest : subseq rest (densify_from m a rest).
Proof.
  revert a. induction rest as [|b rest IH]; intros a; simpl; [constructor|].
  destruct (densify_segment_snoc m a b) as [mids ->]. rewrite <- app_assoc.
  apply subseq_app_l. simpl. now apply subseq_take.
Qed.

(** The input points survive densification, in order. *)
Lemma densify_subseq m points : subseq points (densify points m).
Proof.
  unfold densify. destruct (Nat.ltb (length points) 2); [apply subseq_refl|].
  destruct points as [|p0 rest]; [constructor|]. apply subseq_take, densify_from_subseq.
Qed.


Lemma in_bbox_lerp bb a b t :
  in_bbox bb a -> in_bbox bb b -> 0 <= t <= 1 -> in_bbox bb (lerp a b t).
Proof.
  unfold in_bbox, lerp; simpl. intros [? ?] [? ?] Ht. split; now apply convex_bound.
Qed.

Section Convex.
(** A property of points that every interpolation between two points
    having it has (a box, the coordinate ranges). *)
Variable P : Coordinate -> Prop.
Hypothesis P_lerp : forall a b t, P a -> P b -> 0 <= t <= 1 -> P (lerp a b t).

Lemma densify_segment_convex m a b : P a -> P b -> Forall P (densify_segment m a b).
Proof.
  intros Ha Hb. unfold densify_segment. apply Forall_app. split; [|constructor; [exact Hb|constructor]].
  destruct (_ <? _); [|constructor]. apply Forall_map, Forall_forall.
  intros j Hj%in_seq. apply P_lerp; auto. apply frac_in_unit; lia.
Qed.

(** Every densified point has the property when all the input points
    have it: the interpolated points are convex combinations of two
    inputs. *)
Lemma densify_convex m points : Forall P points -> Forall P (densify points m).
Proof.
  intros Hall. unfold densify. destruct (Nat.ltb (length points) 2); [exact Hall|].
  destruct points as [|p0 rest]; [constructor|]. inversion Hall as [|? ? Hp0 Hrest]; subst.
  constructor; [exact Hp0|]. clear Hall. revert p0 Hp0.
  induction Hrest as [|b rest Hb _ IH]; intros a Ha; simpl; [constructor|].
  apply Forall_app. split; [now apply densify_segment_convex|now apply IH].
Qed.
End Convex.

Lemma densify_in_bbox bb m points :
  Forall (in_bbox bb) points -> Forall (in_bbox bb) (densify points m).
Proof. apply densify_convex, in_bbox_lerp. Qed.

(** pydantic's check of the points [densify] builds never fails on
    checked input points. *)
Lemma densify_valid m points :
  Forall coord_valid points -> Forall coord_valid (densify points m).
Proof. apply densify_convex, lerp_valid. Qed.

(** Segments no longer than the bound are left alone. *)
Lemma densify_from_short m a rest :
  Forall (fun '(x, y) => haversine_distance_m x y <= m) (adjacent (a :: rest)) ->
  densify_from m a rest = rest.
Proof.
  revert a. induction rest as [|b rest IH]; intros a Hall; simpl; [reflexivity|].
  inversion Hall as [|? ? Hab Hrest]; subst. unfold densify_segment.
  destruct (Qlt_boolP m (haversine_distance_m a b)); [lra|]. simpl. f_equal. now apply IH.
Qed.

Lemma densify_short m points :
  Forall (fun '(x, y) => haversine_distance_m x y <= m) (adjacent points) ->
  densify points m = points.
Proof.
  intros Hall. unfold densify. destruct (Nat.ltb (length points) 2); [reflexivity|].
  destruct points as [|p0 rest]; [reflexivity|]. f_equal. now apply densify_from_short.
Qed.

(** Adjacent pairs across a shared point. *)
Lemma adjacent_app_cons {A} (l : list A) b tail :
  adjacent (l ++ b :: tail) = adjacent (l ++ [b]) ++ adjacent (b :: tail).
Proof.
  induction l as [|x l IH]; simpl; [reflexivity|].
  destruct l as [|y l]; simpl; [reflexivity|]. simpl in IH. now rewrite IH.
Qed.

(** A property of every segment of the input is a property of every pair of
    the densified output, when it holds of the pairs of each densified
    segment. *)
Lemma densify_from_pairs (P : Coordinate * Coordinate -> Prop) m a rest :
  (forall x y, In (x, y) (adjacent (a :: rest)) ->
     Forall P (adjacent (x :: densify_segment m x y))) ->
  Forall P (adjacent (a :: densify_from m a rest)).
Proof.
  revert a. induction rest as [|b rest IH]; intros a Hseg; cbn [densify_from]; [constructor|].
  destruct (densify_segment_snoc m a b) as [mids Hm]. rewrite Hm.
  replace (a :: (mids ++ [b]) ++ densify_from m b rest)
    with ((a :: mids) ++ b :: densify_from m b rest) by (simpl; rewrite <- app_assoc; reflexivity).
  rewrite adjacent_app_cons. apply Forall_app. split.
  - replace ((a :: mids) ++ [b]) with (a :: densify_segment m a b) by (rewrite Hm; reflexivity).
    apply Hseg. simpl. destruct rest; simpl; auto.
  - apply IH. intros x y Hxy. apply Hseg. simpl. destruct rest as [|c rest]; [destruct Hxy|].
    right. exact Hxy.
Qed.

Lemma adjacent_map_seq {A} (g : nat -> A) k m :
  adjacent (map g (seq k (S m))) = map (fun j => (g j, g (S j))) (seq k m).
Proof.
  revert k. induction m as [|m IH]; intros k; [reflexivity|].
  transitivity ((g k, g (S k)) :: adjacent (map g (seq (S k) (S m)))); [reflexivity|].
  rewrite IH. reflexivity.
Qed.

Lemma Forall2_coord_refl l : Forall2 coord_eq l l.
Proof. induction l; constructor; [reflexivity|assumption]. Qed.

(** Pairs of pointwise-equivalent lists have the same lengths. *)
Lemma adjacent_Forall2 (l1 l2 : list Coordinate) (m : Q) :
  Forall2 coord_eq l1 l2 ->
  Forall (fun '(x, y) => haversine_distance_m x y <= m) (adjacent l2) ->
  Forall (fun '(x, y) => haversine_distance_m x y <= m) (adjacent l1).
Proof.
  induction 1 as [|x1 x2 l1 l2 Hx H12 IH]; intros Hall; [constructor|].
  destruct H12 as [|y1 y2 l1' l2' Hy H12']; [constructor|].
  simpl in *. inversion Hall as [|? ? Hp Hrest]; subst. constructor.
  - rewrite Hx, Hy. exact Hp.
  - apply IH. exact Hrest.
Qed.

(** Consecutive interpolation fractions [j / n] and [(j + 1) / n]. *)
Lemma frac_step (j : nat) (n : Z) :
  (Z.of_nat (S j) <= n)%Z ->
  let s := inject_Z (Z.of_nat j) / inject_Z n in
  let t := inject_Z (Z.of_nat (S j)) / inject_Z n in
  0 <= s /\ s <= t /\ t <= 1 /\ t - s == 1 / inject_Z n.
Proof.
  intros Hj s t.
  assert (Hn : 0 < inject_Z n) by (change 0 with (inject_Z 0); rewrite <- Zlt_Qlt; lia).
  assert (HS : inject_Z (Z.of_nat (S j)) == inject_Z (Z.of_nat j) + 1)
    by (rewrite Nat2Z.inj_succ, <- Z.add_1_r, inject_Z_plus; reflexivity).
  destruct (frac_in_unit j n ltac:(lia) ltac:(lia)) as [H0 _].
  destruct (frac_in_unit (S j) n Hj ltac:(lia)) as [_ H1].
  assert (Hts : t - s == 1 / inject_Z n) by (unfold s, t; rewrite HS; field; lra).
  repeat split; auto.
  assert (0 <= 1 / inject_Z n) by (apply Qle_shift_div_l; lra). lra.
Qed.

(** One step of [1 / n_segments] of a segment of length [d] is at most
    [m] when [n_segments >= d / m]. *)
Lemma step_bound d m (n : Z) :
  0 < m -> 0 <= d -> d / m <= inject_Z n -> (0 < n)%Z -> 1 / inject_Z n * d <= m.
Proof.
  intros Hm Hd Hdm Hn.
  assert (HN : 0 < inject_Z n) by (change 0 with (inject_Z 0); rewrite <- Zlt_Qlt; lia).
  assert (Hdn : d <= inject_Z n * m).
  { setoid_replace d with (d / m * m) at 1 by (field; lra).
    apply Qmult_le_compat_r; lra. }
  setoid_replace (1 / inject_Z n * d) with (d / inject_Z n) by (field; lra).
  apply Qle_shift_div_r; lra.
Qed.

Lemma lerp_frac_end a b (k n : Z) : k = n -> (0 < n)%Z -> lerp a b (inject_Z k / inject_Z n) =c= b.
Proof.
  intros -> Hn. assert (HN : ~ inject_Z n == 0).
  { change 0 with (inject_Z 0). rewrite inject_Z_injective. lia. }
  unfold lerp, coord_eq; simpl. split; field; exact HN.
Qed.

(** ** Deduplication *)

Lemma dedup_loop_subseq m last rest : subseq (dedup_loop m last rest) rest.
Proof.
  revert last. induction rest as [|p rest IH]; intros last; simpl; [constructor|].
  destruct (_ <=? _); [now apply subseq_take|].
  destruct rest as [|next rest']; [constructor; apply IH|].
  destruct (_ <? _); [now apply subseq_take|now apply subseq_skip].
Qed.





Lemma coord_eqb_refl c : coord_eqb c c = true.
Proof. apply coord_eqb_spec. reflexivity. Qed.

(** [deduplicate] returns a sub-sequence of its input that starts with
    the first input point and ends with a point equal to the last one. *)
Theorem deduplicate_subseq_ends p0 rest m :
  let out := deduplicate (p0 :: rest) m in
  subseq out (p0 :: rest) /\ (exists tail, out = p0 :: tail) /\
  last out p0 =c= last (p0 :: rest) p0.
Proof.
  intros out. unfold out, deduplicate, dedup_kept.
  destruct (Nat.ltb_spec (length (p0 :: rest)) 2) as [Hl|Hl].
  { split; [apply subseq_refl|]. split; [eauto|reflexivity]. }
  destruct rest as [|r0 rest']; [simpl in Hl; lia|].
  set (rest := r0 :: rest') in *. set (loop := dedup_loop m p0 rest).
  assert (Hsub : subseq loop rest) by apply dedup_loop_subseq.
  assert (Hlast : last (p0 :: rest) p0 = last rest p0) by reflexivity.
  destruct (coord_eqbP (last (p0 :: loop) p0) (last (p0 :: rest) p0)) as [He|Hne].
  - split; [now apply subseq_take|]. split; [eauto|exact He].
  - split; [|split; [eexists; reflexivity|rewrite last_last; reflexivity]].
    rewrite Hlast in *. rewrite (app_removelast_last p0 (l := rest)) in Hsub by discriminate.
    destruct (subseq_snoc_inv _ _ _ Hsub) as [H1|(l' & Hl' & H1)].
    + rewrite (app_removelast_last p0 (l := rest)) at 2 by discriminate.
      rewrite app_comm_cons. apply subseq_app; [now apply subseq_take|apply subseq_refl].
    + exfalso. apply Hne. rewrite Hl', app_comm_cons, last_last. reflexivity.
Qed.

Lemma deduplicate_subseq points m : subseq (deduplicate points m) points.
Proof.
  destruct points as [|p0 rest]; [apply subseq_refl|]. apply deduplicate_subseq_ends.
Qed.

(** ** The pipeline *)

Lemma angle_change_straight x y z :
  _bearing_deg x y == _bearing_deg y z -> angle_change x y z == 0.
Proof.
  intros Hb. unfold angle_change.
  assert (Ha : Qabs (_bearing_deg y z - _bearing_deg x y) == 0).
  { rewrite Hb. setoid_replace (_bearing_deg y z - _bearing_deg y z) with 0 by ring.
    reflexivity. }
  qcase; lra.
Qed.

Lemma scale_to_bbox_repeat p n tb pad :
  exists c, scale_to_bbox (repeat p (S n)) tb pad = new_coords (repeat c (S n)) /\ c =c= center tb.
Proof.
  set (sc := scale_factor p (repeat p n) tb pad).
  exists (mkCoord ((min_lng tb + max_lng tb) / 2 + (lng p - (lng p + lng p) / 2) * sc)
                  ((min_lat tb + max_lat tb) / 2 + (lat p - (lat p + lat p) / 2) * sc)).
  split.
  - unfold scale_to_bbox. simpl repeat. cbv beta iota zeta.
    rewrite !map_repeat, !fold_min_repeat, !fold_max_repeat.
    change (p :: repeat p n) with (repeat p (S n)). rewrite map_repeat. reflexivity.
  - unfold coord_eq, center; simpl.
    setoid_replace (lng p - (lng p + lng p) / 2) with 0 by qlra.
    setoid_replace (lat p - (lat p + lat p) / 2) with 0 by qlra. split; ring.
Qed.

Lemma densify_repeat c n m : 0 <= m -> densify (repeat c n) m = repeat c n.
Proof.
  intros Hm. apply densify_short. eapply Forall_impl; [|apply adjacent_repeat].
  intros xy ->. pose proof (dist_self c). lra.
Qed.

Lemma dedup_loop_repeat m c n : 0 < m -> dedup_loop m c (repeat c n) = [].
Proof.
  intros Hm. induction n as [|n IH]; [reflexivity|]. cbn [repeat dedup_loop].
  destruct (Qle_boolP m (haversine_distance_m c c)) as [Hd|Hd];
    [pose proof (dist_self c); lra|].
  destruct n as [|n]; [reflexivity|]. cbn [repeat].
  destruct (Qlt_boolP 20 (angle_change c c c)) as [Ha|Ha]; [|exact IH].
  rewrite angle_change_straight in Ha by reflexivity. lra.
Qed.

Lemma deduplicate_repeat m c n : 0 < m -> deduplicate (repeat c (S n)) m = [c].
Proof.
  intros Hm. destruct n as [|n]; [reflexivity|]. unfold deduplicate.
  rewrite repeat_length. change (repeat c (S (S n))) with (c :: repeat c (S n)).
  cbv beta iota zeta. unfold dedup_kept. rewrite dedup_loop_repeat by exact Hm.
  replace (last (c :: repeat c (S n)) c) with c by (symmetry; exact (last_repeat c (S (S n)))).
  simpl. now rewrite coord_eqb_refl.
Qed.

(** a degenerate outline (one point, repeated) maps to a single waypoint,
    the centre of the target box, without failing. *)
Theorem map_to_streets_degenerate p n tb :
  bbox_valid tb -> bbox_in_range tb ->
  exists c, map_to_streets (repeat p (S n)) tb = Some [c] /\ c =c= center tb.
Proof.
  intros Hv Hr. destruct (scale_to_bbox_repeat p n tb (1 # 10)) as (c & Hs & Hc).
  assert (Hcv : coord_valid c).
  { pose proof (in_range_valid tb _ Hr (center_in_bbox tb Hv)) as Hcc.
    destruct Hc as [H1 H2]. unfold coord_valid in *. rewrite H1, H2. exact Hcc. }
  exists c. split; [|exact Hc]. unfold map_to_streets. rewrite Hs, new_coords_valid
    by (apply Forall_forall; intros x Hx%repeat_spec; subst; exact Hcv).
  cbv zeta. rewrite densify_repeat by lra. f_equal. apply deduplicate_repeat. lra.
Qed.

Lemma map_to_streets_in_padded control_points tb pts :
  bbox_valid tb -> map_to_streets control_points tb = Some pts ->
  Forall (in_bbox (padded_box tb (1 # 10))) pts.
Proof.
  intros Hv E. unfold map_to_streets in E.
  destruct (scale_to_bbox _ _ _) as [scaled|] eqn:Es; [|discriminate]. injection E as <-.
  eapply subseq_Forall; [apply deduplicate_subseq|]. apply densify_in_bbox.
  apply (scale_to_bbox_within control_points tb (1 # 10)); [exact Hv|lra|exact Es].
Qed.

Lemma map_to_streets_None control_points tb :
  bbox_valid tb -> map_to_streets control_points tb = None -> ~ bbox_in_range tb.
Proof.
  intros Hv E. unfold map_to_streets in E.
  destruct (scale_to_bbox _ _ _) eqn:Es; [discriminate|]. apply (scale_to_bbox_None control_points tb (1 # 10)); [exact Hv|lra|exact Es].
Qed.

(** C9: every waypoint of [map_to_streets] lies inside the target box shrunk
    by the 10% padding; the mapping raises (pydantic's check of a scaled
    point) only when the box is out of the coordinate range. *)
Theorem map_to_streets_within control_points tb :
  bbox_valid tb ->
  match map_to_streets control_points tb with
  | Some pts => Forall (in_bbox (padded_box tb (1 # 10))) pts
  | None => ~ bbox_in_range tb
  end.
Proof.
  intros Hv. destruct (map_to_streets control_points tb) as [pts|] eqn:E;
    [exact (map_to_streets_in_padded _ _ _ Hv E)|exact (map_to_streets_None _ _ Hv E)].
Qed.

End StreetMapperFacts.

Section Homogeneous.
Context {G : Geodesy} {GL : GeodesyLaws}.

(** The segment-length guarantee of [densify] holds for a metric that
    scales linearly along a straight segment in degree space, as a planar
    metric does.  The haversine metric of the program does not (an
    east-west piece of a segment away from the equator is longer than its
    share), so this is not a guarantee of the program: its pieces can
    exceed [max_segment_m] (a finding). *)
Hypothesis dist_lerp : forall a b s t, 0 <= s -> s <= t -> t <= 1 ->
  haversine_distance_m (lerp a b s) (lerp a b t) == (t - s) * haversine_distance_m a b.

Lemma densify_segment_bounded m a b : 0 < m ->
  Forall (fun '(x, y) => haversine_distance_m x y <= m) (adjacent (a :: densify_segment m a b)).
Proof.
  intros Hm. unfold densify_segment.
  destruct (Qlt_boolP m (haversine_distance_m a b)) as [Hlt|Hle];
    [|simpl; repeat constructor; exact Hle].
  set (d := haversine_distance_m a b) in *. set (n := py_ceil (d / m)).
  assert (Hdn : d / m <= inject_Z n) by apply Qle_ceiling.
  assert (Hn2 : (2 <= n)%Z).
  { assert (1 < d / m) by (apply Qlt_shift_div_l; lra).
    assert (Hlt1 : inject_Z 1 < inject_Z n) by (change (inject_Z 1) with 1; lra).
    rewrite <- Zlt_Qlt in Hlt1. lia. }
  set (g := fun j : nat => lerp a b (inject_Z (Z.of_nat j) / inject_Z n)).
  assert (Heq : Forall2 coord_eq (a :: map g (seq 1 (Z.to_nat n - 1)) ++ [b])
                                 (map g (seq 0 (S (Z.to_nat n))))).
  { replace (S (Z.to_nat n)) with (S (S (Z.to_nat n - 1))) by lia.
    rewrite <- cons_seq, seq_S, map_cons, map_app. constructor.
    - unfold g, lerp, coord_eq; simpl. split; unfold Qdiv; ring.
    - apply Forall2_app; [apply Forall2_coord_refl|].
      constructor; [|constructor]. symmetry. apply lerp_frac_end; [|lia].
      replace (1 + (Z.to_nat n - 1))%nat with (Z.to_nat n) by lia. apply Z2Nat.id. lia. }
  apply (adjacent_Forall2 _ _ _ Heq). rewrite adjacent_map_seq.
  apply Forall_map, Forall_forall. intros j Hj%in_seq. unfold g.
  destruct (frac_step j n ltac:(lia)) as (H0 & H1 & H2 & H3).
  rewrite dist_lerp by assumption. fold d. rewrite H3.
  apply step_bound; auto; [apply dist_nonneg|lia].
Qed.

(** no segment of the densified polyline is longer than the bound. *)
Theorem densify_segments_bounded points m : 0 < m ->
  Forall (fun '(x, y) => haversine_distance_m x y <= m) (adjacent (densify points m)).
Proof.
  intros Hm. destruct (Nat.lt_ge_cases (length points) 2) as [Hl|Hl].
  - unfold densify. rewrite (proj2 (Nat.ltb_lt _ _) Hl).
    destruct points as [|a [|b r]]; simpl in *; [constructor|constructor|lia].
  - destruct (densify_unfold m points Hl) as (p0 & rest & -> & ->).
    apply densify_from_pairs. intros x y _. now apply densify_segment_bounded.
Qed.

End Homogeneous.

(** ** Concrete runs on the planar kernel *)

(** [deduplicate] appends the last input point even when it is closer
    than [min_distance_m] to the last kept point and no turn was tested
    there (it has no successor): the output's final pair is 5.55 m apart
    with a 12 m spacing. *)
Example deduplicate_last_pair_close :
  let A := mkCoord 0 0 in
  let B := mkCoord (1 # 1000) 0 in
  let C := mkCoord (1 # 1000) (5 # 100000) in
  deduplicate [A; B; C] 12 = [A; B; C] /\ haversine_distance_m B C < 12.
Proof. split; vm_compute; reflexivity. Qed.

(** ** Witnesses on the planar kernel *)

Lemma map_to_streets_within_witness :
  bbox_valid (mkBBox 0 0 (1 # 100) (1 # 100)) /\
  match map_to_streets [mkCoord 0 0; mkCoord 1 0; mkCoord 1 1] (mkBBox 0 0 (1 # 100) (1 # 100)) with
  | Some pts => Forall (in_bbox (padded_box (mkBBox 0 0 (1 # 100) (1 # 100)) (1 # 10))) pts
  | None => ~ bbox_in_range (mkBBox 0 0 (1 # 100) (1 # 100))
  end.
Proof.
  split; [split; reflexivity|].
  apply map_to_streets_within. split; reflexivity.
Defined.


Lemma map_to_streets_degenerate_witness :
  bbox_valid (mkBBox 0 0 1 1) /\ bbox_in_range (mkBBox 0 0 1 1) /\
  exists c, map_to_streets (repeat (mkCoord 3 4) 3) (mkBBox 0 0 1 1) = Some [c] /\
            c =c= center (mkBBox 0 0 1 1).
Proof.
  assert (Hv : bbox_valid (mkBBox 0 0 1 1)) by (split; reflexivity).
  assert (Hr : bbox_in_range (mkBBox 0 0 1 1)) by (unfold bbox_in_range, coord_valid; cbn; lra).
  split; [exact Hv|split; [exact Hr|exact (map_to_streets_degenerate (mkCoord 3 4) 2 _ Hv Hr)]].
Defined.

Lemma densify_segments_bounded_witness :
  (forall a b s t, 0 <= s -> s <= t -> t <= 1 ->
     haversine_distance_m (lerp a b s) (lerp a b t) == (t - s) * haversine_distance_m a b) /\
  0 < 80 /\
  Forall (fun '(x, y) => haversine_distance_m x y <= 80)
    (adjacent (densify [mkCoord 0 0; mkCoord (1 # 100) 0] 80)).
Proof.
  split; [exact planar_dist_lerp|split; [reflexivity|]].
  apply densify_segments_bounded; [exact planar_dist_lerp|reflexivity].
Defined.
