(* ===== verification/Resample.v ===== *)
(** * Resample: arc-length resampling of a polyline

    Models [_resample_curve] of src/backend/services/shape_validator.py
    (lines 102-133).  The cumulative arc lengths [cumlen] are carried by the
    segment list: [segments] holds, for each [i >= 1],
    [(cumlen[i-1], cumlen[i], points[i-1], points[i])], which is what the
    inner search loop reads.  The theorems: every point of the result is
    an input point or lies on an input segment; and, in exact arithmetic,
    the result has exactly [n] points (for at least two input points and
    [n >= 2]).  The count is a fact of the rational model only: in IEEE
    doubles [(total * k) / (n - 1)] for [k = n - 1] can exceed
    [cumlen[-1]] (for about 8% of totals with [n = 50]), no segment is found for the
    last sample and [n - 1] points are returned (a finding). *)

From Stdlib Require Import QArith Qabs Lqa List Lia ZArith Morphisms Setoid.
From S2P Require Import Prelude Geodesy.
Import ListNotations.
Open Scope Q_scope.
Open Scope geo_scope.

Section Resample.
Context {G : Geodesy}.

(** A segment as the search loop sees it. *)
Definition segment : Type := (Q * Q * Coordinate * Coordinate)%type.

Definition seg_end (s : segment) : Q := let '(_, c1, _, _) := s in c1.

(** The loop of lines 109-111 building [cumlen], paired with the points. *)
Fixpoint segments_from (acc : Q) (prev : Coordinate) (rest : list Coordinate)
    : list segment :=
  match rest with
  | [] => []
  | p :: rest' =>
      let c := acc + haversine_distance_m prev p in
      (acc, c, prev, p) :: segments_from c p rest'
  end.

Definition segments (points : list Coordinate) : list segment :=
  match points with
  | [] => []
  | p0 :: rest => segments_from 0 p0 rest
  end.

(** [cumlen] and [total = cumlen[-1]]. *)
Definition cumlen (points : list Coordinate) : list Q :=
  0 :: map seg_end (segments points).

Definition total_length (points : list Coordinate) : Q := last (cumlen points) 0.

(** The search of lines 119-132: the first segment with
    [cumlen[i] >= target_len], interpolated at the fraction of
    [target_len] inside it; [None] when the loop ends without [break].
    The fraction lies in [[0, 1]] (the earlier segments end before
    [target_len]), so pydantic's check of the interpolated [Coordinate]
    passes for checked end points ([Geodesy.lerp_valid]). *)
Fixpoint find_segment (target_len : Q) (segs : list segment) : option Coordinate :=
  match segs with
  | [] => None
  | (c0, c1, a, b) :: segs' =>
      if target_len <=? c1 then
        let seg_len := c1 - c0 in
        let frac := if seg_len =? 0 then 0 else (target_len - c0) / seg_len in
        Some (lerp a b frac)
      else find_segment target_len segs'
  end.

(** [_resample_curve(points, n)]. *)
Definition _resample_curve (points : list Coordinate) (n : nat) : list Coordinate :=
  if Nat.ltb (length points) 2 || Nat.ltb n 2 then
    (if Nat.leb n (length points) then firstn n points else points)
  else
    let total := total_length points in
    if total =? 0 then repeat (hd (mkCoord 0 0) points) n
    else
      flat_map (fun k =>
          let target_len := total * inject_Z (Z.of_nat k) / inject_Z (Z.of_nat (n - 1)) in
          match find_segment target_len (segments points) with
          | Some c => [c]
          | None => []
          end) (seq 0 n).

End Resample.

(** * Properties *)

Section ResampleFacts.
Context {G : Geodesy} {GL : GeodesyLaws}.

Lemma segments_from_ends acc prev rest :
  rest <> [] -> last (acc :: map seg_end (segments_from acc prev rest)) acc =
                last (map seg_end (segments_from acc prev rest)) acc.
Proof.
  destruct rest as [|p rest]; [easy|]. intros _. reflexivity.
Qed.

(** The search fails only when the target lies beyond the last cumulative
    length. *)
Lemma find_segment_None t acc prev rest :
  rest <> [] -> find_segment t (segments_from acc prev rest) = None ->
  last (map seg_end (segments_from acc prev rest)) acc < t.
Proof.
  revert acc prev. induction rest as [|p rest IH]; intros acc prev Hne Hf; [easy|].
  cbn [segments_from find_segment] in Hf |- *.
  destruct (Qle_boolP t (acc + haversine_distance_m prev p)) as [Hle|Hlt]; [discriminate|].
  destruct rest as [|q rest']; [exact Hlt|].
  specialize (IH _ _ ltac:(discriminate) Hf). cbn [segments_from map] in IH |- *.
  rewrite last_cons_cons, (last_cons_default _ _ _ (acc + haversine_distance_m prev p)).
  exact IH.
Qed.

(** The cumulative lengths grow from [acc]. *)
Lemma segments_from_mono acc prev rest :
  Forall (fun s => let '(c0, c1, _, _) := s in acc <= c0 <= c1) (segments_from acc prev rest).
Proof.
  revert acc prev. induction rest as [|p rest IH]; intros acc prev; cbn [segments_from]; [constructor|].
  pose proof (dist_nonneg prev p). constructor; [lra|].
  eapply Forall_impl; [|apply IH]. intros [[[c0 c1] a] b]. lra.
Qed.

(** A found point interpolates a segment of the input at a fraction in
    [[0, 1]]. *)
Lemma find_segment_on_segment t acc prev rest q :
  acc <= t -> find_segment t (segments_from acc prev rest) = Some q ->
  exists a b f, In (a, b) (adjacent (prev :: rest)) /\ 0 <= f <= 1 /\ q = lerp a b f.
Proof.
  revert acc prev. induction rest as [|p rest IH]; intros acc prev Hacc Hf; [discriminate|].
  cbn [segments_from find_segment] in Hf.
  pose proof (dist_nonneg prev p) as Hd.
  destruct (Qle_boolP t (acc + haversine_distance_m prev p)) as [Hle|Hlt].
  - injection Hf as <-. eexists prev, p, _. split; [left; reflexivity|]. split; [|reflexivity].
    destruct (Qeq_boolP (acc + haversine_distance_m prev p - acc) 0) as [H0|H0]; [lra|].
    apply frac_unit; [lra|lra|]. destruct (Qlt_le_dec 0 (acc + haversine_distance_m prev p - acc));
      [assumption|exfalso; apply H0; lra].
  - destruct (IH (acc + haversine_distance_m prev p) p (Qlt_le_weak _ _ Hlt) Hf) as (a & b & f & Hin & Hf01 & ->).
    exists a, b, f. split; [|auto]. simpl. destruct rest; [destruct Hin|right; exact Hin].
Qed.

Lemma seg_ends_ge acc prev rest x :
  In x (map seg_end (segments_from acc prev rest)) -> acc <= x.
Proof.
  intros (s & <- & Hs)%in_map_iff. pose proof (segments_from_mono acc prev rest) as Hm.
  rewrite Forall_forall in Hm. specialize (Hm s Hs). destruct s as [[[c0 c1] a] b]. simpl. lra.
Qed.

Lemma total_length_nonneg points : 0 <= total_length points.
Proof.
  unfold total_length, cumlen, segments. destruct points as [|p0 rest]; [simpl; lra|].
  destruct (last_In_or (0 :: map seg_end (segments_from 0 p0 rest)) 0) as [->|[H|H]]; try lra.
  - rewrite <- H. lra.
  - now apply (seg_ends_ge 0 p0 rest).
Qed.

(** Every target length between [0] and [total] is found. *)
Lemma find_segment_Some t p0 rest :
  rest <> [] -> t <= total_length (p0 :: rest) ->
  exists q, find_segment t (segments (p0 :: rest)) = Some q.
Proof.
  intros Hne Ht. destruct (find_segment t (segments (p0 :: rest))) as [q|] eqn:E; [eauto|].
  apply find_segment_None in E; [|exact Hne]. exfalso.
  unfold total_length, cumlen, segments in Ht. rewrite segments_from_ends in Ht by exact Hne.
  lra.
Qed.

Lemma target_len_bounds total (k n : nat) :
  0 <= total -> (k <= n - 1)%nat -> (2 <= n)%nat ->
  0 <= total * inject_Z (Z.of_nat k) / inject_Z (Z.of_nat (n - 1)) <= total.
Proof.
  intros Ht Hk Hn.
  destruct (frac_in_unit k (Z.of_nat (n - 1)) ltac:(lia) ltac:(lia)) as [H0 H1].
  setoid_replace (total * inject_Z (Z.of_nat k) / inject_Z (Z.of_nat (n - 1)))
    with (total * (inject_Z (Z.of_nat k) / inject_Z (Z.of_nat (n - 1)))) by (unfold Qdiv; ring).
  split; [apply Qmult_le_0_compat; lra|].
  assert (0 <= total * (1 - inject_Z (Z.of_nat k) / inject_Z (Z.of_nat (n - 1))))
    by (apply Qmult_le_0_compat; lra).
  lra.
Qed.

(** For at least two input points and [n >= 2], [_resample_curve]
    returns exactly [n] points. *)
Theorem resample_length points n :
  (2 <= length points)%nat -> (2 <= n)%nat -> length (_resample_curve points n) = n.
Proof.
  intros Hl Hn. unfold _resample_curve.
  destruct (Nat.ltb_spec (length points) 2); [lia|]. destruct (Nat.ltb_spec n 2); [lia|].
  simpl orb. cbv zeta.
  destruct (Qeq_boolP (total_length points) 0); [apply repeat_length|].
  destruct points as [|p0 rest]; [simpl in Hl; lia|].
  assert (Hne : rest <> []) by (destruct rest; [simpl in Hl; lia|discriminate]).
  rewrite length_flat_map_single, length_seq; [reflexivity|].
  intros k Hk%in_seq.
  destruct (find_segment_Some (total_length (p0 :: rest) * inject_Z (Z.of_nat k)
                               / inject_Z (Z.of_nat (n - 1))) p0 rest Hne) as [q ->].
  - apply target_len_bounds; [apply total_length_nonneg|lia|lia].
  - reflexivity.
Qed.

(** In exact arithmetic, for at least two input points and [n >= 2],
    [_resample_curve] returns exactly [n] points, and the first one is the
    first input point (with doubles the last sample can be lost). *)
Theorem resample_length_first points n :
  (2 <= length points)%nat -> (2 <= n)%nat ->
  length (_resample_curve points n) = n /\
  exists c rest, _resample_curve points n = c :: rest /\ c =c= hd (mkCoord 0 0) points.
Proof.
  intros Hl Hn. split; [now apply resample_length|].
  unfold _resample_curve.
  destruct (Nat.ltb_spec (length points) 2); [lia|]. destruct (Nat.ltb_spec n 2); [lia|].
  simpl orb. cbv zeta. destruct n as [|n']; [lia|].
  destruct (Qeq_boolP (total_length points) 0).
  - cbn [repeat]. eexists _, _. split; reflexivity.
  - destruct points as [|p0 [|r0 rest]]; cbn [length] in Hl; try lia.
    cbn [seq flat_map segments segments_from find_segment].
    match goal with |- context [find_segment ?t0 _] => set (t := t0) end.
    assert (Ht : t == 0) by (unfold t; cbn [Z.of_nat inject_Z]; unfold Qdiv; ring).
    pose proof (dist_nonneg p0 r0) as Hd.
    destruct (Qle_boolP t (0 + haversine_distance_m p0 r0)) as [_|Hlt]; [|exfalso; lra].
    eexists _, _. split; [reflexivity|]. cbn [hd].
    match goal with |- lerp _ _ ?f0 =c= _ => assert (Hf : f0 == 0) end.
    { match goal with |- (if ?c =? 0 then _ else _) == _ => destruct (Qeq_boolP c 0) end;
        [reflexivity|]. rewrite Ht. unfold Qdiv. ring. }
    rewrite Hf. apply lerp_0.
Qed.

(** C14: every point of [_resample_curve points n] is an input point or lies
    on a segment of the input, at a fraction in [[0, 1]]. *)
Theorem resample_on_polyline points n q :
  In q (_resample_curve points n) ->
  In q points \/
  exists a b f, In (a, b) (adjacent points) /\ 0 <= f <= 1 /\ q = lerp a b f.
Proof.
  unfold _resample_curve. intros Hq.
  destruct (Nat.ltb (length points) 2 || Nat.ltb n 2) eqn:Hb.
  - left. destruct (Nat.leb n (length points)); [eapply In_firstn; eauto|exact Hq].
  - apply orb_false_iff in Hb as [H1 H2].
    apply Nat.ltb_ge in H1, H2. cbv zeta in Hq.
    destruct points as [|p0 rest]; [simpl in H1; lia|].
    destruct (Qeq_boolP (total_length (p0 :: rest)) 0).
    + left. apply repeat_spec in Hq. subst q. left. reflexivity.
    + right. apply in_flat_map in Hq as (k & Hk%in_seq & Hq).
      destruct (find_segment _ _) as [c|] eqn:E; [|destruct Hq].
      destruct Hq as [<-|[]]. eapply find_segment_on_segment; [|exact E].
      apply target_len_bounds; [apply total_length_nonneg|lia|lia].
Qed.

End ResampleFacts.

(** ** Witnesses on the planar kernel *)

Lemma resample_length_first_witness :
  let pts := [mkCoord 0 0; mkCoord (1 # 1000) 0; mkCoord (1 # 1000) (1 # 1000)] in
  (2 <= length pts)%nat /\ (2 <= 5)%nat /\
  (length (_resample_curve pts 5) = 5%nat /\
   exists c rest, _resample_curve pts 5 = c :: rest /\ c =c= hd (mkCoord 0 0) pts).
Proof.
  cbv zeta. split; [cbn; lia|split; [lia|]].
  apply resample_length_first; cbn; lia.
Defined.

Lemma resample_on_polyline_witness :
  let pts := [mkCoord 0 0; mkCoord (1 # 1000) 0; mkCoord (1 # 1000) (1 # 1000)] in
  let q := nth 2 (_resample_curve pts 5) (mkCoord 0 0) in
  In q (_resample_curve pts 5) /\
  (In q pts \/ exists a b f, In (a, b) (adjacent pts) /\ 0 <= f <= 1 /\ q = lerp a b f).
Proof.
  cbv zeta.
  assert (Hq : In (nth 2 (_resample_curve [mkCoord 0 0; mkCoord (1 # 1000) 0;
                                          mkCoord (1 # 1000) (1 # 1000)] 5) (mkCoord 0 0))
                  (_resample_curve [mkCoord 0 0; mkCoord (1 # 1000) 0;
                                    mkCoord (1 # 1000) (1 # 1000)] 5))
    by (apply nth_In; vm_compute; lia).
  split; [exact Hq|]. exact (resample_on_polyline _ 5 _ Hq).
Defined.
