(* ===== verification/Metrics.v ===== *)
(** * Metrics: the distance metrics of the shape scorer

    Models the metric helpers of src/backend/services/shape_validator.py:
    [hausdorff_distance] (lines 65-79), [_modified_hausdorff_distance]
    (lines 82-99) with numpy's default ("linear") [np.percentile],
    [_compute_diameter] (lines 193-226) and [_ordered_sampling_score]
    (lines 136-162).  Python's [min()] of an empty sequence raises
    [ValueError]; those errors are the [None] results.  The seeded sampler
    [random.Random(42).sample] is the interface [SampleRng]: the diameter
    threads its state through the loop exactly as the code does. *)

From Stdlib Require Import QArith Qround Qabs Lqa List Lia ZArith Morphisms Setoid Permutation.
From S2P Require Import Prelude Geodesy Resample.
Import ListNotations.
Open Scope Q_scope.
Open Scope geo_scope.

(** ** The seeded sampler *)

(** [random.Random(seed)] and [rng.sample(range(n), k)]: [k] indices
    below [n], and the generator's next state. *)
Class SampleRng := {
  rng_state : Type;
  rng_seed : Z -> rng_state;
  rng_sample : rng_state -> nat -> nat -> list nat * rng_state
}.

Class SampleRngLaws `{SampleRng} := {
  sample_bound : forall st n k j, In j (fst (rng_sample st n k)) -> (j < n)%nat
}.

Section Metrics.
Context {G : Geodesy} {R : SampleRng}.

(** ** Percentile *)

(** [np.percentile(xs, p)] with the linear method: sort, take the virtual
    index [p / 100 * (n - 1)], interpolate between its floor and the next
    index (clipped to the last).  numpy fails on an empty array. *)
Definition np_percentile (xs : list Q) (p : Q) : option Q :=
  match xs with
  | [] => None
  | _ =>
      let sorted := isort_by Qle_bool xs in
      let n := length xs in
      let idx := p / 100 * inject_Z (Z.of_nat (n - 1)) in
      let lo := Z.to_nat (Qfloor idx) in
      let hi := Nat.min (S lo) (n - 1) in
      let gamma := idx - inject_Z (Qfloor idx) in
      let v_lo := nth lo sorted 0 in
      let v_hi := nth hi sorted 0 in
      Some (v_lo + (v_hi - v_lo) * gamma)
  end.

(** ** Directed distances *)

(** [min(haversine_distance_m(s, t) for t in tgt)]. *)
Definition nearest_distance (s : Coordinate) (tgt : list Coordinate) : option Q :=
  list_min (map (haversine_distance_m s) tgt).

(** [directed_distances(src, tgt)] of [_modified_hausdorff_distance]. *)
Definition directed_distances (src tgt : list Coordinate) : option (list Q) :=
  traverse_opt (fun s => nearest_distance s tgt) src.

Definition _modified_hausdorff_distance (points_a points_b : list Coordinate)
    (percentile : Q) : option Q :=
  match directed_distances points_a points_b, directed_distances points_b points_a with
  | Some d_ab, Some d_ba => np_percentile (d_ab ++ d_ba) percentile
  | _, _ => None
  end.

(** [directed_hd(src, tgt)] of [hausdorff_distance]: a running maximum from
    [0.0] of the nearest distances. *)
Definition directed_hd (src tgt : list Coordinate) : option Q :=
  match directed_distances src tgt with
  | Some ds => Some (fold_left py_max ds 0)
  | None => None
  end.

Definition hausdorff_distance (points_a points_b : list Coordinate) : option Q :=
  match directed_hd points_a points_b, directed_hd points_b points_a with
  | Some x, Some y => Some (py_max x y)
  | _, _ => None
  end.

(** ** Diameter *)

(** The exhaustive loop (lines 208-212): [i] ranges over the points, [j]
    over the points after it, and [max_dist] is raised whenever [d] is
    larger. *)
Fixpoint all_pairs_max (max_dist : Q) (points : list Coordinate) : Q :=
  match points with
  | [] => max_dist
  | p :: rest =>
      all_pairs_max
        (fold_left (fun m q => py_max m (haversine_distance_m p q)) rest max_dist) rest
  end.

(** One [i] of the sampled loop (lines 218-223): draw 50 indices, compare
    [points[i]] with each [points[j]], [j <> i]. *)
Definition sampled_step (points : list Coordinate) (n : nat)
    (acc : Q * rng_state) (i : nat) : Q * rng_state :=
  let '(max_dist, st) := acc in
  let '(samples, st') := rng_sample st n (Nat.min 50 n) in
  let p := nth i points (mkCoord 0 0) in
  (fold_left (fun m j =>
       if Nat.eqb i j then m
       else py_max m (haversine_distance_m p (nth j points (mkCoord 0 0)))) samples max_dist,
   st').

Definition _compute_diameter (points : list Coordinate) : Q :=
  let n := length points in
  if Nat.ltb n 2 then 0
  else if Nat.leb n 60 then all_pairs_max 0 points
  else fst (fold_left (sampled_step points n) (seq 0 n) (0, rng_seed 42)).

(** ** Ordered sampling *)

(** The mean distance between index-paired resampled points (lines
    147-154); [None] when a resampled curve is empty. *)
Definition ordered_mean_distance (target actual : list Coordinate) (n_samples : nat)
    : option Q :=
  let t_resampled := _resample_curve target n_samples in
  let a_resampled := _resample_curve actual n_samples in
  match t_resampled, a_resampled with
  | [], _ | _, [] => None
  | _, _ =>
      let dists := map (fun '(t, a) => haversine_distance_m t a)
                       (combine t_resampled a_resampled) in
      Some (py_sum dists / inject_Z (Z.of_nat (length dists)))
  end.

(** [(1 - min(x / diameter, 1)) * 100]: a divergence turned into a score
    (the [mhd_score] of lines 352-353 and the ordered-sampling score before
    rounding). *)
Definition unit_score (x diameter : Q) : Q := (1 - py_min (x / diameter) 1) * 100.

(** [round(...)] of it (line 162). *)
Definition divergence_score (x diameter : Q) : Z := py_round (unit_score x diameter).

Definition _ordered_sampling_score (target actual : list Coordinate) (n_samples : nat) : Q :=
  match ordered_mean_distance target actual n_samples with
  | None => 0
  | Some mean_dist =>
      let diameter := _compute_diameter target in
      if diameter =? 0 then 0
      else inject_Z (divergence_score mean_dist diameter)
  end.

End Metrics.

(** A deterministic sampler for running the model: the state is a counter
    and [sample(range(n), k)] takes [k] consecutive indices modulo [n]. *)
#[export] Instance counter_rng : SampleRng := {|
  rng_state := nat;
  rng_seed z := Z.to_nat z;
  rng_sample st n k :=
    (if Nat.eqb n 0 then [] else map (fun i => Nat.modulo (st + i) n) (seq 0 k), (st + k)%nat)
|}.

(** * Properties *)

Section MetricsFacts.
Context {G : Geodesy} {GL : GeodesyLaws} {R : SampleRng}.

(** ** Percentile *)

Lemma nth_bounded (l : list Q) k lo hi :
  Forall (fun x => lo <= x <= hi) l -> (k < length l)%nat -> lo <= nth k l 0 <= hi.
Proof.
  intros Hall Hk. rewrite Forall_forall in Hall. apply Hall, nth_In, Hk.
Qed.

Lemma floor_frac_unit x : 0 <= x - inject_Z (Qfloor x) <= 1.
Proof.
  pose proof (Qfloor_le x). pose proof (Qlt_floor x).
  rewrite inject_Z_plus in *. change (inject_Z 1) with 1 in *. split; lra.
Qed.

(** numpy's linear percentile (for [0 <= p <= 100]) lies between any
    bounds of the values; in particular it is at least their minimum and at
    most their maximum. *)
Theorem np_percentile_between xs p v lo hi :
  0 <= p <= 100 -> Forall (fun x => lo <= x <= hi) xs -> np_percentile xs p = Some v ->
  lo <= v <= hi.
Proof.
  intros Hp Hall Hv. unfold np_percentile in Hv.
  destruct xs as [|x0 xs']; [discriminate|]. injection Hv as <-.
  set (xs := x0 :: xs') in *.
  set (sorted := isort_by Qle_bool xs). set (n := length xs).
  assert (Hperm : Permutation xs sorted) by apply isort_by_perm.
  assert (Hs : Forall (fun x => lo <= x <= hi) sorted) by (eapply Permutation_Forall; eauto).
  assert (Hlen : length sorted = n) by (symmetry; apply Permutation_length; exact Hperm).
  assert (Hn : (1 <= n)%nat) by (unfold n, xs; simpl; lia).
  set (N := inject_Z (Z.of_nat (n - 1))).
  assert (HN : 0 <= N) by (unfold N; change 0 with (inject_Z 0); rewrite <- Zle_Qle; lia).
  set (idx := p / 100 * N).
  assert (Hidx : 0 <= idx <= N).
  { unfold idx. assert (0 <= p / 100 <= 1) by (split; qlra).
    split; [apply Qmult_le_0_compat; lra|].
    assert (0 <= (1 - p / 100) * N) by (apply Qmult_le_0_compat; lra). lra. }
  pose proof (Qfloor_le idx) as Hf1. pose proof (floor_frac_unit idx) as Hg.
  assert (Hf0 : (0 <= Qfloor idx)%Z) by (apply Qfloor_ge_Z; exact (proj1 Hidx)).
  assert (HfN : (Qfloor idx <= Z.of_nat (n - 1))%Z) by (rewrite Zle_Qle; fold N; lra).
  pose proof (nth_bounded sorted (Z.to_nat (Qfloor idx)) lo hi Hs ltac:(lia)).
  pose proof (nth_bounded sorted (Nat.min (S (Z.to_nat (Qfloor idx))) (n - 1)) lo hi Hs ltac:(lia)).
  apply convex_bound; auto.
Qed.

Lemma np_percentile_ge xs p v lo :
  0 <= p <= 100 -> Forall (fun x => lo <= x) xs -> np_percentile xs p = Some v -> lo <= v.
Proof.
  intros Hp Hall Hv.
  destruct (list_max_Some xs) as [M HM]; [destruct xs; [inversion Hv|discriminate]|].
  assert (Hb : Forall (fun x => lo <= x <= M) xs).
  { rewrite Forall_forall in *. intros x Hx. split; [now apply Hall|].
    eapply list_max_spec; eauto. }
  exact (proj1 (np_percentile_between xs p v lo M Hp Hb Hv)).
Qed.

(** ** Directed and modified Hausdorff distances *)

(** What a directed distance is: the nearest distance of some source point,
    a lower bound of its distances to the target that is the greatest such. *)
Definition is_nearest (src tgt : list Coordinate) (d : Q) : Prop :=
  exists s, In s src /\ (forall t, In t tgt -> d <= haversine_distance_m s t) /\
            (forall c, (forall t, In t tgt -> c <= haversine_distance_m s t) -> c <= d).

Lemma traverse_opt_Forall {A B} (f : A -> option B) (P : A -> B -> Prop) xs ys :
  (forall x y, In x xs -> f x = Some y -> P x y) -> traverse_opt f xs = Some ys ->
  Forall (fun y => exists x, In x xs /\ P x y) ys.
Proof.
  revert ys. induction xs as [|x xs IH]; intros ys Hf Ht; simpl in Ht.
  - injection Ht as <-. constructor.
  - destruct (f x) as [y|] eqn:Ex; [|discriminate].
    destruct (traverse_opt f xs) as [ys'|] eqn:Exs; [|discriminate]. injection Ht as <-.
    constructor.
    + exists x. split; [left; reflexivity|]. apply Hf; [left; reflexivity|exact Ex].
    + eapply Forall_impl; [|apply IH; [|reflexivity]].
      * intros y' (x' & Hx' & Hp). exists x'. split; [right; exact Hx'|exact Hp].
      * intros x' y' Hx'. apply Hf. right. exact Hx'.
Qed.

Lemma traverse_opt_Some {A B} (f : A -> option B) xs :
  (forall x, In x xs -> exists y, f x = Some y) ->
  exists ys, traverse_opt f xs = Some ys /\ length ys = length xs.
Proof.
  induction xs as [|x xs IH]; intros Hf; [exists []; split; reflexivity|].
  destruct (Hf x (or_introl eq_refl)) as [y Hy].
  destruct IH as (ys & Hys & Hl); [intros x' Hx'; apply Hf; right; exact Hx'|].
  exists (y :: ys). simpl. rewrite Hy, Hys. split; [reflexivity|simpl; congruence].
Qed.

Lemma directed_distances_spec src tgt ds :
  directed_distances src tgt = Some ds -> Forall (is_nearest src tgt) ds.
Proof.
  intros H. eapply Forall_impl; [|eapply traverse_opt_Forall; [|exact H]].
  - intros d (s & Hs & Hp). exact (ex_intro _ s (conj Hs Hp)).
  - intros s d _ Hd. unfold nearest_distance in Hd. split.
    + intros t Ht. eapply list_min_spec; [exact Hd|]. apply in_map, Ht.
    + intros c Hc. eapply list_min_glb; [exact Hd|].
      intros y (t & <- & Ht)%in_map_iff. now apply Hc.
Qed.

Lemma directed_distances_Some src tgt :
  tgt <> [] -> exists ds, directed_distances src tgt = Some ds /\ length ds = length src.
Proof.
  intros Ht. apply traverse_opt_Some. intros s _. unfold nearest_distance.
  apply list_min_Some. destruct tgt; [easy|discriminate].
Qed.

(** The modified Hausdorff distance exists for two non-empty point sets. *)
Lemma mhd_Some a b p :
  a <> [] -> b <> [] -> exists v, _modified_hausdorff_distance a b p = Some v.
Proof.
  intros Ha Hb. unfold _modified_hausdorff_distance.
  destruct (directed_distances_Some a b Hb) as (d1 & -> & H1).
  destruct (directed_distances_Some b a Ha) as (d2 & -> & H2).
  unfold np_percentile. destruct (d1 ++ d2) eqn:E; [|eauto].
  apply (f_equal (@length Q)) in E. rewrite length_app in E. simpl in E.
  destruct a; [easy|simpl in H1; lia].
Qed.

(** Each directed distance is at least any common lower bound of the
    distances, and at most the distance to any target point. *)
Lemma directed_distances_bounds src tgt ds lo :
  directed_distances src tgt = Some ds ->
  (forall s t, In s src -> In t tgt -> lo <= haversine_distance_m s t) ->
  Forall (fun d => lo <= d /\ exists s, In s src /\ forall t, In t tgt -> d <= haversine_distance_m s t) ds.
Proof.
  intros H Hlo. eapply Forall_impl; [|exact (directed_distances_spec _ _ _ H)].
  intros d (s & Hs & Hle & Hglb). split; [|eauto].
  apply Hglb. intros t Ht. now apply Hlo.
Qed.

(** The modified Hausdorff distance of a point set to itself is zero. *)
Theorem mhd_self a p v :
  0 <= p <= 100 -> _modified_hausdorff_distance a a p = Some v -> v == 0.
Proof.
  intros Hp Hv. unfold _modified_hausdorff_distance in Hv.
  destruct (directed_distances a a) as [d|] eqn:Hd; [|discriminate].
  assert (Hb : Forall (fun x => 0 <= x <= 0) (d ++ d)).
  { pose proof (directed_distances_bounds a a d 0 Hd (fun s t _ _ => dist_nonneg s t)) as Hall.
    apply Forall_app. split; (eapply Forall_impl; [|exact Hall]);
      intros x [H0 (s & Hs & Hle)]; specialize (Hle s Hs); rewrite dist_self in Hle; lra. }
  pose proof (np_percentile_between _ _ _ _ _ Hp Hb Hv). lra.
Qed.

(** When every distance between a point of [a] and a point of [b] is
    at least [D], so is their modified Hausdorff distance. *)
Theorem mhd_far a b p v D :
  0 <= p <= 100 -> (forall s t, In s a -> In t b -> D <= haversine_distance_m s t) ->
  _modified_hausdorff_distance a b p = Some v -> D <= v.
Proof.
  intros Hp Hfar Hv. unfold _modified_hausdorff_distance in Hv.
  destruct (directed_distances a b) as [d1|] eqn:H1; [|discriminate].
  destruct (directed_distances b a) as [d2|] eqn:H2; [|discriminate].
  eapply np_percentile_ge; [exact Hp| |exact Hv]. apply Forall_app. split.
  - eapply Forall_impl; [|exact (directed_distances_bounds _ _ _ D H1 Hfar)]. tauto.
  - eapply Forall_impl; [|apply (directed_distances_bounds _ _ _ D H2)]; [tauto|].
    intros t s Ht Hs. rewrite dist_sym. now apply Hfar.
Qed.

(** The pooled distances are non-negative, hence so is the modified
    Hausdorff distance. *)
Lemma mhd_nonneg a b p v :
  0 <= p <= 100 -> _modified_hausdorff_distance a b p = Some v -> 0 <= v.
Proof.
  intros Hp Hv. eapply mhd_far; [exact Hp| |exact Hv]. intros. apply dist_nonneg.
Qed.

(** ** Diameter *)

Lemma all_pairs_max_ge_init m pts : m <= all_pairs_max m pts.
Proof.
  revert m. induction pts as [|p pts IH]; intros m; simpl; [lra|].
  eapply Qle_trans; [apply (fold_max_f_ge_init (haversine_distance_m p))|apply IH].
Qed.

(** Each pair [(p, q)] with [q] after [p] is compared. *)
Lemma all_pairs_max_pair m l1 p l2 q :
  In q l2 -> haversine_distance_m p q <= all_pairs_max m (l1 ++ p :: l2).
Proof.
  revert m. induction l1 as [|x l1 IH]; intros m Hq; simpl.
  - eapply Qle_trans; [apply (fold_max_f_ge (haversine_distance_m p) l2 m q Hq)|].
    apply all_pairs_max_ge_init.
  - apply IH, Hq.
Qed.

Lemma all_pairs_max_lub m pts c :
  m <= c -> (forall p q, In p pts -> In q pts -> haversine_distance_m p q <= c) ->
  all_pairs_max m pts <= c.
Proof.
  revert m. induction pts as [|p pts IH]; intros m Hm Hall; simpl; [exact Hm|].
  apply IH.
  - apply fold_max_f_lub; [exact Hm|]. intros q Hq. apply Hall; simpl; auto.
  - intros a b Ha Hb. apply Hall; simpl; auto.
Qed.

Lemma skipn_nth_cons {A} (l : list A) i d :
  (i < length l)%nat -> skipn i l = nth i l d :: skipn (S i) l.
Proof.
  revert i. induction l as [|x l IH]; intros i Hi; simpl in Hi; [lia|].
  destruct i as [|i]; [reflexivity|]. simpl. apply IH. lia.
Qed.

(** Any two distinct indices of the list are a compared pair. *)
Lemma all_pairs_max_nth m pts i j d :
  (i < length pts)%nat -> (j < length pts)%nat -> i <> j ->
  haversine_distance_m (nth i pts d) (nth j pts d) <= all_pairs_max m pts.
Proof.
  intros Hi Hj Hij.
  assert (Hgen : forall a b, (a < b)%nat -> (b < length pts)%nat ->
            haversine_distance_m (nth a pts d) (nth b pts d) <= all_pairs_max m pts).
  { intros a b Hab Hb.
    assert (E : firstn a pts ++ nth a pts d :: skipn (S a) pts = pts)
      by (rewrite <- (skipn_nth_cons pts a d) by lia; apply firstn_skipn).
    enough (Hx : haversine_distance_m (nth a pts d) (nth b pts d)
                 <= all_pairs_max m (firstn a pts ++ nth a pts d :: skipn (S a) pts))
      by (rewrite E in Hx; exact Hx).
    apply all_pairs_max_pair. replace b with (S a + (b - S a))%nat by lia.
    rewrite <- nth_skipn. apply nth_In. rewrite length_skipn. lia. }
  destruct (Nat.lt_total i j) as [Hlt|[Heq|Hgt]]; [|lia|].
  - now apply Hgen.
  - rewrite dist_sym. now apply Hgen.
Qed.

(** The sampled loop only raises its maximum to distances of distinct
    points of the list. *)
Lemma sampled_fold_bounds pts (i : nat) samples m c :
  (i < length pts)%nat -> (forall j, In j samples -> (j < length pts)%nat) ->
  m <= c -> (forall a b, (a < length pts)%nat -> (b < length pts)%nat -> a <> b ->
    haversine_distance_m (nth a pts (mkCoord 0 0)) (nth b pts (mkCoord 0 0)) <= c) ->
  m <= fold_left (fun m j => if Nat.eqb i j then m
       else py_max m (haversine_distance_m (nth i pts (mkCoord 0 0)) (nth j pts (mkCoord 0 0))))
     samples m <= c.
Proof.
  intros Hi Hs. revert m. induction samples as [|j samples IH]; intros m Hm Hc; simpl; [lra|].
  destruct (Nat.eqb_spec i j) as [->|Hne].
  - apply IH; auto with datatypes.
  - assert (Hd := Hc i j Hi (Hs j (or_introl eq_refl)) Hne).
    destruct (IH (fun j' Hj' => Hs j' (or_intror Hj'))
                 (py_max m (haversine_distance_m (nth i pts (mkCoord 0 0)) (nth j pts (mkCoord 0 0)))))
      as [H1 H2]; auto with datatypes.
    + apply py_max_lub; auto.
    + split; [|exact H2]. eapply Qle_trans; [apply py_max_ge_l|exact H1].
Qed.

Section WithRngLaws.
Context {RL : SampleRngLaws}.

(** The sampled estimate stays between [0] and any bound of the pairwise
    distances. *)
Lemma sampled_diameter_bounds pts c :
  0 <= c -> (forall a b, (a < length pts)%nat -> (b < length pts)%nat -> a <> b ->
    haversine_distance_m (nth a pts (mkCoord 0 0)) (nth b pts (mkCoord 0 0)) <= c) ->
  forall idx acc, (forall i, In i idx -> (i < length pts)%nat) -> 0 <= fst acc <= c ->
  0 <= fst (fold_left (sampled_step pts (length pts)) idx acc) <= c.
Proof.
  intros Hc Hall idx. induction idx as [|i idx IH]; intros [m st] Hidx Hm; cbn [fold_left]; [exact Hm|].
  apply IH; [auto with datatypes|]. unfold sampled_step. cbv beta iota.
  destruct (rng_sample st (length pts) (Nat.min 50 (length pts))) as [samples st'] eqn:E.
  cbn [fst] in Hm |- *. destruct (sampled_fold_bounds pts i samples m c) as [H1 H2]; auto with datatypes.
  - intros j Hj. apply (sample_bound st (length pts) (Nat.min 50 (length pts))). now rewrite E.
  - lra.
  - lra.
Qed.

(** The diameter is between [0] and the exact maximum pairwise distance. *)
Lemma diameter_bounds pts : 0 <= _compute_diameter pts <= all_pairs_max 0 pts.
Proof.
  pose proof (all_pairs_max_ge_init 0 pts) as H0.
  unfold _compute_diameter.
  destruct (Nat.ltb _ _); [lra|]. destruct (Nat.leb _ _); [lra|].
  apply sampled_diameter_bounds; [exact H0| | |simpl; lra].
  - intros a b Ha Hb Hab. now apply all_pairs_max_nth.
  - intros i Hi%in_seq. lia.
Qed.

Lemma diameter_pos pts : ~ _compute_diameter pts == 0 -> 0 < _compute_diameter pts.
Proof.
  intros Hd. destruct (diameter_bounds pts) as [H0 _].
  destruct (Qle_lt_or_eq _ _ H0) as [|He]; [assumption|exfalso; apply Hd; now symmetry].
Qed.

(** the diameter is non-negative and never exceeds the exact maximum
    pairwise distance; for at most 60 points it is that maximum. *)
Theorem diameter_le_exact pts :
  0 <= _compute_diameter pts <= all_pairs_max 0 pts /\
  ((length pts <= 60)%nat -> _compute_diameter pts = if Nat.ltb (length pts) 2 then 0 else all_pairs_max 0 pts).
Proof.
  split; [apply diameter_bounds|].
  intros Hl. unfold _compute_diameter. rewrite (proj2 (Nat.leb_le _ _) Hl).
  destruct (Nat.ltb _ _); reflexivity.
Qed.

(** when all points of the set are at distance zero of each other, the
    diameter is zero. *)
Theorem diameter_zero pts :
  (forall p q, In p pts -> In q pts -> haversine_distance_m p q == 0) ->
  _compute_diameter pts == 0.
Proof.
  intros Hz. destruct (diameter_bounds pts) as [H1 H2].
  assert (all_pairs_max 0 pts <= 0).
  { apply all_pairs_max_lub; [lra|]. intros p q Hp Hq. rewrite (Hz p q Hp Hq). lra. }
  lra.
Qed.

End WithRngLaws.

(** ** Ordered sampling *)

Lemma unit_score_bounds x d : 0 <= x -> 0 < d -> 0 <= unit_score x d <= 100.
Proof.
  intros Hx Hd. unfold unit_score.
  assert (0 <= x / d) by (apply Qle_shift_div_l; lra).
  pose proof (py_min_le_r (x / d) 1). pose proof (py_min_glb (x / d) 1 0 ltac:(lra) ltac:(lra)).
  lra.
Qed.

Lemma unit_score_zero x d : x == 0 -> unit_score x d == 100.
Proof.
  intros Hx. unfold unit_score.
  assert (H0 : x / d == 0) by (rewrite Hx; unfold Qdiv; ring).
  rewrite H0. unfold py_min. qcase; lra.
Qed.

Lemma unit_score_far x d : d <= x -> 0 < d -> unit_score x d == 0.
Proof.
  intros Hx Hd. unfold unit_score.
  assert (Hq : 1 <= x / d) by (apply Qle_shift_div_l; lra).
  assert (Hm : py_min (x / d) 1 == 1) by (unfold py_min; qcase; lra).
  rewrite Hm. ring.
Qed.

Lemma divergence_score_bounds x d :
  0 <= x -> 0 < d -> (0 <= divergence_score x d <= 100)%Z.
Proof.
  intros Hx Hd. destruct (unit_score_bounds x d Hx Hd). unfold divergence_score.
  split; [apply py_round_ge|apply py_round_le]; assumption.
Qed.

Lemma divergence_score_zero x d : x == 0 -> divergence_score x d = 100%Z.
Proof. intros Hx. unfold divergence_score. rewrite (unit_score_zero x d Hx). apply py_round_Z. Qed.

Lemma divergence_score_far x d : d <= x -> 0 < d -> divergence_score x d = 0%Z.
Proof. intros Hx Hd. unfold divergence_score. rewrite (unit_score_far x d Hx Hd). apply py_round_Z. Qed.

Lemma resample_nonempty pts n : pts <> [] -> (1 <= n)%nat -> _resample_curve pts n <> [].
Proof.
  intros Hp Hn. destruct (Nat.le_gt_cases 2 (length pts)) as [Hl|Hl];
    [destruct (Nat.le_gt_cases 2 n) as [Hn2|Hn2]|].
  - intros E. pose proof (resample_length pts n Hl Hn2) as HL. rewrite E in HL. simpl in HL. lia.
  - unfold _resample_curve. destruct (Nat.ltb_spec n 2); [|lia]. rewrite orb_true_r.
    destruct (Nat.leb_spec n (length pts)); [|exact Hp].
    destruct pts as [|p pts]; [easy|]. destruct n; [lia|]. discriminate.
  - unfold _resample_curve. destruct (Nat.ltb_spec (length pts) 2); [|lia]. simpl orb.
    destruct (Nat.leb_spec n (length pts)); [|exact Hp].
    destruct pts as [|p pts]; [easy|]. destruct n; [lia|]. discriminate.
Qed.

Lemma mean_nonneg (ds : list Q) :
  Forall (fun x => 0 <= x) ds -> 0 <= py_sum ds / inject_Z (Z.of_nat (length ds)).
Proof.
  intros Hall. destruct ds as [|d ds]; [unfold py_sum; simpl; unfold Qdiv; lra|].
  apply Qle_shift_div_l; [change 0 with (inject_Z 0); rewrite <- Zlt_Qlt; simpl; lia|].
  pose proof (py_sum_nonneg _ Hall). lra.
Qed.

Lemma omd_Some t a n :
  t <> [] -> a <> [] -> (1 <= n)%nat -> exists m, ordered_mean_distance t a n = Some m.
Proof.
  intros Ht Ha Hn. unfold ordered_mean_distance.
  pose proof (resample_nonempty t n Ht Hn) as H1. pose proof (resample_nonempty a n Ha Hn) as H2.
  destruct (_resample_curve t n); [easy|]. destruct (_resample_curve a n); [easy|]. eauto.
Qed.

Lemma omd_nonneg t a n m : ordered_mean_distance t a n = Some m -> 0 <= m.
Proof.
  unfold ordered_mean_distance. intros H.
  destruct (_resample_curve t n) as [|x xs]; [discriminate|].
  destruct (_resample_curve a n) as [|y ys]; [discriminate|]. injection H as <-.
  apply mean_nonneg. constructor; [apply dist_nonneg|]. rewrite Forall_map.
  apply Forall_forall. intros [u v] _. apply dist_nonneg.
Qed.

Lemma combine_diag {A} (l : list A) : combine l l = map (fun x => (x, x)) l.
Proof. induction l; simpl; congruence. Qed.

Lemma combine_self_zero l :
  Forall (fun d => d == 0) (map (fun '(t0, a0) => haversine_distance_m t0 a0) (combine l l)).
Proof.
  rewrite combine_diag, map_map, Forall_map. apply Forall_forall. intros y _. apply dist_self.
Qed.

Lemma omd_self t n m : ordered_mean_distance t t n = Some m -> m == 0.
Proof.
  unfold ordered_mean_distance. intros H.
  destruct (_resample_curve t n) as [|x xs]; [discriminate|]. injection H as <-.
  match goal with |- py_sum ?l / _ == 0 => assert (Hz : Forall (fun d => d == 0) l) end.
  { constructor; [apply dist_self|apply combine_self_zero]. }
  rewrite (py_sum_zero _ Hz). unfold Qdiv. ring.
Qed.

Section OrderedWithRngLaws.
Context {RL : SampleRngLaws}.

(** The ordered-sampling score is an integer between 0 and 100. *)
Lemma os_score_bounds t a n :
  0 <= _ordered_sampling_score t a n <= 100.
Proof.
  unfold _ordered_sampling_score. destruct (ordered_mean_distance t a n) as [m|] eqn:E; [|lra].
  destruct (Qeq_boolP (_compute_diameter t) 0) as [|Hd]; [lra|].
  pose proof (diameter_pos t Hd) as Hpos.
  destruct (divergence_score_bounds m (_compute_diameter t) (omd_nonneg _ _ _ _ E) Hpos).
  split; [change 0 with (inject_Z 0)|change 100 with (inject_Z 100)]; rewrite <- Zle_Qle; lia.
Qed.

(** A curve compared with itself scores 100 in ordered sampling, when its
    diameter is not zero. *)
Lemma os_score_self t n :
  t <> [] -> (1 <= n)%nat -> ~ _compute_diameter t == 0 -> _ordered_sampling_score t t n == 100.
Proof.
  intros Ht Hn Hd. unfold _ordered_sampling_score.
  destruct (omd_Some t t n Ht Ht Hn) as [m E]. rewrite E.
  destruct (Qeq_boolP (_compute_diameter t) 0) as [|_]; [contradiction|].
  pose proof (diameter_pos t Hd) as Hpos.
  rewrite (divergence_score_zero m _ (omd_self _ _ _ E)). reflexivity.
Qed.

(** When every mean distance reaches the diameter, the ordered-sampling
    score is 0. *)
Lemma os_score_far t a n :
  (forall m, ordered_mean_distance t a n = Some m -> _compute_diameter t <= m) ->
  _ordered_sampling_score t a n == 0.
Proof.
  intros Hfar. unfold _ordered_sampling_score.
  destruct (ordered_mean_distance t a n) as [m|] eqn:E; [|reflexivity].
  destruct (Qeq_boolP (_compute_diameter t) 0) as [|Hd]; [reflexivity|].
  rewrite (divergence_score_far m _ (Hfar m eq_refl) (diameter_pos t Hd)). reflexivity.
Qed.

End OrderedWithRngLaws.

End MetricsFacts.

#[export] Instance counter_rng_laws : SampleRngLaws (H := counter_rng).
Proof.
  constructor. intros st n k j. cbn [fst rng_sample counter_rng].
  destruct (Nat.eqb_spec n 0) as [|Hn]; [intros []|].
  intros (i & <- & _)%in_map_iff. now apply Nat.mod_upper_bound.
Qed.

(** ** Witnesses on the planar kernel and the counter sampler *)

Lemma diameter_le_exact_witness :
  let pts := [mkCoord 0 0; mkCoord (1 # 1000) 0; mkCoord 0 (1 # 1000)] in
  (0 <= _compute_diameter pts <= all_pairs_max 0 pts /\
   ((length pts <= 60)%nat ->
    _compute_diameter pts = if Nat.ltb (length pts) 2 then 0 else all_pairs_max 0 pts)).
Proof. cbv zeta. apply diameter_le_exact. Defined.

Lemma diameter_zero_witness :
  let pts := [mkCoord 1 2; mkCoord 1 2] in
  (forall p q, In p pts -> In q pts -> haversine_distance_m p q == 0) /\
  _compute_diameter pts == 0.
Proof.
  cbv zeta.
  assert (Hz : forall p q, In p [mkCoord 1 2; mkCoord 1 2] -> In q [mkCoord 1 2; mkCoord 1 2] ->
                 haversine_distance_m p q == 0)
    by (intros p q [<-|[<-|[]]] [<-|[<-|[]]]; reflexivity).
  split; [exact Hz|]. exact (diameter_zero _ Hz).
Defined.
