(* ===== verification/Validator.v ===== *)
(** * Validator: rasterisation, raster IoU and the blended validation

    Models the rest of src/backend/services/shape_validator.py:
    [_compute_shared_bbox] (lines 19-36), [rasterize_route] (lines
    39-62, PIL's [ImageDraw.line] is the interface [LineDrawer]),
    [_raster_iou_score] (lines 165-190), [ValidationResult] of
    src/backend/models/schemas.py with pydantic's [0 <= score <= 100] check
    as the smart constructor [make_result], [_validate_algorithmic] (lines
    324-377) and [ShapeValidator.validate] (lines 234-252) with the vision
    judge [_validate_with_vision] as a collaborator that may fail.
    Canvases are numpy's [np.array(img) > 0]: a row-major list of
    [size * size] booleans. *)

From Stdlib Require Import String.
From Stdlib Require Import QArith Qround Qabs Lqa List Lia ZArith Morphisms Setoid.
From S2P Require Import Prelude Geodesy Resample Metrics.
Import ListNotations.
Open Scope Q_scope.
Open Scope geo_scope.

(** ** Drawing *)

(** [ImageDraw.Draw(img).line(pixels, fill=255, width=w)] on a fresh
    [size x size] black image, read back as the mask of non-zero pixels. *)
Class LineDrawer := {
  draw_line : Z -> Z -> list (Z * Z) -> list bool
}.

Class LineDrawerLaws `{LineDrawer} := {
  draw_line_length : forall size width px,
    length (draw_line size width px) = Z.to_nat (size * size)
}.

(** ** Results (schemas.py) *)

(** The [method] tags: ["algorithmic"] and ["glm-4v"]. *)
Inductive ValidationMethod := Algorithmic | Glm4v.

(** The [reasoning] texts: the two fixed messages, the components of the
    blended f-string, or the vision judge's text. *)
Inductive Reasoning :=
| EmptyPointSet
| DegenerateShape
| Blended (mhd_score os_score iou_score mhd diameter : Q)
| JudgeReasoning (text : string).

Record ValidationResult := mkResult {
  score : Q; passed : bool; method : ValidationMethod; reasoning : Reasoning }.

(** [ValidationResult(...)]: pydantic rejects a score outside [[0, 100]]
    with a [ValidationError]. *)
Definition make_result (s : Q) (p : bool) (m : ValidationMethod) (r : Reasoning)
    : option ValidationResult :=
  if (0 <=? s) && (s <=? 100) then Some (mkResult s p m r) else None.

Section Validator.
Context {G : Geodesy} {R : SampleRng} {D : LineDrawer}.

(** ** [_compute_shared_bbox] *)

Definition _compute_shared_bbox (points_a points_b : list Coordinate) (padding_pct : Q)
    : option BoundingBox :=
  let all_lngs := map lng points_a ++ map lng points_b in
  let all_lats := map lat points_a ++ map lat points_b in
  match list_min all_lngs, list_max all_lngs, list_min all_lats, list_max all_lats with
  | Some min_lng, Some max_lng, Some min_lat, Some max_lat =>
      let w := or_default (max_lng - min_lng) (1 # 1000000) in
      let h := or_default (max_lat - min_lat) (1 # 1000000) in
      Some (mkBBox (min_lng - w * padding_pct) (min_lat - h * padding_pct)
                   (max_lng + w * padding_pct) (max_lat + h * padding_pct))
  | _, _, _, _ => None
  end.

(** ** [rasterize_route] *)

(** [to_pixel(c)]: [int(...)] truncates toward zero; the y axis is flipped. *)
Definition to_pixel (bbox : BoundingBox) (size : Z) (c : Coordinate) : Z * Z :=
  let w := max_lng bbox - min_lng bbox in
  let h := max_lat bbox - min_lat bbox in
  (py_int ((lng c - min_lng bbox) / w * inject_Z (size - 1)),
   py_int ((max_lat bbox - lat c) / h * inject_Z (size - 1))).

Definition rasterize_route (coords : list Coordinate) (bbox : BoundingBox)
    (size line_width : Z) : list bool :=
  let pixels := map (to_pixel bbox size) coords in
  if Nat.leb 2 (length pixels) then draw_line size line_width pixels
  else repeat false (Z.to_nat (size * size)).

(** ** [_raster_iou_score] *)

(** [arr.sum()] of a boolean array. *)
Definition count_true (l : list bool) : nat := length (filter (fun b => b) l).

Definition _raster_iou_score (target actual : list Coordinate) (size line_width : Z)
    : option Q :=
  match _compute_shared_bbox target actual (1 # 10) with
  | None => None
  | Some bbox =>
      let arr_t := rasterize_route target bbox size line_width in
      let arr_a := rasterize_route actual bbox size line_width in
      let intersection := count_true (map (fun '(x, y) => x && y) (combine arr_t arr_a)) in
      let union := count_true (map (fun '(x, y) => x || y) (combine arr_t arr_a)) in
      if Nat.eqb union 0 then Some 0
      else Some (inject_Z (py_round (inject_Z (Z.of_nat intersection)
                                     / inject_Z (Z.of_nat union) * 100)))
  end.

(** ** [_validate_algorithmic] *)

(** The blend of line 363 (the weights 0.55, 0.35 and 0.10). *)
Definition blend (mhd_score os_score iou_score : Q) : Q :=
  (55 # 100) * mhd_score + (35 # 100) * os_score + (10 # 100) * iou_score.

Definition _validate_algorithmic (target_points actual_points : list Coordinate)
    (threshold : Z) : option ValidationResult :=
  match target_points, actual_points with
  | [], _ | _, [] => make_result 0 false Algorithmic EmptyPointSet
  | _, _ =>
      let diameter := _compute_diameter target_points in
      if diameter =? 0 then make_result 0 false Algorithmic DegenerateShape
      else
        match _modified_hausdorff_distance target_points actual_points 90 with
        | None => None
        | Some mhd =>
            let mhd_norm := py_min (mhd / diameter) 1 in
            let mhd_score := (1 - mhd_norm) * 100 in
            let os_score := _ordered_sampling_score target_points actual_points 50 in
            match _raster_iou_score target_points actual_points 128 12 with
            | None => None
            | Some iou_score =>
                let s := py_round (blend mhd_score os_score iou_score) in
                make_result (inject_Z s) (Z.leb threshold s) Algorithmic
                  (Blended mhd_score os_score iou_score mhd diameter)
            end
        end
  end.

(** ** [ShapeValidator.validate] *)

(** [if self._glm_api_key:] -- an absent or empty key is false. *)
Definition api_key_set (glm_api_key : option string) : bool :=
  match glm_api_key with
  | None | Some EmptyString => false
  | Some _ => true
  end.

(** The vision path: the judge returns the parsed [score] and [reasoning],
    or fails ([None]: a network, API or JSON error); the result is built
    with pydantic's check.  Any failure falls back to the algorithmic path. *)
Definition validate (glm_api_key : option string)
    (judge : string -> list Coordinate -> list Coordinate -> option (Q * string))
    (target_description : string) (target_points actual_points : list Coordinate)
    (threshold : Z) : option ValidationResult :=
  let vision :=
    if api_key_set glm_api_key then
      match judge target_description target_points actual_points with
      | Some (s, text) => make_result s (inject_Z threshold <=? s) Glm4v (JudgeReasoning text)
      | None => None
      end
    else None in
  match vision with
  | Some res => Some res
  | None => _validate_algorithmic target_points actual_points threshold
  end.

End Validator.

(** [count] consecutive integers from [start]. *)
Fixpoint zseq (start : Z) (count : nat) : list Z :=
  match count with
  | O => []
  | Datatypes.S c => start :: zseq (start + 1) c
  end.

(** A drawer for running the model: it marks the pixels of the vertices
    that fall on the canvas. *)
#[export] Instance vertex_drawer : LineDrawer := {|
  draw_line size width px :=
    map (fun idx => existsb (fun '(x, y) =>
           Z.leb 0 x && Z.ltb x size && Z.eqb idx (y * size + x)) px)
        (zseq 0 (Z.to_nat (size * size)))
|}.

(** Two routes for running the model: a closed square of side 0.001
    degrees and a short segment about 1 degree away from it. *)
Definition unit_square : list Coordinate :=
  [mkCoord 0 0; mkCoord (1 # 1000) 0; mkCoord (1 # 1000) (1 # 1000); mkCoord 0 (1 # 1000);
   mkCoord 0 0].

Definition far_segment : list Coordinate := [mkCoord 1 1; mkCoord (1001 # 1000) 1].

(** * Properties *)

(** ** Results *)

Lemma make_result_Some s p m r res :
  make_result s p m r = Some res -> res = mkResult s p m r /\ 0 <= s <= 100.
Proof.
  unfold make_result. destruct (Qle_boolP 0 s), (Qle_boolP s 100); cbn; try discriminate.
  intros [= <-]. auto.
Qed.

Lemma make_result_ok s p m r :
  0 <= s <= 100 -> make_result s p m r = Some (mkResult s p m r).
Proof.
  intros [H0 H1]. unfold make_result.
  destruct (Qle_boolP 0 s), (Qle_boolP s 100); cbn; try reflexivity; lra.
Qed.

Lemma make_result_None s p m r :
  s < 0 \/ 100 < s -> make_result s p m r = None.
Proof.
  intros Hs. unfold make_result.
  destruct (Qle_boolP 0 s), (Qle_boolP s 100); cbn; try reflexivity; lra.
Qed.

(** ** Counting pixels *)

Lemma count_and_le_or (l : list (bool * bool)) :
  (count_true (map (fun '(x, y) => x && y) l) <= count_true (map (fun '(x, y) => x || y) l))%nat.
Proof.
  unfold count_true. induction l as [|[[|] [|]] l IH]; cbn; lia.
Qed.

Lemma count_and_or_diag (l : list bool) :
  count_true (map (fun '(x, y) => x && y) (combine l l)) =
  count_true (map (fun '(x, y) => x || y) (combine l l)).
Proof.
  rewrite combine_diag, !map_map. f_equal. apply map_ext. intros [|]; reflexivity.
Qed.

(** The score of a ratio of two pixel counts. *)
Lemma count_ratio_bounds (i u : nat) :
  (i <= u)%nat -> u <> 0%nat ->
  (0 <= py_round (inject_Z (Z.of_nat i) / inject_Z (Z.of_nat u) * 100) <= 100)%Z.
Proof.
  intros Hiu Hu.
  destruct (frac_in_unit i (Z.of_nat u) ltac:(lia) ltac:(lia)) as [H0 H1].
  set (x := inject_Z (Z.of_nat i) / inject_Z (Z.of_nat u)) in *.
  split; [apply py_round_ge|apply py_round_le];
    [change (inject_Z 0) with 0|change (inject_Z 100) with 100]; lra.
Qed.

#[export] Instance blend_proper : Proper (Qeq ==> Qeq ==> Qeq ==> Qeq) blend.
Proof. intros m m' Hm o o' Ho i i' Hi. unfold blend. now rewrite Hm, Ho, Hi. Qed.

Section ValidatorFacts.
Context {G : Geodesy} {GL : GeodesyLaws} {R : SampleRng} {D : LineDrawer}.

Lemma iou_bounds t a size w v :
  _raster_iou_score t a size w = Some v -> 0 <= v <= 100.
Proof.
  unfold _raster_iou_score. destruct (_compute_shared_bbox t a (1 # 10)) as [bb|]; [|discriminate].
  cbv zeta. set (l := combine _ _).
  destruct (Nat.eqb_spec (count_true (map (fun '(x, y) => x || y) l)) 0) as [|Hu];
    intros [= <-]; [lra|].
  exact (inject_Z_score _ (count_ratio_bounds _ _ (count_and_le_or l) Hu)).
Qed.

Lemma shared_bbox_Some a b pad :
  a <> [] -> exists bb, _compute_shared_bbox a b pad = Some bb.
Proof.
  intros Ha. destruct a as [|c a]; [easy|]. unfold _compute_shared_bbox. cbn. eauto.
Qed.

Lemma iou_Some t a size w :
  t <> [] -> exists v, _raster_iou_score t a size w = Some v.
Proof.
  intros Ht. unfold _raster_iou_score.
  destruct (shared_bbox_Some t a (1 # 10) Ht) as [bb ->]. cbv zeta.
  destruct (Nat.eqb _ 0); eauto.
Qed.

(** Rasterising the same route twice gives the same canvas: the IoU of a
    route with itself is 100, or 0 on an empty canvas. *)
Lemma iou_self t size w v :
  _raster_iou_score t t size w = Some v -> v == 0 \/ v == 100.
Proof.
  unfold _raster_iou_score. destruct (_compute_shared_bbox t t (1 # 10)) as [bb|]; [|discriminate].
  cbv zeta. rewrite count_and_or_diag.
  set (u := count_true (map (fun '(x, y) => x || y) (combine _ _))).
  destruct (Nat.eqb_spec u 0) as [|Hu]; intros [= <-]; [left; reflexivity|right].
  assert (Hq : inject_Z (Z.of_nat u) / inject_Z (Z.of_nat u) * 100 == inject_Z 100).
  { assert (~ inject_Z (Z.of_nat u) == 0)
      by (change 0 with (inject_Z 0); rewrite inject_Z_injective; lia).
    field_simplify; [reflexivity|assumption]. }
  rewrite Hq, py_round_Z. reflexivity.
Qed.

(** ** The shared box and the pixel grid *)

(** One axis of [_compute_shared_bbox]: the padded interval is not empty
    and contains every value of the axis. *)
Lemma axis_box xs lo hi pad :
  0 < pad -> list_min xs = Some lo -> list_max xs = Some hi ->
  let w := or_default (hi - lo) (1 # 1000000) in
  lo - w * pad < hi + w * pad /\ (forall v, In v xs -> lo - w * pad <= v <= hi + w * pad).
Proof.
  intros Hp Hlo Hhi w. pose proof (list_min_max_le _ _ _ Hlo Hhi) as Hle.
  assert (Hw : 0 < w * pad)
    by (apply Qmult_lt_0_compat; [apply or_default_pos|]; lra).
  split; [lra|]. intros v Hv.
  pose proof (list_min_spec _ _ Hlo v Hv). pose proof (list_max_spec _ _ Hhi v Hv). lra.
Qed.

(** The shared box is a valid box holding every point of both sets. *)
Lemma shared_bbox_spec a b pad bb :
  0 < pad -> _compute_shared_bbox a b pad = Some bb ->
  bbox_valid bb /\ forall c, In c (a ++ b) -> in_bbox bb c.
Proof.
  intros Hp. unfold _compute_shared_bbox.
  destruct (list_min (map lng a ++ map lng b)) as [x0|] eqn:E1; [|discriminate].
  destruct (list_max (map lng a ++ map lng b)) as [x1|] eqn:E2; [|discriminate].
  destruct (list_min (map lat a ++ map lat b)) as [y0|] eqn:E3; [|discriminate].
  destruct (list_max (map lat a ++ map lat b)) as [y1|] eqn:E4; [|discriminate].
  intros [= <-]. cbv zeta.
  destruct (axis_box _ _ _ pad Hp E1 E2) as [Hx Hxin].
  destruct (axis_box _ _ _ pad Hp E3 E4) as [Hy Hyin].
  split; [split; assumption|]. intros c Hc. unfold in_bbox. cbn [min_lng max_lng min_lat max_lat].
  rewrite <- !map_app in *. split; [apply Hxin|apply Hyin]; now apply in_map.
Qed.

(** in [_raster_iou_score], every vertex of either polyline is drawn
    at a pixel of the [size x size] canvas: [to_pixel] maps it into
    [[0, size - 1]] on both axes. *)
Theorem to_pixel_on_canvas t a bb size c :
  (1 <= size)%Z -> _compute_shared_bbox t a (1 # 10) = Some bb -> In c (t ++ a) ->
  (0 <= fst (to_pixel bb size c) <= size - 1)%Z /\ (0 <= snd (to_pixel bb size c) <= size - 1)%Z.
Proof.
  intros Hs Hb Hc.
  destruct (shared_bbox_spec t a (1 # 10) bb ltac:(lra) Hb) as [[Hw Hh] Hin].
  destruct (Hin c Hc) as [[Hx0 Hx1] [Hy0 Hy1]]. unfold to_pixel. cbn [fst snd].
  split; apply py_int_unit_scale; try exact Hs; apply frac_unit; lra.
Qed.

(** ** The blend *)

Lemma blend_bounds m o i :
  0 <= m <= 100 -> 0 <= o <= 100 -> 0 <= i <= 100 -> 0 <= blend m o i <= 100.
Proof. unfold blend. intros. lra. Qed.

(** ** [_validate_algorithmic] *)

Section WithRngLaws.
Context {RL : SampleRngLaws}.

(** The blended branch: both point sets non-empty and a non-zero diameter.
    Every call succeeds and the rounded blend passes pydantic's check. *)
Lemma algorithmic_blended t a th :
  t <> [] -> a <> [] -> ~ _compute_diameter t == 0 ->
  exists mhd iou,
    _modified_hausdorff_distance t a 90 = Some mhd /\ 0 <= mhd /\
    _raster_iou_score t a 128 12 = Some iou /\ 0 <= iou <= 100 /\
    let s := py_round (blend (unit_score mhd (_compute_diameter t))
                             (_ordered_sampling_score t a 50) iou) in
    (0 <= s <= 100)%Z /\
    _validate_algorithmic t a th =
      Some (mkResult (inject_Z s) (Z.leb th s) Algorithmic
              (Blended (unit_score mhd (_compute_diameter t)) (_ordered_sampling_score t a 50)
                       iou mhd (_compute_diameter t))).
Proof.
  intros Ht Ha Hd.
  destruct (mhd_Some t a 90 Ht Ha) as [mhd Em].
  destruct (iou_Some t a 128 12 Ht) as [iou Ei].
  pose proof (mhd_nonneg t a 90 mhd ltac:(lra) Em) as Hm.
  pose proof (iou_bounds _ _ _ _ _ Ei) as Hi.
  pose proof (unit_score_bounds mhd _ Hm (diameter_pos t Hd)) as Hu.
  pose proof (blend_bounds _ _ _ Hu (os_score_bounds t a 50) Hi) as Hb.
  assert (Hs : (0 <= py_round (blend (unit_score mhd (_compute_diameter t))
                                  (_ordered_sampling_score t a 50) iou) <= 100)%Z)
    by (split; [apply py_round_ge|apply py_round_le]; apply Hb).
  exists mhd, iou. do 4 (split; [assumption|]). cbv zeta. split; [exact Hs|].
  unfold _validate_algorithmic.
  destruct t as [|p t]; [easy|]. destruct a as [|q a]; [easy|].
  destruct (Qeq_boolP (_compute_diameter (p :: t)) 0) as [|_]; [contradiction|].
  rewrite Em, Ei. apply make_result_ok, inject_Z_score, Hs.
Qed.

(** The three outcomes of [_validate_algorithmic]. *)
Lemma algorithmic_cases t a th r :
  _validate_algorithmic t a th = Some r ->
  (r = mkResult 0 false Algorithmic EmptyPointSet /\ (t = [] \/ a = [])) \/
  (r = mkResult 0 false Algorithmic DegenerateShape /\ t <> [] /\ a <> [] /\
     _compute_diameter t == 0) \/
  (exists s rs, r = mkResult (inject_Z s) (Z.leb th s) Algorithmic rs /\ (0 <= s <= 100)%Z).
Proof.
  destruct t as [|p t]; [intros [= <-]; left; auto|].
  destruct a as [|q a]; [intros [= <-]; left; auto|].
  destruct (Qeq_boolP (_compute_diameter (p :: t)) 0) as [Hz|Hd].
  - unfold _validate_algorithmic. rewrite (proj2 (Qeq_bool_iff _ _) Hz).
    intros [= <-]. right; left. repeat split; try discriminate. exact Hz.
  - destruct (algorithmic_blended (p :: t) (q :: a) th ltac:(discriminate) ltac:(discriminate) Hd)
      as (mhd & iou & _ & _ & _ & _ & Hs & E).
    rewrite E. intros [= <-]. right; right. eauto.
Qed.

(** [_validate_algorithmic] always returns a result (no [min()] of an
    empty list and no pydantic error is raised on any input), with a score
    in [[0, 100]] that passes only if it reaches the threshold. *)
Lemma algorithmic_total t a th :
  exists r, _validate_algorithmic t a th = Some r /\ 0 <= score r <= 100 /\
    (passed r = true -> inject_Z th <= score r).
Proof.
  destruct t as [|p t]; [eexists; split; [reflexivity|cbn; split; [lra|discriminate]]|].
  destruct a as [|q a]; [eexists; split; [reflexivity|cbn; split; [lra|discriminate]]|].
  destruct (Qeq_boolP (_compute_diameter (p :: t)) 0) as [Hz|Hd].
  - unfold _validate_algorithmic. rewrite (proj2 (Qeq_bool_iff _ _) Hz).
    eexists; split; [reflexivity|cbn; split; [lra|discriminate]].
  - destruct (algorithmic_blended (p :: t) (q :: a) th ltac:(discriminate) ltac:(discriminate) Hd)
      as (mhd & iou & _ & _ & _ & _ & Hs & E).
    rewrite E. eexists; split; [reflexivity|]. cbn [score passed].
    split; [apply inject_Z_score, Hs|]. rewrite <- Zle_Qle. apply Z.leb_le.
Qed.

(** C2: a result of [_validate_algorithmic] passes only if its score reaches
    the threshold, and for a positive threshold it passes exactly then. *)
Theorem validate_algorithmic_passed t a th r :
  _validate_algorithmic t a th = Some r ->
  (passed r = true -> inject_Z th <= score r) /\
  ((0 < th)%Z -> inject_Z th <= score r -> passed r = true).
Proof.
  intros E. destruct (algorithmic_cases t a th r E) as [[-> _]|[[-> _]|(s & rs & -> & _)]];
    cbn [passed score].
  1, 2: split; [discriminate|intros Hth Hle; exfalso;
          change 0 with (inject_Z 0) in Hle; rewrite <- Zle_Qle in Hle; lia].
  rewrite <- Zle_Qle. split; [apply Z.leb_le|intros _; apply Z.leb_le].
Qed.

(** an empty target or an empty route scores 0 and fails, with the
    reason "Empty point set". *)
Theorem validate_algorithmic_empty t a th :
  t = [] \/ a = [] ->
  _validate_algorithmic t a th = Some (mkResult 0 false Algorithmic EmptyPointSet).
Proof. intros [->| ->]; [reflexivity|destruct t; reflexivity]. Qed.

(** C19: a target whose points are all at distance zero of each other is a
    degenerate shape: whatever the (non-empty) route, it scores 0 and
    fails. *)
Theorem validate_algorithmic_degenerate t a th :
  t <> [] -> a <> [] ->
  (forall p q, In p t -> In q t -> haversine_distance_m p q == 0) ->
  _validate_algorithmic t a th = Some (mkResult 0 false Algorithmic DegenerateShape).
Proof.
  intros Ht Ha Hz.
  assert (Hd : _compute_diameter t == 0).
  { destruct (diameter_bounds t) as [H1 H2].
    enough (all_pairs_max 0 t <= 0) by lra.
    apply all_pairs_max_lub; [lra|]. intros p q Hp Hq. rewrite (Hz p q Hp Hq). lra. }
  destruct t as [|p t]; [easy|]. destruct a as [|q a]; [easy|].
  unfold _validate_algorithmic. now rewrite (proj2 (Qeq_bool_iff _ _) Hd).
Qed.

(** C3: a route identical to a non-degenerate target scores 90 or 100 (100
    when its raster is not empty) and passes any threshold up to 90. *)
Theorem validate_algorithmic_identical t th :
  t <> [] -> ~ _compute_diameter t == 0 ->
  exists r, _validate_algorithmic t t th = Some r /\
    (score r == 90 \/ score r == 100) /\ ((th <= 90)%Z -> passed r = true).
Proof.
  intros Ht Hd.
  destruct (algorithmic_blended t t th Ht Ht Hd) as (mhd & iou & Em & _ & Ei & _ & _ & E).
  eexists; split; [exact E|]. cbn [score passed].
  rewrite (unit_score_zero _ _ (mhd_self t 90 mhd ltac:(lra) Em)).
  rewrite (os_score_self t 50 Ht ltac:(lia) Hd).
  assert (Hz : py_round (blend 100 100 iou) = 90%Z \/ py_round (blend 100 100 iou) = 100%Z).
  { destruct (iou_self t 128 12 iou Ei) as [Hi|Hi]; rewrite Hi; [left|right].
    - transitivity (py_round (inject_Z 90)); [|apply py_round_Z].
      apply py_round_proper. unfold blend, inject_Z. lra.
    - transitivity (py_round (inject_Z 100)); [|apply py_round_Z].
      apply py_round_proper. unfold blend, inject_Z. lra. }
  destruct Hz as [-> | ->]; split; [left; reflexivity| |right; reflexivity|];
    intros; apply Z.leb_le; lia.
Qed.

(** C4: a route whose points are all at least a diameter away from the
    target, and whose resampled mean distance is at least the diameter,
    scores at most 10 and fails any threshold above 10. *)
Theorem validate_algorithmic_far t a th r :
  (forall s u, In s t -> In u a -> _compute_diameter t <= haversine_distance_m s u) ->
  (forall m, ordered_mean_distance t a 50 = Some m -> _compute_diameter t <= m) ->
  _validate_algorithmic t a th = Some r ->
  score r <= 10 /\ ((10 < th)%Z -> passed r = false).
Proof.
  intros Hfar Hos E.
  destruct t as [|p t]; [injection E as <-; cbn; split; [lra|reflexivity]|].
  destruct a as [|q a]; [injection E as <-; cbn; split; [lra|reflexivity]|].
  destruct (Qeq_boolP (_compute_diameter (p :: t)) 0) as [Hz|Hd].
  - unfold _validate_algorithmic in E. rewrite (proj2 (Qeq_bool_iff _ _) Hz) in E.
    injection E as <-. cbn. split; [lra|reflexivity].
  - destruct (algorithmic_blended (p :: t) (q :: a) th ltac:(discriminate) ltac:(discriminate) Hd)
      as (mhd & iou & Em & _ & Ei & [_ Hi] & _ & E').
    rewrite E' in E. injection E as <-. cbn [score passed].
    pose proof (diameter_pos _ Hd) as Hpos.
    rewrite (unit_score_far _ _ (mhd_far _ _ 90 mhd _ ltac:(lra) Hfar Em) Hpos).
    rewrite (os_score_far _ _ 50 Hos).
    assert (Hs : (py_round (blend 0 0 iou) <= 10)%Z) by (apply py_round_le; unfold blend, inject_Z; lra).
    split; [change 10 with (inject_Z 10); rewrite <- Zle_Qle; exact Hs|].
    intros Hth. apply Z.leb_gt. lia.
Qed.

(** ** [validate] *)

(** C20: without a key, or when the vision judge fails or returns a score
    that pydantic rejects, [validate] is the algorithmic validation. *)
Theorem validate_fallback k judge d t a th :
  api_key_set k = false \/ judge d t a = None \/
  (exists s text, judge d t a = Some (s, text) /\ (s < 0 \/ 100 < s)) ->
  validate k judge d t a th = _validate_algorithmic t a th.
Proof.
  intros Hk. unfold validate.
  destruct (api_key_set k) eqn:Ek; [|reflexivity].
  destruct Hk as [|[Hj|(s & text & Hj & Hs)]]; [discriminate|rewrite Hj; reflexivity|].
  rewrite Hj, (make_result_None _ _ _ _ Hs). reflexivity.
Qed.

(** with a key, a judge's score in [[0, 100]] is the result, and it
    passes exactly when it reaches the threshold. *)
Theorem validate_vision k judge d t a th s text :
  api_key_set k = true -> judge d t a = Some (s, text) -> 0 <= s <= 100 ->
  validate k judge d t a th = Some (mkResult s (inject_Z th <=? s) Glm4v (JudgeReasoning text)).
Proof. intros Hk Hj Hs. unfold validate. now rewrite Hk, Hj, (make_result_ok _ _ _ _ Hs). Qed.

(** C1: whatever the key and the judge do, [validate] returns a result, its
    score is in [[0, 100]], and it passes only if the score reaches the
    threshold. *)
Theorem validate_total k judge d t a th :
  exists r, validate k judge d t a th = Some r /\ 0 <= score r <= 100 /\
    (passed r = true -> inject_Z th <= score r).
Proof.
  destruct (algorithmic_total t a th) as (r & E & Hr). unfold validate.
  destruct (api_key_set k); [|eauto].
  destruct (judge d t a) as [[s text]|]; [|eauto].
  unfold make_result. destruct (Qle_boolP 0 s), (Qle_boolP s 100); cbn; try eauto.
  eexists; split; [reflexivity|]. cbn. split; [lra|]. now destruct (Qle_boolP (inject_Z th) s).
Qed.

End WithRngLaws.

End ValidatorFacts.

(** ** Witnesses on the planar kernel, the counter sampler and the vertex drawer *)

Lemma validate_total_witness :
  exists r, validate (Some "key"%string) (fun _ _ _ => Some (150, "a heart"%string)) "heart"%string
                     unit_square unit_square 45 = Some r /\
    0 <= score r <= 100 /\ (passed r = true -> inject_Z 45 <= score r).
Proof. apply validate_total. Defined.

Lemma validate_algorithmic_passed_witness :
  exists r, _validate_algorithmic unit_square far_segment 45 = Some r /\
    (passed r = true -> inject_Z 45 <= score r) /\
    ((0 < 45)%Z -> inject_Z 45 <= score r -> passed r = true).
Proof.
  destruct (_validate_algorithmic unit_square far_segment 45) as [r|] eqn:E;
    [|vm_compute in E; discriminate].
  exists r. split; [reflexivity|]. exact (validate_algorithmic_passed _ _ _ r E).
Defined.

Lemma validate_algorithmic_identical_witness :
  (unit_square <> [] /\ ~ _compute_diameter unit_square == 0) /\
  exists r, _validate_algorithmic unit_square unit_square 45 = Some r /\
    (score r == 90 \/ score r == 100) /\ ((45 <= 90)%Z -> passed r = true).
Proof.
  assert (Ht : unit_square <> []) by discriminate.
  assert (Hd : ~ _compute_diameter unit_square == 0) by (vm_compute; discriminate).
  split; [split; assumption|]. exact (validate_algorithmic_identical _ 45 Ht Hd).
Defined.

Lemma validate_algorithmic_far_witness :
  (forall s u, In s unit_square -> In u far_segment ->
     _compute_diameter unit_square <= haversine_distance_m s u) /\
  (forall m, ordered_mean_distance unit_square far_segment 50 = Some m ->
     _compute_diameter unit_square <= m) /\
  exists r, _validate_algorithmic unit_square far_segment 45 = Some r /\
    score r <= 10 /\ ((10 < 45)%Z -> passed r = false).
Proof.
  assert (H1 : forall s u, In s unit_square -> In u far_segment ->
                 _compute_diameter unit_square <= haversine_distance_m s u).
  { intros s u Hs Hu. destruct Hs as [<-|[<-|[<-|[<-|[<-|[]]]]]];
      destruct Hu as [<-|[<-|[]]]; vm_compute; discriminate. }
  assert (H2 : forall m, ordered_mean_distance unit_square far_segment 50 = Some m ->
                 _compute_diameter unit_square <= m).
  { intros m E. vm_compute in E. injection E as <-. vm_compute. discriminate. }
  split; [exact H1|split; [exact H2|]].
  destruct (_validate_algorithmic unit_square far_segment 45) as [r|] eqn:E;
    [|vm_compute in E; discriminate].
  exists r. split; [reflexivity|]. exact (validate_algorithmic_far _ _ _ r H1 H2 E).
Defined.

Lemma validate_algorithmic_degenerate_witness :
  let t := [mkCoord 1 2; mkCoord 1 2] in
  (t <> [] /\ unit_square <> [] /\
   forall p q, In p t -> In q t -> haversine_distance_m p q == 0) /\
  _validate_algorithmic t unit_square 45 = Some (mkResult 0 false Algorithmic DegenerateShape).
Proof.
  cbv zeta.
  assert (Hz : forall p q, In p [mkCoord 1 2; mkCoord 1 2] -> In q [mkCoord 1 2; mkCoord 1 2] ->
                 haversine_distance_m p q == 0)
    by (intros p q [<-|[<-|[]]] [<-|[<-|[]]]; reflexivity).
  split; [split; [discriminate|split; [discriminate|exact Hz]]|].
  apply validate_algorithmic_degenerate; [discriminate|discriminate|exact Hz].
Defined.

Lemma validate_algorithmic_empty_witness :
  (@nil Coordinate = [] \/ unit_square = []) /\
  _validate_algorithmic [] unit_square 45 = Some (mkResult 0 false Algorithmic EmptyPointSet).
Proof. split; [left; reflexivity|]. apply validate_algorithmic_empty. left; reflexivity. Defined.

Lemma validate_fallback_witness :
  (api_key_set None = false \/ (fun _ _ _ => @None (Q * string)) "heart"%string unit_square far_segment = None \/
   exists s text, (fun _ _ _ => @None (Q * string)) "heart"%string unit_square far_segment = Some (s, text) /\
                  (s < 0 \/ 100 < s)) /\
  validate None (fun _ _ _ => None) "heart"%string unit_square far_segment 45 =
  _validate_algorithmic unit_square far_segment 45.
Proof. split; [left; reflexivity|]. apply validate_fallback. left; reflexivity. Defined.

Lemma validate_vision_witness :
  (api_key_set (Some "key"%string) = true /\
   (fun _ _ _ => Some (80, "a heart"%string)) "heart"%string unit_square far_segment =
     Some (80, "a heart"%string) /\ 0 <= 80 <= 100) /\
  validate (Some "key"%string) (fun _ _ _ => Some (80, "a heart"%string)) "heart"%string
           unit_square far_segment 45 =
  Some (mkResult 80 (inject_Z 45 <=? 80) Glm4v (JudgeReasoning "a heart"%string)).
Proof.
  split; [split; [reflexivity|split; [reflexivity|split; discriminate]]|].
  apply validate_vision; [reflexivity|reflexivity|split; discriminate].
Defined.

Lemma to_pixel_on_canvas_witness :
  exists bb, _compute_shared_bbox unit_square far_segment (1 # 10) = Some bb /\
    (1 <= 128)%Z /\ In (mkCoord 1 1) (unit_square ++ far_segment) /\
    (0 <= fst (to_pixel bb 128 (mkCoord 1 1)) <= 128 - 1)%Z /\
    (0 <= snd (to_pixel bb 128 (mkCoord 1 1)) <= 128 - 1)%Z.
Proof.
  destruct (_compute_shared_bbox unit_square far_segment (1 # 10)) as [bb|] eqn:E;
    [|vm_compute in E; discriminate].
  assert (Hin : In (mkCoord 1 1) (unit_square ++ far_segment)) by (vm_compute; tauto).
  exists bb. split; [reflexivity|split; [lia|split; [exact Hin|]]].
  exact (to_pixel_on_canvas _ _ bb 128 _ ltac:(lia) E Hin).
Defined.

