(* ===== verification/Generator.v ===== *)
(** * Generator: control-point tightening and the retry loop

    Models two parts of src/backend/services/shape_generator.py:
    [ShapeGenerator._tighten_control_points] (lines 400-441) and the
    validate-and-retry loop of [generate_from_description] (lines 104-133).
    Python's [list.sort(key=..., reverse=True)] is stable, so the sort of
    the segment deviations is [Prelude.isort_by] with a non-strict
    descending comparison; the set [segments_to_tighten] is a membership
    test on the selected indices.  Mapping ([map_to_streets], which
    raises for a point out of range), routing ([_route_waypoints], an HTTP
    call) and validation ([ShapeValidator.validate], possibly an HTTP call)
    are effects: they are functions of an explicit environment state [S]
    that each call threads, so that two calls with the same input may
    answer differently, as the network does. *)

From Stdlib Require Import String.
From Stdlib Require Import QArith Qround Qabs Lqa List Lia ZArith Sorted Permutation Morphisms Setoid.
From Stdlib Require Import Relations.
From S2P Require Import Prelude Geodesy StreetMapper Resample Metrics Validator.
Import ListNotations.
Open Scope Q_scope.
Open Scope geo_scope.

Section Tighten.
Context {G : Geodesy}.

(** The deviation of a target segment: the distance from its midpoint to
    the closest actual point, [0.0] when there is none (lines 423-429). *)
Definition segment_deviation (actual_points : list Coordinate) (a b : Coordinate) : Q :=
  let mid := midpoint a b in
  match list_min (map (haversine_distance_m mid) actual_points) with
  | Some min_dist => min_dist
  | None => 0
  end.

(** [segment_deviations]: [(i, min_dist)] for every [i] in
    [range(len(target_points) - 1)]. *)
Definition segment_deviations (target_points actual_points : list Coordinate)
    : list (nat * Q) :=
  let segs := adjacent target_points in
  combine (seq 0 (length segs))
          (map (fun '(a, b) => segment_deviation actual_points a b) segs).

(** The key of [sort(key=lambda x: x[1], reverse=True)]: worst first. *)
Definition worse_or_equal (x y : nat * Q) : bool := snd y <=? snd x.

(** [segments_to_tighten]: the indices of the first
    [max(1, len(segment_deviations) // 2)] sorted deviations. *)
Definition segments_to_tighten (target_points actual_points : list Coordinate) : list nat :=
  let devs := segment_deviations target_points actual_points in
  map fst (firstn (Nat.max 1 (Nat.div (length devs) 2)) (isort_by worse_or_equal devs)).

(** The rebuild loop of lines 434-440. *)
Definition tighten_segments (to_tighten : list nat) (segs : list (nat * (Coordinate * Coordinate)))
    : list Coordinate :=
  flat_map (fun '(i, (a, b)) =>
              if existsb (Nat.eqb i) to_tighten then [midpoint a b; b] else [b]) segs.

Definition _tighten_control_points (target_points actual_points : list Coordinate)
    : list Coordinate :=
  if Nat.ltb (length target_points) 2 then target_points
  else
    let segs := adjacent target_points in
    hd (mkCoord 0 0) target_points ::
      tighten_segments (segments_to_tighten target_points actual_points)
                       (combine (seq 0 (length segs)) segs).

End Tighten.

(** ** The retry loop *)

(** One attempt of the loop: the control points, the mapped waypoints, the
    routed coordinates and the validation of the routed result. *)
Record Attempt := mkAttempt {
  att_control : list Coordinate;
  att_mapped : list Coordinate;
  att_routed : list Coordinate;
  att_validation : ValidationResult
}.

Section Retry.
Context {G : Geodesy}.
(** The environment's state and its three effects: [map_streets] is
    [self.street_mapper.map_to_streets(control_points, hood.bbox)] (which
    may raise), [route] is [_route_waypoints(mapped)["coordinates"]] as
    coordinates, [check] is
    [self.validator.validate(description, mapped, routed)]. *)
Context {S : Type}.
Variable route : S -> list Coordinate -> list Coordinate * S.
Variable check : S -> list Coordinate -> list Coordinate -> ValidationResult * S.
Variable map_streets : S -> list Coordinate -> list Coordinate * S.
(** [MAX_RETRIES], read from the environment when shape_generator.py is
    imported ([Config.max_retries_of_env]). *)
Variable MAX_RETRIES : nat.

(** Steps 3, 4 and 6 (and their repetition in the loop body): map to
    streets, route, validate. *)
Definition attempt (control_points : list Coordinate) (s : S) : Attempt * S :=
  let '(mapped, s0) := map_streets s control_points in
  let '(routed, s1) := route s0 mapped in
  let '(validation, s2) := check s1 mapped routed in
  (mkAttempt control_points mapped routed validation, s2).

(** [while not validation.passed and retries < MAX_RETRIES]: the loop with
    the attempts made so far ([trace], oldest first); the fuel bounds the
    iterations. *)
Fixpoint retry_loop (fuel retries : nat) (cur : Attempt) (trace : list Attempt) (s : S)
    : Attempt * nat * list Attempt * S :=
  match fuel with
  | O => (cur, retries, trace, s)
  | Datatypes.S fuel' =>
      if negb (passed (att_validation cur)) && Nat.ltb retries MAX_RETRIES then
        let control_points := _tighten_control_points (att_control cur) (att_routed cur) in
        let '(next, s') := attempt control_points s in
        retry_loop fuel' (Datatypes.S retries) next (trace ++ [next]) s'
      else (cur, retries, trace, s)
  end.

(** Steps 3 to 7 of [generate_from_description]: the result is the last
    attempt, the number of retries and all attempts in order.  The fuel is
    one iteration more than the guard [retries < MAX_RETRIES] allows, so
    that the guard, not the fuel, ends the loop: [generate_route_refines]
    shows the result is the stopping configuration of the step relation,
    which carries the guard. *)
Definition generate_route (control_points : list Coordinate) (s : S)
    : Attempt * nat * list Attempt * S :=
  let '(first, s1) := attempt control_points s in
  retry_loop (Datatypes.S MAX_RETRIES) 0 first [first] s1.

(** The loop as a step relation on configurations
    [(attempt, retries, trace, state)]. *)
Inductive retry_step : Attempt * nat * list Attempt * S -> Attempt * nat * list Attempt * S -> Prop :=
| retry_step_fail cur retries trace s next s' :
    passed (att_validation cur) = false -> (retries < MAX_RETRIES)%nat ->
    attempt (_tighten_control_points (att_control cur) (att_routed cur)) s = (next, s') ->
    retry_step (cur, retries, trace, s) (next, Datatypes.S retries, trace ++ [next], s').

(** A configuration where the loop stops. *)
Definition retry_done (c : Attempt * nat * list Attempt * S) : Prop :=
  let '(cur, retries, _, _) := c in passed (att_validation cur) = true \/ (MAX_RETRIES <= retries)%nat.

(** What holds of every configuration the loop reaches from the first
    attempt [first]: the attempts so far are the failed ones, then the
    current one; there are [retries + 1] of them, at most
    [MAX_RETRIES + 1]. *)
Definition attempts_ok (first : Attempt) (c : Attempt * nat * list Attempt * S) : Prop :=
  let '(cur, retries, trace, _) := c in
  hd_error trace = Some first /\ (retries <= MAX_RETRIES)%nat /\
  exists earlier, trace = earlier ++ [cur] /\ length earlier = retries /\
    Forall (fun x => passed (att_validation x) = false) earlier.

End Retry.

(** A scripted environment for running the loop: mapping and routing
    return their points unchanged, and the [k]-th validation answers the [k]-th score
    of the script, failing. *)
Definition scripted_map (k : nat) (control_points : list Coordinate) : list Coordinate * nat :=
  (control_points, k).

Definition scripted_route (k : nat) (mapped : list Coordinate) : list Coordinate * nat :=
  (mapped, k).

Definition scripted_check (script : list Q) (k : nat) (mapped routed : list Coordinate)
    : ValidationResult * nat :=
  (mkResult (nth k script 0) false Algorithmic EmptyPointSet, Datatypes.S k).

(** * Properties *)

Section TightenFacts.
Context {G : Geodesy}.

Lemma worse_or_equal_total x y : worse_or_equal x y = false -> worse_or_equal y x = true.
Proof.
  unfold worse_or_equal. destruct (Qle_boolP (snd y) (snd x)), (Qle_boolP (snd x) (snd y)); auto; lra.
Qed.

Lemma worse_or_equal_trans x y z :
  worse_or_equal x y = true -> worse_or_equal y z = true -> worse_or_equal x z = true.
Proof.
  unfold worse_or_equal. intros H1 H2. apply Qle_bool_iff in H1, H2. apply Qle_bool_iff. lra.
Qed.

Lemma segment_deviations_fst t a :
  map fst (segment_deviations t a) = seq 0 (length (adjacent t)).
Proof.
  unfold segment_deviations. apply map_fst_combine. now rewrite length_map, length_seq.
Qed.

Lemma segment_deviations_length t a : length (segment_deviations t a) = (length t - 1)%nat.
Proof.
  rewrite <- (length_map fst), segment_deviations_fst, length_seq. apply length_adjacent.
Qed.

(** The sorted deviations hold each index once. *)
Lemma sorted_fst_NoDup t a :
  NoDup (map fst (isort_by worse_or_equal (segment_deviations t a))).
Proof.
  eapply Permutation_NoDup; [apply Permutation_map, isort_by_perm|].
  rewrite segment_deviations_fst. apply seq_NoDup.
Qed.

Lemma segments_to_tighten_NoDup t a : NoDup (segments_to_tighten t a).
Proof. unfold segments_to_tighten. rewrite <- firstn_map. apply NoDup_firstn, sorted_fst_NoDup. Qed.

Lemma segments_to_tighten_range t a i :
  In i (segments_to_tighten t a) -> (i < length (adjacent t))%nat.
Proof.
  unfold segments_to_tighten. rewrite <- firstn_map. intros Hi%In_firstn.
  eapply Permutation_in in Hi; [|symmetry; apply Permutation_map, isort_by_perm].
  rewrite segment_deviations_fst in Hi. apply in_seq in Hi. lia.
Qed.

Lemma segments_to_tighten_length t a :
  (2 <= length t)%nat -> length (segments_to_tighten t a) = Nat.max 1 ((length t - 1) / 2).
Proof.
  intros Hl. unfold segments_to_tighten.
  rewrite length_map, length_firstn, <- (Permutation_length (isort_by_perm _ _)),
    segment_deviations_length.
  apply Nat.min_l. apply Nat.max_lub; [lia|]. apply Nat.Div0.div_le_upper_bound. lia.
Qed.

Lemma tighten_segments_length sel segs :
  length (tighten_segments sel segs) =
  (length segs + length (filter (fun i => existsb (Nat.eqb i) sel) (map fst segs)))%nat.
Proof.
  induction segs as [|[i [a b]] segs IH]; [reflexivity|].
  unfold tighten_segments in *. cbn [flat_map map fst filter] in *.
  destruct (existsb (Nat.eqb i) sel); cbn [length app] in *; lia.
Qed.

Lemma tighten_segments_subseq sel segs :
  subseq (map (fun p => snd (snd p)) segs) (tighten_segments sel segs).
Proof.
  induction segs as [|[i [a b]] segs IH]; [constructor|].
  unfold tighten_segments in *. cbn [flat_map map snd] in *.
  destruct (existsb (Nat.eqb i) sel); cbn [app]; auto with geo.
Qed.

(** For every selected index [i] and unselected index [j] of the
    deviation list, [i]'s deviation is at least [j]'s. *)
Lemma selected_dominates t a i di j dj :
  In (i, di) (firstn (Nat.max 1 (Nat.div (length (segment_deviations t a)) 2))
                     (isort_by worse_or_equal (segment_deviations t a))) ->
  In (j, dj) (segment_deviations t a) -> ~ In j (segments_to_tighten t a) -> dj <= di.
Proof.
  intros Hi Hj Hnj.
  set (sorted := isort_by worse_or_equal (segment_deviations t a)) in *.
  set (k := Nat.max 1 _) in *.
  assert (Hjs : In (j, dj) (skipn k sorted)).
  { eapply Permutation_in in Hj; [|apply (isort_by_perm worse_or_equal)]. fold sorted in Hj.
    rewrite <- (firstn_skipn k sorted) in Hj. apply in_app_or in Hj as [Hj|Hj]; [|exact Hj].
    exfalso. apply Hnj. unfold segments_to_tighten. fold sorted. fold k.
    apply in_map_iff. exists (j, dj). auto. }
  pose proof (StronglySorted_firstn_skipn _ _ k _ _
    (isort_by_sorted _ worse_or_equal_total worse_or_equal_trans _) Hi Hjs) as Hle.
  unfold worse_or_equal in Hle. cbn [snd] in Hle. now apply Qle_bool_iff.
Qed.

(** Two deviations of the same index are the same. *)
Lemma segment_deviations_functional t a i d1 d2 :
  In (i, d1) (segment_deviations t a) -> In (i, d2) (segment_deviations t a) -> d1 = d2.
Proof.
  unfold segment_deviations. generalize 0%nat as s.
  generalize (map (fun '(a0, b) => segment_deviation a a0 b) (adjacent t)) as ds.
  generalize (length (adjacent t)) as n.
  induction n as [|n IH]; intros ds s H1 H2; [destruct H1|].
  destruct ds as [|d ds]; [destruct H1|]. cbn [seq combine In] in H1, H2.
  destruct H1 as [E1|H1], H2 as [E2|H2].
  - congruence.
  - injection E1 as -> ->. apply in_combine_l, in_seq in H2. lia.
  - injection E2 as -> ->. apply in_combine_l, in_seq in H1. lia.
  - eapply IH; eauto.
Qed.

End TightenFacts.

Section TightenTheorems.
Context {G : Geodesy}.

(** C7: tightening an outline of [n >= 2] points inserts exactly
    [max(1, (n - 1) // 2)] midpoints. *)
Theorem tighten_length t a :
  (2 <= length t)%nat ->
  length (_tighten_control_points t a) = (length t + Nat.max 1 ((length t - 1) / 2))%nat.
Proof.
  intros Hl. unfold _tighten_control_points.
  destruct (Nat.ltb_spec (length t) 2); [lia|]. cbn [length].
  rewrite tighten_segments_length, length_combine, length_seq, Nat.min_id.
  rewrite map_fst_combine by (rewrite length_seq; lia).
  rewrite filter_seq_mem; [|apply segments_to_tighten_NoDup|apply segments_to_tighten_range].
  rewrite segments_to_tighten_length by exact Hl. rewrite length_adjacent. lia.
Qed.

(** C22: tightening keeps every control point, in order, and the first one
    stays first: the outline is a sub-sequence of the tightened one. *)
Theorem tighten_keeps_targets t a :
  subseq t (_tighten_control_points t a) /\ hd_error (_tighten_control_points t a) = hd_error t.
Proof.
  unfold _tighten_control_points.
  destruct (Nat.ltb_spec (length t) 2); [split; [apply subseq_refl|reflexivity]|].
  destruct t as [|p r]; [cbn in *; lia|]. split; [|reflexivity]. cbn [hd]. apply subseq_take.
  set (segs := adjacent (p :: r)).
  assert (Hr : map (fun q => snd (snd q)) (combine (seq 0 (length segs)) segs) = r).
  { rewrite <- (map_map snd snd), map_snd_combine by (rewrite length_seq; lia).
    apply map_snd_adjacent. }
  pose proof (tighten_segments_subseq (segments_to_tighten (p :: r) a)
                (combine (seq 0 (length segs)) segs)) as Hs.
  rewrite Hr in Hs. exact Hs.
Qed.

(** C8: the segments that get a midpoint deviate at least as much as every
    segment that does not. *)
Theorem tighten_worst_first t a i j di dj :
  In (i, di) (segment_deviations t a) -> In i (segments_to_tighten t a) ->
  In (j, dj) (segment_deviations t a) -> ~ In j (segments_to_tighten t a) -> dj <= di.
Proof.
  intros Hi Hsel Hj Hnj. pose proof Hsel as Hsel'.
  unfold segments_to_tighten in Hsel'. apply in_map_iff in Hsel' as ([i' di'] & E & Hin).
  cbn [fst] in E. subst i'.
  assert (Hdev : In (i, di') (segment_deviations t a)).
  { apply In_firstn in Hin. eapply Permutation_in; [symmetry; apply isort_by_perm|exact Hin]. }
  rewrite <- (segment_deviations_functional _ _ _ _ _ Hdev Hi).
  eapply selected_dominates; eassumption.
Qed.

End TightenTheorems.

Section RetryFacts.
Context {G : Geodesy} {S : Type}.
Variable route : S -> list Coordinate -> list Coordinate * S.
Variable check : S -> list Coordinate -> list Coordinate -> ValidationResult * S.
Variable map_streets : S -> list Coordinate -> list Coordinate * S.
Variable MAX_RETRIES : nat.

Local Abbreviation step := (retry_step route check map_streets MAX_RETRIES).
Local Abbreviation run := (clos_refl_trans_1n _ step).
Local Abbreviation done := (retry_done MAX_RETRIES).

(** The loop runs the step relation to a stopping configuration, given
    fuel for the retries that remain. *)
Lemma retry_loop_run fuel retries cur trace s :
  (MAX_RETRIES - retries <= fuel)%nat ->
  run (cur, retries, trace, s) (retry_loop route check map_streets MAX_RETRIES fuel retries cur trace s) /\
  done (retry_loop route check map_streets MAX_RETRIES fuel retries cur trace s).
Proof.
  revert retries cur trace s.
  induction fuel as [|fuel IH]; intros retries cur trace s Hf; cbn [retry_loop].
  - split; [constructor|]. right. lia.
  - destruct (passed (att_validation cur)) eqn:Ep; cbn [negb andb].
    + split; [constructor|]. left. exact Ep.
    + destruct (Nat.ltb_spec retries MAX_RETRIES) as [Hlt|Hge].
      * destruct (attempt route check map_streets (_tighten_control_points (att_control cur) (att_routed cur)) s)
          as [next s'] eqn:Ea.
        destruct (IH (Datatypes.S retries) next (trace ++ [next]) s' ltac:(lia)) as [Hr Hd].
        split; [|exact Hd]. econstructor 2; [econstructor; eassumption|exact Hr].
      * split; [constructor|]. right. exact Hge.
Qed.

Lemma retry_step_det c c1 c2 : step c c1 -> step c c2 -> c1 = c2.
Proof. intros H1 H2. destruct H1. inversion H2; subst. congruence. Qed.

Lemma retry_done_stuck c c' : done c -> ~ step c c'.
Proof. intros Hd Hs. destruct Hs. cbn in Hd. destruct Hd; [congruence|lia]. Qed.

(** The step relation is deterministic, so a run has one stopping
    configuration. *)
Lemma run_unique c r1 r2 : run c r1 -> done r1 -> run c r2 -> done r2 -> r1 = r2.
Proof.
  intros H1. revert r2. induction H1 as [c|c c' r1 Hs H1 IH]; intros r2 Hd1 H2 Hd2.
  - destruct H2 as [|c'' r2 Hs2 _]; [reflexivity|].
    exfalso. exact (retry_done_stuck _ _ Hd1 Hs2).
  - destruct H2 as [|c'' r2' Hs2 H2]; [exfalso; exact (retry_done_stuck _ _ Hd2 Hs)|].
    rewrite (retry_step_det _ _ _ Hs2 Hs) in H2. apply IH; assumption.
Qed.

Lemma attempts_ok_step first c c' : attempts_ok MAX_RETRIES first c -> step c c' -> attempts_ok MAX_RETRIES first c'.
Proof.
  intros Hok Hs. destruct Hs as [cur retries trace s next s' Hp Hlt Ea].
  destruct Hok as (Hhd & _ & earlier & -> & Hlen & Hfail).
  split; [|split; [lia|]].
  - destruct earlier; exact Hhd.
  - exists (earlier ++ [cur]). rewrite <- app_assoc. split; [reflexivity|].
    rewrite length_app, Hlen. split; [cbn; lia|]. apply Forall_app. auto.
Qed.

Lemma attempts_ok_run first c c' : run c c' -> attempts_ok MAX_RETRIES first c -> attempts_ok MAX_RETRIES first c'.
Proof. induction 1; eauto using attempts_ok_step. Qed.

Lemma generate_route_run cp s first s1 :
  attempt route check map_streets cp s = (first, s1) ->
  run (first, 0%nat, [first], s1) (generate_route route check map_streets MAX_RETRIES cp s) /\
  done (generate_route route check map_streets MAX_RETRIES cp s).
Proof.
  intros Ea. unfold generate_route. rewrite Ea. apply retry_loop_run. lia.
Qed.

(** C6: [generate_route] is the unique stopping configuration of the retry
    step relation started from the first attempt: the loop implements the
    state machine [SCORE -> (PASS | RETRY | EXHAUSTED)]. *)
Theorem generate_route_refines cp s first s1 :
  attempt route check map_streets cp s = (first, s1) ->
  forall c, (run (first, 0%nat, [first], s1) c /\ done c) <-> c = generate_route route check map_streets MAX_RETRIES cp s.
Proof.
  intros Ea c. destruct (generate_route_run cp s first s1 Ea) as [Hr Hd]. split.
  - intros [Hc Hdc]. exact (run_unique _ _ _ Hc Hdc Hr Hd).
  - intros ->. auto.
Qed.

(** C5: the loop makes at most [MAX_RETRIES + 1] attempts, the first being
    the initial one; every attempt before the returned one failed, the
    returned one is the last attempt, and it failed only if the retries are
    exhausted. *)
Theorem generate_route_attempts cp s final retries trace s' :
  generate_route route check map_streets MAX_RETRIES cp s = (final, retries, trace, s') ->
  (retries <= MAX_RETRIES)%nat /\ length trace = Datatypes.S retries /\
  hd_error trace = Some (fst (attempt route check map_streets cp s)) /\
  (passed (att_validation final) = true \/ retries = MAX_RETRIES) /\
  exists earlier, trace = earlier ++ [final] /\
    Forall (fun x => passed (att_validation x) = false) earlier.
Proof.
  intros E. destruct (attempt route check map_streets cp s) as [first s1] eqn:Ea. cbn [fst].
  destruct (generate_route_run cp s first s1 Ea) as [Hr Hd]. rewrite E in Hr, Hd.
  assert (Hok : attempts_ok MAX_RETRIES first (first, 0%nat, [first], s1))
    by (split; [reflexivity|split; [lia|exists []; auto]]).
  destruct (attempts_ok_run first _ _ Hr Hok) as (Hhd & Hle & earlier & Ht & Hlen & Hfail).
  split; [exact Hle|]. split; [rewrite Ht, length_app, Hlen; cbn; lia|].
  split; [exact Hhd|]. split; [destruct Hd; [left; assumption|right; lia]|]. eauto.
Qed.

Lemma retry_live_measure n c :
  (MAX_RETRIES - snd (fst (fst c)) <= n)%nat ->
  Acc (fun c2 c1 => step c1 c2) c /\ exists c', run c c' /\ done c'.
Proof.
  revert c. induction n as [|n IH]; intros [[[cur retries] trace] s] Hn; cbn in Hn.
  - split; [constructor; intros c2 Hs; inversion Hs; lia|].
    exists (cur, retries, trace, s). split; [constructor|right; lia].
  - split.
    + constructor. intros c2 Hs. inversion Hs; subst. apply IH. cbn. lia.
    + destruct (passed (att_validation cur)) eqn:Ep;
        [exists (cur, retries, trace, s); split; [constructor|left; exact Ep]|].
      destruct (Nat.lt_ge_cases retries MAX_RETRIES) as [Hlt|Hge];
        [|exists (cur, retries, trace, s); split; [constructor|right; exact Hge]].
      destruct (attempt route check map_streets (_tighten_control_points (att_control cur) (att_routed cur)) s)
        as [next s'] eqn:Ea.
      destruct (IH (next, Datatypes.S retries, trace ++ [next], s') ltac:(cbn; lia)) as [_ (c' & Hr & Hd)].
      exists c'. split; [econstructor 2; [econstructor; eassumption|exact Hr]|exact Hd].
Qed.

(** C34: liveness of the retry loop, for every value of [MAX_RETRIES]:
    from any configuration, every run of the step relation is finite (no
    infinite sequence of retries), and a run reaches a configuration where
    the loop stops (validation passed or retries exhausted). *)
Theorem retry_loop_live c :
  Acc (fun c2 c1 => retry_step route check map_streets MAX_RETRIES c1 c2) c /\
  exists c', clos_refl_trans_1n _ (retry_step route check map_streets MAX_RETRIES) c c' /\
             retry_done MAX_RETRIES c'.
Proof. exact (retry_live_measure _ c (le_n _)). Qed.

End RetryFacts.


(** ** Concrete runs on the planar kernel *)

(** the loop returns the last attempt, not the best one: when the three
    attempts score 40, 30 and 20 (all failing), the result scores 20 although
    the first attempt scored 40. *)
Example generate_route_returns_last :
  let '(final, retries, trace, _) :=
    generate_route scripted_route (scripted_check [40; 30; 20]) scripted_map 2%nat
                   [mkCoord 0 0; mkCoord 1 0; mkCoord 1 1] 0%nat in
  retries = 2%nat /\ score (att_validation final) = 20 /\
  map (fun x => score (att_validation x)) trace = [40; 30; 20].
Proof. vm_compute. auto. Qed.

(** ** Witnesses *)

Lemma tighten_length_witness :
  (2 <= length [mkCoord 0 0; mkCoord 2 0; mkCoord 2 (1 # 1000)])%nat /\
  length (_tighten_control_points [mkCoord 0 0; mkCoord 2 0; mkCoord 2 (1 # 1000)] [mkCoord 2 0]) =
  (length [mkCoord 0 0; mkCoord 2 0; mkCoord 2 (1 # 1000)] +
   Nat.max 1 ((length [mkCoord 0 0; mkCoord 2 0; mkCoord 2 (1 # 1000)] - 1) / 2))%nat.
Proof. split; [cbn; lia|]. apply tighten_length. cbn; lia. Defined.

Lemma tighten_worst_first_witness :
  let t := [mkCoord 0 0; mkCoord 2 0; mkCoord 2 (1 # 1000)] in
  let a := [mkCoord 2 0] in
  (In (0%nat, 111000) (segment_deviations t a) /\ In 0%nat (segments_to_tighten t a) /\
   In (1%nat, 111 # 2) (segment_deviations t a) /\ ~ In 1%nat (segments_to_tighten t a)) /\
  111 # 2 <= 111000.
Proof.
  cbv zeta.
  assert (H1 : In (0%nat, 111000) (segment_deviations [mkCoord 0 0; mkCoord 2 0; mkCoord 2 (1 # 1000)]
                                                      [mkCoord 2 0]))
    by (vm_compute; left; reflexivity).
  assert (H2 : In 0%nat (segments_to_tighten [mkCoord 0 0; mkCoord 2 0; mkCoord 2 (1 # 1000)]
                                             [mkCoord 2 0]))
    by (vm_compute; left; reflexivity).
  assert (H3 : In (1%nat, 111 # 2) (segment_deviations [mkCoord 0 0; mkCoord 2 0; mkCoord 2 (1 # 1000)]
                                                       [mkCoord 2 0]))
    by (vm_compute; right; left; reflexivity).
  assert (H4 : ~ In 1%nat (segments_to_tighten [mkCoord 0 0; mkCoord 2 0; mkCoord 2 (1 # 1000)]
                                               [mkCoord 2 0]))
    by (vm_compute; intros [H|[]]; discriminate).
  split; [auto|]. exact (tighten_worst_first _ _ _ _ _ _ H1 H2 H3 H4).
Defined.

Lemma generate_route_attempts_witness :
  exists final retries trace s',
    generate_route scripted_route (scripted_check [40; 30; 20]) scripted_map 2%nat
                   [mkCoord 0 0; mkCoord 1 0; mkCoord 1 1] 0%nat = (final, retries, trace, s') /\
    (retries <= 2)%nat /\ length trace = Datatypes.S retries /\
    hd_error trace = Some (fst (attempt scripted_route (scripted_check [40; 30; 20])
                                  scripted_map
                                  [mkCoord 0 0; mkCoord 1 0; mkCoord 1 1] 0%nat)) /\
    (passed (att_validation final) = true \/ retries = 2%nat) /\
    exists earlier, trace = earlier ++ [final] /\
      Forall (fun x => passed (att_validation x) = false) earlier.
Proof.
  destruct (generate_route scripted_route (scripted_check [40; 30; 20]) scripted_map 2%nat
              [mkCoord 0 0; mkCoord 1 0; mkCoord 1 1] 0%nat) as [[[final retries] trace] s'] eqn:E.
  exists final, retries, trace, s'. split; [reflexivity|].
  exact (generate_route_attempts _ _ _ _ _ _ _ _ _ _ E).
Defined.

Lemma generate_route_refines_witness :
  exists first s1,
    attempt scripted_route (scripted_check [40; 30; 20]) scripted_map
            [mkCoord 0 0; mkCoord 1 0; mkCoord 1 1] 0%nat = (first, s1) /\
    forall c, (clos_refl_trans_1n _ (retry_step scripted_route (scripted_check [40; 30; 20])
                                                scripted_map 2%nat)
                 (first, 0%nat, [first], s1) c /\ retry_done 2%nat c) <->
              c = generate_route scripted_route (scripted_check [40; 30; 20])
                    scripted_map 2%nat [mkCoord 0 0; mkCoord 1 0; mkCoord 1 1] 0%nat.
Proof.
  destruct (attempt scripted_route (scripted_check [40; 30; 20]) scripted_map
              [mkCoord 0 0; mkCoord 1 0; mkCoord 1 1] 0%nat) as [first s1] eqn:E.
  exists first, s1. split; [reflexivity|].
  exact (generate_route_refines _ _ _ _ _ _ _ _ E).
Defined.
