(* ===== verification/Waypoints.v ===== *)
(** * Waypoints: turn extraction, routing in chunks, difficulty

    Models three helpers of src/backend/services/shape_generator.py:
    [_extract_waypoints] (lines 331-398), which samples the routed polyline
    and classifies the bearing change at each sample into a turn
    instruction; [_route_waypoints] (lines 254-329), which asks the SvelteKit
    proxy, falls back to the Mapbox Directions API in chunks of 25
    waypoints that overlap by one, and falls back again to the unrouted
    waypoints with a straight-line estimate; and
    [_difficulty_for_distance] (lines 459-465).  The HTTP calls are
    collaborators: the proxy, whose failures the code catches ([option]),
    and the Directions API on one chunk, which may answer without a route
    or raise ([Outcome]); an exception of a Directions request propagates
    out of [_route_waypoints], which therefore returns an [Outcome].  The
    local [bearing] of [_extract_waypoints] is the same formula as
    [_bearing_deg], so the kernel's bearing is used. *)

From Stdlib Require Import String.
From Stdlib Require Import QArith Qround Qabs Lqa List Lia ZArith PeanoNat Morphisms Setoid.
From S2P Require Import Prelude Geodesy StreetMapper Validator.
Import ListNotations.
Open Scope Q_scope.
Open Scope geo_scope.

(** ** Markers *)

(** The [instruction] strings of the markers. *)
Inductive Instruction :=
| StartHere | WaypointInstr | MakeUTurn | TurnRight | BearRight | TurnLeft | BearLeft | Finish.

(** [class WaypointMarker(BaseModel)] of schemas.py. *)
Record WaypointMarker := mkMarker {
  index : nat; wm_lng : Q; wm_lat : Q; instruction : Instruction }.

Section Extract.
Context {G : Geodesy}.

(** The classification of lines 364-384 at a sample [curr] between [prev]
    and [next_p]: [None] below the 30 degree threshold. *)
Definition turn_instruction (prev curr next_p : Coordinate) : option Instruction :=
  let b1 := _bearing_deg prev curr in
  let b2 := _bearing_deg curr next_p in
  let ac := angle_change prev curr next_p in
  if 30 <=? ac then
    let cross := py_qmod (b2 - b1 + 360) 360 in
    Some (if 150 <? ac then MakeUTurn
          else if cross <? 180 then (if 60 <? ac then TurnRight else BearRight)
          else (if 60 <? ac then TurnLeft else BearLeft))
  else None.

(** One iteration of the sampling loop (lines 360-391). *)
Definition turn_step (coordinates : list Coordinate) (step : nat)
    (waypoints : list WaypointMarker) (i : nat) : list WaypointMarker :=
  let prev := nth (i - step) coordinates (mkCoord 0 0) in
  let curr := nth i coordinates (mkCoord 0 0) in
  let next_p := nth (Nat.min (i + step) (length coordinates - 1)) coordinates (mkCoord 0 0) in
  match turn_instruction prev curr next_p with
  | Some ins => waypoints ++ [mkMarker (length waypoints + 1) (lng curr) (lat curr) ins]
  | None => waypoints
  end.

(** [max(1, len(coordinates) // 50)]. *)
Definition sample_step (n : nat) : nat := Nat.max 1 (n / 50).

Definition _extract_waypoints (coordinates : list Coordinate) : list WaypointMarker :=
  if Nat.ltb (length coordinates) 3 then
    map (fun '(i, c) => mkMarker (i + 1) (lng c) (lat c) WaypointInstr)
        (combine (seq 0 (length coordinates)) coordinates)
  else
    let c0 := hd (mkCoord 0 0) coordinates in
    let step := sample_step (length coordinates) in
    let waypoints :=
      fold_left (turn_step coordinates step)
                (py_range step (length coordinates - step) step)
                [mkMarker 1 (lng c0) (lat c0) StartHere] in
    let lastc := last coordinates (mkCoord 0 0) in
    waypoints ++ [mkMarker (length waypoints + 1) (lng lastc) (lat lastc) Finish].

(** A marker [m] records the turn classified at sample [i]. *)
Definition marks_turn (coordinates : list Coordinate) (step i : nat) (m : WaypointMarker) : Prop :=
  let curr := nth i coordinates (mkCoord 0 0) in
  wm_lng m = lng curr /\ wm_lat m = lat curr /\
  turn_instruction (nth (i - step) coordinates (mkCoord 0 0)) curr
    (nth (Nat.min (i + step) (length coordinates - 1)) coordinates (mkCoord 0 0))
  = Some (instruction m).

End Extract.

(** ** Routing *)

(** The dictionary returned by [_route_waypoints]. *)
Record RouteResult := mkRoute {
  coordinates : list Coordinate; distance_km : Q; duration_minutes : Q }.

(** The part of a Directions API answer that is read: the geometry of
    [routes[0]], its [distance] in metres and [duration] in seconds. *)
Record DirectionsRoute := mkDirections {
  route_coords : list Coordinate; route_distance : Q; route_duration : Q }.

(** [chunk_size = 25]; the chunks start every [chunk_size - 1]. *)
Definition chunk_size : nat := 25.

Definition chunk_starts (n : nat) : list nat := py_range 0 n (chunk_size - 1).

(** [coords[i : i + chunk_size]]. *)
Definition chunk (coords : list Coordinate) (i : nat) : list Coordinate :=
  firstn chunk_size (skipn i coords).

Section Route.
Context {G : Geodesy}.
(** The collaborators: the SvelteKit proxy (its answer when the status is
    200 and [success] is set; lines 259-274 catch every exception, so a
    failure is [None]), the Directions API on one chunk, and the token
    read from the environment ([MAPBOX_ACCESS_TOKEN or
    VITE_MAPBOX_ACCESS_TOKEN]).  A Directions request is outside any
    [try]: [directions c] is [Returned (Some r)] when [code == "Ok"] and
    [routes] is not empty (lines 305-313), [Returned None] when the loop
    continues (309-310), and [Raised e] when the request, [resp.json()]
    (a [JSONDecodeError], a [ValueError]) or reading the route (a
    [KeyError]) raises. *)
Variable proxy : list Coordinate -> option RouteResult.
Variable directions : list Coordinate -> Outcome (option DirectionsRoute).
Variable mapbox_token : option string.

(** One iteration of the chunk loop (lines 296-316) on the accumulated
    coordinates, distance (km) and duration (min); a raised exception
    leaves the loop, so no later chunk is requested. *)
Definition chunk_step (coords : list Coordinate) (acc : Outcome (list Coordinate * Q * Q)) (i : nat)
    : Outcome (list Coordinate * Q * Q) :=
  match acc with
  | Raised e => Raised e
  | Returned (all_coords, total_dist, total_dur) =>
      let c := chunk coords i in
      if Nat.ltb (length c) 2 then acc
      else
        match directions c with
        | Raised e => Raised e
        | Returned None => acc
        | Returned (Some r) =>
            Returned (match all_coords with
                      | [] => route_coords r
                      | _ => all_coords ++ tl (route_coords r)
                      end,
                      total_dist + route_distance r / 1000, total_dur + route_duration r / 60)
        end
  end.

(** [int(estimate_distance_km(waypoints) / 5 * 60)]: minutes at 5 km/h. *)
Definition walking_minutes (waypoints : list Coordinate) : Q :=
  inject_Z (py_int (estimate_distance_km waypoints / 5 * 60)).

Definition _route_waypoints (waypoints : list Coordinate) : Outcome RouteResult :=
  match proxy waypoints with
  | Some r => Returned r
  | None =>
      let coords := waypoints in
      if negb (api_key_set mapbox_token) then
        Returned (mkRoute coords (estimate_distance_km waypoints) (walking_minutes waypoints))
      else
        match fold_left (chunk_step coords) (chunk_starts (length coords)) (Returned ([], 0, 0)) with
        | Raised e => Raised e
        | Returned (all_coords, total_dist, total_dur) =>
            Returned (mkRoute (match all_coords with [] => coords | _ => all_coords end)
                        (or_default (round1 total_dist) (estimate_distance_km waypoints))
                        (match py_round total_dur with
                         | Z0 => walking_minutes waypoints
                         | z => inject_Z z
                         end))
        end
  end.

End Route.

(** ** Difficulty *)

Inductive Difficulty := Easy | Moderate | Hard.

Definition _difficulty_for_distance (km : Q) : Difficulty :=
  if km <? 4 then Easy else if km <? 8 then Moderate else Hard.

Definition difficulty_rank (d : Difficulty) : nat :=
  match d with Easy => 0 | Moderate => 1 | Hard => 2 end.

(** A routed polyline for running the model: east for two steps, then
    north for two steps (a left turn at the third point). *)
Definition l_route : list Coordinate :=
  [mkCoord 0 0; mkCoord (1 # 1000) 0; mkCoord (2 # 1000) 0; mkCoord (2 # 1000) (1 # 1000);
   mkCoord (2 # 1000) (2 # 1000)].

(** A Directions service that is down: every request raises. *)
Definition directions_down (_ : list Coordinate) : Outcome (option DirectionsRoute) :=
  Raised (OtherError "ConnectError").

(** * Properties *)

Section ExtractFacts.
Context {G : Geodesy} {GL : GeodesyLaws}.

(** The bearing change is folded into [[0, 180]]. *)
Lemma angle_change_range a b c : 0 <= angle_change a b c <= 180.
Proof.
  unfold angle_change. destruct (bearing_range a b), (bearing_range b c).
  set (d := _bearing_deg b c - _bearing_deg a b).
  assert (Hd : 0 <= Qabs d <= 360) by (split; [apply Qabs_nonneg|apply Qabs_case; unfold d; lra]).
  destruct (Qlt_boolP 180 (Qabs d)); lra.
Qed.

(** The turn loop only appends markers classified at a sample, numbered
    after the markers already there. *)
Lemma fold_turn_step c step idx w :
  exists mid, fold_left (turn_step c step) idx w = w ++ mid /\
    (length mid <= length idx)%nat /\
    map index mid = seq (length w + 1) (length mid) /\
    Forall (fun m => exists i, In i idx /\ marks_turn c step i m) mid.
Proof.
  revert w. induction idx as [|i idx IH]; intros w; cbn [fold_left].
  - exists []. rewrite app_nil_r. repeat split; auto.
  - unfold turn_step at 2.
    destruct (turn_instruction _ _ _) as [ins|] eqn:E.
    + destruct (IH (w ++ [mkMarker (length w + 1) (lng (nth i c (mkCoord 0 0)))
                                   (lat (nth i c (mkCoord 0 0))) ins]))
        as (mid & -> & Hl & Hix & Hf).
      exists (mkMarker (length w + 1) (lng (nth i c (mkCoord 0 0))) (lat (nth i c (mkCoord 0 0))) ins
              :: mid).
      rewrite <- app_assoc. split; [reflexivity|]. rewrite length_app in Hix. cbn [length] in *.
      split; [lia|]. split; [cbn; f_equal; rewrite Hix; f_equal; lia|].
      constructor; [exists i; split; [left; reflexivity|repeat split; assumption]|].
      eapply Forall_impl; [|exact Hf]. intros m (j & Hj & Hm). exists j. split; [right|]; assumption.
    + destruct (IH w) as (mid & -> & Hl & Hix & Hf). exists mid.
      split; [reflexivity|]. split; [cbn; lia|]. split; [exact Hix|].
      eapply Forall_impl; [|exact Hf]. intros m (j & Hj & Hm). exists j. split; [right|]; assumption.
Qed.

Lemma sample_step_pos n : (0 < sample_step n)%nat.
Proof. unfold sample_step. lia. Qed.

(** The samples are at most [n - 2] for [n >= 3] points. *)
Lemma samples_length n :
  (3 <= n)%nat -> (length (py_range (sample_step n) (n - sample_step n) (sample_step n)) <= n - 2)%nat.
Proof.
  intros Hn. rewrite length_py_range. pose proof (sample_step_pos n) as Hs.
  assert (Hcase : sample_step n = 1%nat \/ sample_step n = (n / 50)%nat) by (unfold sample_step; lia).
  pose proof (Nat.Div0.mul_div_le n 50).
  set (s := sample_step n) in *.
  assert (Hx : (n - s - s + s - 1 <= n - 2)%nat) by lia.
  set (x := (n - s - s + s - 1)%nat) in *.
  transitivity x; [apply Nat.Div0.div_le_upper_bound; nia|exact Hx].
Qed.

End ExtractFacts.


Section ExtractTheorems.
Context {G : Geodesy} {GL : GeodesyLaws}.

(** the markers of [_extract_waypoints] are numbered [1, 2, ...] in
    order, on every path. *)
Theorem extract_indices c :
  map index (_extract_waypoints c) = seq 1 (length (_extract_waypoints c)).
Proof.
  unfold _extract_waypoints. destruct (Nat.ltb_spec (length c) 3).
  - rewrite length_map, length_combine, length_seq, Nat.min_id, map_map, <- seq_shift.
    rewrite <- (map_fst_combine (seq 0 (length c)) c) at 2 by (rewrite length_seq; lia).
    rewrite map_map. apply map_ext. intros [i x]. cbn. lia.
  - cbv zeta.
    destruct (fold_turn_step c (sample_step (length c))
                (py_range (sample_step (length c)) (length c - sample_step (length c))
                          (sample_step (length c)))
                [mkMarker 1 (lng (hd (mkCoord 0 0) c)) (lat (hd (mkCoord 0 0) c)) StartHere])
      as (mid & -> & _ & Hix & _).
    rewrite !map_app, !length_app. cbn [map length index app] in *. rewrite Hix.
    replace (1 + length mid + 1)%nat with (S (S (length mid))) by lia.
    rewrite seq_S. reflexivity.
Qed.

(** C27: for at least three routed points, the markers are "Start here" at
    the first point, then the turns, then "Finish!" at the last point; every
    turn marker sits at an interior sample [i] ([0 < i < n - 1]) where the
    bearing change is classified as that turn. *)
Theorem extract_structure c :
  (3 <= length c)%nat ->
  exists mid,
    _extract_waypoints c =
      mkMarker 1 (lng (hd (mkCoord 0 0) c)) (lat (hd (mkCoord 0 0) c)) StartHere :: mid ++
      [mkMarker (length mid + 2) (lng (last c (mkCoord 0 0))) (lat (last c (mkCoord 0 0))) Finish] /\
    Forall (fun m => exists i, (0 < i < length c - 1)%nat /\ marks_turn c (sample_step (length c)) i m)
      mid.
Proof.
  intros Hn. unfold _extract_waypoints. destruct (Nat.ltb_spec (length c) 3); [lia|]. cbv zeta.
  destruct (fold_turn_step c (sample_step (length c))
              (py_range (sample_step (length c)) (length c - sample_step (length c))
                        (sample_step (length c)))
              [mkMarker 1 (lng (hd (mkCoord 0 0) c)) (lat (hd (mkCoord 0 0) c)) StartHere])
    as (mid & -> & _ & _ & Hf).
  exists mid. split.
  { match goal with |- context [(length ?l + 1)%nat] =>
      replace (length l + 1)%nat with (length mid + 2)%nat by (rewrite length_app; cbn; lia) end.
    reflexivity. }
  eapply Forall_impl; [|exact Hf]. intros m (i & Hi & Hm). exists i. split; [|exact Hm].
  apply py_range_spec in Hi as [Hi _]; [|apply sample_step_pos].
  pose proof (sample_step_pos (length c)). lia.
Qed.

(** [_extract_waypoints] never returns more markers than routed points. *)
Theorem extract_length_bound c : (length (_extract_waypoints c) <= length c)%nat.
Proof.
  unfold _extract_waypoints. destruct (Nat.ltb_spec (length c) 3).
  - rewrite length_map, length_combine, length_seq. lia.
  - cbv zeta.
    destruct (fold_turn_step c (sample_step (length c))
                (py_range (sample_step (length c)) (length c - sample_step (length c))
                          (sample_step (length c)))
                [mkMarker 1 (lng (hd (mkCoord 0 0) c)) (lat (hd (mkCoord 0 0) c)) StartHere])
      as (mid & -> & Hl & _ & _).
    pose proof (samples_length (length c) H). rewrite !length_app. cbn [length]. lia.
Qed.

(** C28: a sample yields a marker only for a bearing change of at least 30
    degrees (at most 180); the marker is a U-turn exactly above 150
    degrees, a "Turn" (left or right) exactly between 60 and 150 degrees,
    and a "Bear" otherwise. *)
Theorem turn_instruction_spec prev curr next_p ins :
  turn_instruction prev curr next_p = Some ins ->
  let ac := angle_change prev curr next_p in
  30 <= ac <= 180 /\
  (ins = MakeUTurn <-> 150 < ac) /\
  (ins = TurnRight \/ ins = TurnLeft <-> 60 < ac <= 150) /\
  (ins = BearRight \/ ins = BearLeft <-> ac <= 60).
Proof.
  intros E. cbv zeta. pose proof (angle_change_range prev curr next_p) as Hr.
  unfold turn_instruction in E. set (ac := angle_change prev curr next_p) in *.
  destruct (Qle_boolP 30 ac) as [H30|]; [|discriminate]. injection E as <-.
  destruct (Qlt_boolP 150 ac), (Qlt_boolP 60 ac),
    (Qlt_boolP (py_qmod (_bearing_deg curr next_p - _bearing_deg prev curr + 360) 360) 180);
    repeat split; try lra; intros; try discriminate; try lra;
    repeat match goal with H : _ \/ _ |- _ => destruct H end; try discriminate; auto.
Qed.

End ExtractTheorems.

Section RouteFacts.
Context {G : Geodesy}.


Lemma tl_firstn_skipn {A} (l : list A) p n :
  tl (firstn (S n) (skipn p l)) = firstn n (skipn (S p) l).
Proof.
  revert l. induction p as [|p IH]; intros [|x l]; cbn; rewrite ?firstn_nil; auto.
  apply IH.
Qed.

(** Once a request has raised, the loop keeps the exception. *)
Lemma fold_chunk_raised directions coords idx e :
  fold_left (chunk_step directions coords) idx (Raised e) = Raised e.
Proof. induction idx as [|i idx IH]; [reflexivity|exact IH]. Qed.

(** One iteration raises exactly when its chunk is requested and the
    request raises; otherwise it returns. *)
Lemma chunk_step_Returned directions coords acc j :
  (exists acc', chunk_step directions coords (Returned acc) j = Returned acc') <->
  ((length (chunk coords j) < 2)%nat \/ exists o, directions (chunk coords j) = Returned o).
Proof.
  unfold chunk_step. destruct acc as [[a d] t]. cbv zeta.
  destruct (Nat.ltb_spec (length (chunk coords j)) 2) as [Hl|Hl].
  { split; [intros _; left; exact Hl|intros _; eexists; reflexivity]. }
  destruct (directions (chunk coords j)) as [o|e]; split.
  - intros _. right. exists o. reflexivity.
  - intros _. destruct o; eexists; reflexivity.
  - intros (acc' & E). discriminate.
  - intros [H|[o E]]; [lia|discriminate].
Qed.

Lemma chunk_step_Raised directions coords acc j e :
  chunk_step directions coords (Returned acc) j = Raised e <->
  (2 <= length (chunk coords j))%nat /\ directions (chunk coords j) = Raised e.
Proof.
  unfold chunk_step. destruct acc as [[a d] t]. cbv zeta.
  destruct (Nat.ltb_spec (length (chunk coords j)) 2) as [Hl|Hl];
    [split; [discriminate|intros [? _]; lia]|].
  destruct (directions (chunk coords j)) as [[r|]|e']; split; try discriminate;
    try (intros [_ E]; discriminate E); [intros [= <-]; auto|intros [_ [= <-]]; reflexivity].
Qed.

(** The chunk loop raises the exception of the first requested chunk whose
    request raises, after chunks that were skipped or answered. *)
Lemma fold_chunk_Raised directions coords idx acc e :
  fold_left (chunk_step directions coords) idx (Returned acc) = Raised e <->
  exists pre i post, idx = pre ++ i :: post /\
    (2 <= length (chunk coords i))%nat /\ directions (chunk coords i) = Raised e /\
    Forall (fun j => (length (chunk coords j) < 2)%nat \/ exists o, directions (chunk coords j) = Returned o) pre.
Proof.
  revert acc. induction idx as [|i idx IH]; intros acc; cbn [fold_left].
  - split; [discriminate|]. intros (pre & i & post & E & _). destruct pre; discriminate.
  - destruct (chunk_step directions coords (Returned acc) i) as [acc'|e'] eqn:Ec.
    + rewrite IH. assert (Hi : exists a, chunk_step directions coords (Returned acc) i = Returned a) by eauto.
      apply chunk_step_Returned in Hi. split.
      * intros (pre & j & post & -> & H2 & Hd & Hpre). exists (i :: pre), j, post. auto.
      * intros (pre & j & post & Eidx & H2 & Hd & Hpre). destruct pre as [|k pre].
        -- injection Eidx as -> ->. pose proof (proj2 (chunk_step_Raised _ _ acc _ _) (conj H2 Hd)). congruence.
        -- injection Eidx as -> ->. inversion Hpre; subst. exists pre, j, post. auto.
    + rewrite fold_chunk_raised. apply chunk_step_Raised in Ec as [H2 Hd]. split.
      * intros [= <-]. exists [], i, idx. auto.
      * intros (pre & j & post & Eidx & H2' & Hd' & Hpre). destruct pre as [|k pre].
        -- injection Eidx as -> ->. congruence.
        -- injection Eidx as -> ->. inversion Hpre as [|? ? Hk _]; subst. destruct Hk as [Hl|[o Ho]]; [lia|congruence].
Qed.

(** When no requested chunk gets a route, the loop leaves its
    accumulator alone. *)
Lemma fold_chunk_none directions coords idx acc :
  (forall c, directions c = Returned None) ->
  fold_left (chunk_step directions coords) idx (Returned acc) = Returned acc.
Proof.
  intros Hn. induction idx as [|i idx IH]; [reflexivity|]. cbn [fold_left].
  unfold chunk_step at 2. destruct acc as [[a d] t]. cbv zeta.
  destruct (Nat.ltb _ 2); [apply IH|]. rewrite Hn. apply IH.
Qed.

(** When every chunk is routed along its own waypoints, the loop has
    stitched the first [24 k + 25] waypoints after the chunks
    [0, 24, ..., 24 k]. *)
Lemma fold_chunk_identity directions dist dur w k :
  (forall c, directions c = Returned (Some (mkDirections c (dist c) (dur c)))) ->
  (2 <= length w)%nat -> (24 * k < length w)%nat ->
  exists d t, fold_left (chunk_step directions w) (map (fun m => 0 + m * 24)%nat (seq 0 (S k)))
                (Returned ([], 0, 0)) = Returned (firstn (24 * k + 25) w, d, t).
Proof.
  intros Hd Hw. induction k as [|k IH]; intros Hk.
  - cbn [seq map fold_left Nat.add Nat.mul]. unfold chunk_step, chunk, chunk_size. cbv zeta. cbn [skipn Nat.sub].
    destruct (Nat.ltb_spec (length (firstn 25 w)) 2) as [Hl|_].
    + rewrite length_firstn in Hl. lia.
    + rewrite Hd. cbn [route_coords]. do 2 eexists. reflexivity.
  - rewrite seq_S, map_app, fold_left_app. destruct (IH ltac:(lia)) as (d & t & ->).
    cbn [map fold_left]. unfold chunk_step, chunk, chunk_size. cbv zeta.
    replace (0 + (0 + S k) * 24)%nat with (24 * k + 24)%nat by lia.
    destruct (Nat.ltb_spec (length (firstn 25 (skipn (24 * k + 24) w))) 2) as [Hl|_].
    + rewrite length_firstn, length_skipn in Hl.
      rewrite !firstn_all2 by lia. do 2 eexists. reflexivity.
    + rewrite Hd. cbn [route_coords]. rewrite tl_firstn_skipn.
      destruct (firstn (24 * k + 25) w) as [|y ys] eqn:Ef.
      { apply (f_equal (@length _)) in Ef. rewrite length_firstn in Ef. cbn in Ef. lia. }
      cbv beta iota. rewrite <- Ef.
      replace (S (24 * k + 24)) with (24 * k + 25)%nat by lia.
      rewrite <- firstn_add. do 2 eexists. do 3 f_equal. f_equal. lia.
Qed.

End RouteFacts.

Section RouteTheorems.
Context {G : Geodesy}.


(** C18: when the proxy fails and every chunk is routed along its own
    waypoints, stitching the chunk routes (dropping each repeated first
    point) gives back exactly the waypoints. *)
Theorem route_stitch_roundtrip proxy directions tok dist dur w :
  proxy w = None -> api_key_set tok = true ->
  (forall c, directions c = Returned (Some (mkDirections c (dist c) (dur c)))) ->
  (2 <= length w)%nat ->
  exists r, _route_waypoints proxy directions tok w = Returned r /\ coordinates r = w.
Proof.
  intros Hp Ht Hd Hw. unfold _route_waypoints. rewrite Hp, Ht. cbn [negb].
  unfold chunk_starts, py_range. unfold chunk_size. cbn [Nat.sub].
  set (m := ((length w - 0 + 24 - 1) / 24)%nat).
  assert (Hm : (1 <= m)%nat) by (unfold m; apply Nat.div_le_lower_bound; lia).
  assert (Hlt : (24 * (m - 1) < length w)%nat).
  { assert (H := proj1 (lt_ceil_div (m - 1) (length w - 0) 24 ltac:(lia)) ltac:(unfold m in *; lia)).
    lia. }
  assert (Hge : (length w <= 24 * (m - 1) + 25)%nat).
  { assert (~ (m < (length w - 0 + 24 - 1) / 24)%nat) by (unfold m; lia).
    destruct (Nat.le_gt_cases (length w) (24 * (m - 1) + 25)); [assumption|].
    exfalso. apply H. apply lt_ceil_div; lia. }
  replace m with (S (m - 1)) by lia.
  destruct (fold_chunk_identity directions dist dur w (m - 1) Hd Hw Hlt) as (d & t & ->).
  rewrite firstn_all2 by lia. destruct w as [|x w']; [cbn in Hw; lia|]. eexists. split; reflexivity.
Qed.

(** C26: when the proxy fails, and either no Mapbox token is set or every
    Directions request answers without a route, [_route_waypoints]
    returns the unrouted waypoints with the straight-line distance and a
    walking time at 5 km/h. *)
Theorem route_fallback proxy directions tok w :
  proxy w = None ->
  (api_key_set tok = false \/ forall c, directions c = Returned None) ->
  _route_waypoints proxy directions tok w =
  Returned (mkRoute w (estimate_distance_km w) (walking_minutes w)).
Proof.
  intros Hp Hc. unfold _route_waypoints. rewrite Hp.
  destruct (api_key_set tok) eqn:Ht; [|reflexivity]. cbn [negb].
  destruct Hc as [|Hn]; [discriminate|].
  rewrite (fold_chunk_none directions w _ _ Hn). reflexivity.
Qed.

(** C13: [_route_waypoints] raises exactly when the proxy fails, a Mapbox
    token is set and a Directions request raises (it is outside any
    [try]); the exception is that of the first requested chunk whose
    request raises, every earlier chunk having been skipped (fewer than
    two waypoints) or answered. *)
Theorem route_raises proxy directions tok w e :
  _route_waypoints proxy directions tok w = Raised e <->
  proxy w = None /\ api_key_set tok = true /\
  exists pre i post, chunk_starts (length w) = pre ++ i :: post /\
    (2 <= length (chunk w i))%nat /\ directions (chunk w i) = Raised e /\
    Forall (fun j => (length (chunk w j) < 2)%nat \/ exists o, directions (chunk w j) = Returned o) pre.
Proof.
  unfold _route_waypoints. destruct (proxy w) as [r|]; [split; [discriminate|intros [H _]; discriminate H]|].
  destruct (api_key_set tok); cbn [negb];
    [|split; [discriminate|intros (_ & H & _); discriminate H]].
  rewrite <- (fold_chunk_Raised directions w (chunk_starts (length w)) ([], 0, 0) e).
  destruct (fold_left (chunk_step directions w) (chunk_starts (length w)) (Returned ([], 0, 0)))
    as [[[a d] t]|e']; split.
  - intros H. discriminate H.
  - intros (_ & _ & H). discriminate H.
  - intros H. injection H as ->. repeat split.
  - intros (_ & _ & H). injection H as ->. reflexivity.
Qed.

End RouteTheorems.

(** ** Witnesses on the planar kernel *)

Lemma extract_indices_witness :
  map index (_extract_waypoints l_route) = seq 1 (length (_extract_waypoints l_route)).
Proof. apply extract_indices. Defined.

Lemma extract_structure_witness :
  (3 <= length l_route)%nat /\
  exists mid,
    _extract_waypoints l_route =
      mkMarker 1 (lng (hd (mkCoord 0 0) l_route)) (lat (hd (mkCoord 0 0) l_route)) StartHere :: mid ++
      [mkMarker (length mid + 2) (lng (last l_route (mkCoord 0 0))) (lat (last l_route (mkCoord 0 0)))
                Finish] /\
    Forall (fun m => exists i, (0 < i < length l_route - 1)%nat /\
                               marks_turn l_route (sample_step (length l_route)) i m) mid.
Proof. split; [cbn; lia|]. apply extract_structure. cbn; lia. Defined.

Lemma extract_length_bound_witness : (length (_extract_waypoints l_route) <= length l_route)%nat.
Proof. apply extract_length_bound. Defined.

Lemma turn_instruction_spec_witness :
  exists ins,
    turn_instruction (mkCoord (1 # 1000) 0) (mkCoord (2 # 1000) 0) (mkCoord (2 # 1000) (1 # 1000))
      = Some ins /\
    (let ac := angle_change (mkCoord (1 # 1000) 0) (mkCoord (2 # 1000) 0) (mkCoord (2 # 1000) (1 # 1000)) in
     30 <= ac <= 180 /\ (ins = MakeUTurn <-> 150 < ac) /\
     (ins = TurnRight \/ ins = TurnLeft <-> 60 < ac <= 150) /\
     (ins = BearRight \/ ins = BearLeft <-> ac <= 60)).
Proof.
  destruct (turn_instruction (mkCoord (1 # 1000) 0) (mkCoord (2 # 1000) 0)
              (mkCoord (2 # 1000) (1 # 1000))) as [ins|] eqn:E; [|vm_compute in E; discriminate].
  exists ins. split; [reflexivity|]. exact (turn_instruction_spec _ _ _ ins E).
Defined.

Lemma route_stitch_roundtrip_witness :
  ((fun _ : list Coordinate => @None RouteResult) l_route = None /\
   api_key_set (Some "token"%string) = true /\
   (forall c, (fun c => Returned (Some (mkDirections c 1000 60))) c =
              Returned (Some (mkDirections c ((fun _ => 1000) c) ((fun _ => 60) c)))) /\
   (2 <= length l_route)%nat) /\
  exists r, _route_waypoints (fun _ => None) (fun c => Returned (Some (mkDirections c 1000 60)))
              (Some "token"%string) l_route = Returned r /\ coordinates r = l_route.
Proof.
  split; [split; [reflexivity|split; [reflexivity|split; [reflexivity|cbn; lia]]]|].
  apply (route_stitch_roundtrip _ _ _ (fun _ => 1000) (fun _ => 60)); [reflexivity|reflexivity|
    reflexivity|cbn; lia].
Defined.

Lemma route_fallback_witness :
  ((fun _ : list Coordinate => @None RouteResult) l_route = None /\
   (api_key_set None = false \/
    forall c, (fun _ : list Coordinate => @Returned (option DirectionsRoute) None) c = Returned None)) /\
  _route_waypoints (fun _ => None) (fun _ => Returned None) None l_route =
  Returned (mkRoute l_route (estimate_distance_km l_route) (walking_minutes l_route)).
Proof.
  split; [split; [reflexivity|left; reflexivity]|].
  apply route_fallback; [reflexivity|left; reflexivity].
Defined.

Lemma route_raises_witness :
  _route_waypoints (fun _ => None) directions_down (Some "token"%string) l_route = Raised (OtherError "ConnectError") /\
  ((fun _ : list Coordinate => @None RouteResult) l_route = None /\ api_key_set (Some "token"%string) = true /\
   exists pre i post, chunk_starts (length l_route) = pre ++ i :: post /\
     (2 <= length (chunk l_route i))%nat /\ directions_down (chunk l_route i) = Raised (OtherError "ConnectError") /\
     Forall (fun j => (length (chunk l_route j) < 2)%nat \/ exists o, directions_down (chunk l_route j) = Returned o) pre).
Proof.
  assert (E : _route_waypoints (fun _ => None) directions_down (Some "token"%string) l_route =
              Raised (OtherError "ConnectError")) by reflexivity.
  split; [exact E|]. exact (proj1 (route_raises _ _ _ _ _) E).
Defined.
