(* ===== verification/PyStr.v ===== *)
(** * PyStr: the Python string operations the services use

    [str.lower], [str.upper] of one character, [str.strip], [str.split]
    (no argument), [str.isalpha], [str.endswith], the [in] test and
    slicing off the last characters, on [String.string].  The model is
    ASCII: Python applies the Unicode tables, which agree with these on
    ASCII text; non-ASCII characters are left unchanged and are neither
    letters nor white space here.  These are library functions, not code
    of the repository; the lemmas are what the services' proofs use. *)

From Stdlib Require Import String Ascii List Bool Lia PeanoNat ZArith.
Import ListNotations.

(** ** Characters *)

Definition is_upper (c : ascii) : bool :=
  let n := nat_of_ascii c in Nat.leb 65 n && Nat.leb n 90.

Definition is_lower (c : ascii) : bool :=
  let n := nat_of_ascii c in Nat.leb 97 n && Nat.leb n 122.

Definition is_digit (c : ascii) : bool :=
  let n := nat_of_ascii c in Nat.leb 48 n && Nat.leb n 57.

(** [c.isalpha()]. *)
Definition is_alpha (c : ascii) : bool := is_upper c || is_lower c.

(** The ASCII white space of [str.isspace] (hence of [str.split],
    [str.strip] and the regex class [\s]): tab, line feed, vertical tab,
    form feed, carriage return (9-13), the separators 28-31 and space. *)
Definition is_space (c : ascii) : bool :=
  let n := nat_of_ascii c in (Nat.leb 9 n && Nat.leb n 13) || (Nat.leb 28 n && Nat.leb n 32).

Definition lower_char (c : ascii) : ascii :=
  if is_upper c then ascii_of_nat (nat_of_ascii c + 32) else c.

Definition upper_char (c : ascii) : ascii :=
  if is_lower c then ascii_of_nat (nat_of_ascii c - 32) else c.

(** ** Strings *)

(** [s.lower()]. *)
Definition py_lower (s : string) : string :=
  string_of_list_ascii (map lower_char (list_ascii_of_string s)).

(** [s.upper()]. *)
Definition py_upper (s : string) : string :=
  string_of_list_ascii (map upper_char (list_ascii_of_string s)).

Fixpoint drop_spaces (cs : list ascii) : list ascii :=
  match cs with
  | c :: cs' => if is_space c then drop_spaces cs' else cs
  | [] => []
  end.

(** [s.strip()]. *)
Definition py_strip (s : string) : string :=
  string_of_list_ascii (rev (drop_spaces (rev (drop_spaces (list_ascii_of_string s))))).

(** The loop of [s.split()]: [cur] is the current word, reversed. *)
Fixpoint split_words (cs : list ascii) (cur : list ascii) : list string :=
  match cs with
  | [] => match cur with [] => [] | _ => [string_of_list_ascii (rev cur)] end
  | c :: cs' =>
      if is_space c then
        match cur with
        | [] => split_words cs' []
        | _ => string_of_list_ascii (rev cur) :: split_words cs' []
        end
      else split_words cs' (c :: cur)
  end.

(** [s.split()]: the maximal runs of non-space characters. *)
Definition py_split (s : string) : list string := split_words (list_ascii_of_string s) [].

(** [needle in haystack]. *)
Definition py_contains (needle haystack : string) : bool :=
  match index 0 needle haystack with Some _ => true | None => false end.

(** [s.endswith(suffix)]. *)
Definition py_endswith (s suffix : string) : bool :=
  (String.length suffix <=? String.length s) &&
  String.eqb (substring (String.length s - String.length suffix) (String.length suffix) s) suffix.

(** [s[:-k]] for [k <= len(s)]. *)
Definition py_drop_last (k : nat) (s : string) : string := substring 0 (String.length s - k) s.

(** [s.isalpha()]: not empty and only letters. *)
Definition py_isalpha (s : string) : bool :=
  match s with EmptyString => false | _ => forallb is_alpha (list_ascii_of_string s) end.

(** [s.startswith(prefix)]. *)
Definition py_startswith (s prefix : string) : bool := String.prefix prefix s.

(** The loop of [s.split(sep)] for a one-character [sep]: [cur] is the
    current field, reversed. *)
Fixpoint split_on_aux (sep : ascii) (cs cur : list ascii) : list string :=
  match cs with
  | [] => [string_of_list_ascii (rev cur)]
  | c :: cs' =>
      if Ascii.eqb c sep then string_of_list_ascii (rev cur) :: split_on_aux sep cs' []
      else split_on_aux sep cs' (c :: cur)
  end.

(** [s.split(sep)]: the fields between the separators, empty ones kept. *)
Definition py_split_on (sep : ascii) (s : string) : list string :=
  split_on_aux sep (list_ascii_of_string s) [].

(** [sep.join(parts)]. *)
Fixpoint py_join (sep : string) (parts : list string) : string :=
  match parts with
  | [] => EmptyString
  | [x] => x
  | x :: xs => String.append x (String.append sep (py_join sep xs))
  end.

(** [s.find(c)] and [s.rfind(c)] for one character: the first and the
    last index of [c], [-1] when there is none. *)
Definition py_find_char (c : ascii) (s : string) : Z :=
  match index 0 (String c EmptyString) s with Some n => Z.of_nat n | None => (-1)%Z end.

Definition py_rfind_char (c : ascii) (s : string) : Z :=
  fst (fold_left (fun '(best, i) x => (if Ascii.eqb x c then Z.of_nat i else best, S i))
                 (list_ascii_of_string s) ((-1)%Z, 0)).

(** [s[start:stop]] for [0 <= start <= stop]. *)
Definition py_slice (s : string) (start stop : nat) : string := substring start (stop - start) s.

(** The loop of [s.title()]: a letter is upper-cased after a character
    that is not a letter and lower-cased after a letter. *)
Fixpoint title_aux (prev_cased : bool) (cs : list ascii) : list ascii :=
  match cs with
  | [] => []
  | c :: cs' =>
      (if is_alpha c then if prev_cased then lower_char c else upper_char c else c)
        :: title_aux (is_alpha c) cs'
  end.

(** [s.title()]. *)
Definition py_title (s : string) : string := string_of_list_ascii (title_aux false (list_ascii_of_string s)).

(** * Properties *)

Lemma alpha_not_space c : is_alpha c = true -> is_space c = false.
Proof.
  unfold is_alpha, is_upper, is_lower, is_space. intros H.
  apply orb_true_iff in H as [H|H]; apply andb_true_iff in H as [H1 H2];
    apply Nat.leb_le in H1, H2; apply orb_false_iff; split;
    apply andb_false_iff; right; apply Nat.leb_gt; lia.
Qed.

Lemma lower_char_alpha c : is_alpha c = true -> is_alpha (lower_char c) = true.
Proof.
  unfold lower_char. destruct (is_upper c) eqn:E; [|tauto]. intros _.
  unfold is_upper in E. apply andb_true_iff in E as [E1 E2]. apply Nat.leb_le in E1, E2.
  unfold is_alpha, is_lower. rewrite nat_ascii_embedding by lia.
  apply orb_true_iff. right. apply andb_true_iff. split; apply Nat.leb_le; lia.
Qed.

Lemma lower_char_not_upper c : is_upper (lower_char c) = false.
Proof.
  unfold lower_char. destruct (is_upper c) eqn:E; [|exact E].
  unfold is_upper in *. apply andb_true_iff in E as [E1 E2].
  apply Nat.leb_le in E1, E2. rewrite nat_ascii_embedding by lia.
  apply andb_false_iff. right. apply Nat.leb_gt. lia.
Qed.

Lemma lower_char_idem c : lower_char (lower_char c) = lower_char c.
Proof. unfold lower_char at 1. now rewrite lower_char_not_upper. Qed.

(** [s.lower()] is idempotent. *)
Lemma py_lower_idem s : py_lower (py_lower s) = py_lower s.
Proof.
  unfold py_lower. rewrite list_ascii_of_string_of_list_ascii, map_map.
  f_equal. apply map_ext. apply lower_char_idem.
Qed.

Lemma length_string_of_list_ascii l : String.length (string_of_list_ascii l) = List.length l.
Proof. induction l; cbn; auto. Qed.

Lemma split_words_spec cs cur w :
  In w (split_words cs cur) ->
  w <> EmptyString /\ Forall (fun c => is_space c = false) (list_ascii_of_string w) \/
  (exists tl, w = string_of_list_ascii (rev cur ++ tl) /\ Forall (fun c => is_space c = false) tl /\
   w <> EmptyString).
Proof.
  revert cur. induction cs as [|c cs IH]; intros cur Hw; cbn [split_words] in Hw.
  - destruct cur as [|x cur]; [destruct Hw|]. destruct Hw as [<-|[]].
    right. exists []. rewrite app_nil_r. split; [reflexivity|split; [constructor|]].
    intros E. apply (f_equal String.length) in E. rewrite length_string_of_list_ascii, length_rev in E.
    discriminate.
  - destruct (is_space c) eqn:Ec.
    + destruct cur as [|x cur].
      * destruct (IH [] Hw) as [H|(tl & -> & Htl & Hne)]; [left; exact H|].
        left. split; [exact Hne|]. rewrite list_ascii_of_string_of_list_ascii. exact Htl.
      * destruct Hw as [<-|Hw].
        -- right. exists []. rewrite app_nil_r. split; [reflexivity|split; [constructor|]].
           intros E. apply (f_equal String.length) in E.
           rewrite length_string_of_list_ascii, length_rev in E. discriminate.
        -- destruct (IH [] Hw) as [H|(tl & -> & Htl & Hne)]; [left; exact H|].
           left. split; [exact Hne|]. rewrite list_ascii_of_string_of_list_ascii. exact Htl.
    + destruct (IH (c :: cur) Hw) as [H|(tl & -> & Htl & Hne)]; [left; exact H|].
      right. exists (c :: tl). cbn [rev] in Hne |- *. rewrite <- !app_assoc in Hne |- *.
      split; [reflexivity|]. split; [constructor; assumption|exact Hne].
Qed.

(** The words of [s.split()] are not empty and hold no white space. *)
Lemma py_split_words s w :
  In w (py_split s) ->
  w <> EmptyString /\ Forall (fun c => is_space c = false) (list_ascii_of_string w).
Proof.
  intros Hw. destruct (split_words_spec _ [] w Hw) as [H|(tl & -> & Htl & Hne)]; [exact H|].
  split; [exact Hne|]. cbn. rewrite list_ascii_of_string_of_list_ascii. exact Htl.
Qed.

(** [needle in haystack] finds the needle at some position. *)
Lemma py_contains_spec needle haystack :
  py_contains needle haystack = true ->
  exists m, substring m (String.length needle) haystack = needle.
Proof.
  unfold py_contains. destruct (index 0 needle haystack) as [m|] eqn:E; [|discriminate].
  intros _. exists m. apply (index_correct1 _ _ _ _ E).
Qed.

Lemma string_of_list_ascii_app a b :
  string_of_list_ascii (a ++ b) = String.append (string_of_list_ascii a) (string_of_list_ascii b).
Proof. induction a as [|c a IH]; cbn; [reflexivity|now rewrite IH]. Qed.

Lemma split_on_aux_nonempty sep cs cur : split_on_aux sep cs cur <> [].
Proof.
  revert cur. induction cs as [|c cs IH]; intros cur; cbn; [discriminate|].
  destruct (Ascii.eqb c sep); [discriminate|apply IH].
Qed.

Lemma py_join_cons sep x l : l <> [] -> py_join sep (x :: l) = String.append x (String.append sep (py_join sep l)).
Proof. destruct l; [congruence|reflexivity]. Qed.

Lemma join_split_on_aux sep cs cur :
  py_join (String sep EmptyString) (split_on_aux sep cs cur) = string_of_list_ascii (rev cur ++ cs).
Proof.
  revert cur. induction cs as [|c cs IH]; intros cur; cbn [split_on_aux].
  - now rewrite app_nil_r.
  - destruct (Ascii.eqb c sep) eqn:E.
    + apply Ascii.eqb_eq in E as ->.
      rewrite py_join_cons by apply split_on_aux_nonempty. rewrite IH. cbn [rev app].
      rewrite string_of_list_ascii_app.
      reflexivity.
    + rewrite IH. cbn [rev]. now rewrite <- app_assoc.
Qed.

(** Splitting on a character and joining with it gives the string back. *)
Lemma join_split_on sep s : py_join (String sep EmptyString) (py_split_on sep s) = s.
Proof.
  unfold py_split_on. rewrite join_split_on_aux. cbn.
  induction s as [|c s IH]; cbn; [reflexivity|now rewrite IH].
Qed.

Lemma split_on_aux_app sep cs1 cs2 cur :
  split_on_aux sep (cs1 ++ sep :: cs2) cur = split_on_aux sep cs1 cur ++ split_on_aux sep cs2 [].
Proof.
  revert cur. induction cs1 as [|c cs1 IH]; intros cur; cbn.
  - now rewrite Ascii.eqb_refl.
  - destruct (Ascii.eqb c sep); [rewrite IH|apply IH]; reflexivity.
Qed.

Lemma split_on_aux_nosep sep cs cur :
  Forall (fun c => Ascii.eqb c sep = false) cs ->
  split_on_aux sep cs cur = [string_of_list_ascii (rev cur ++ cs)].
Proof.
  revert cur. induction cs as [|c cs IH]; intros cur Hcs; cbn; [now rewrite app_nil_r|].
  inversion Hcs as [|? ? Hc Hrest]; subst. rewrite Hc, IH by exact Hrest.
  cbn [rev]. now rewrite <- app_assoc.
Qed.

Lemma list_ascii_of_string_app a b :
  list_ascii_of_string (String.append a b) = list_ascii_of_string a ++ list_ascii_of_string b.
Proof. induction a as [|c a IH]; cbn; [reflexivity|now rewrite IH]. Qed.

(** [s.strip()] leaves a string alone whose first and last characters are
    not white space. *)
Lemma py_strip_id s c1 m c2 :
  list_ascii_of_string s = c1 :: m ++ [c2] -> is_space c1 = false -> is_space c2 = false ->
  py_strip s = s.
Proof.
  intros Hs H1 H2. unfold py_strip. rewrite Hs. cbn [drop_spaces]. rewrite H1.
  cbn [rev]. rewrite rev_app_distr. cbn [rev app drop_spaces]. rewrite H2.
  assert (E : rev (c2 :: rev m ++ [c1]) = c1 :: m ++ [c2])
    by (cbn [rev]; rewrite rev_app_distr, rev_involutive; reflexivity).
  rewrite E, <- Hs. apply string_of_list_ascii_of_string.
Qed.
