(* ===== verification/Templates.v ===== *)
(** * Templates: the parametric shape templates and the control-point fallback

    Models src/backend/services/shape_templates.py: the six closed
    templates [_heart], [_star], [_circle], [_triangle], [_arrow],
    [_square], the block letters [_letter], the registry [TEMPLATES] and
    the dispatcher [get_parametric_shape]; and [_generate_control_points]
    of src/backend/services/shape_generator.py, which takes the language
    model's points when there are at least three of them and falls back
    to a template scaled to the target box otherwise.

    [math.sin], [math.cos] and [math.pi] are the interface [Trig]; the
    laws the proofs use are that sine and cosine lie in [[-1, 1]]
    ([TrigLaws]).  The vertex tuples of the source are [Coordinate]s
    (same two floats).  Strings go through [PyStr].  pydantic's range
    check of the [Coordinate]s a template builds is applied to the list
    the template returns ([Geodesy.new_coords]) by its caller
    [_generate_control_points] (and [Ideas._generate_with_templates]):
    the first point out of range raises the same [ValidationError]
    whichever point it is. *)

From Stdlib Require Import String Ascii QArith Qabs Lqa Psatz List Lia PeanoNat Bool.
From S2P Require Import Prelude.
From S2P Require Import Geodesy.
From S2P Require Import PyStr.
Import ListNotations.
Open Scope Q_scope.
Open Scope geo_scope.

(** [math.sin], [math.cos], [math.pi]. *)
Class Trig := { py_sin : Q -> Q; py_cos : Q -> Q; py_pi : Q }.

Class TrigLaws `{Trig} : Prop := {
  sin_bounded : forall x, -1 <= py_sin x <= 1;
  cos_bounded : forall x, -1 <= py_cos x <= 1 }.

(** [dict.get(key, default)] on a dict with string keys, literal order. *)
Definition dict_get {V} (key : string) (d : list (string * V)) (default : V) : V :=
  match find (fun kv => String.eqb (fst kv) key) d with
  | Some (_, v) => v
  | None => default
  end.

(** [i] as a float. *)
Definition qnat (i : nat) : Q := inject_Z (Z.of_nat i).

(** [points.append(points[0])]: close a non-empty outline. *)
Definition close_shape (points : list Coordinate) : list Coordinate :=
  points ++ [hd (mkCoord 0 0) points].

(** The edge loops of [_star] and [_arrow]: each vertex followed by the
    midpoint to the next one ([next i] is the next vertex's index). *)
Definition with_midpoints (vertices : list Coordinate) (next : nat -> nat) (count : nat)
  : list Coordinate :=
  flat_map (fun i => let a := nth i vertices (mkCoord 0 0) in
                     let b := nth (next i) vertices (mkCoord 0 0) in [a; midpoint a b])
           (seq 0 count).

(** The edge loops of [_triangle] and [_square]: [pts_per_edge + 1]
    points from each corner towards the next, at [frac = j / (pts_per_edge + 1)]. *)
Definition interpolate_edges (corners : list Coordinate) (pts_per_edge : nat) : list Coordinate :=
  let k := List.length corners in
  flat_map (fun i => let a := nth i corners (mkCoord 0 0) in
                     let b := nth ((i + 1) mod k) corners (mkCoord 0 0) in
                     map (fun j => lerp a b (qnat j / qnat (pts_per_edge + 1))) (seq 0 (pts_per_edge + 1)))
           (seq 0 k).

Section Shapes.
Context `{Trig}.

(** [_heart] (shape_templates.py 16-30). *)
Definition _heart (cx cy scale : Q) : list Coordinate :=
  let n := 64%nat in
  close_shape (map (fun i =>
    let t := 2 * py_pi * qnat i / qnat (n - 1) in
    let x := 16 * py_sin t ^ 3 in
    let y := 13 * py_cos t - 5 * py_cos (2 * t) - 2 * py_cos (3 * t) - py_cos (4 * t) in
    mkCoord (cx + (x / 17) * scale * (1#2)) (cy + (y / 17) * scale * (1#2))) (seq 0 n)).

(** [_star] (33-52): ten vertices alternating between the outer and the
    inner radius, with the midpoints of the ten edges. *)
Definition _star (cx cy scale : Q) : list Coordinate :=
  let outer_r := scale * (1#2) in
  let inner_r := outer_r * (38#100) in
  let vertices := map (fun i =>
    let angle := py_pi / 2 + (2 * py_pi * qnat i / 10) in
    let r := if Nat.eqb (i mod 2) 0 then outer_r else inner_r in
    mkCoord (cx + r * py_cos angle) (cy + r * py_sin angle)) (seq 0 10) in
  close_shape (with_midpoints vertices (fun i => (i + 1) mod List.length vertices)
                              (List.length vertices)).

(** [_circle] (55-67): 48 points on the circle of radius [0.45 * scale]. *)
Definition _circle (cx cy scale : Q) : list Coordinate :=
  let r := scale * (45#100) in
  let n := 48%nat in
  close_shape (map (fun i =>
    let angle := 2 * py_pi * qnat i / qnat n in
    mkCoord (cx + r * py_cos angle) (cy + r * py_sin angle)) (seq 0 n)).

(** [_triangle] (70-90). *)
Definition _triangle (cx cy scale : Q) : list Coordinate :=
  let r := scale * (45#100) in
  let corners := map (fun i =>
    let angle := py_pi / 2 + (2 * py_pi * qnat i / 3) in
    mkCoord (cx + r * py_cos angle) (cy + r * py_sin angle)) (seq 0 3) in
  close_shape (interpolate_edges corners 4).

End Shapes.

(** [_arrow] (93-114): seven vertices, the last equal to the first. *)
Definition _arrow (cx cy scale : Q) : list Coordinate :=
  let s := scale * (45#100) in
  let vertices :=
    [mkCoord (cx - s) cy; mkCoord (cx + s * (3#10)) cy; mkCoord (cx + s * (3#10)) (cy + s * (4#10));
     mkCoord (cx + s) cy; mkCoord (cx + s * (3#10)) (cy - s * (4#10)); mkCoord (cx + s * (3#10)) cy;
     mkCoord (cx - s) cy] in
  with_midpoints vertices S (List.length vertices - 1) ++ [last vertices (mkCoord 0 0)].

(** [_square] (117-139). *)
Definition _square (cx cy scale : Q) : list Coordinate :=
  let s := scale * (4#10) in
  let corners := [mkCoord (cx - s) (cy + s); mkCoord (cx + s) (cy + s);
                  mkCoord (cx + s) (cy - s); mkCoord (cx - s) (cy - s)] in
  close_shape (interpolate_edges corners 3).

(** The literal [templates] dict of [_letter]: offsets from the centre. *)
Definition letter_templates (s h : Q) : list (string * list (Q * Q)) :=
  [("A", [(-s, -h); (-s * (2#10), h); (s * (2#10), h); (s, -h); (s * (5#10), 0); (-s * (5#10), 0)]);
   ("B", [(-s, -h); (-s, h); (s * (5#10), h); (s, h * (6#10)); (s * (5#10), 0);
          (s, -h * (6#10)); (s * (5#10), -h); (-s, -h); (-s, 0); (s * (5#10), 0)]);
   ("C", [(s, h * (7#10)); (0, h); (-s, h * (5#10)); (-s, -h * (5#10)); (0, -h); (s, -h * (7#10))]);
   ("D", [(-s, -h); (-s, h); (s * (3#10), h); (s, 0); (s * (3#10), -h); (-s, -h)]);
   ("E", [(s, h); (-s, h); (-s, 0); (s * (5#10), 0); (-s, 0); (-s, -h); (s, -h)]);
   ("H", [(-s, h); (-s, -h); (-s, 0); (s, 0); (s, h); (s, -h)]);
   ("L", [(-s, h); (-s, -h); (s, -h)]);
   ("M", [(-s, -h); (-s, h); (0, 0); (s, h); (s, -h)]);
   ("N", [(-s, -h); (-s, h); (s, -h); (s, h)]);
   ("O", [(0, h); (-s, h * (5#10)); (-s, -h * (5#10)); (0, -h); (s, -h * (5#10));
          (s, h * (5#10)); (0, h)]);
   ("P", [(-s, -h); (-s, h); (s * (5#10), h); (s, h * (5#10)); (s * (5#10), 0); (-s, 0)]);
   ("R", [(-s, -h); (-s, h); (s * (5#10), h); (s, h * (5#10)); (s * (5#10), 0);
          (-s, 0); (s, -h)]);
   ("S", [(s, h * (7#10)); (0, h); (-s, h * (3#10)); (-s, 0); (s, 0);
          (s, -h * (3#10)); (0, -h); (-s, -h * (7#10))]);
   ("T", [(-s, h); (s, h); (0, h); (0, -h)]);
   ("V", [(-s, h); (0, -h); (s, h)]);
   ("W", [(-s, h); (-s * (5#10), -h); (0, 0); (s * (5#10), -h); (s, h)]);
   ("X", [(-s, h); (s, -h); (0, 0); (-s, -h); (s, h)]);
   ("Z", [(-s, h); (s, h); (-s, -h); (s, -h)])]%string.

(** [_letter] (142-171): the letter's outline, the [O] for a letter
    without a template. *)
Definition _letter (char : string) (cx cy scale : Q) : list Coordinate :=
  let s := scale * (4#10) in
  let h := scale * (5#10) in
  let templates := letter_templates s h in
  let raw := dict_get (py_upper char) templates (dict_get "O"%string templates []) in
  map (fun '(dx, dy) => mkCoord (cx + dx) (cy + dy)) raw.

Section Dispatch.
Context `{Trig}.

(** The registry [TEMPLATES] (175-182), in insertion order. *)
Definition TEMPLATES : list (string * (Q -> Q -> Q -> list Coordinate)) :=
  [("heart", _heart); ("star", _star); ("circle", _circle);
   ("triangle", _triangle); ("arrow", _arrow); ("square", _square)]%string.

(** The letter search of [get_parametric_shape] (204-211): the first
    letter of the name other than [l], [e], [t], [r]; else the first
    one-letter word. *)
Definition letter_choice (name_lower : string) : option string :=
  match find (fun c => is_alpha c && negb (Ascii.eqb c "l") && negb (Ascii.eqb c "e")
                       && negb (Ascii.eqb c "t") && negb (Ascii.eqb c "r"))
             (list_ascii_of_string name_lower) with
  | Some c => Some (String c EmptyString)
  | None => find (fun p => Nat.eqb (String.length p) 1 && py_isalpha p) (py_split name_lower)
  end.

(** [get_parametric_shape] (185-223). *)
Definition get_parametric_shape (shape_name : string) (center : Coordinate) (scale : Q)
  : list Coordinate :=
  let name_lower := py_strip (py_lower shape_name) in
  match (if py_contains "letter" name_lower then letter_choice name_lower else None) with
  | Some ch => _letter ch (lng center) (lat center) scale
  | None =>
      match find (fun kv => py_contains (fst kv) name_lower) TEMPLATES with
      | Some (_, func) => func (lng center) (lat center) scale
      | None =>
          if Nat.eqb (String.length name_lower) 1 && py_isalpha name_lower
          then _letter name_lower (lng center) (lat center) scale
          else _circle (lng center) (lat center) scale
      end
  end.

(** [_generate_control_points] (shape_generator.py 231-252).  [described]
    is what the language-model pipeline produced: [None] when no model is
    configured or the call raised, else the parsed control points.  The
    fallback (249-252) is outside the [try]: [None] when pydantic rejects
    [bbox.center()] or a point of the template, and the call raises. *)
Definition _generate_control_points (described : option (list Coordinate))
    (description : string) (bbox : BoundingBox) : option (list Coordinate) :=
  let fallback :=
    match bbox_center bbox with
    | Some center =>
        new_coords (get_parametric_shape description center
                      (py_min (width_deg bbox) (height_deg bbox) * (7#10)))
    | None => None
    end in
  match described with
  | Some points => if Nat.leb 3 (List.length points) then Some points else fallback
  | None => fallback
  end.

End Dispatch.

(** A rational stand-in for [math]: only its bounds matter to the
    theorems; it lets the templates run on concrete inputs. *)
#[export] Instance flat_trig : Trig := {| py_sin _ := 0; py_cos _ := 1; py_pi := 355 # 113 |}.

(** A point lies within [r] of [(cx, cy)] on each axis. *)
Definition within (cx cy r : Q) (p : Coordinate) : Prop :=
  cx - r <= lng p <= cx + r /\ cy - r <= lat p <= cy + r.

(** * Lengths *)

Lemma length_close_shape l : List.length (close_shape l) = S (List.length l).
Proof. unfold close_shape. rewrite length_app. cbn. lia. Qed.

Lemma length_flat_map_const {A B} (f : A -> list B) k l :
  (forall x, List.length (f x) = k) -> List.length (flat_map f l) = (k * List.length l)%nat.
Proof.
  intros Hf. induction l as [|x l IH]; cbn; [lia|]. rewrite length_app, Hf, IH. lia.
Qed.

Lemma length_with_midpoints v next count :
  List.length (with_midpoints v next count) = (2 * count)%nat.
Proof. unfold with_midpoints. rewrite (length_flat_map_const _ 2), length_seq; auto. Qed.

Lemma length_interpolate_edges corners k :
  List.length (interpolate_edges corners k) = (S k * List.length corners)%nat.
Proof.
  unfold interpolate_edges. rewrite (length_flat_map_const _ (S k)), length_seq; [lia|].
  intros i. rewrite length_map, length_seq. lia.
Qed.

Lemma dict_get_cases {V} key (d : list (string * V)) default :
  dict_get key d default = default \/ exists k, In (k, dict_get key d default) d.
Proof.
  unfold dict_get. destruct (find _ d) as [[k v]|] eqn:E; [right|left; reflexivity].
  exists k. exact (proj1 (find_some _ _ E)).
Qed.

Lemma letter_templates_length s h k raw :
  In (k, raw) (letter_templates s h) -> (3 <= List.length raw)%nat.
Proof. cbn. intros Hin. repeat destruct Hin as [Hin|Hin]; try inversion Hin; cbn; lia. Qed.

Lemma length_letter ch cx cy scale : (3 <= List.length (_letter ch cx cy scale))%nat.
Proof.
  unfold _letter. rewrite length_map.
  destruct (dict_get_cases (py_upper ch) (letter_templates (scale * (4#10)) (scale * (5#10)))
              (dict_get "O" (letter_templates (scale * (4#10)) (scale * (5#10))) []))
    as [->|[k Hk]]; [|exact (letter_templates_length _ _ _ _ Hk)].
  cbn. lia.
Qed.

Section Lengths.
Context `{Trig}.

Lemma length_templates key func cx cy scale :
  In (key, func) TEMPLATES -> (3 <= List.length (func cx cy scale))%nat.
Proof.
  cbn. intros Hin. repeat destruct Hin as [Hin|Hin]; try inversion Hin; subst;
    unfold _heart, _star, _circle, _triangle, _arrow, _square;
    rewrite ?length_close_shape, ?length_app, ?length_map, ?length_seq,
      ?length_with_midpoints, ?length_interpolate_edges; cbn; lia.
Qed.

(** Every name gives at least three control points. *)
Lemma length_get_parametric_shape name c scale :
  (3 <= List.length (get_parametric_shape name c scale))%nat.
Proof.
  unfold get_parametric_shape.
  destruct (if py_contains _ _ then _ else None); [apply length_letter|].
  destruct (find _ TEMPLATES) as [[key func]|] eqn:E.
  - apply (length_templates key). exact (proj1 (find_some _ _ E)).
  - destruct (_ && _); [apply length_letter|]. apply (length_templates "circle"). cbn; tauto.
Qed.

End Lengths.

(** * Every point lies near the centre *)

Lemma within_mono cx cy r r' p : r <= r' -> within cx cy r p -> within cx cy r' p.
Proof. unfold within. lra. Qed.

Lemma convex_between lo hi x y t :
  lo <= x <= hi -> lo <= y <= hi -> 0 <= t <= 1 -> lo <= x + (y - x) * t <= hi.
Proof. intros. split; nra. Qed.

Lemma within_lerp cx cy r a b t :
  within cx cy r a -> within cx cy r b -> 0 <= t <= 1 -> within cx cy r (lerp a b t).
Proof. unfold within, lerp. cbn. intros [] [] Ht. split; apply convex_between; auto. Qed.

Lemma within_midpoint cx cy r a b :
  within cx cy r a -> within cx cy r b -> within cx cy r (midpoint a b).
Proof. unfold within, midpoint. cbn. intros. qlra. Qed.

Lemma unit_term r u : 0 <= r -> -1 <= u <= 1 -> -r <= r * u <= r.
Proof. intros. split; nra. Qed.

Lemma within_polar cx cy r rmax c s :
  0 <= r <= rmax -> -1 <= c <= 1 -> -1 <= s <= 1 -> within cx cy rmax (mkCoord (cx + r * c) (cy + r * s)).
Proof.
  intros Hr Hc Hs. pose proof (unit_term r c (proj1 Hr) Hc). pose proof (unit_term r s (proj1 Hr) Hs).
  unfold within. cbn. lra.
Qed.

Lemma Forall_nth_within cx cy r v i :
  Forall (within cx cy r) v -> (i < List.length v)%nat -> within cx cy r (nth i v (mkCoord 0 0)).
Proof. intros Hv Hi. rewrite Forall_forall in Hv. apply Hv, nth_In, Hi. Qed.

Lemma within_close_shape cx cy r l :
  l <> [] -> Forall (within cx cy r) l -> Forall (within cx cy r) (close_shape l).
Proof.
  intros Hne Hl. unfold close_shape. apply Forall_app. split; [exact Hl|].
  destruct l; [congruence|]. inversion Hl. constructor; auto.
Qed.

Lemma within_with_midpoints cx cy r v next count :
  Forall (within cx cy r) v ->
  (forall i, (i < count)%nat -> (i < List.length v)%nat /\ (next i < List.length v)%nat) ->
  Forall (within cx cy r) (with_midpoints v next count).
Proof.
  intros Hv Hidx. unfold with_midpoints. apply Forall_flat_map, Forall_forall.
  intros i Hi. apply in_seq in Hi. destruct (Hidx i) as [H1 H2]; [lia|].
  pose proof (Forall_nth_within _ _ _ _ _ Hv H1). pose proof (Forall_nth_within _ _ _ _ _ Hv H2).
  cbv beta zeta. constructor; [assumption|constructor; [apply within_midpoint; assumption|constructor]].
Qed.

Lemma within_interpolate_edges cx cy r corners k :
  Forall (within cx cy r) corners -> Forall (within cx cy r) (interpolate_edges corners k).
Proof.
  intros Hc. unfold interpolate_edges. apply Forall_flat_map, Forall_forall.
  intros i Hi. apply in_seq in Hi. apply Forall_map, Forall_forall. intros j Hj. apply in_seq in Hj.
  apply within_lerp; [apply Forall_nth_within; [assumption|lia]|
    apply Forall_nth_within; [assumption|apply Nat.mod_upper_bound; lia]|].
  apply frac_in_unit; lia.
Qed.

Lemma scaled_bound b v k : -b <= v <= b -> 0 <= k -> -(b * k) <= v * k <= b * k.
Proof. intros. split; nra. Qed.

Lemma cube_bound u : -1 <= u <= 1 -> -1 <= u ^ 3 <= 1.
Proof.
  intros Hu. setoid_replace (u ^ 3) with (u * u * u)
    by (unfold Qpower, Qpower_positive; cbn [pow_pos]; ring). split; nra.
Qed.

Lemma nonempty_length {A} (l : list A) : (0 < List.length l)%nat -> l <> [].
Proof. intros Hl ->. cbn in Hl. lia. Qed.

Lemma Forall_within_mono cx cy r r' l :
  r <= r' -> Forall (within cx cy r) l -> Forall (within cx cy r') l.
Proof. intros Hr. apply Forall_impl. intros p. apply within_mono, Hr. Qed.

Lemma letter_templates_bounded s h k raw :
  0 <= s -> 0 <= h -> In (k, raw) (letter_templates s h) ->
  Forall (fun '(dx, dy) => -s <= dx <= s /\ -h <= dy <= h) raw.
Proof.
  intros Hs Hh Hin. cbn in Hin.
  repeat destruct Hin as [Hin|Hin]; try inversion Hin; subst;
    repeat apply Forall_cons; try apply Forall_nil; lra.
Qed.

Lemma within_letter ch cx cy scale :
  0 <= scale -> Forall (within cx cy (scale * (1#2))) (_letter ch cx cy scale).
Proof.
  intros Hs. unfold _letter. cbv zeta.
  set (tbl := letter_templates (scale * (4#10)) (scale * (5#10))).
  assert (Hraw : forall k raw, In (k, raw) tbl ->
            Forall (fun '(dx, dy) => -(scale * (4#10)) <= dx <= scale * (4#10) /\
                                     -(scale * (5#10)) <= dy <= scale * (5#10)) raw)
    by (intros k raw; apply letter_templates_bounded; lra).
  assert (Hget : Forall (fun '(dx, dy) => -(scale * (4#10)) <= dx <= scale * (4#10) /\
                                          -(scale * (5#10)) <= dy <= scale * (5#10))
                   (dict_get (py_upper ch) tbl (dict_get "O" tbl []))).
  { destruct (dict_get_cases (py_upper ch) tbl (dict_get "O" tbl [])) as [->|[k Hk]];
      [destruct (dict_get_cases "O" tbl []) as [->|[k' Hk']]|]; eauto. }
  apply Forall_map. revert Hget. apply Forall_impl. intros [dx dy] Hd. unfold within. cbn. lra.
Qed.

Section Bounds.
Context `{TrigLaws}.

Lemma heart_point_within cx cy scale t :
  0 <= scale ->
  within cx cy (scale * (21#34))
    (mkCoord (cx + (16 * py_sin t ^ 3 / 17) * scale * (1#2))
             (cy + ((13 * py_cos t - 5 * py_cos (2 * t) - 2 * py_cos (3 * t) - py_cos (4 * t)) / 17)
                   * scale * (1#2))).
Proof.
  intros Hs. unfold within. cbn [lng lat].
  pose proof (cube_bound _ (sin_bounded t)) as Hc.
  pose proof (cos_bounded t). pose proof (cos_bounded (2 * t)).
  pose proof (cos_bounded (3 * t)). pose proof (cos_bounded (4 * t)).
  set (c := py_sin t ^ 3) in *.
  set (y := 13 * py_cos t - 5 * py_cos (2 * t) - 2 * py_cos (3 * t) - py_cos (4 * t)).
  assert (Hy : -21 <= y <= 21) by (unfold y; lra).
  setoid_replace ((16 * c / 17) * scale * (1#2)) with (c * (scale * (8#17))) by field.
  setoid_replace ((y / 17) * scale * (1#2)) with (y * (scale * (1#34))) by field.
  pose proof (scaled_bound 1 c (scale * (8#17)) Hc ltac:(lra)).
  pose proof (scaled_bound 21 y (scale * (1#34)) Hy ltac:(lra)). lra.
Qed.

Lemma within_heart cx cy scale :
  0 <= scale -> Forall (within cx cy (scale * (21#34))) (_heart cx cy scale).
Proof.
  intros Hs. unfold _heart. apply within_close_shape; [cbn; discriminate|].
  apply Forall_map, Forall_forall. intros i _. apply heart_point_within, Hs.
Qed.

Lemma within_star cx cy scale :
  0 <= scale -> Forall (within cx cy (scale * (1#2))) (_star cx cy scale).
Proof.
  intros Hs. unfold _star. cbv zeta. apply within_close_shape.
  - apply nonempty_length. rewrite length_with_midpoints, length_map, length_seq. lia.
  - apply within_with_midpoints.
    + apply Forall_map, Forall_forall. intros i _.
      apply within_polar; [|apply cos_bounded|apply sin_bounded]. destruct (Nat.eqb _ 0); lra.
    + rewrite length_map, length_seq. intros i Hi. split; [lia|apply Nat.mod_upper_bound; lia].
Qed.

Lemma within_circle cx cy scale :
  0 <= scale -> Forall (within cx cy (scale * (45#100))) (_circle cx cy scale).
Proof.
  intros Hs. unfold _circle. apply within_close_shape; [cbn; discriminate|].
  apply Forall_map, Forall_forall. intros i _.
  apply within_polar; [lra|apply cos_bounded|apply sin_bounded].
Qed.

Lemma within_triangle cx cy scale :
  0 <= scale -> Forall (within cx cy (scale * (45#100))) (_triangle cx cy scale).
Proof.
  intros Hs. unfold _triangle. cbv zeta. apply within_close_shape.
  - apply nonempty_length. rewrite length_interpolate_edges, length_map, length_seq. lia.
  - apply within_interpolate_edges, Forall_map, Forall_forall. intros i _.
    apply within_polar; [lra|apply cos_bounded|apply sin_bounded].
Qed.

End Bounds.

Lemma within_arrow cx cy scale :
  0 <= scale -> Forall (within cx cy (scale * (45#100))) (_arrow cx cy scale).
Proof.
  intros Hs. unfold _arrow. cbv zeta. apply Forall_app. split.
  - apply within_with_midpoints; [|cbn; intros; lia].
    repeat apply Forall_cons; try apply Forall_nil; unfold within; cbn; lra.
  - repeat apply Forall_cons; try apply Forall_nil; unfold within; cbn; lra.
Qed.

Lemma within_square cx cy scale :
  0 <= scale -> Forall (within cx cy (scale * (4#10))) (_square cx cy scale).
Proof.
  intros Hs. unfold _square. cbv zeta. apply within_close_shape.
  - apply nonempty_length. rewrite length_interpolate_edges. cbn. lia.
  - apply within_interpolate_edges.
    repeat apply Forall_cons; try apply Forall_nil; unfold within; cbn; lra.
Qed.

Section Dispatch_bounds.
Context `{TrigLaws}.

Lemma within_templates key func cx cy scale :
  In (key, func) TEMPLATES -> 0 <= scale -> Forall (within cx cy (scale * (21#34))) (func cx cy scale).
Proof.
  cbn. intros Hin Hs. repeat destruct Hin as [Hin|Hin]; try inversion Hin; subst;
    [apply within_heart; exact Hs|..];
    [eapply Forall_within_mono; [|apply within_star]
    |eapply Forall_within_mono; [|apply within_circle]
    |eapply Forall_within_mono; [|apply within_triangle]
    |eapply Forall_within_mono; [|apply within_arrow]
    |eapply Forall_within_mono; [|apply within_square]]; auto; nra.
Qed.

(** Every control point of a template lies within [21/34] of the scale
    of the centre on each axis (the heart's [y] sum is at most [21] in
    absolute value when each cosine is in [[-1, 1]]). *)
Lemma within_get_parametric_shape name c scale :
  0 <= scale -> Forall (within (lng c) (lat c) (scale * (21#34))) (get_parametric_shape name c scale).
Proof.
  intros Hs. assert (Hl : forall ch, Forall (within (lng c) (lat c) (scale * (21#34)))
                                            (_letter ch (lng c) (lat c) scale))
    by (intros ch; eapply Forall_within_mono; [|apply within_letter]; auto; nra).
  unfold get_parametric_shape.
  destruct (if py_contains _ _ then _ else None); [apply Hl|].
  destruct (find _ TEMPLATES) as [[key func]|] eqn:E.
  - apply (within_templates key); [exact (proj1 (find_some _ _ E))|exact Hs].
  - destruct (_ && _); [apply Hl|]. apply (within_templates "circle"); [cbn; tauto|exact Hs].
Qed.

(** The fallback outline of [_generate_control_points] lies in the target
    box: its scale is [0.7 * min(width, height)], and [0.7 * 21/34 < 1/2]. *)
Lemma fallback_in_bbox description bbox :
  bbox_valid bbox ->
  Forall (in_bbox bbox)
    (get_parametric_shape description (Geodesy.center bbox)
       (py_min (width_deg bbox) (height_deg bbox) * (7#10))).
Proof.
  intros [Hw Hh]. pose proof (py_min_le_l (width_deg bbox) (height_deg bbox)).
  pose proof (py_min_le_r (width_deg bbox) (height_deg bbox)).
  assert (0 <= py_min (width_deg bbox) (height_deg bbox))
    by (apply py_min_glb; unfold width_deg, height_deg; lra).
  eapply Forall_impl; [|apply within_get_parametric_shape; lra].
  intros p. unfold within, in_bbox, Geodesy.center, width_deg, height_deg in *. cbn. intros. qlra.
Qed.

End Dispatch_bounds.

(** * Closed outlines and letters *)

Lemma close_shape_closed l d : l <> [] -> hd d (close_shape l) = last (close_shape l) d.
Proof. intros Hne. unfold close_shape. rewrite last_last. destruct l; [congruence|reflexivity]. Qed.

(** The string part of the [letter X] pattern: the name is recognised as
    a letter pattern and the letter chosen is [x], lowered. *)
Lemma letter_name_choice x :
  is_alpha x = true ->
  py_contains "letter" (py_strip (py_lower (String.append "letter " (String x EmptyString)))) = true /\
  letter_choice (py_strip (py_lower (String.append "letter " (String x EmptyString)))) =
    Some (String (lower_char x) EmptyString).
Proof.
  intros Hx. destruct x as [b0 b1 b2 b3 b4 b5 b6 b7].
  destruct b0, b1, b2, b3, b4, b5, b6, b7; vm_compute in Hx |- *;
    first [discriminate Hx | split; reflexivity].
Qed.

#[export] Instance flat_trig_laws : TrigLaws (H := flat_trig).
Proof. split; intros; cbn; lra. Qed.

(** * Properties *)

Section Claims.
Context `{Trig}.

(** [_generate_control_points] always returns at least three control
    points: the model's points are taken only when there are three or
    more, and every template and letter has at least three. *)
Theorem control_points_length described description bbox pts :
  _generate_control_points described description bbox = Some pts -> (3 <= List.length pts)%nat.
Proof.
  unfold _generate_control_points.
  destruct described as [pts'|]; [destruct (Nat.leb 3 _) eqn:E; [intros [= <-]; apply Nat.leb_le, E|]|];
    destruct (bbox_center bbox); try discriminate; intros En;
    destruct (new_coords_Some _ _ En) as [-> _]; apply length_get_parametric_shape.
Qed.

(** every registered template returns a closed outline: its first
    point is its last. *)
Theorem templates_closed key func cx cy scale d :
  In (key, func) TEMPLATES -> hd d (func cx cy scale) = last (func cx cy scale) d.
Proof.
  cbn. intros Hin. repeat destruct Hin as [Hin|Hin]; try inversion Hin; subst;
    [..|reflexivity];
    unfold _heart, _star, _circle, _triangle, _square; cbv zeta;
    apply close_shape_closed, nonempty_length;
    rewrite ?length_map, ?length_seq, ?length_with_midpoints, ?length_interpolate_edges;
    cbn; lia.
Qed.

(** C38: a name of the form [letter x] with [x] a letter draws the block
    letter [x] (lowered, then looked up upper-cased), whichever letter
    [x] is: also for [l], [e], [t], [r], which the character scan skips
    and the word scan finds. *)
Theorem get_parametric_shape_letter x c scale :
  is_alpha x = true ->
  get_parametric_shape (String.append "letter " (String x EmptyString)) c scale =
  _letter (String (lower_char x) EmptyString) (lng c) (lat c) scale.
Proof.
  intros Hx. unfold get_parametric_shape. cbv zeta.
  destruct (letter_name_choice x Hx) as [-> ->]. reflexivity.
Qed.

(** the character scan takes the first letter of the whole name that
    is not one of [l], [e], [t], [r]: the name "a letter M" draws the
    letter A, not M. *)
Example a_letter_M_draws_A c scale :
  get_parametric_shape "a letter M" c scale = _letter "A" (lng c) (lat c) scale /\
  _letter "A" 0 0 1 <> _letter "M" 0 0 1.
Proof.
  split; [reflexivity|]. intros E. apply (f_equal (@List.length _)) in E. discriminate.
Qed.

End Claims.

(** The model's points are taken when there are three or more, and the
    fallback runs otherwise. *)
Lemma control_points_model `{Trig} pts description bbox :
  _generate_control_points (Some pts) description bbox =
  if Nat.leb 3 (List.length pts) then Some pts else _generate_control_points None description bbox.
Proof. unfold _generate_control_points. destruct (Nat.leb 3 _); reflexivity. Qed.

(** The template fallback of [_generate_control_points] lies in the
    target box, and raises only for a box out of range. *)
Lemma control_points_fallback `{TrigLaws} description bbox :
  bbox_valid bbox ->
  match _generate_control_points None description bbox with
  | Some pts => Forall (in_bbox bbox) pts
  | None => ~ bbox_in_range bbox
  end.
Proof.
  intros Hb. unfold _generate_control_points.
  destruct (bbox_center bbox) as [c|] eqn:Ec; [|exact (bbox_center_None _ Hb Ec)].
  apply bbox_center_Some in Ec as ->.
  destruct (new_coords _) as [pts|] eqn:En;
    [destruct (new_coords_Some _ _ En) as [-> _]; apply fallback_in_bbox, Hb|].
  exact (new_coords_None_box _ _ (fallback_in_bbox _ _ Hb) En).
Qed.

(** the points [_generate_control_points] returns are the model's
    own (three or more of them), or else they all lie in the target box;
    it raises only for a box out of range. *)
Theorem control_points_in_bbox `{TrigLaws} described description bbox :
  bbox_valid bbox ->
  match _generate_control_points described description bbox with
  | Some pts => (described = Some pts /\ (3 <= List.length pts)%nat) \/ Forall (in_bbox bbox) pts
  | None => ~ bbox_in_range bbox
  end.
Proof.
  intros Hb. pose proof (control_points_fallback description bbox Hb) as Hf.
  destruct described as [pts|]; [rewrite control_points_model; destruct (Nat.leb 3 _) eqn:E|];
    [left; split; [reflexivity|apply Nat.leb_le, E]|..];
    destruct (_generate_control_points None description bbox); [right| |right|]; exact Hf.
Qed.

(** * Witnesses *)

Lemma templates_closed_witness :
  In ("heart"%string, _heart) TEMPLATES /\
  hd (mkCoord 0 0) (_heart 0 0 1) = last (_heart 0 0 1) (mkCoord 0 0).
Proof.
  assert (Hin : In ("heart"%string, _heart) TEMPLATES) by (left; reflexivity).
  split; [exact Hin|apply (templates_closed "heart" _heart 0 0 1 (mkCoord 0 0) Hin)].
Defined.

Lemma get_parametric_shape_letter_witness :
  is_alpha "M" = true /\
  get_parametric_shape "letter M" (mkCoord 0 0) 1 = _letter "m" 0 0 1.
Proof.
  split; [reflexivity|]. exact (get_parametric_shape_letter "M" (mkCoord 0 0) 1 eq_refl).
Defined.

Lemma control_points_in_bbox_witness :
  bbox_valid (mkBBox 0 0 1 1) /\
  match _generate_control_points None "heart" (mkBBox 0 0 1 1) with
  | Some pts => (None = Some pts /\ (3 <= List.length pts)%nat) \/ Forall (in_bbox (mkBBox 0 0 1 1)) pts
  | None => ~ bbox_in_range (mkBBox 0 0 1 1)
  end.
Proof.
  assert (Hb : bbox_valid (mkBBox 0 0 1 1)) by (unfold bbox_valid; cbn; lra).
  split; [exact Hb|exact (control_points_in_bbox None "heart" _ Hb)].
Defined.
