(* ===== verification/Neighborhood.v ===== *)
(** * Neighborhood: the neighbourhood ranking and lookup

    Models src/backend/services/neighborhood.py: the [Neighborhood]
    record of schemas.py, the shape-term normaliser
    [_normalize_shape_term] with its noise words and plural stemming,
    the scoring and ranking of [find_best_for_shape], the name lookup
    [get_by_name]; and [_find_neighborhood] of shape_generator.py, which
    tries the language model's pick and falls back to the ranking.

    The collaborators are parameters: the md5 tie-breaker
    ([int(md5(name)[:8], 16) / 0xFFFFFFFF]), Unicode's diacritic
    stripping ([_strip_diacritics]), and the iteration order of the
    Python [set] of description terms, which depends on the per-process
    string hash; the ranking is proved for every order, and shown to
    depend on it.  The [** 0.5] of the diagonal test is compared
    squared, and [diag_large_enough_spec] proves that exact over the
    reals. *)

From Stdlib Require Import String Ascii Reals Qreals QArith Qabs Lqa Psatz List Lia PeanoNat Bool Sorted Permutation.
From Stdlib Require Lra.
From S2P Require Import Prelude.
From S2P Require Import Geodesy.
From S2P Require Import PyStr.
Import ListNotations.
Open Scope Q_scope.
Open Scope geo_scope.

(** ** Data *)

(** [class Neighborhood(BaseModel)] (schemas.py). *)
Record Neighborhood := mkHood {
  name : string; name_cs : string; center : Coordinate; bbox : BoundingBox;
  street_layout : string; character : string; good_for : list string }.

(** [_SHAPE_LAYOUT_PREFS] (17-35). *)
Definition _SHAPE_LAYOUT_PREFS : list (string * string) :=
  [("heart", "mixed"); ("star", "grid"); ("circle", "mixed"); ("triangle", "grid");
   ("square", "grid"); ("arrow", "grid"); ("letter", "grid"); ("geometric", "grid");
   ("creature", "organic"); ("animal", "organic"); ("cat", "organic"); ("dog", "organic");
   ("bird", "organic"); ("fish", "organic"); ("fox", "organic"); ("flower", "organic");
   ("tree", "mixed")]%string.

(** [_NOISE_WORDS] (38-39). *)
Definition _NOISE_WORDS : list string :=
  ["a"; "an"; "the"; "shape"; "shaped"; "pattern"; "route"; "running"; "draw";
   "make"; "create"; "please"; "me"; "i"; "want"; "like"; "of"; "in"; "with"]%string.

(** [x in strings], for a set or the keys of a dict. *)
Definition str_mem (x : string) (l : list string) : bool := existsb (String.eqb x) l.

(** [d.get(key)] on a dict with string keys. *)
Definition str_assoc (key : string) (d : list (string * string)) : option string :=
  option_map snd (find (fun kv => String.eqb (fst kv) key) d).

(** ** [_normalize_shape_term] (42-64) *)

(** The characters [re.sub(r"[^a-z0-9\s]", "", ...)] keeps. *)
Definition keep_char (c : ascii) : bool := is_lower c || is_digit c || is_space c.

(** The plural stripping of lines 57-61. *)
Definition stem_of (tok : string) : string :=
  let stem := if py_endswith tok "s" && Nat.ltb 3 (String.length tok)
              then py_drop_last 1 tok else tok in
  if py_endswith stem "es" && Nat.ltb 4 (String.length stem) then py_drop_last 2 stem else stem.

(** [result.add(x)] on a set kept in insertion order. *)
Definition set_add (x : string) (s : list string) : list string :=
  if str_mem x s then s else s ++ [x].

Definition _normalize_shape_term (text : string) : list string :=
  let text := string_of_list_ascii (filter keep_char (list_ascii_of_string (py_strip (py_lower text)))) in
  fold_left (fun result tok => if str_mem tok _NOISE_WORDS then result else set_add (stem_of tok) result)
            (py_split text) [].

(** ** The score of one neighbourhood (lines 122-155) *)

(** [len(desc_terms & good_terms)]. *)
Definition overlap_size (desc_terms good_terms : list string) : nat :=
  List.length (filter (fun t => str_mem t good_terms) desc_terms).

(** Lines 126-130: [15.0 * len(overlap)] for each tag that shares a term. *)
Definition term_score (desc_terms : list string) (tags : list string) : Q :=
  fold_left (fun score good_raw =>
    let overlap := overlap_size desc_terms (_normalize_shape_term good_raw) in
    if Nat.eqb overlap 0 then score else score + 15 * inject_Z (Z.of_nat overlap)) tags 0.

(** Lines 133-137: the layout of the first term, in the set's iteration
    order, that [_SHAPE_LAYOUT_PREFS] knows. *)
Fixpoint preferred_layout (terms : list string) : option string :=
  match terms with
  | [] => None
  | t :: ts => match str_assoc t _SHAPE_LAYOUT_PREFS with
               | Some l => Some l
               | None => preferred_layout ts
               end
  end.

(** A term [_SHAPE_LAYOUT_PREFS] has a layout for. *)
Definition known_term (t : string) : bool :=
  match str_assoc t _SHAPE_LAYOUT_PREFS with Some _ => true | None => false end.

(** Lines 146-150: [bbox_diag_km >= size_km * 0.3], with
    [bbox_diag_km = sqrt(d2)] compared squared. *)
Definition diag_large_enough (b : BoundingBox) (size_km : Q) : bool :=
  let d2 := (width_deg b * 111) ^ 2 + (height_deg b * (715#10)) ^ 2 in
  let t := size_km * (3#10) in
  (t <=? 0) || (t * t <=? d2).

(** [score] of lines 123-151; [order] is the set's iteration order. *)
Definition hood_score (desc_terms order : list string) (hood : Neighborhood) (size_km : Q) : Q :=
  let s1 := term_score desc_terms (good_for hood) in
  let s2 := match preferred_layout order with
            | Some l => if String.eqb (street_layout hood) l then s1 + 8
                        else if String.eqb (street_layout hood) "mixed" then s1 + 4 else s1
            | None => s1
            end in
  if diag_large_enough (bbox hood) size_km then s2 + 3 else s2.

(** The key [(score, tiebreaker)] of line 157, compared as tuples, for
    the descending sort: [a] goes before [b] when its key is not smaller. *)
Definition key_ge (a b : Q * Q * Neighborhood) : bool :=
  let '(s1, t1, _) := a in
  let '(s2, t2, _) := b in
  (s2 <? s1) || ((s1 =? s2) && (t2 <=? t1)).

Section Service.
(** [int(hashlib.md5(name.encode()).hexdigest()[:8], 16) / 0xFFFFFFFF]. *)
Variable md5_tiebreak : string -> Q.
(** The iteration order of a Python [set] of strings. *)
Variable set_order : list string -> list string.
(** [_strip_diacritics] (170-175): NFKD, then drop combining marks. *)
Variable strip_diacritics : string -> string.

(** [find_best_for_shape] (110-158): score every neighbourhood, sort by
    [(score, tiebreaker)] descending (stable), drop the keys. *)
Definition find_best_for_shape (hoods : list Neighborhood) (shape_type : string) (size_km : Q)
  : list Neighborhood :=
  let desc_terms := _normalize_shape_term shape_type in
  let scored := map (fun hood => (hood_score desc_terms (set_order desc_terms) hood size_km,
                                  md5_tiebreak (name hood), hood)) hoods in
  map (fun '(_, _, hood) => hood) (isort_by key_ge scored).

(** [get_by_name] (99-108). *)
Definition get_by_name (hoods : list Neighborhood) (nm : string) : option Neighborhood :=
  let normalized := strip_diacritics (py_strip (py_lower nm)) in
  find (fun hood => String.eqb (strip_diacritics (py_lower (name hood))) normalized
                    || String.eqb (strip_diacritics (py_lower (name_cs hood))) normalized) hoods.

(** [_find_neighborhood] (shape_generator.py 208-229).  [picked] is the
    name the language model chose: [None] when no model is configured or
    the call raised. *)
Definition _find_neighborhood (picked : option string) (hoods : list Neighborhood)
    (description : string) : option Neighborhood :=
  match match picked with Some nm => get_by_name hoods nm | None => None end with
  | Some hood => Some hood
  | None =>
      match find_best_for_shape hoods description 5 with
      | hood :: _ => Some hood
      | [] => match hoods with hood :: _ => Some hood | [] => None end
      end
  end.

End Service.

(** * The term set *)

(** The characters of a lower-case word, possibly joined by hyphens. *)
Definition lower_or_hyphen (c : ascii) : Prop := is_lower c = true \/ c = "-"%char.

Lemma set_add_NoDup x s : NoDup s -> NoDup (set_add x s).
Proof.
  unfold set_add, str_mem. destruct (existsb _ s) eqn:E; [tauto|]. intros Hs.
  apply NoDup_app; [exact Hs|repeat constructor; auto|].
  intros y Hy [<-|[]]. apply Bool.not_true_iff_false in E. apply E, existsb_exists.
  exists x. split; [exact Hy|apply String.eqb_refl].
Qed.

(** [_normalize_shape_term] returns a set: no term twice, so
    [overlap_size] is the size of the Python intersection. *)
Lemma normalize_NoDup text : NoDup (_normalize_shape_term text).
Proof.
  unfold _normalize_shape_term. generalize (@NoDup_nil string).
  generalize (@nil string) as acc. induction (py_split _) as [|tok toks IH]; intros acc Hacc; cbn [fold_left]; [exact Hacc|].
  apply IH. destruct (str_mem tok _NOISE_WORDS); [exact Hacc|apply set_add_NoDup, Hacc].
Qed.

(** * The layout preference *)

Lemma Permutation_filter_bool {A} (f : A -> bool) l1 l2 :
  Permutation l1 l2 -> Permutation (filter f l1) (filter f l2).
Proof.
  induction 1 as [|x l1 l2 _ IH|x y l|l1 l2 l3 _ IH1 _ IH2]; cbn.
  - constructor.
  - destruct (f x); [apply perm_skip|]; exact IH.
  - destruct (f x), (f y); first [apply perm_swap | apply Permutation_refl].
  - eapply perm_trans; eauto.
Qed.

Lemma preferred_layout_filter l :
  preferred_layout l =
  match filter known_term l with t :: _ => str_assoc t _SHAPE_LAYOUT_PREFS | [] => None end.
Proof.
  induction l as [|t l IH]; [reflexivity|]. cbn [preferred_layout filter]. unfold known_term at 1.
  destruct (str_assoc t _SHAPE_LAYOUT_PREFS) eqn:E; [exact (eq_sym E)|exact IH].
Qed.

(** With at most one known term, the preferred layout does not depend on
    the order the terms are visited in. *)
Lemma preferred_layout_perm l1 l2 :
  Permutation l1 l2 -> (List.length (filter known_term l1) <= 1)%nat ->
  preferred_layout l1 = preferred_layout l2.
Proof.
  intros Hp Hlen. rewrite !preferred_layout_filter.
  pose proof (Permutation_filter_bool known_term _ _ Hp) as Hf.
  destruct (filter known_term l1) as [|t [|u rest]]; cbn in Hlen; [|..|lia].
  - apply Permutation_nil in Hf. now rewrite Hf.
  - apply Permutation_length_1_inv in Hf. now rewrite Hf.
Qed.

(** * The sort key *)

Lemma key_ge_total a b : key_ge a b = false -> key_ge b a = true.
Proof.
  destruct a as [[s1 t1] h1], b as [[s2 t2] h2]. unfold key_ge.
  qcase; cbn; intros; try discriminate; try reflexivity; lra.
Qed.

Lemma key_ge_trans a b c : key_ge a b = true -> key_ge b c = true -> key_ge a c = true.
Proof.
  destruct a as [[s1 t1] h1], b as [[s2 t2] h2], c as [[s3 t3] h3]. unfold key_ge.
  qcase; cbn; intros; try discriminate; try reflexivity; lra.
Qed.

Lemma StronglySorted_map_Forall {A B} (R : A -> A -> Prop) (R' : B -> B -> Prop) (P : A -> Prop)
    (g : A -> B) l :
  (forall a b, P a -> P b -> R a b -> R' (g a) (g b)) ->
  Forall P l -> StronglySorted R l -> StronglySorted R' (map g l).
Proof.
  intros HR Hl Hs. induction Hs as [|a l Hs IH Ha]; cbn; constructor.
  - inversion Hl; auto.
  - inversion Hl as [|? ? Pa Pl]; subst. apply Forall_map.
    apply Forall_forall. intros b Hb. apply HR; auto.
    + rewrite Forall_forall in Pl. auto.
    + rewrite Forall_forall in Ha. auto.
Qed.

Lemma sq_nonneg x : 0 <= x ^ 2.
Proof. unfold Qpower, Qpower_positive. cbn [pow_pos]. nra. Qed.

Lemma Q2R_zero : Q2R 0 = 0%R.
Proof. unfold Q2R. cbn. field. Qed.

(** The squared test is exactly the Python one,
    [((w * 111) ** 2 + (h * 71.5) ** 2) ** 0.5 >= size_km * 0.3], over the
    reals. *)
Lemma diag_large_enough_spec b size_km :
  diag_large_enough b size_km = true <->
  (Q2R (size_km * (3#10)) <= sqrt (Q2R ((width_deg b * 111) ^ 2 + (height_deg b * (715#10)) ^ 2)))%R.
Proof.
  unfold diag_large_enough.
  set (t := size_km * (3#10)). set (d2 := (width_deg b * 111) ^ 2 + (height_deg b * (715#10)) ^ 2).
  assert (Hd : 0 <= d2) by (unfold d2; pose proof (sq_nonneg (width_deg b * 111));
                            pose proof (sq_nonneg (height_deg b * (715#10))); lra).
  apply Qle_Rle in Hd. rewrite Q2R_zero in Hd. pose proof (sqrt_pos (Q2R d2)).
  rewrite orb_true_iff, !Qle_bool_iff. split.
  - intros [Ht|Ht].
    + apply Qle_Rle in Ht. rewrite Q2R_zero in Ht. Lra.lra.
    + destruct (Qlt_le_dec 0 t) as [Hpos|Hneg].
      * apply Qlt_Rlt in Hpos. rewrite Q2R_zero in Hpos.
        apply Qle_Rle in Ht. rewrite Q2R_mult in Ht.
        rewrite <- (sqrt_square (Q2R t)) by Lra.lra. apply sqrt_le_1_alt, Ht.
      * apply Qle_Rle in Hneg. rewrite Q2R_zero in Hneg. Lra.lra.
  - intros Hs. destruct (Qlt_le_dec 0 t) as [Hpos|Hneg]; [right|left; exact Hneg].
    apply Qlt_Rlt in Hpos. rewrite Q2R_zero in Hpos. apply Rle_Qle. rewrite Q2R_mult.
    rewrite <- (sqrt_sqrt (Q2R d2)) by exact Hd.
    apply Rmult_le_compat; Lra.lra.
Qed.

Lemma map_key_drop md5 d order size hoods :
  map (fun x : Q * Q * Neighborhood => let '(_, _, hood) := x in hood)
      (map (fun hood => (hood_score d (order d) hood size, md5 (name hood), hood)) hoods) = hoods.
Proof. induction hoods as [|x l IH]; [reflexivity|cbn; f_equal; exact IH]. Qed.

Lemma find_best_perm md5 order hoods shape size :
  Permutation (find_best_for_shape md5 order hoods shape size) hoods.
Proof.
  unfold find_best_for_shape. rewrite <- (map_key_drop md5 (_normalize_shape_term shape) order size hoods) at 2.
  apply Permutation_map, Permutation_sym, isort_by_perm.
Qed.

Lemma get_by_name_In strip hoods nm h : get_by_name strip hoods nm = Some h -> In h hoods.
Proof. unfold get_by_name. intros E. exact (proj1 (find_some _ _ E)). Qed.

Lemma find_neighborhood_None md5 order strip picked hoods description :
  _find_neighborhood md5 order strip picked hoods description = None -> hoods = [].
Proof.
  unfold _find_neighborhood. destruct (match picked with Some nm => _ | None => None end); [discriminate|].
  destruct (find_best_for_shape md5 order hoods description 5) as [|h rest] eqn:Eb; [|discriminate].
  intros _. apply Permutation_nil. rewrite <- Eb. apply find_best_perm.
Qed.

Lemma find_neighborhood_In md5 order strip picked hoods description h :
  _find_neighborhood md5 order strip picked hoods description = Some h -> In h hoods.
Proof.
  unfold _find_neighborhood.
  destruct (match picked with Some nm => get_by_name strip hoods nm | None => None end) as [h'|] eqn:Ep.
  - intros [= <-]. destruct picked; [exact (get_by_name_In _ _ _ _ Ep)|discriminate].
  - destruct (find_best_for_shape md5 order hoods description 5) as [|h' rest] eqn:Eb.
    + destruct hoods as [|h0 hs]; [discriminate|intros [= <-]; left; reflexivity].
    + intros [= <-]. apply (Permutation_in h' (find_best_perm md5 order hoods description 5)).
      rewrite Eb. left; reflexivity.
Qed.

(** * Properties *)

(** C17: [find_best_for_shape] returns every neighbourhood exactly once,
    ranked by score, highest first (for any tie-breaker and any set
    order). *)
Theorem find_best_ranking md5 order hoods shape size :
  let d := _normalize_shape_term shape in
  Permutation (find_best_for_shape md5 order hoods shape size) hoods /\
  StronglySorted (fun h1 h2 => hood_score d (order d) h2 size <= hood_score d (order d) h1 size)
                 (find_best_for_shape md5 order hoods shape size).
Proof.
  intros d. unfold find_best_for_shape. fold d.
  set (f := fun hood => (hood_score d (order d) hood size, md5 (name hood), hood)).
  set (g := fun x : Q * Q * Neighborhood => let '(_, _, hood) := x in hood).
  pose proof (isort_by_perm key_ge (map f hoods)) as Hp. split.
  - apply (find_best_perm md5 order hoods shape size).
  - apply (StronglySorted_map_Forall (fun a b => key_ge a b = true) _
             (fun x => exists h, x = f h)).
    + intros a b [ha ->] [hb ->]. unfold key_ge, f, g. cbn. qcase; cbn; intros; try discriminate; lra.
    + eapply Permutation_Forall; [exact Hp|]. apply Forall_map, Forall_forall. eauto.
    + apply isort_by_sorted; [apply key_ge_total|apply key_ge_trans].
Qed.

(** C30: when the description has at most one term [_SHAPE_LAYOUT_PREFS]
    knows, the ranking is the same for every iteration order of the term
    set. *)
Theorem find_best_order_invariant md5 order1 order2 hoods shape size :
  (forall l, Permutation (order1 l) l) -> (forall l, Permutation (order2 l) l) ->
  (List.length (filter known_term (_normalize_shape_term shape)) <= 1)%nat ->
  find_best_for_shape md5 order1 hoods shape size = find_best_for_shape md5 order2 hoods shape size.
Proof.
  intros H1 H2 Hk. set (d := _normalize_shape_term shape) in Hk.
  assert (Hk1 : (List.length (filter known_term (order1 d)) <= 1)%nat)
    by (rewrite (Permutation_length (Permutation_filter_bool known_term _ _ (H1 d))); exact Hk).
  assert (E : preferred_layout (order1 d) = preferred_layout (order2 d)).
  { apply preferred_layout_perm; [|exact Hk1].
    eapply perm_trans; [apply H1|apply Permutation_sym, H2]. }
  unfold find_best_for_shape, hood_score. fold d. rewrite E. reflexivity.
Qed.

(** with two known terms the ranking depends on the set's iteration
    order, which CPython randomises per process: "heart star" ranks a
    mixed-layout neighbourhood first in one order and a grid one first in
    the other. *)
Example find_best_order_dependent :
  let grid := mkHood "G" "G" (mkCoord 0 0) (mkBBox 0 0 1 1) "grid" "x" [] in
  let mixed := mkHood "M" "M" (mkCoord 0 0) (mkBBox 0 0 1 1) "mixed" "x" [] in
  find_best_for_shape (fun _ => 0) (fun l => l) [grid; mixed] "heart star" 5 = [mixed; grid] /\
  find_best_for_shape (fun _ => 0) (@rev string) [grid; mixed] "heart star" 5 = [grid; mixed].
Proof. split; vm_compute; reflexivity. Qed.

(** C21: [_find_neighborhood] finds a neighbourhood exactly when there is
    one, and it is one of the service's. *)
Theorem find_neighborhood_total md5 order strip picked hoods description :
  (_find_neighborhood md5 order strip picked hoods description = None <-> hoods = []) /\
  (forall h, _find_neighborhood md5 order strip picked hoods description = Some h -> In h hoods).
Proof.
  assert (Hbest : forall h rest, find_best_for_shape md5 order hoods description 5 = h :: rest -> In h hoods).
  { intros h rest E. apply (Permutation_in h (find_best_perm md5 order hoods description 5)).
    rewrite E. left; reflexivity. }
  assert (Hpick : forall h, match picked with Some nm => get_by_name strip hoods nm | None => None end = Some h ->
                            In h hoods)
    by (intros h; destruct picked; [intros E; exact (proj1 (find_some _ _ E))|discriminate]).
  unfold _find_neighborhood.
  destruct (match picked with Some nm => _ | None => None end) as [h|] eqn:Ep.
  - split; [split; [discriminate|intros ->; destruct (Hpick h eq_refl)]|].
    intros h' [= <-]. exact (Hpick h eq_refl).
  - destruct (find_best_for_shape md5 order hoods description 5) as [|h rest] eqn:Eb.
    + assert (hoods = []) as ->.
      { apply Permutation_nil. rewrite <- Eb. apply find_best_perm. }
      split; [tauto|discriminate].
    + split; [split; [discriminate|intros ->; destruct (Hbest h rest eq_refl)]|].
      intros h' [= <-]. exact (Hbest h rest eq_refl).
Qed.

(** C37: looking a neighbourhood up by its own name (without surrounding
    white space) finds one of the service's neighbourhoods whose name or
    Czech name normalises the same way. *)
Theorem get_by_name_roundtrip strip hoods h :
  In h hoods -> py_strip (py_lower (name h)) = py_lower (name h) ->
  exists h', get_by_name strip hoods (name h) = Some h' /\ In h' hoods /\
    (strip (py_lower (name h')) = strip (py_lower (name h)) \/
     strip (py_lower (name_cs h')) = strip (py_lower (name h))).
Proof.
  intros Hin Hs. unfold get_by_name. rewrite Hs.
  destruct (find _ hoods) as [h'|] eqn:E.
  - exists h'. apply find_some in E as [Hin' Hm]. split; [reflexivity|split; [exact Hin'|]].
    apply orb_true_iff in Hm as [Hm|Hm]; apply String.eqb_eq in Hm; tauto.
  - exfalso. pose proof (find_none _ _ E h Hin) as Hf. cbn in Hf.
    rewrite String.eqb_refl in Hf. discriminate.
Qed.

(** ** The normaliser on words *)

Lemma lower_not_upper c : is_lower c = true -> is_upper c = false.
Proof.
  unfold is_lower, is_upper. intros H. apply andb_true_iff in H as [H1 H2].
  apply Nat.leb_le in H1, H2. apply andb_false_iff. right. apply Nat.leb_gt. lia.
Qed.

Lemma lower_not_space c : is_lower c = true -> is_space c = false.
Proof. intros H. apply alpha_not_space. unfold is_alpha. rewrite H, orb_true_r. reflexivity. Qed.

Lemma substring_list n m s :
  substring n m s = string_of_list_ascii (firstn m (skipn n (list_ascii_of_string s))).
Proof.
  revert n m. induction s as [|c s IH]; intros [|n] [|m]; cbn; try reflexivity;
    [rewrite IH; cbn; reflexivity| |]; rewrite IH; destruct n; reflexivity.
Qed.

Lemma length_list_ascii s : String.length s = List.length (list_ascii_of_string s).
Proof. induction s as [|c s IH]; cbn; congruence. Qed.

Lemma split_words_nospace l cur :
  Forall (fun c => is_space c = false) l -> rev cur ++ l <> [] ->
  split_words l cur = [string_of_list_ascii (rev cur ++ l)].
Proof.
  revert cur. induction l as [|c l IH]; intros cur Hl Hne; cbn [split_words].
  - rewrite app_nil_r in *. destruct cur; [contradiction|reflexivity].
  - inversion Hl as [|? ? Hc Hl']; subst. rewrite Hc.
    rewrite IH; [cbn [rev]; rewrite <- app_assoc; reflexivity|exact Hl'|].
    cbn [rev]. rewrite <- app_assoc. destruct (rev cur); discriminate.
Qed.

(** A lower-case word, possibly with hyphens inside, is normalised to the
    stem of its letters: the hyphens are deleted, not split on. *)
Lemma normalize_word c1 m c2 :
  is_lower c1 = true -> is_lower c2 = true -> Forall lower_or_hyphen m ->
  _normalize_shape_term (string_of_list_ascii (c1 :: m ++ [c2])) =
  (let tok := string_of_list_ascii (c1 :: filter is_lower m ++ [c2]) in
   if str_mem tok _NOISE_WORDS then [] else [stem_of tok]).
Proof.
  intros H1 H2 Hm. set (L := c1 :: m ++ [c2]).
  assert (HL : Forall lower_or_hyphen L)
    by (apply Forall_cons; [left; exact H1|apply Forall_app; split; [exact Hm|constructor; [left; exact H2|constructor]]]).
  assert (Hlow : py_lower (string_of_list_ascii L) = string_of_list_ascii L).
  { unfold py_lower. rewrite list_ascii_of_string_of_list_ascii. f_equal.
    induction HL as [|c l [Hc| ->] _ IH]; cbn; [reflexivity| |now rewrite IH].
    unfold lower_char at 1. rewrite lower_not_upper by exact Hc. now rewrite IH. }
  assert (Hstrip : py_strip (string_of_list_ascii L) = string_of_list_ascii L).
  { apply (py_strip_id _ c1 m c2); [apply list_ascii_of_string_of_list_ascii|apply lower_not_space..]; assumption. }
  assert (Hf : filter keep_char L = c1 :: filter is_lower m ++ [c2]).
  { unfold L. cbn [filter]. unfold keep_char at 1. rewrite H1. cbn [orb]. f_equal.
    rewrite filter_app. cbn [filter]. unfold keep_char at 2. rewrite H2. cbn [orb]. f_equal.
    apply filter_ext_in. intros c Hc. rewrite Forall_forall in Hm. destruct (Hm c Hc) as [Hl| ->];
      [unfold keep_char; rewrite Hl; reflexivity|reflexivity]. }
  unfold _normalize_shape_term. rewrite Hlow, Hstrip, list_ascii_of_string_of_list_ascii, Hf.
  unfold py_split. rewrite list_ascii_of_string_of_list_ascii, split_words_nospace; [reflexivity| |discriminate].
  apply Forall_cons; [apply lower_not_space, H1|]. apply Forall_app. split; [|repeat constructor; apply lower_not_space, H2].
  apply Forall_forall. intros c Hc%filter_In. apply lower_not_space, Hc.
Qed.

(** The plural rule on a word ending in "es": only the "s" goes, and the
    "es" rule then tests a stem ending in "e". *)
Lemma stem_of_es x :
  (2 <= String.length x)%nat -> stem_of (String.append x "es") = String.append x "e".
Proof.
  intros Hl. rewrite length_list_ascii in Hl.
  rewrite <- (string_of_list_ascii_of_string x). set (lx := list_ascii_of_string x) in *.
  destruct (exists_last (l := lx) ltac:(destruct lx; [cbn in Hl; lia|discriminate])) as (lx' & c & Ex).
  change "es"%string with (string_of_list_ascii ["e"%char; "s"%char]).
  change "e"%string with (string_of_list_ascii ["e"%char]).
  rewrite <- !string_of_list_ascii_app.
  unfold stem_of, py_endswith, py_drop_last.
  rewrite !substring_list, !length_list_ascii, !list_ascii_of_string_of_list_ascii.
  rewrite Ex, <- !app_assoc. cbn [app]. rewrite !length_app. cbn [length list_ascii_of_string].
  rewrite Ex, length_app in Hl. cbn [length] in Hl.
  replace (length lx' + 3 - 1)%nat with (length lx' + 2)%nat by lia.
  rewrite skipn_app, skipn_all2 by lia.
  replace (length lx' + 2 - length lx')%nat with 2%nat by lia.
  cbn [skipn firstn app string_of_list_ascii]. rewrite firstn_app_2. cbn [firstn app].
  replace (1 <=? length lx' + 3)%nat with true by (symmetry; apply Nat.leb_le; lia).
  replace (3 <? length lx' + 3)%nat with true by (symmetry; apply Nat.ltb_lt; lia).
  rewrite String.eqb_refl. cbn [andb].
  rewrite list_ascii_of_string_of_list_ascii, length_app. cbn [length].
  replace (length lx' + 2 - 2)%nat with (length lx') by lia.
  rewrite skipn_app, skipn_all, Nat.sub_diag. cbn [skipn firstn app string_of_list_ascii].
  replace (2 <=? length lx' + 2)%nat with true by (symmetry; apply Nat.leb_le; lia).
  replace (String.eqb (String c (String "e" EmptyString)) "es") with false
    by (cbn; destruct (Ascii.eqb c "e"); reflexivity).
  reflexivity.
Qed.

(** C40: the normaliser deletes punctuation instead of splitting on it,
    and strips plurals in the wrong order: for lower-case words [x] and
    [y], "x-y" is read as the single term of "xy" (so "heart-shaped" is
    "heartshaped", which no layout preference knows), and a plural
    "xes" keeps its "e" ("foxes" is "foxe", not "fox"). *)
Theorem normalize_misses_plural_and_hyphen x y :
  Forall (fun c => is_lower c = true) (list_ascii_of_string x) -> x <> EmptyString ->
  Forall (fun c => is_lower c = true) (list_ascii_of_string y) -> y <> EmptyString ->
  _normalize_shape_term (String.append x (String "-" y)) = _normalize_shape_term (String.append x y) /\
  ((2 <= String.length x)%nat -> stem_of (String.append x "es") = String.append x "e").
Proof.
  intros Hx Hx0 Hy Hy0. split; [|apply stem_of_es].
  destruct (list_ascii_of_string x) as [|c1 mx] eqn:Ex; [destruct x; [contradiction|discriminate Ex]|].
  assert (Hy1 : list_ascii_of_string y <> []) by (destruct y; [contradiction|discriminate]).
  destruct (exists_last Hy1) as (my & c2 & Ey).
  rewrite <- (string_of_list_ascii_of_string x), <- (string_of_list_ascii_of_string y), Ex, Ey.
  rewrite Ey in Hy. inversion Hx as [|? ? Hc1 Hmx]; subst.
  apply Forall_app in Hy as [Hmy Hc2]. inversion Hc2 as [|? ? Hc2' _]; subst.
  assert (Hl : forall l, Forall (fun c => is_lower c = true) l -> Forall lower_or_hyphen l)
    by (intros l; apply Forall_impl; intros c H; left; exact H).
  assert (Hfl : forall l, Forall (fun c => is_lower c = true) l -> filter is_lower l = l).
  { intros l Hl'. induction Hl' as [|c l Hc _ IH]; cbn; [reflexivity|now rewrite Hc, IH]. }
  change (String "-" (string_of_list_ascii (my ++ [c2]))) with (string_of_list_ascii ("-"%char :: my ++ [c2])).
  rewrite <- !string_of_list_ascii_app.
  replace ((c1 :: mx) ++ "-"%char :: my ++ [c2]) with (c1 :: (mx ++ "-"%char :: my) ++ [c2])
    by (cbn; rewrite <- app_assoc; reflexivity).
  replace ((c1 :: mx) ++ my ++ [c2]) with (c1 :: (mx ++ my) ++ [c2]) by (cbn; rewrite <- app_assoc; reflexivity).
  assert (H1 : Forall lower_or_hyphen (mx ++ "-"%char :: my))
    by (apply Forall_app; split; [auto|constructor; [right; reflexivity|auto]]).
  assert (H2 : Forall lower_or_hyphen (mx ++ my)) by (apply Forall_app; split; auto).
  rewrite (normalize_word c1 _ c2 Hc1 Hc2' H1), (normalize_word c1 _ c2 Hc1 Hc2' H2).
  rewrite !filter_app. cbn [filter]. rewrite !Hfl by assumption. reflexivity.
Qed.

(** The two phrases of the finding, run. *)
Example normalize_misses_examples :
  _normalize_shape_term "heart-shaped" = ["heartshaped"]%string /\
  preferred_layout ["heartshaped"]%string = None /\
  preferred_layout (_normalize_shape_term "heart") = Some "mixed"%string /\
  _normalize_shape_term "foxes" = ["foxe"]%string /\
  preferred_layout ["foxe"]%string = None /\
  preferred_layout (_normalize_shape_term "fox") = Some "organic"%string.
Proof. vm_compute. repeat split. Qed.

(** * Witnesses *)

Lemma normalize_misses_plural_and_hyphen_witness :
  Forall (fun c => is_lower c = true) (list_ascii_of_string "heart") /\ "heart"%string <> EmptyString /\
  Forall (fun c => is_lower c = true) (list_ascii_of_string "shaped") /\ "shaped"%string <> EmptyString /\
  _normalize_shape_term "heart-shaped" = _normalize_shape_term "heartshaped" /\
  ((2 <= String.length "heart")%nat -> stem_of "heartes" = "hearte"%string).
Proof.
  assert (H1 : Forall (fun c => is_lower c = true) (list_ascii_of_string "heart")) by (repeat constructor).
  assert (H2 : Forall (fun c => is_lower c = true) (list_ascii_of_string "shaped")) by (repeat constructor).
  split; [exact H1|]. split; [discriminate|]. split; [exact H2|]. split; [discriminate|].
  exact (normalize_misses_plural_and_hyphen "heart" "shaped" H1 ltac:(discriminate) H2 ltac:(discriminate)).
Defined.

Lemma find_best_order_invariant_witness :
  (forall l : list string, Permutation (l) l) /\ (forall l : list string, Permutation (rev l) l) /\
  (List.length (filter known_term (_normalize_shape_term "heart")) <= 1)%nat /\
  find_best_for_shape (fun _ => 0) (fun l => l) [] "heart" 5 =
  find_best_for_shape (fun _ => 0) (@rev string) [] "heart" 5.
Proof.
  assert (H1 : forall l : list string, Permutation (l) l) by (intros; apply Permutation_refl).
  assert (H2 : forall l : list string, Permutation (rev l) l)
    by (intros; apply Permutation_sym, Permutation_rev).
  assert (Hk : (List.length (filter known_term (_normalize_shape_term "heart")) <= 1)%nat)
    by (vm_compute; lia).
  split; [exact H1|split; [exact H2|split; [exact Hk|]]].
  exact (find_best_order_invariant (fun _ => 0) (fun l => l) (@rev string) [] "heart" 5 H1 H2 Hk).
Defined.

Lemma get_by_name_roundtrip_witness :
  let h := mkHood "Vinohrady" "Vinohrady" (mkCoord 0 0) (mkBBox 0 0 1 1) "grid" "x" [] in
  In h [h] /\ py_strip (py_lower (name h)) = py_lower (name h) /\
  exists h', get_by_name (fun s => s) [h] (name h) = Some h' /\ In h' [h] /\
    (py_lower (name h') = py_lower (name h) \/ py_lower (name_cs h') = py_lower (name h)).
Proof.
  intros h. assert (Hin : In h [h]) by (left; reflexivity).
  assert (Hs : py_strip (py_lower (name h)) = py_lower (name h)) by (vm_compute; reflexivity).
  split; [exact Hin|split; [exact Hs|]].
  exact (get_by_name_roundtrip (fun s => s) [h] h Hin Hs).
Defined.
