(* ===== verification/Llm.v ===== *)
(** * Llm: parsing the language model's output

    Models the parsing glue of src/backend/services/llm.py: the markdown
    fence stripping and the bracket fallback of [parse_shape_json] and
    [parse_ideas_json], and [coords_from_raw], which turns JSON points
    into [Coordinate]s (pydantic checks their ranges); and the language
    model branch of [_generate_control_points] (shape_generator.py
    234-246), which the file [Templates] completes with its template
    fallback; and the reply parsing of [_validate_with_vision]
    (shape_validator.py 299-315), the judge of [Validator.validate].

    JSON values are the inductive [Json] (objects keep their members in
    text order; [json_get] returns the last duplicate, as [json.loads]
    keeps it).  [json.loads] and [float] of a string are parameters of
    the section (the JSON grammar and the float syntax are not modelled);
    an exception is [None]. *)

From Stdlib Require Import String Ascii QArith Qabs Lqa List Lia PeanoNat Bool ZArith.
From S2P Require Import Prelude.
From S2P Require Import Geodesy.
From S2P Require Import PyStr.
From S2P Require Import Templates.
Import ListNotations.
Open Scope Q_scope.
Open Scope geo_scope.

(** A value of [json.loads]. *)
Inductive Json :=
| JNull
| JBool (b : bool)
| JNum (q : Q)
| JStr (s : string)
| JArr (items : list Json)
| JObj (fields : list (string * Json)).

(** [d.get(key)] on a decoded object: the last member with that key. *)
Definition json_get (key : string) (fields : list (string * Json)) : option Json :=
  fold_left (fun acc kv => if String.eqb (fst kv) key then Some (snd kv) else acc) fields None.

(** [d.get(key, default)]. *)
Definition json_get_or (key : string) (fields : list (string * Json)) (default : Json) : Json :=
  match json_get key fields with Some v => v | None => default end.

(** The line break and the fence. *)
Definition nl : ascii := "010"%char.
Definition fence : string := "```".

(** Lines 92-96 (and 116-119): drop the opening fence line, and the
    closing one when the last line is a fence. *)
Definition strip_fences (text : string) : string :=
  if py_startswith text fence then
    let lines := py_split_on nl text in
    py_join (String nl EmptyString)
      (if String.eqb (py_strip (last lines EmptyString)) fence then removelast (tl lines) else tl lines)
  else text.

(** [text = raw.strip()] followed by the fence stripping. *)
Definition unfence (raw : string) : string := strip_fences (py_strip raw).

(** Lines 100-105: [text[text.find(o) : text.rfind(c) + 1]] when that is
    a non-empty slice. *)
Definition extract_between (o c : ascii) (text : string) : option string :=
  let start := py_find_char o text in
  let stop := (py_rfind_char c text + 1)%Z in
  if (0 <=? start)%Z && (start <? stop)%Z
  then Some (py_slice text (Z.to_nat start) (Z.to_nat stop)) else None.

(** A fenced block as models write it: an opening fence with an info
    string ([tag], e.g. [json]), the body, a closing fence. *)
Definition fenced (tag body : string) : string :=
  String.append fence (String.append tag (String nl (String.append body (String nl fence)))).

(** A coordinate as the model writes it: [[lng, lat]]. *)
Definition coord_json (c : Coordinate) : Json := JArr [JNum (lng c); JNum (lat c)].

Section Parsing.
(** [json.loads]: [None] for a [JSONDecodeError]. *)
Variable json_loads : string -> option Json.
(** [float(s)] of a string that denotes a finite number. *)
Variable parse_float : string -> option Q.

(** [float(v)] of a decoded value: numbers, booleans and numeric strings. *)
Definition py_float (v : Json) : option Q :=
  match v with
  | JNum q => Some q
  | JBool b => Some (if b then 1 else 0)
  | JStr s => parse_float s
  | _ => None
  end.

(** [parse_shape_json] (llm.py 114-129). *)
Definition parse_shape_json (raw : string) : option Json :=
  let text := unfence raw in
  match json_loads text with
  | Some data => Some data
  | None => match extract_between "{" "}" text with Some t => json_loads t | None => None end
  end.

(** [parse_ideas_json] (llm.py 90-111). *)
Definition parse_ideas_json (raw : string) : option (list Json) :=
  let text := unfence raw in
  let data := match json_loads text with
              | Some d => Some d
              | None => match extract_between "[" "]" text with Some t => json_loads t | None => None end
              end in
  match data with
  | None => None
  | Some d =>
      let d' := match d with
                | JObj fields => match json_get "ideas" fields with Some v => v | None => d end
                | _ => d
                end in
      match d' with JArr items => Some items | _ => None end
  end.

(** One iteration of [coords_from_raw] (lines 136-140): [None] when it
    raises, [Some None] when it skips the item. *)
Definition coord_of_item (p : Json) : option (option Coordinate) :=
  match p with
  | JArr (x :: y :: _) =>
      match py_float x, py_float y with
      | Some a, Some b => option_map Some (mk_coordinate a b)
      | _, _ => None
      end
  | JObj fields =>
      let lng := json_get_or "lng" fields (json_get_or "longitude" fields (JNum 0)) in
      let lat := json_get_or "lat" fields (json_get_or "latitude" fields (JNum 0)) in
      match py_float lng, py_float lat with
      | Some a, Some b => option_map Some (mk_coordinate a b)
      | _, _ => None
      end
  | _ => Some None
  end.

Fixpoint coords_from_items (items : list Json) : option (list Coordinate) :=
  match items with
  | [] => Some []
  | p :: ps =>
      match coord_of_item p, coords_from_items ps with
      | Some oc, Some cs => Some (match oc with Some c => c :: cs | None => cs end)
      | _, _ => None
      end
  end.

(** [for p in raw_points]: a list's items, a string's characters, a
    dict's keys; anything else raises [TypeError]. *)
Definition iter_items (v : Json) : option (list Json) :=
  match v with
  | JArr items => Some items
  | JStr s => Some (map (fun c => JStr (String c EmptyString)) (list_ascii_of_string s))
  | JObj fields => Some (map (fun kv => JStr (fst kv)) fields)
  | _ => None
  end.

(** [coords_from_raw] (llm.py 132-141). *)
Definition coords_from_raw (raw_points : Json) : option (list Coordinate) :=
  match iter_items raw_points with Some items => coords_from_items items | None => None end.

(** The language-model branch of [_generate_control_points] (lines
    234-246): [shape_json] is the model's [result.shape_json], [None]
    when no model is configured or the call raised. *)
Definition llm_control_points (shape_json : option string) : option (list Coordinate) :=
  match shape_json with
  | None => None
  | Some out =>
      match parse_shape_json out with
      | Some (JObj fields) => coords_from_raw (json_get_or "control_points" fields (JArr []))
      | _ => None
      end
  end.

(** The reply parsing of [_validate_with_vision]
    (shape_validator.py 299-315): the stripped text, or else its
    [{...}] slice, decoded; then [float(data.get("score", 0))] and
    [data.get("reasoning", "")], which [ValidationResult] requires to be a
    string.  [data.get] on a value that is not a dict raises. *)
Definition parse_vision_response (raw : string) : option (Q * string) :=
  let text := py_strip raw in
  let data := match json_loads text with
              | Some d => Some d
              | None => match extract_between "{" "}" text with
                        | Some t => json_loads t
                        | None => None
                        end
              end in
  match data with
  | Some (JObj fields) =>
      match py_float (json_get_or "score" fields (JNum 0)),
            json_get_or "reasoning" fields (JStr EmptyString) with
      | Some s, JStr r => Some (s, r)
      | _, _ => None
      end
  | _ => None
  end.

(** [_validate_with_vision] (254-322) as the judge of [validate]: [call]
    renders the routed points and asks the vision model (lines 264-297),
    giving [response.choices[0].message.content], [None] when it raises. *)
Definition vision_judge (call : string -> list Coordinate -> list Coordinate -> option string)
    (description : string) (target actual : list Coordinate) : option (Q * string) :=
  match call description target actual with
  | Some raw => parse_vision_response raw
  | None => None
  end.

End Parsing.

(** * Fences *)

Lemma fence_chars_no_nl : Forall (fun c => Ascii.eqb c nl = false) (list_ascii_of_string fence).
Proof. repeat constructor. Qed.

Lemma list_ascii_fenced tag body :
  list_ascii_of_string (fenced tag body) =
  (list_ascii_of_string fence ++ list_ascii_of_string tag) ++
    nl :: (list_ascii_of_string body ++ nl :: list_ascii_of_string fence).
Proof.
  unfold fenced. rewrite !list_ascii_of_string_app. cbn [list_ascii_of_string].
  rewrite list_ascii_of_string_app. cbn. reflexivity.
Qed.

Lemma split_fenced tag body :
  Forall (fun c => Ascii.eqb c nl = false) (list_ascii_of_string tag) ->
  py_split_on nl (fenced tag body) =
  [String.append fence tag] ++ py_split_on nl body ++ [fence].
Proof.
  intros Htag. unfold py_split_on. rewrite list_ascii_fenced, split_on_aux_app, split_on_aux_app.
  rewrite split_on_aux_nosep by (apply Forall_app; split; [apply fence_chars_no_nl|exact Htag]).
  rewrite (split_on_aux_nosep nl (list_ascii_of_string fence)) by apply fence_chars_no_nl.
  cbn [rev app]. rewrite string_of_list_ascii_app, !string_of_list_ascii_of_string. reflexivity.
Qed.

Lemma py_strip_fenced tag body : py_strip (fenced tag body) = fenced tag body.
Proof.
  apply (py_strip_id _ "`"%char
           (["`"; "`"]%char ++ list_ascii_of_string tag ++ nl ::
              list_ascii_of_string body ++ [nl; "`"; "`"]%char) "`"%char); [|reflexivity..].
  rewrite list_ascii_fenced. cbn [list_ascii_of_string fence app].
  rewrite <- !app_assoc. cbn [app]. rewrite <- !app_assoc. reflexivity.
Qed.

(** * Coordinates *)


Section ParsingFacts.
Variable parse_float : string -> option Q.

Lemma coord_of_item_valid p c : coord_of_item parse_float p = Some (Some c) -> coord_valid c.
Proof.
  unfold coord_of_item. intros E.
  destruct p as [| | | |[|x [|y ys]]|fields]; try discriminate; cbv zeta in E;
    repeat match type of E with
           | context [py_float ?pf ?v] => destruct (py_float pf v)
           end; try discriminate;
    destruct (mk_coordinate _ _) eqn:Em; try discriminate;
    injection E as <-; exact (mk_coordinate_Some _ _ _ Em).
Qed.

Lemma coords_from_items_valid items cs :
  coords_from_items parse_float items = Some cs -> Forall coord_valid cs.
Proof.
  revert cs. induction items as [|p ps IH]; cbn; intros cs E; [injection E as <-; constructor|].
  destruct (coord_of_item _ p) as [[c|]|] eqn:Ep; try discriminate;
    destruct (coords_from_items _ ps) as [cs'|]; try discriminate; injection E as <-;
    [constructor; [exact (coord_of_item_valid _ _ Ep)|]|]; apply IH; reflexivity.
Qed.

(** Every coordinate [coords_from_raw] returns passed pydantic's range
    checks. *)
Lemma coords_from_raw_valid raw cs : coords_from_raw parse_float raw = Some cs -> Forall coord_valid cs.
Proof.
  unfold coords_from_raw. destruct (iter_items raw); [apply coords_from_items_valid|discriminate].
Qed.

End ParsingFacts.

Lemma llm_control_points_valid json_loads parse_float r cs :
  llm_control_points json_loads parse_float r = Some cs -> Forall coord_valid cs.
Proof.
  unfold llm_control_points. destruct r as [out|]; [|discriminate].
  destruct (parse_shape_json json_loads out) as [[| | | | |fields]|]; try discriminate.
  apply coords_from_raw_valid.
Qed.

Lemma coords_from_items_encode parse_float cs :
  Forall coord_valid cs -> coords_from_items parse_float (map coord_json cs) = Some cs.
Proof.
  induction 1 as [|c cs Hc _ IH]; [reflexivity|]. cbn [map coords_from_items]. rewrite IH.
  unfold coord_of_item, coord_json. cbn [py_float]. rewrite (mk_coordinate_valid c Hc). reflexivity.
Qed.

(** * Properties *)

(** C24: stripping the fences of a fenced block gives back its body,
    whatever the body holds (blank lines and inner fences included), when
    the info string has no line break. *)
Theorem unfence_fenced tag body :
  Forall (fun c => Ascii.eqb c nl = false) (list_ascii_of_string tag) ->
  unfence (fenced tag body) = body.
Proof.
  intros Htag. unfold unfence. rewrite py_strip_fenced. unfold strip_fences.
  replace (py_startswith (fenced tag body) fence) with true
    by (unfold py_startswith, fenced, fence; cbn; destruct (String.append tag _); reflexivity).
  cbv zeta. rewrite (split_fenced _ _ Htag), app_assoc, last_last.
  replace (String.eqb (py_strip fence) fence) with true by reflexivity.
  cbn [tl app]. rewrite removelast_last. apply join_split_on.
Qed.

(** C25: [coords_from_raw] reads back the coordinates written as
    [[[lng, lat], ...]], when they are in range. *)
Theorem coords_from_raw_roundtrip parse_float cs :
  Forall coord_valid cs -> coords_from_raw parse_float (JArr (map coord_json cs)) = Some cs.
Proof. intros Hcs. apply coords_from_items_encode, Hcs. Qed.

(** C15: [_generate_control_points] with the model's parsed output returns
    at least three points, and they are all valid coordinates (the model's,
    range-checked by pydantic) or all inside the target box (the template
    fallback); it raises (pydantic's check of [bbox.center()] or of a
    template point) only for a box out of the coordinate range. *)
Theorem control_points_valid_or_in_bbox `{TrigLaws} json_loads parse_float shape_json description bbox :
  bbox_valid bbox ->
  match _generate_control_points (llm_control_points json_loads parse_float shape_json) description bbox with
  | Some pts => (3 <= List.length pts)%nat /\ (Forall coord_valid pts \/ Forall (in_bbox bbox) pts)
  | None => ~ bbox_in_range bbox
  end.
Proof.
  intros Hb.
  pose proof (control_points_in_bbox (llm_control_points json_loads parse_float shape_json) description bbox Hb) as Hc.
  destruct (_generate_control_points _ description bbox) as [pts|] eqn:E; [|exact Hc].
  split; [exact (control_points_length _ _ _ _ E)|].
  destruct Hc as [[Hl _]|Hin]; [left; exact (llm_control_points_valid _ _ _ _ Hl)|right; exact Hin].
Qed.

(** A reply with prose around its JSON object: [json.loads] of the whole
    text fails, the [{...}] slice is decoded, and its score and reasoning
    are the judge's answer; a reply whose reasoning is not a string is
    rejected, so [validate] falls back to the algorithmic scorer. *)
Example vision_reply_in_prose :
  let loads := fun t : string =>
    if String.eqb t "{score}" then Some (JObj [("score", JNum 72); ("reasoning", JStr "close")]%string)
    else if String.eqb t "{bad}" then Some (JObj [("score", JNum 72); ("reasoning", JNum 1)]%string)
    else None in
  parse_vision_response loads (fun _ => None) " Sure! {score} Hope this helps. " = Some (72, "close"%string) /\
  parse_vision_response loads (fun _ => None) "{bad}" = None.
Proof. split; vm_compute; reflexivity. Qed.

(** * Witnesses *)

Lemma unfence_fenced_witness :
  Forall (fun c => Ascii.eqb c nl = false) (list_ascii_of_string "json") /\
  unfence (fenced "json" "{}") = "{}"%string.
Proof.
  assert (Ht : Forall (fun c => Ascii.eqb c nl = false) (list_ascii_of_string "json"))
    by (repeat constructor).
  split; [exact Ht|exact (unfence_fenced "json" "{}" Ht)].
Defined.

Lemma coords_from_raw_roundtrip_witness :
  Forall coord_valid [mkCoord (1442#100) (5008#100)] /\
  coords_from_raw (fun _ => None) (JArr (map coord_json [mkCoord (1442#100) (5008#100)])) =
  Some [mkCoord (1442#100) (5008#100)].
Proof.
  assert (Hv : Forall coord_valid [mkCoord (1442#100) (5008#100)])
    by (repeat constructor; unfold coord_valid; cbn; lra).
  split; [exact Hv|exact (coords_from_raw_roundtrip (fun _ => None) _ Hv)].
Defined.

Lemma control_points_valid_or_in_bbox_witness :
  bbox_valid (mkBBox 0 0 1 1) /\
  match _generate_control_points (llm_control_points (fun _ => None) (fun _ => None) None)
          "heart" (mkBBox 0 0 1 1) with
  | Some pts => (3 <= List.length pts)%nat /\ (Forall coord_valid pts \/ Forall (in_bbox (mkBBox 0 0 1 1)) pts)
  | None => ~ bbox_in_range (mkBBox 0 0 1 1)
  end.
Proof.
  assert (Hb : bbox_valid (mkBBox 0 0 1 1)) by (unfold bbox_valid; cbn; lra).
  split; [exact Hb|exact (control_points_valid_or_in_bbox (fun _ => None) (fun _ => None) None "heart" _ Hb)].
Defined.
