(* ===== verification/HoodData.v ===== *)
(** * HoodData: the neighbourhood data file

    Models [NeighborhoodService.__init__] and [_load]
    (src/backend/services/neighborhood.py 67-77), [_parse] (79-94) and [get_summary_string] (160-168), with
    pydantic's checks of the [Neighborhood] record (schemas.py 32-39: the
    centre is a [Coordinate] in range, [street_layout] matches
    [^(grid|organic|mixed)$], the text fields are strings).  The file's
    text is decoded by [json_loads] (absent file: [None]); pydantic's lax
    [float] validation of a JSON value is the parameter [json_float].  A
    raised exception (a missing key, a bad index, a rejected field) is
    [None]. *)

From Stdlib Require Import String Ascii QArith Qabs Lqa List Lia PeanoNat Bool ZArith.
From S2P Require Import Prelude.
From S2P Require Import Geodesy.
From S2P Require Import Metrics.
From S2P Require Import PyStr.
From S2P Require Import Neighborhood.
From S2P Require Import Llm.
Import ListNotations.
Open Scope Q_scope.
Open Scope geo_scope.

(** A [str] field filled from a JSON value: pydantic accepts strings only. *)
Definition json_str (v : Json) : option string :=
  match v with JStr s => Some s | _ => None end.

(** A [list[str]] field: a JSON array of strings. *)
Definition json_str_list (v : Json) : option (list string) :=
  match v with JArr items => traverse_opt json_str items | _ => None end.

(** [street_layout: str = Field(..., pattern=r"^(grid|organic|mixed)$")]. *)
Definition layout_ok (s : string) : bool :=
  String.eqb s "grid" || String.eqb s "organic" || String.eqb s "mixed".

(** [v[key]] on a decoded JSON value: a member of an object; on any other
    value Python raises. *)
Definition json_key (v : Json) (key : string) : option Json :=
  match v with JObj fields => json_get key fields | _ => None end.

(** [v[i]] on a decoded JSON value: an item of a list or a character of a
    string; on any other value Python raises. *)
Definition json_index (v : Json) (i : nat) : option Json :=
  match v with
  | JArr items => nth_error items i
  | JStr s => option_map (fun c => JStr (String c EmptyString)) (String.get i s)
  | _ => None
  end.

(** The line of a neighbourhood in [get_summary_string] (164-167). *)
Definition summary_line (h : Neighborhood) : string :=
  String.append "- " (String.append (name h) (String.append " (" (String.append (street_layout h)
    (String.append " streets): " (String.append (character h)
    (String.append ". Good for: " (py_join ", " (good_for h)))))))).

(** [get_summary_string] (160-168). *)
Definition get_summary_string (hoods : list Neighborhood) : string :=
  py_join (String nl EmptyString) (map summary_line hoods).

Section Data.
Variable json_loads : string -> option Json.
Variable json_float : Json -> option Q.

(** [entry[key][i]] validated as a [float]. *)
Definition float_at (v : Json) (i : nat) : option Q :=
  match json_index v i with Some x => json_float x | None => None end.

(** [_parse] (79-94). *)
Definition _parse (entry : Json) : option Neighborhood :=
  match json_key entry "name", json_key entry "name_cs", json_key entry "center",
        json_key entry "bbox", json_key entry "street_layout", json_key entry "character",
        json_key entry "good_for" with
  | Some n, Some ncs, Some c, Some b, Some sl, Some ch, Some gf =>
      match json_str n, json_str ncs, float_at c 0, float_at c 1,
            float_at b 0, float_at b 1, float_at b 2, float_at b 3,
            json_str sl, json_str ch, json_str_list gf with
      | Some n, Some ncs, Some x, Some y, Some x0, Some y0, Some x1, Some y1,
        Some sl, Some ch, Some gf =>
          match mk_coordinate x y with
          | Some center =>
              if layout_ok sl then Some (mkHood n ncs center (mkBBox x0 y0 x1 y1) sl ch gf)
              else None
          | None => None
          end
      | _, _, _, _, _, _, _, _, _, _, _ => None
      end
  | _, _, _, _, _, _, _ => None
  end.

(** [_load] (71-77): [file] is the text of prague_neighborhoods.json,
    [None] when it does not exist.  The list comprehension iterates what
    [json.load] returned: a list's items, or a dict's keys and a string's
    characters, on which [_parse] raises. *)
Definition _load (file : option string) : option (list Neighborhood) :=
  match file with
  | None => Some []
  | Some text =>
      match json_loads text with
      | Some (JArr entries) => traverse_opt _parse entries
      | Some (JObj []) | Some (JStr EmptyString) => Some []
      | _ => None
      end
  end.

(** [NeighborhoodService.__init__] (67-69): the service's state is the
    list [_load] returns. *)
Definition NeighborhoodService_init (data_file : option string) : option (list Neighborhood) :=
  _load data_file.

End Data.

(** The JSON a neighbourhood is written as in the data file. *)
Definition hood_json (h : Neighborhood) : Json :=
  JObj [("name", JStr (name h)); ("name_cs", JStr (name_cs h));
        ("center", JArr [JNum (lng (center h)); JNum (lat (center h))]);
        ("bbox", JArr [JNum (min_lng (bbox h)); JNum (min_lat (bbox h));
                       JNum (max_lng (bbox h)); JNum (max_lat (bbox h))]);
        ("street_layout", JStr (street_layout h)); ("character", JStr (character h));
        ("good_for", JArr (map JStr (good_for h)))]%string.

(** What pydantic guarantees of every [Neighborhood] it builds. *)
Definition hood_wf (h : Neighborhood) : Prop :=
  coord_valid (center h) /\ layout_ok (street_layout h) = true.

(** Example data: pydantic's float validation on JSON numbers, and a
    neighbourhood as the data file lists it. *)
Definition num_float (v : Json) : option Q :=
  match v with JNum q => Some q | _ => None end.

Definition sample_hood : Neighborhood :=
  mkHood "Letna" "Letna" (mkCoord (14425#1000) (501#10))
         (mkBBox (1441#100) (50095#1000) (1444#100) (50105#1000)) "mixed" "Park plateau" ["heart"; "circle"]%string.

(** * Lemmas *)

Lemma traverse_opt_map_Forall {A B} (f : B -> option A) (g : A -> B) l :
  Forall (fun x => f (g x) = Some x) l -> traverse_opt f (map g l) = Some l.
Proof. induction 1 as [|x l Hx _ IH]; [reflexivity|]. cbn. rewrite Hx, IH. reflexivity. Qed.

Section DataFacts.
Variable json_loads : string -> option Json.
Variable json_float : Json -> option Q.

Lemma parse_wf entry h : _parse json_float entry = Some h -> hood_wf h.
Proof.
  unfold _parse.
  repeat match goal with |- context [match ?x with _ => _ end] => destruct x eqn:? end;
    try discriminate.
  intros [= <-]. split; [|assumption].
  match goal with H : mk_coordinate _ _ = Some _ |- _ => exact (mk_coordinate_Some _ _ _ H) end.
Qed.

(** Every neighbourhood [_load] returns passed pydantic's checks. *)
Lemma load_wf file hoods : _load json_loads json_float file = Some hoods -> Forall hood_wf hoods.
Proof.
  destruct file as [text|]; cbn; [|intros [= <-]; constructor].
  destruct (json_loads text) as [j|]; [|discriminate].
  destruct j as [| | |str|entries|fields]; try discriminate;
    [destruct str; [intros [= <-]; constructor|discriminate]| |
     destruct fields; [intros [= <-]; constructor|discriminate]].
  intros E. eapply Forall_impl; [|exact (traverse_opt_Forall _ (fun _ h => hood_wf h) _ _
                                          (fun e h _ Hp => parse_wf e h Hp) E)].
  intros h (e & _ & Hh). exact Hh.
Qed.

Hypothesis json_float_num : forall q, json_float (JNum q) = Some q.

Lemma parse_hood_json h : hood_wf h -> _parse json_float (hood_json h) = Some h.
Proof.
  destruct h as [n ncs [x y] [x0 y0 x1 y1] sl ch gf]. intros [Hc Hl]. cbn in Hc, Hl.
  unfold _parse, float_at. cbn -[mk_coordinate layout_ok traverse_opt].
  rewrite !json_float_num, (mk_coordinate_valid (mkCoord x y) Hc : mk_coordinate x y = _), Hl.
  rewrite traverse_opt_map_Forall; [reflexivity|]. apply Forall_forall. reflexivity.
Qed.

(** C33: reading back a data file written from well-formed
    neighbourhoods gives exactly those neighbourhoods, in order. *)
Theorem load_roundtrip text hs :
  json_loads text = Some (JArr (map hood_json hs)) -> Forall hood_wf hs ->
  _load json_loads json_float (Some text) = Some hs.
Proof.
  intros E Hwf. cbn. rewrite E. apply traverse_opt_map_Forall.
  eapply Forall_impl; [|exact Hwf]. exact parse_hood_json.
Qed.

End DataFacts.

(** The summary line of the sample neighbourhood, as the model reads it. *)
Example summary_sample :
  get_summary_string [sample_hood; sample_hood] =
  String.append "- Letna (mixed streets): Park plateau. Good for: heart, circle"
    (String nl "- Letna (mixed streets): Park plateau. Good for: heart, circle")%string.
Proof. reflexivity. Qed.

(** * Witnesses *)

Lemma load_roundtrip_witness :
  let loads := fun _ : string => Some (JArr (map hood_json [sample_hood])) in
  (forall q, num_float (JNum q) = Some q) /\ Forall hood_wf [sample_hood] /\
  _load loads num_float (Some "data"%string) = Some [sample_hood].
Proof.
  intros loads.
  assert (Hwf : Forall hood_wf [sample_hood])
    by (repeat constructor; unfold coord_valid; cbn; lra).
  split; [reflexivity|split; [exact Hwf|]].
  exact (load_roundtrip loads num_float (fun q => eq_refl) "data" [sample_hood] eq_refl Hwf).
Defined.
