(* ===== verification/Predictors.v ===== *)
(** * Predictors: the dspy signatures and the calls of the model

    Models the three [dspy.Signature] classes of src/backend/services/llm.py
    ([GenerateShapeIdeas] 31-51, [DescriptionToShape] 54-68,
    [FindOptimalArea] 71-87) by their input and output fields, a
    [dspy.Predict] of a signature as a function from its inputs to its
    outputs ([None] when the call raises), and the inputs
    shape_generator.py builds at its three call sites: [_generate_with_llm]
    (161-167), [_find_neighborhood] (212-216) and
    [_generate_control_points] (237-241), with the f-string of the
    bounding box.  The docstrings and field descriptions are the prompt
    text the model reads; what the model answers is not modelled, so
    every theorem about a caller holds for every predictor.

    Python's [str] of a float inside the f-string is the class
    [FloatRepr]; its law is that the text has no comma (Python prints
    digits, a sign, a point, an exponent, [inf] or [nan]). *)

From Stdlib Require Import String Ascii QArith List ZArith Decimal.
From S2P Require Import Prelude.
From S2P Require Import Geodesy.
From S2P Require Import PyStr.
From S2P Require Import Neighborhood.
From S2P Require Import HoodData.
Import ListNotations.
Open Scope Q_scope.

(** [str(x)] of a float, as an f-string renders it. *)
Class FloatRepr := float_repr : Q -> string.

(** What the bounding box's text relies on: no rendered float holds the
    separator. *)
Class FloatReprLaws `{FloatRepr} :=
  float_repr_no_comma : forall q, Forall (fun c => Ascii.eqb c ","%char = false) (list_ascii_of_string (float_repr q)).

(** [dspy.Predict(Sig)] on a configured model: the prediction for the
    signature's inputs, [None] when the call raises. *)
Definition Predictor (I O : Type) : Type := I -> option O.

Module GenerateShapeIdeas.
(** The input fields (llm.py 46-49). *)
Record Input := mkInput { neighborhood : string; street_layout : string; bbox : string; count : Z }.
(** The output field (llm.py 51). *)
Record Output := mkOutput { ideas_json : string }.
End GenerateShapeIdeas.

Module DescriptionToShape.
(** The input fields (llm.py 65-66). *)
Record Input := mkInput { description : string; target_bbox : string }.
(** The output field (llm.py 68). *)
Record Output := mkOutput { shape_json : string }.
End DescriptionToShape.

Module FindOptimalArea.
(** The input fields (llm.py 83-84). *)
Record Input := mkInput { description : string; neighborhoods : string }.
(** The output fields (llm.py 86-87). *)
Record Output := mkOutput { best_neighborhood : string; reasoning : string }.
End FindOptimalArea.

(** What the configured model predicts for each of the three signatures. *)
Record Model := mkModel {
  ideas_model : Predictor GenerateShapeIdeas.Input GenerateShapeIdeas.Output;
  shape_model : Predictor DescriptionToShape.Input DescriptionToShape.Output;
  area_model : Predictor FindOptimalArea.Input FindOptimalArea.Output }.

Section Calls.
Context `{FloatRepr}.

(** [f"{bbox.min_lng},{bbox.min_lat},{bbox.max_lng},{bbox.max_lat}"]
    (shape_generator.py 161 and 237). *)
Definition bbox_str (b : BoundingBox) : string :=
  String.append (float_repr (min_lng b)) (String ","%char
  (String.append (float_repr (min_lat b)) (String ","%char
  (String.append (float_repr (max_lng b)) (String ","%char
  (float_repr (max_lat b))))))).

(** The inputs of [self._generate_ideas(...)] (162-167). *)
Definition ideas_request (hood : Neighborhood) (count : nat) : GenerateShapeIdeas.Input :=
  GenerateShapeIdeas.mkInput (name hood) (street_layout hood) (bbox_str (bbox hood)) (Z.of_nat count).

(** The inputs of [self._find_area(...)] (212-216). *)
Definition area_request (hoods : list Neighborhood) (description : string) : FindOptimalArea.Input :=
  FindOptimalArea.mkInput description (get_summary_string hoods).

(** The inputs of [self._describe_to_shape(...)] (237-241). *)
Definition shape_request (description : string) (b : BoundingBox) : DescriptionToShape.Input :=
  DescriptionToShape.mkInput description (bbox_str b).

(** [if self._find_area: try: ... result.best_neighborhood] (210-216):
    the name the area predictor picks, [None] when there is no predictor
    or its call raises. *)
Definition picked_area (find_area : option (Predictor FindOptimalArea.Input FindOptimalArea.Output))
    (hoods : list Neighborhood) (description : string) : option string :=
  match find_area with
  | Some p => option_map FindOptimalArea.best_neighborhood (p (area_request hoods description))
  | None => None
  end.

(** [if self._describe_to_shape: try: ... result.shape_json] (235-241). *)
Definition shape_answer (describe_to_shape : option (Predictor DescriptionToShape.Input DescriptionToShape.Output))
    (description : string) (b : BoundingBox) : option string :=
  match describe_to_shape with
  | Some p => option_map DescriptionToShape.shape_json (p (shape_request description b))
  | None => None
  end.

End Calls.

(** Example predictors that give the same answer to every input. *)
Definition ideas_answering (out : string) : Predictor GenerateShapeIdeas.Input GenerateShapeIdeas.Output :=
  fun _ => Some (GenerateShapeIdeas.mkOutput out).

Definition shape_answering (out : string) : Predictor DescriptionToShape.Input DescriptionToShape.Output :=
  fun _ => Some (DescriptionToShape.mkOutput out).

Definition area_answering (best : string) : Predictor FindOptimalArea.Input FindOptimalArea.Output :=
  fun _ => Some (FindOptimalArea.mkOutput best EmptyString).

(** A model whose every call raises (a time-out, say). *)
Definition failing_model : Model := mkModel (fun _ => None) (fun _ => None) (fun _ => None).

(** Example rendering of a float for the examples: the exact fraction
    [num/den] in decimal digits ([num] alone for an integer).  It has no
    comma, as Python's rendering has none. *)
Fixpoint uint_digits (u : uint) : string :=
  match u with
  | Nil => EmptyString
  | D0 u => String "0" (uint_digits u) | D1 u => String "1" (uint_digits u)
  | D2 u => String "2" (uint_digits u) | D3 u => String "3" (uint_digits u)
  | D4 u => String "4" (uint_digits u) | D5 u => String "5" (uint_digits u)
  | D6 u => String "6" (uint_digits u) | D7 u => String "7" (uint_digits u)
  | D8 u => String "8" (uint_digits u) | D9 u => String "9" (uint_digits u)
  end.

#[export] Instance fraction_repr : FloatRepr := fun q =>
  let num := match Qnum q with
             | Z0 => "0"%string
             | Zpos p => uint_digits (Pos.to_uint p)
             | Zneg p => String "-" (uint_digits (Pos.to_uint p))
             end in
  match Qden q with
  | xH => num
  | d => String.append num (String "/" (uint_digits (Pos.to_uint d)))
  end.

(** * Properties *)

Lemma uint_digits_no_comma u :
  Forall (fun c => Ascii.eqb c ","%char = false) (list_ascii_of_string (uint_digits u)).
Proof. induction u; cbn; repeat constructor; assumption. Qed.

Lemma fraction_repr_laws : @FloatReprLaws fraction_repr.
Proof.
  intros [n d]. unfold float_repr, fraction_repr. cbn [Qnum Qden].
  assert (Hn : Forall (fun c => Ascii.eqb c ","%char = false) (list_ascii_of_string
                 (match n with Z0 => "0"%string | Zpos p => uint_digits (Pos.to_uint p)
                  | Zneg p => String "-" (uint_digits (Pos.to_uint p)) end)))
    by (destruct n; cbn; repeat constructor; apply uint_digits_no_comma).
  destruct d; try exact Hn; rewrite list_ascii_of_string_app; apply Forall_app;
    (split; [exact Hn|cbn; constructor; [reflexivity|apply uint_digits_no_comma]]).
Qed.

Section ReprFacts.
Context `{FloatReprLaws}.

Lemma split_on_comma_app q rest :
  py_split_on ","%char (String.append (float_repr q) (String ","%char rest)) =
  float_repr q :: py_split_on ","%char rest.
Proof.
  unfold py_split_on. rewrite list_ascii_of_string_app. cbn [list_ascii_of_string].
  rewrite split_on_aux_app, split_on_aux_nosep by apply float_repr_no_comma.
  cbn. rewrite string_of_list_ascii_of_string. reflexivity.
Qed.

(** C31: the bounding box the model is given splits on commas into the
    renderings of its four coordinates, in the order the field's
    description promises ([min_lng,min_lat,max_lng,max_lat]). *)
Theorem bbox_str_split b :
  py_split_on ","%char (bbox_str b) =
  [float_repr (min_lng b); float_repr (min_lat b); float_repr (max_lng b); float_repr (max_lat b)].
Proof.
  unfold bbox_str. rewrite !split_on_comma_app. unfold py_split_on.
  rewrite split_on_aux_nosep by apply float_repr_no_comma. cbn.
  now rewrite string_of_list_ascii_of_string.
Qed.

End ReprFacts.

(** * Witnesses *)

Lemma bbox_str_split_witness :
  @FloatReprLaws fraction_repr /\
  py_split_on ","%char (@bbox_str fraction_repr (bbox sample_hood)) =
  ["1441/100"; "50095/1000"; "1444/100"; "50105/1000"]%string.
Proof. split; [exact fraction_repr_laws|exact (@bbox_str_split fraction_repr fraction_repr_laws (bbox sample_hood))]. Defined.
