(* ===== verification/Ideas.v ===== *)
(** * Ideas: shape ideas for a neighbourhood (mode A)

    Models [generate_for_neighborhood] of
    src/backend/services/shape_generator.py (lines 47-74) with its two
    sources of ideas, [_generate_with_llm] (159-184: the model's JSON
    ideas, each mapped to the streets) and [_generate_with_templates]
    (186-206: the first [count] templates, scaled to the neighbourhood);
    [_emoji_for_description] (443-457); and the [ShapeIdea] and
    [GenerateResponse] records of schemas.py with pydantic's checks
    ([estimated_distance_km > 0], [difficulty] one of easy, moderate,
    hard; the pattern is matched by pydantic-core's Rust regex engine,
    where [$] is the end of the text).  Inside the helpers an exception
    is [None]; [generate_for_neighborhood] returns an [Outcome] that says
    which exception it raises, since the routers answer a [ValueError]
    (pydantic's [ValidationError] is one) with 400 and any other with 500. *)

From Stdlib Require Import String Ascii QArith Qabs Lqa List Lia PeanoNat Bool ZArith.
From S2P Require Import Prelude.
From S2P Require Import Geodesy.
From S2P Require Import StreetMapper.
From S2P Require Import Metrics.
From S2P Require Import PyStr.
From S2P Require Import Templates.
From S2P Require Import Neighborhood.
From S2P Require Import Llm.
From S2P Require Import HoodData.
From S2P Require Import Predictors.
Import ListNotations.
Open Scope Q_scope.
Open Scope geo_scope.

Module Idea.
(** [class ShapeIdea(BaseModel)]. *)
Record ShapeIdea := mkIdea {
  name : string; description : string; emoji : string; estimated_distance_km : Q;
  difficulty : string; control_points : list Coordinate; target_area : string }.
End Idea.

Module Response.
(** [class GenerateResponse(BaseModel)]. *)
Record GenerateResponse := mkResponse {
  ideas : list Idea.ShapeIdea; neighborhood : string; bbox : BoundingBox }.
End Response.

(** [Field(..., pattern=r"^(easy|moderate|hard)$")]. *)
Definition difficulty_ok (d : string) : bool :=
  String.eqb d "easy" || String.eqb d "moderate" || String.eqb d "hard".

(** [ShapeIdea(...)]: pydantic's checks of the two constrained fields. *)
Definition make_idea (name description emoji : string) (km : Q) (difficulty : string)
    (control_points : list Coordinate) (target_area : string) : option Idea.ShapeIdea :=
  if (0 <? km) && difficulty_ok difficulty
  then Some (Idea.mkIdea name description emoji km difficulty control_points target_area)
  else None.

(** The [mapping] dict of [_emoji_for_description], in literal order. *)
Definition emoji_mapping : list (string * string) :=
  [("heart", "❤️"); ("star", "⭐"); ("circle", "⭕"); ("triangle", "🔺");
   ("arrow", "➡️"); ("square", "⬜"); ("cat", "🐱"); ("dog", "🐕");
   ("fox", "🦊"); ("bird", "🐦"); ("rabbit", "🐰"); ("fish", "🐟");
   ("flower", "🌸"); ("tree", "🌳"); ("house", "🏠"); ("crown", "👑");
   ("lightning", "⚡"); ("moon", "🌙"); ("sun", "☀️"); ("diamond", "💎")]%string.

(** [_emoji_for_description] (443-457): the emoji of the first key that
    occurs in the lowered description. *)
Definition _emoji_for_description (desc : string) : string :=
  let desc_l := py_lower desc in
  match find (fun kv => py_contains (fst kv) desc_l) emoji_mapping with
  | Some (_, e) => e
  | None => "✨"%string
  end.

(** [template_names] and [emojis] of [_generate_with_templates]. *)
Definition template_names : list string :=
  ["heart"; "star"; "triangle"; "circle"; "arrow"; "square"]%string.

Definition template_emojis : list (string * string) :=
  [("heart", "❤️"); ("star", "⭐"); ("triangle", "🔺"); ("circle", "⭕");
   ("arrow", "➡️"); ("square", "⬜")]%string.

(** Example data: a neighbourhood and a model idea (a triangle) with a
    given difficulty. *)
Definition example_hood : Neighborhood :=
  mkHood "Vinohrady" "Vinohrady" (mkCoord (14445#1000) (50075#1000))
         (mkBBox (14443#1000) (50073#1000) (14446#1000) (50076#1000)) "grid" "Residential" ["geometric"]%string.

Definition example_idea (difficulty : string) : Json :=
  JObj [("name", JStr "Triangle"); ("difficulty", JStr difficulty);
        ("control_points", JArr (map coord_json [mkCoord (1444#100) (5008#100); mkCoord (1445#100) (5008#100);
                                                 mkCoord (14445#1000) (50085#1000)]))]%string.

(** What every idea of the service satisfies: pydantic's checks, the
    neighbourhood as its target area, and control points inside the
    neighbourhood's box shrunk by the 10% padding. *)
Definition idea_ok {G : Geodesy} (hood : Neighborhood) (i : Idea.ShapeIdea) : Prop :=
  0 < Idea.estimated_distance_km i /\ difficulty_ok (Idea.difficulty i) = true /\
  Idea.target_area i = name hood /\
  Forall (in_bbox (padded_box (bbox hood) (1#10))) (Idea.control_points i).

Section Ideas.
Context {G : Geodesy} `{Trig} {FR : FloatRepr}.
Variable json_loads : string -> option Json.
Variable parse_float : string -> option Q.

(** One iteration of [_generate_with_llm] (lines 171-183): [None] when it
    raises, [Some None] when the idea has fewer than three points. *)
Definition idea_from_raw (hood : Neighborhood) (raw : Json) : option (option Idea.ShapeIdea) :=
  match raw with
  | JObj fields =>
      match coords_from_raw parse_float (json_get_or "control_points" fields (JArr [])) with
      | None => None
      | Some points =>
          if Nat.ltb (List.length points) 3 then Some None
          else
            match map_to_streets points (bbox hood) with
            | None => None
            | Some mapped =>
                match json_str (json_get_or "name" fields (JStr "Unnamed")),
                      json_str (json_get_or "description" fields (JStr EmptyString)),
                      json_str (json_get_or "emoji" fields (JStr EmptyString)),
                      json_str (json_get_or "difficulty" fields (JStr "moderate")) with
                | Some n, Some d, Some e, Some diff =>
                    option_map Some (make_idea n d e (estimate_distance_km mapped) diff mapped (name hood))
                | _, _, _, _ => None
                end
            end
      end
  | _ => None
  end.

Fixpoint collect_ideas (hood : Neighborhood) (raws : list Json) : option (list Idea.ShapeIdea) :=
  match raws with
  | [] => Some []
  | raw :: rest =>
      match idea_from_raw hood raw, collect_ideas hood rest with
      | Some oi, Some ideas => Some (match oi with Some i => i :: ideas | None => ideas end)
      | _, _ => None
      end
  end.

(** [_generate_with_llm] (159-184): the ideas predictor [p] is asked
    about the neighbourhood (161-167); [None] when its call raises. *)
Definition _generate_with_llm (hood : Neighborhood) (count : nat)
    (p : Predictor GenerateShapeIdeas.Input GenerateShapeIdeas.Output) : option (list Idea.ShapeIdea) :=
  match p (ideas_request hood count) with
  | None => None
  | Some result =>
      match parse_ideas_json json_loads (GenerateShapeIdeas.ideas_json result) with
      | Some raw_ideas => collect_ideas hood (firstn count raw_ideas)
      | None => None
      end
  end.

(** One iteration of [_generate_with_templates] (194-205) with the
    [center] and [scale] of lines 190-191: pydantic's check of a point of
    the template or of the mapping raises its [ValidationError] for a
    [Coordinate], the [ShapeIdea] its own. *)
Definition template_idea (hood : Neighborhood) (center : Coordinate) (scale : Q) (nm : string)
  : Outcome Idea.ShapeIdea :=
  match new_coords (get_parametric_shape nm center scale) with
  | None => Raised (ValidationError "Coordinate")
  | Some raw_points =>
      match map_to_streets raw_points (bbox hood) with
      | None => Raised (ValidationError "Coordinate")
      | Some mapped =>
          match make_idea (String.append (py_title nm) (String.append " in " (name hood)))
                  (String.append "A " (String.append nm (String.append " shape traced through the streets of " (name hood))))
                  (match str_assoc nm template_emojis with Some e => e | None => EmptyString end)
                  (estimate_distance_km mapped) "moderate" mapped (name hood) with
          | Some i => Returned i
          | None => Raised (ValidationError "ShapeIdea")
          end
      end
  end.

(** [_generate_with_templates] (186-206): [hood.bbox.center()] (line 190)
    is built once, before the loop. *)
Definition _generate_with_templates (hood : Neighborhood) (count : nat) : Outcome (list Idea.ShapeIdea) :=
  match bbox_center (bbox hood) with
  | None => Raised (ValidationError "Coordinate")
  | Some center =>
      let scale := py_min (width_deg (bbox hood)) (height_deg (bbox hood)) * (7#10) in
      traverse_out (template_idea hood center scale) (firstn count template_names)
  end.

(** [generate_for_neighborhood] (47-74).  [llm] is the generator's
    [_generate_ideas], [None] when no model is configured;
    [strip] is the diacritic stripping of [get_by_name]. *)
Definition generate_for_neighborhood (strip : string -> string) (hoods : list Neighborhood)
    (neighborhood : string) (count : nat)
    (llm : option (Predictor GenerateShapeIdeas.Input GenerateShapeIdeas.Output))
  : Outcome Response.GenerateResponse :=
  match get_by_name strip hoods neighborhood with
  | None => Raised (ValueError (String.append "Unknown neighborhood: " neighborhood))
  | Some hood =>
      let ideas := match llm with
                   | Some p => match _generate_with_llm hood count p with
                                    | Some ideas => ideas
                                    | None => []
                                    end
                   | None => []
                   end in
      let ideas := match ideas with
                   | [] => _generate_with_templates hood count
                   | _ => Returned ideas
                   end in
      match ideas with
      | Returned ideas => Returned (Response.mkResponse ideas (name hood) (bbox hood))
      | Raised e => Raised e
      end
  end.

End Ideas.

Section IdeasFacts.
Context {G : Geodesy} {GL : GeodesyLaws} `{Trig} {FR : FloatRepr}.
Variable json_loads : string -> option Json.
Variable parse_float : string -> option Q.

Lemma make_idea_ok hood n d e pts mapped diff i :
  bbox_valid (bbox hood) -> map_to_streets pts (bbox hood) = Some mapped ->
  make_idea n d e (estimate_distance_km mapped) diff mapped (name hood) = Some i ->
  idea_ok hood i.
Proof.
  intros Hb Hm. unfold make_idea. destruct (_ && _) eqn:E; [|discriminate]. intros [= <-].
  apply andb_true_iff in E as [Hkm Hd]. apply negb_true_iff, Qle_bool_false in Hkm.
  split; [exact Hkm|split; [exact Hd|split; [reflexivity|exact (map_to_streets_in_padded _ _ _ Hb Hm)]]].
Qed.

Lemma collect_ideas_ok hood raws ideas :
  bbox_valid (bbox hood) -> collect_ideas parse_float hood raws = Some ideas -> Forall (idea_ok hood) ideas.
Proof.
  intros Hb. revert ideas. induction raws as [|raw raws IH]; cbn; intros ideas E; [injection E as <-; constructor|].
  destruct (idea_from_raw parse_float hood raw) as [oi|] eqn:Er; [|discriminate].
  destruct (collect_ideas parse_float hood raws) as [rest|]; [|discriminate]. injection E as <-.
  specialize (IH rest eq_refl). destruct oi as [i|]; [|exact IH]. constructor; [|exact IH].
  unfold idea_from_raw in Er. destruct raw as [| | | | |fields]; try discriminate.
  destruct (coords_from_raw _ _) as [pts|]; [|discriminate]. destruct (Nat.ltb _ 3); [discriminate|].
  destruct (map_to_streets pts (bbox hood)) as [mapped|] eqn:Emap; [|discriminate].
  repeat match type of Er with context [json_str ?v] => destruct (json_str v) end; try discriminate.
  destruct (make_idea _ _ _ _ _ _ _) eqn:Em; [|discriminate]. injection Er as <-.
  exact (make_idea_ok _ _ _ _ _ _ _ _ Hb Emap Em).
Qed.

Lemma template_idea_ok hood c sc nm i :
  bbox_valid (bbox hood) -> template_idea hood c sc nm = Returned i -> idea_ok hood i.
Proof.
  intros Hb. unfold template_idea. destruct (new_coords _) as [raw|]; [|discriminate].
  destruct (map_to_streets raw (bbox hood)) as [mapped|] eqn:Em; [|discriminate].
  destruct (make_idea _ _ _ _ _ _ _) eqn:Ei; [|discriminate]. intros [= <-].
  exact (make_idea_ok _ _ _ _ _ _ _ _ Hb Em Ei).
Qed.

Lemma templates_ok hood count ideas :
  bbox_valid (bbox hood) -> _generate_with_templates hood count = Returned ideas -> Forall (idea_ok hood) ideas.
Proof.
  intros Hb. unfold _generate_with_templates. destruct (bbox_center (bbox hood)); [|discriminate].
  apply traverse_out_Forall. intros nm i _. apply template_idea_ok, Hb.
Qed.

(** The templates raise pydantic's [ValidationError] of a [ShapeIdea], or
    of a [Coordinate], which happens only for a box out of range. *)
Lemma templates_Raised {TL : TrigLaws} hood count e :
  _generate_with_templates hood count = Raised e ->
  e = ValidationError "ShapeIdea" \/
  (e = ValidationError "Coordinate" /\ (bbox_valid (bbox hood) -> ~ bbox_in_range (bbox hood))).
Proof.
  unfold _generate_with_templates.
  destruct (bbox_center (bbox hood)) as [c|] eqn:Ec;
    [|intros [= <-]; right; split; [reflexivity|intros Hv; exact (bbox_center_None _ Hv Ec)]].
  apply bbox_center_Some in Ec as ->. intros E. destruct (traverse_out_Raised _ _ _ E) as (nm & _ & Ei).
  unfold template_idea in Ei. destruct (new_coords _) as [raw|] eqn:En;
    [|injection Ei as <-; right; split; [reflexivity|]; intros Hv;
      exact (new_coords_None_box _ _ (fallback_in_bbox _ _ Hv) En)].
  destruct (map_to_streets raw (bbox hood)) eqn:Em;
    [|injection Ei as <-; right; split; [reflexivity|intros Hv; exact (map_to_streets_None _ _ Hv Em)]].
  destruct (make_idea _ _ _ _ _ _ _); [discriminate|]. injection Ei as <-. left; reflexivity.
Qed.

Lemma llm_ideas_ok hood count p ideas :
  bbox_valid (bbox hood) -> _generate_with_llm json_loads parse_float hood count p = Some ideas ->
  Forall (idea_ok hood) ideas.
Proof.
  intros Hb. unfold _generate_with_llm. destruct (p _) as [result|]; [|discriminate].
  destruct (parse_ideas_json json_loads _); [|discriminate]. apply collect_ideas_ok, Hb.
Qed.

Lemma collect_ideas_length hood raws ideas :
  collect_ideas parse_float hood raws = Some ideas -> (length ideas <= length raws)%nat.
Proof.
  revert ideas. induction raws as [|raw raws IH]; cbn; intros ideas E; [injection E as <-; reflexivity|].
  destruct (idea_from_raw parse_float hood raw) as [[i|]|], (collect_ideas parse_float hood raws) as [rest|];
    try discriminate; injection E as <-; specialize (IH rest eq_refl); cbn; lia.
Qed.

(** The model's ideas are cut to the first [count] (line 170). *)
Lemma llm_ideas_length hood count p ideas :
  _generate_with_llm json_loads parse_float hood count p = Some ideas -> (length ideas <= count)%nat.
Proof.
  unfold _generate_with_llm. destruct (p _) as [result|]; [|discriminate].
  destruct (parse_ideas_json json_loads _) as [raws|]; [|discriminate]. intros E.
  pose proof (collect_ideas_length _ _ _ E). pose proof (firstn_le_length count raws). lia.
Qed.

(** The templates are the first [count] of the six (line 193). *)
Lemma templates_length hood count ideas :
  _generate_with_templates hood count = Returned ideas -> (length ideas <= count)%nat.
Proof.
  unfold _generate_with_templates. destruct (bbox_center _); [|discriminate].
  intros E. rewrite (traverse_out_length _ _ _ E). apply firstn_le_length.
Qed.

(** An idea with enough valid points and a difficulty pydantic rejects
    makes its iteration raise. *)
Lemma idea_from_raw_bad_difficulty hood fields pts d :
  coords_from_raw parse_float (json_get_or "control_points" fields (JArr [])) = Some pts ->
  (3 <= length pts)%nat ->
  json_get_or "difficulty" fields (JStr "moderate") = JStr d -> difficulty_ok d = false ->
  idea_from_raw parse_float hood (JObj fields) = None.
Proof.
  intros Hp Hl Hd Hok. unfold idea_from_raw. rewrite Hp.
  destruct (Nat.ltb_spec (length pts) 3); [lia|].
  destruct (map_to_streets pts (bbox hood)); [|reflexivity]. rewrite Hd. cbn [json_str].
  repeat match goal with |- context [json_str ?v] => destruct (json_str v) end; try reflexivity.
  unfold make_idea. rewrite Hok, andb_false_r. reflexivity.
Qed.

(** The loop over the ideas raises as soon as one iteration raises. *)
Lemma collect_ideas_None hood raws raw :
  In raw raws -> idea_from_raw parse_float hood raw = None -> collect_ideas parse_float hood raws = None.
Proof.
  intros Hin Hr. induction raws as [|r raws IH]; [destruct Hin|]. cbn.
  destruct Hin as [<-|Hin]; [rewrite Hr; reflexivity|].
  rewrite (IH Hin). destruct (idea_from_raw parse_float hood r); reflexivity.
Qed.

End IdeasFacts.

(** * Properties *)

Section Claims.
Context {G : Geodesy} {GL : GeodesyLaws} `{Trig} {FR : FloatRepr}.

(** C16: every idea [generate_for_neighborhood] returns, from the model or
    from the templates, passed pydantic's checks, names the neighbourhood
    as its target area, and has its control points inside the
    neighbourhood's box shrunk by 10%; the response carries that
    neighbourhood's name and box. *)
Theorem generate_for_neighborhood_sound json_loads parse_float strip hoods nm count llm resp :
  Forall (fun h => bbox_valid (bbox h)) hoods ->
  generate_for_neighborhood json_loads parse_float strip hoods nm count llm = Returned resp ->
  exists hood, In hood hoods /\ Response.neighborhood resp = name hood /\
    Response.bbox resp = bbox hood /\ Forall (idea_ok hood) (Response.ideas resp).
Proof.
  intros Hall E. unfold generate_for_neighborhood in E.
  destruct (get_by_name strip hoods nm) as [hood|] eqn:Eh; [|discriminate].
  pose proof (get_by_name_In _ _ _ _ Eh) as Hin.
  assert (Hb : bbox_valid (bbox hood)) by (rewrite Forall_forall in Hall; exact (Hall hood Hin)).
  remember (match llm with
            | Some p => match _generate_with_llm json_loads parse_float hood count p with
                             | Some ideas => ideas | None => [] end
            | None => [] end) as ideas0 eqn:Hi0.
  assert (Hllm : Forall (idea_ok hood) ideas0).
  { subst ideas0. destruct llm as [p|]; [|constructor].
    destruct (_generate_with_llm _ _ hood count p) eqn:El; [exact (llm_ideas_ok _ _ _ _ _ _ Hb El)|constructor]. }
  exists hood. destruct ideas0 as [|i rest].
  - destruct (_generate_with_templates hood count) as [ideas|] eqn:Et; [|discriminate].
    injection E as <-. cbn. repeat split; [exact Hin|exact (templates_ok _ _ _ Hb Et)].
  - injection E as <-. cbn. repeat split; [exact Hin|exact Hllm].
Qed.

(** C29: [generate_for_neighborhood] never returns more ideas than the
    [count] it is asked for, whatever the ideas predictor answers: the
    model's ideas are cut to the first [count] and the templates are the
    first [count] of six. *)
Theorem generate_for_neighborhood_count json_loads parse_float strip hoods nm count llm resp :
  generate_for_neighborhood json_loads parse_float strip hoods nm count llm = Returned resp ->
  (length (Response.ideas resp) <= count)%nat.
Proof.
  unfold generate_for_neighborhood. destruct (get_by_name strip hoods nm) as [hood|]; [|discriminate].
  remember (match llm with
            | Some p => match _generate_with_llm json_loads parse_float hood count p with
                        | Some ideas => ideas | None => [] end
            | None => [] end) as ideas0 eqn:Hi0.
  assert (Hllm : (length ideas0 <= count)%nat).
  { subst ideas0. destruct llm as [p|]; [|cbn; lia].
    destruct (_generate_with_llm _ _ hood count p) eqn:El; [exact (llm_ideas_length _ _ _ _ _ _ El)|cbn; lia]. }
  destruct ideas0 as [|i rest].
  - destruct (_generate_with_templates hood count) as [ideas|] eqn:Et; [|discriminate].
    intros [= <-]. exact (templates_length _ _ _ Et).
  - intros [= <-]. exact Hllm.
Qed.

(** C39: one idea among the first [count] of the model's answer that
    pydantic rejects (an object with three or more valid control points
    whose difficulty is a string other than "easy", "moderate" and
    "hard") makes [_generate_with_llm] raise, which discards every valid
    idea of the same answer: [generate_for_neighborhood] then answers
    exactly as without a model, with the templates. *)
Theorem llm_one_bad_idea_discards_batch json_loads parse_float hood count p result raws fields pts d :
  p (ideas_request hood count) = Some result ->
  parse_ideas_json json_loads (GenerateShapeIdeas.ideas_json result) = Some raws ->
  In (JObj fields) (firstn count raws) ->
  coords_from_raw parse_float (json_get_or "control_points" fields (JArr [])) = Some pts ->
  (3 <= length pts)%nat ->
  json_get_or "difficulty" fields (JStr "moderate") = JStr d -> difficulty_ok d = false ->
  _generate_with_llm json_loads parse_float hood count p = None /\
  (forall strip hoods nm, get_by_name strip hoods nm = Some hood ->
     generate_for_neighborhood json_loads parse_float strip hoods nm count (Some p) =
     generate_for_neighborhood json_loads parse_float strip hoods nm count None).
Proof.
  intros Hp Hj Hin Hpts Hl Hd Hok.
  assert (E : _generate_with_llm json_loads parse_float hood count p = None).
  { unfold _generate_with_llm. rewrite Hp, Hj.
    exact (collect_ideas_None _ _ _ _ Hin (idea_from_raw_bad_difficulty _ _ _ _ _ Hpts Hl Hd Hok)). }
  split; [exact E|]. intros strip hoods nm Hg. unfold generate_for_neighborhood. rewrite Hg, E. reflexivity.
Qed.

End Claims.

(** * Witnesses *)

Lemma llm_one_bad_idea_discards_batch_witness :
  let loads := fun s : string =>
    if String.eqb s "both" then Some (JArr [example_idea "easy"; example_idea "medium"]) else None in
  exists fields pts,
    example_idea "medium" = JObj fields /\
    coords_from_raw (fun _ => None) (json_get_or "control_points" fields (JArr [])) = Some pts /\
    _generate_with_llm loads (fun _ => None) example_hood 3 (ideas_answering "both") = None /\
    (forall strip hoods nm, get_by_name strip hoods nm = Some example_hood ->
       generate_for_neighborhood loads (fun _ => None) strip hoods nm 3 (Some (ideas_answering "both")) =
       generate_for_neighborhood loads (fun _ => None) strip hoods nm 3 None).
Proof.
  intros loads.
  set (fields := match example_idea "medium" with JObj f => f | _ => [] end).
  assert (Ef : example_idea "medium" = JObj fields) by reflexivity.
  destruct (coords_from_raw (fun _ => None) (json_get_or "control_points" fields (JArr []))) as [pts|] eqn:Ep;
    [|exfalso; revert Ep; vm_compute; discriminate].
  assert (Hl : length pts = 3%nat) by (revert Ep; vm_compute; intros [= <-]; reflexivity).
  exists fields, pts. split; [exact Ef|]. split; [exact Ep|].
  refine (llm_one_bad_idea_discards_batch loads (fun _ => None) example_hood 3 (ideas_answering "both")
            (GenerateShapeIdeas.mkOutput "both") [example_idea "easy"; example_idea "medium"] fields pts
            "medium" eq_refl eq_refl _ Ep _ eq_refl eq_refl).
  - cbn [firstn]. right; left. symmetry. exact Ef.
  - rewrite Hl. lia.
Defined.

Lemma generate_for_neighborhood_count_witness :
  let loads := fun s : string => if String.eqb s "good" then Some (JArr [example_idea "easy"]) else None in
  exists resp, generate_for_neighborhood loads (fun _ => None) (fun s => s) [example_hood]
                 "Vinohrady" 1 (Some (ideas_answering "good")) = Returned resp /\
  (length (Response.ideas resp) <= 1)%nat.
Proof.
  intros loads.
  destruct (generate_for_neighborhood loads (fun _ => None) (fun s => s) [example_hood]
              "Vinohrady" 1 (Some (ideas_answering "good"))) as [resp|] eqn:E;
    [|exfalso; revert E; vm_compute; discriminate].
  exists resp. split; [reflexivity|].
  exact (generate_for_neighborhood_count loads (fun _ => None) (fun s => s) [example_hood]
           "Vinohrady" 1 (Some (ideas_answering "good")) resp E).
Defined.

Lemma generate_for_neighborhood_sound_witness :
  let loads := fun s : string => if String.eqb s "good" then Some (JArr [example_idea "easy"]) else None in
  Forall (fun h => bbox_valid (bbox h)) [example_hood] /\
  exists resp, generate_for_neighborhood loads (fun _ => None) (fun s => s) [example_hood]
                 "Vinohrady" 3 (Some (ideas_answering "good")) = Returned resp /\
  exists hood, In hood [example_hood] /\ Response.neighborhood resp = name hood /\
    Response.bbox resp = bbox hood /\ Forall (idea_ok hood) (Response.ideas resp).
Proof.
  intros loads.
  assert (Hall : Forall (fun h => bbox_valid (bbox h)) [example_hood])
    by (repeat constructor; unfold bbox_valid; cbn; lra).
  split; [exact Hall|].
  destruct (generate_for_neighborhood loads (fun _ => None) (fun s => s) [example_hood]
              "Vinohrady" 3 (Some (ideas_answering "good"))) as [resp|] eqn:E;
    [|exfalso; revert E; vm_compute; discriminate].
  exists resp. split; [reflexivity|].
  exact (generate_for_neighborhood_sound loads (fun _ => None) (fun s => s) [example_hood]
           "Vinohrady" 3 (Some (ideas_answering "good")) resp Hall E).
Defined.
