(* ===== verification/Pipeline.v ===== *)
(** * Pipeline: a route from a description (mode B)

    Models [generate_from_description] of
    src/backend/services/shape_generator.py (lines 76-155), the
    composition of every component: the neighbourhood ([get_by_name] or
    [_find_neighborhood]), the alternatives (the ranking without the chosen
    neighbourhood, at most three), the control points
    ([_generate_control_points] with the model's parsed output), the retry
    loop of [Generator] instantiated with [_route_waypoints] as its routing
    effect and [ShapeValidator.validate] as its check, the turn markers of
    the last route, and the [ShapeIdea] and [DescribeResponse] records.

    The loop's state is the outcome of the last routing, which the code
    keeps in its variable [routed] and reads after the loop for the
    distance, the duration and the markers.  An exception of
    [map_to_streets] (a scaled point out of range), of [_route_waypoints]
    (a Directions request that raises) or of
    [Coordinate(lng=c[0], lat=c[1])] on a routed point out of range ends
    the function: the state keeps the exception, no later step maps,
    routes or validates, and it is raised after the loop.  So does an
    exception of the template fallback of [_generate_control_points],
    before the loop.  The result is an
    [Outcome] that names the exception raised: [ValueError] for an
    unknown neighbourhood, [AttributeError] when there is none at all,
    pydantic's [ValidationError] for a [Coordinate], a [ShapeIdea] or a
    [DescribeResponse] (whose [duration_minutes] is an [int]) it rejects,
    or the exception of routing. *)

From Stdlib Require Import String Ascii QArith Qabs Lqa List Lia PeanoNat Bool ZArith Permutation.
From S2P Require Import Prelude.
From S2P Require Import Geodesy.
From S2P Require Import StreetMapper.
From S2P Require Import Metrics.
From S2P Require Import Validator.
From S2P Require Import Generator.
From S2P Require Import Waypoints.
From S2P Require Import PyStr.
From S2P Require Import Templates.
From S2P Require Import Neighborhood.
From S2P Require Import Llm.
From S2P Require Import Predictors.
From S2P Require Import Ideas.
Import ListNotations.
Open Scope Q_scope.
Open Scope geo_scope.


(** The strings [_difficulty_for_distance] returns. *)
Definition difficulty_label (d : Difficulty) : string :=
  match d with Easy => "easy" | Moderate => "moderate" | Hard => "hard" end.

Module Describe.
(** [class DescribeResponse(BaseModel)] (schemas.py 86-95). *)
Record DescribeResponse := mkDescribe {
  shape : Idea.ShapeIdea; neighborhood : string; bbox : BoundingBox; similarity_score : Q;
  routed_coordinates : list Coordinate; distance_km : Q; duration_minutes : Q;
  waypoints : list WaypointMarker; alternative_neighborhoods : list string }.
End Describe.

(** The validation the code falls back on if [validate] returned nothing;
    [validate] always returns a result, so it is never used. *)
Definition no_result : ValidationResult := mkResult 0 false Algorithmic EmptyPointSet.

(** The check once an exception has been raised: it ends the loop (no
    validation runs; the exception is raised after the loop). *)
Definition raised_result : ValidationResult := mkResult 0 true Algorithmic EmptyPointSet.

(** The loop's state: [None] before the first routing, then the outcome of
    the last routing (an exception, once raised, is kept). *)
Definition RouteState : Type := option (Outcome RouteResult).

(** [[Coordinate(lng=c[0], lat=c[1]) for c in routed["coordinates"]]]
    (lines 111 and 127): pydantic's range check on every routed point. *)
Definition routed_coords (routed : RouteResult) : option (list Coordinate) :=
  traverse_opt (fun c => mk_coordinate (lng c) (lat c)) (coordinates routed).

(** pydantic's [int] field on a float in lax mode: accepted when it has no
    fractional part. *)
Definition int_valid (q : Q) : bool := Z.eqb (Z.rem (Qnum q) (Zpos (Qden q))) 0.

Section Pipeline.
Context {G : Geodesy} {R : SampleRng} {D : LineDrawer} `{Trig} {FR : FloatRepr}.
Variable json_loads : string -> option Json.
Variable parse_float : string -> option Q.
Variable strip : string -> string.
Variable md5 : string -> Q.
Variable set_order : list string -> list string.
Variable proxy : list Coordinate -> option RouteResult.
Variable directions : list Coordinate -> Outcome (option DirectionsRoute).
Variable mapbox_token : option string.
Variable glm_api_key : option string.
Variable judge : string -> list Coordinate -> list Coordinate -> option (Q * string).
Variable hoods : list Neighborhood.
(** [MAX_RETRIES] of shape_generator.py. *)
Variable MAX_RETRIES : nat.
(** [VALIDATION_THRESHOLD] of shape_validator.py. *)
Variable VALIDATION_THRESHOLD : Z.

(** Step 3 (line 101, and 124 in the loop): [map_to_streets] on the
    neighbourhood's box, which raises pydantic's [ValidationError] for a
    scaled point out of range. *)
Definition map_step (bb : BoundingBox) (s : RouteState) (control_points : list Coordinate)
  : list Coordinate * RouteState :=
  match s with
  | Some (Raised _) => ([], s)
  | _ =>
      match map_to_streets control_points bb with
      | Some mapped => (mapped, s)
      | None => ([], Some (Raised (ValidationError "Coordinate")))
      end
  end.

(** Step 4 and the routed coordinates (lines 104 and 111, and 126-127
    in the loop). *)
Definition route_step (s : RouteState) (mapped : list Coordinate) : list Coordinate * RouteState :=
  match s with
  | Some (Raised _) => ([], s)
  | _ =>
      match _route_waypoints proxy directions mapbox_token mapped with
      | Raised e => ([], Some (Raised e))
      | Returned routed =>
          match routed_coords routed with
          | Some cs => (cs, Some (Returned routed))
          | None => ([], Some (Raised (ValidationError "Coordinate")))
          end
      end
  end.

(** Step 6 (and lines 128-132). *)
Definition check_step (description : string) (s : RouteState)
    (mapped routed : list Coordinate) : ValidationResult * RouteState :=
  match s with
  | Some (Raised _) => (raised_result, s)
  | _ => (match validate glm_api_key judge description mapped routed VALIDATION_THRESHOLD with
          | Some v => v
          | None => no_result
          end, s)
  end.

(** Step 1 (lines 84-89): the named neighbourhood, or [_find_neighborhood]
    when no name (or an empty one) is given, which asks the area
    predictor [find_area] first; a name the service does not know raises
    [ValueError]. *)
Definition select_hood (neighborhood : option string)
    (find_area : option (Predictor FindOptimalArea.Input FindOptimalArea.Output)) (description : string)
  : Outcome (option Neighborhood) :=
  let found := Returned (_find_neighborhood md5 set_order strip (picked_area find_area hoods description)
                                            hoods description) in
  match neighborhood with
  | Some nm => if String.eqb nm EmptyString then found
               else match get_by_name strip hoods nm with
                    | Some hood => Returned (Some hood)
                    | None => Raised (ValueError (String.append "Unknown neighborhood: " nm))
                    end
  | None => found
  end.

(** Lines 92-95. *)
Definition alternatives (hood : Neighborhood) (description : string) (max_distance_km : Q)
  : list string :=
  firstn 3 (filter (fun n => negb (String.eqb n (name hood)))
                   (map name (find_best_for_shape md5 set_order hoods description max_distance_km))).

(** [generate_from_description] (76-155).  [find_area] and
    [describe_to_shape] are the generator's predictors, [None] when no
    model is configured. *)
Definition generate_from_description (description : string) (max_distance_km : Q)
    (neighborhood : option string)
    (find_area : option (Predictor FindOptimalArea.Input FindOptimalArea.Output))
    (describe_to_shape : option (Predictor DescriptionToShape.Input DescriptionToShape.Output))
  : Outcome Describe.DescribeResponse :=
  match select_hood neighborhood find_area description with
  | Raised e => Raised e
  | Returned None =>
      (* [hood] is [None]: line 94 reads [hood.name] for the first ranked
         neighbourhood, or, when there is none, line 98 reads [hood.bbox]. *)
      Raised (AttributeError
                (match find_best_for_shape md5 set_order hoods description max_distance_km with
                 | [] => "bbox" | _ => "name" end))
  | Returned (Some hood) =>
      let alternative_neighborhoods := alternatives hood description max_distance_km in
      match _generate_control_points
              (llm_control_points json_loads parse_float (shape_answer describe_to_shape description (bbox hood)))
              description (bbox hood) with
      | None => Raised (ValidationError "Coordinate")
      | Some control_points =>
          match generate_route route_step (check_step description) (map_step (bbox hood)) MAX_RETRIES
                  control_points None with
          | (last, _, _, Some (Returned routed)) =>
              let waypoints := _extract_waypoints (coordinates routed) in
              match make_idea (py_title description)
                      (String.append "A " (String.append description (String.append " route through " (name hood))))
                      (_emoji_for_description description) (distance_km routed)
                      (difficulty_label (_difficulty_for_distance (distance_km routed)))
                      (att_control last) (name hood) with
              | Some shape =>
                  if int_valid (duration_minutes routed) then
                    Returned (Describe.mkDescribe shape (name hood) (bbox hood) (score (att_validation last))
                              (coordinates routed) (distance_km routed) (duration_minutes routed)
                              waypoints alternative_neighborhoods)
                  else Raised (ValidationError "DescribeResponse")
              | None => Raised (ValidationError "ShapeIdea")
              end
          | (_, _, _, Some (Raised e)) => Raised e
          | (_, _, _, None) =>
              (* never taken: the first attempt always routes ([generate_route_inv]) *)
              Raised (AttributeError "routed")
          end
      end
  end.

(** What an exception kept in the loop's state comes from: a routing that
    raised, or a routed point out of range. *)
Definition routing_raised (e : PyExc) : Prop :=
  (exists w, _route_waypoints proxy directions mapbox_token w = Raised e) \/
  (e = ValidationError "Coordinate" /\
   exists w routed, _route_waypoints proxy directions mapbox_token w = Returned routed /\
                    routed_coords routed = None).

(** What an exception of the loop on the box [bb] comes from: routing,
    or the mapping of some control points. *)
Definition loop_raised (bb : BoundingBox) (e : PyExc) : Prop :=
  routing_raised e \/ (e = ValidationError "Coordinate" /\ exists cps, map_to_streets cps bb = None).

(** The loop's invariant: its state is the routing of the last attempt's
    waypoints, whose checked coordinates the attempt holds, and the
    attempt's score is in [[0, 100]]; or it is an exception raised by
    the mapping or the routing. *)
Definition pipeline_inv (bb : BoundingBox) (a : Attempt) (s : RouteState) : Prop :=
  (exists routed, s = Some (Returned routed) /\
     _route_waypoints proxy directions mapbox_token (att_mapped a) = Returned routed /\
     routed_coords routed = Some (att_routed a) /\ 0 <= score (att_validation a) <= 100) \/
  (exists e, s = Some (Raised e) /\ loop_raised bb e).

(** * Properties *)

Context {GL : GeodesyLaws} {RL : SampleRngLaws} {TL : TrigLaws}.

Lemma validate_score description t a v :
  validate glm_api_key judge description t a VALIDATION_THRESHOLD = Some v -> 0 <= score v <= 100.
Proof.
  destruct (algorithmic_total t a VALIDATION_THRESHOLD) as (r & Ea & Hr & _).
  unfold validate. destruct (api_key_set glm_api_key); [destruct (judge description t a) as [[sc text]|]|];
    [destruct (make_result sc _ _ _) as [res|] eqn:Em;
       [cbv beta iota; intros [= <-];
        destruct (make_result_Some _ _ _ _ _ Em) as [-> Hs]; exact Hs|]|..];
    cbv beta iota; rewrite Ea; intros [= <-]; exact Hr.
Qed.

(** The exception a state holds comes from mapping or routing. *)
Definition state_ok (bb : BoundingBox) (s : RouteState) : Prop :=
  forall e, s = Some (Raised e) -> loop_raised bb e.

Lemma pipeline_inv_state bb a s : pipeline_inv bb a s -> state_ok bb s.
Proof. intros [(r & -> & _)|(e & -> & He)] e' E; [discriminate|injection E as <-; exact He]. Qed.

(** An attempt that routes: its state is the fresh routing outcome. *)
Lemma fresh_step_inv description cps mapped routed s1 v s2 :
  match _route_waypoints proxy directions mapbox_token mapped with
  | Raised e => ([], Some (Raised e))
  | Returned routed => match routed_coords routed with
                       | Some cs => (cs, Some (Returned routed))
                       | None => ([], Some (Raised (ValidationError "Coordinate")))
                       end
  end = (routed, s1) ->
  check_step description s1 mapped routed = (v, s2) ->
  forall bb, pipeline_inv bb (mkAttempt cps mapped routed v) s2.
Proof.
  destruct (_route_waypoints _ _ _ mapped) as [r|e] eqn:Er.
  - destruct (routed_coords r) as [cs|] eqn:Ec; intros [= <- <-]; unfold check_step.
    + destruct (validate _ _ _ _ _ _) as [v'|] eqn:Ev; intros [= <- <-] bb; left; exists r;
        (repeat split; try assumption); cbn;
        solve [exact (proj1 (validate_score _ _ _ _ Ev))|exact (proj2 (validate_score _ _ _ _ Ev))|lra].
    + intros [= <- <-] bb. right. eexists. split; [reflexivity|]. left. right. split; [reflexivity|]. eauto.
  - intros [= <- <-]. unfold check_step. intros [= <- <-] bb. right. eexists. split; [reflexivity|].
    left. left. eauto.
Qed.

(** An attempt after an exception does nothing and keeps it. *)
Lemma raised_steps_inv bb description cps mapped e routed s1 v s2 :
  loop_raised bb e ->
  route_step (Some (Raised e)) mapped = (routed, s1) ->
  check_step description s1 mapped routed = (v, s2) ->
  pipeline_inv bb (mkAttempt cps mapped routed v) s2.
Proof. intros He [= <- <-] [= <- <-]. right. exists e. auto. Qed.

Lemma attempt_inv description bb cps s a s' :
  state_ok bb s -> attempt route_step (check_step description) (map_step bb) cps s = (a, s') ->
  pipeline_inv bb a s'.
Proof.
  intros Hs. unfold attempt.
  destruct (map_step bb s cps) as [mapped s0] eqn:Em.
  destruct (route_step s0 mapped) as [routed s1] eqn:Er.
  destruct (check_step description s1 mapped routed) as [v s2] eqn:Ec.
  intros [= <- <-]. unfold map_step in Em.
  destruct s as [[r|e]|];
    [|injection Em as <- <-; exact (raised_steps_inv _ _ _ _ _ _ _ _ _ (Hs e eq_refl) Er Ec)|];
    (destruct (map_to_streets cps bb) eqn:Emap; injection Em as <- <-;
     [exact (fresh_step_inv _ _ _ _ _ _ _ Er Ec bb)
     |exact (raised_steps_inv _ _ _ _ _ _ _ _ _ (or_intror (conj eq_refl (ex_intro _ cps Emap))) Er Ec)]).
Qed.

Lemma retry_loop_inv description bb fuel retries cur trace s last n tr s' :
  pipeline_inv bb cur s ->
  retry_loop route_step (check_step description) (map_step bb) MAX_RETRIES fuel retries cur trace s =
    (last, n, tr, s') ->
  pipeline_inv bb last s'.
Proof.
  revert retries cur trace s. induction fuel as [|fuel IH]; intros retries cur trace s Hinv; cbn [retry_loop].
  - intros [= <- <- <- <-]. exact Hinv.
  - destruct (_ && _); [|intros [= <- <- <- <-]; exact Hinv].
    destruct (attempt route_step (check_step description) (map_step bb)
                (_tighten_control_points (att_control cur) (att_routed cur)) s) as [next s1] eqn:Ea.
    apply IH. exact (attempt_inv _ _ _ _ _ _ (pipeline_inv_state _ _ _ Hinv) Ea).
Qed.

Lemma generate_route_inv description bb cps last n tr s' :
  generate_route route_step (check_step description) (map_step bb) MAX_RETRIES cps None = (last, n, tr, s') ->
  pipeline_inv bb last s'.
Proof.
  unfold generate_route.
  destruct (attempt route_step (check_step description) (map_step bb) cps None) as [first s1] eqn:Ea.
  apply retry_loop_inv. refine (attempt_inv _ _ _ _ _ _ _ Ea). intros e E. discriminate E.
Qed.

Lemma select_hood_In neighborhood find_area description hood :
  select_hood neighborhood find_area description = Returned (Some hood) -> In hood hoods.
Proof.
  unfold select_hood. cbv zeta.
  destruct neighborhood as [nm|]; [destruct (String.eqb nm EmptyString)|];
    try (intros [= E]; exact (find_neighborhood_In _ _ _ _ _ _ _ E)).
  destruct (get_by_name strip hoods nm) eqn:E; [intros [= <-]; exact (get_by_name_In _ _ _ _ E)|discriminate].
Qed.

Lemma select_hood_None neighborhood find_area description :
  select_hood neighborhood find_area description = Returned None -> hoods = [].
Proof.
  unfold select_hood. cbv zeta.
  destruct neighborhood as [nm|]; [destruct (String.eqb nm EmptyString)|];
    try (intros [= E]; exact (find_neighborhood_None _ _ _ _ _ _ E)).
  destruct (get_by_name strip hoods nm); discriminate.
Qed.

Lemma select_hood_Raised neighborhood find_area description e :
  select_hood neighborhood find_area description = Raised e ->
  exists nm, neighborhood = Some nm /\ nm <> EmptyString /\ get_by_name strip hoods nm = None /\
    e = ValueError (String.append "Unknown neighborhood: " nm).
Proof.
  unfold select_hood. cbv zeta. destruct neighborhood as [nm|]; [|discriminate].
  destruct (String.eqb nm EmptyString) eqn:Ee; [discriminate|].
  destruct (get_by_name strip hoods nm) eqn:Eg; [discriminate|]. intros [= <-].
  exists nm. repeat split; [apply String.eqb_neq, Ee|exact Eg].
Qed.

Lemma alternatives_spec hood description km :
  (List.length (alternatives hood description km) <= 3)%nat /\
  Forall (fun n => n <> name hood /\ In n (map name hoods)) (alternatives hood description km).
Proof.
  unfold alternatives. split; [rewrite length_firstn; lia|].
  apply Forall_forall. intros n Hn. apply In_firstn in Hn. apply filter_In in Hn as [Hn Hne].
  split; [intros ->; rewrite String.eqb_refl in Hne; discriminate|].
  eapply Permutation_in; [apply Permutation_map, find_best_perm|exact Hn].
Qed.

Lemma difficulty_label_ok d : difficulty_ok (difficulty_label d) = true.
Proof. destruct d; reflexivity. Qed.

(** C11: a response of [generate_from_description] is about one of the
    service's neighbourhoods; its similarity score is in [[0, 100]]; its
    distance is positive and is the shape's estimate, rated by
    [_difficulty_for_distance]; its markers are those of its routed
    coordinates; and it lists at most three alternatives, all other
    neighbourhoods of the service. *)
Theorem generate_from_description_sound description km neighborhood find_area describe_to_shape resp :
  generate_from_description description km neighborhood find_area describe_to_shape = Returned resp ->
  exists hood, In hood hoods /\ Describe.neighborhood resp = name hood /\
    Describe.bbox resp = bbox hood /\
    0 <= Describe.similarity_score resp <= 100 /\
    0 < Describe.distance_km resp /\
    Idea.estimated_distance_km (Describe.shape resp) = Describe.distance_km resp /\
    Idea.difficulty (Describe.shape resp) = difficulty_label (_difficulty_for_distance (Describe.distance_km resp)) /\
    Describe.waypoints resp = _extract_waypoints (Describe.routed_coordinates resp) /\
    (List.length (Describe.alternative_neighborhoods resp) <= 3)%nat /\
    Forall (fun n => n <> name hood /\ In n (map name hoods)) (Describe.alternative_neighborhoods resp).
Proof.
  unfold generate_from_description.
  destruct (select_hood neighborhood find_area description) as [[hood|]|e] eqn:Eh; [|discriminate..].
  destruct (_generate_control_points _ _ _) as [cps|]; [|discriminate].
  destruct (generate_route _ _ _ _ _ _) as [[[last n] tr] [[routed|e]|]] eqn:Eg; [|discriminate..].
  destruct (generate_route_inv _ _ _ _ _ _ _ Eg) as [(r & [= <-] & _ & _ & Hscore)|(e & E & _)];
    [|discriminate E].
  destruct (make_idea _ _ _ _ _ _ _) as [shape|] eqn:Em; [|discriminate].
  destruct (int_valid _); [|discriminate]. intros [= <-].
  unfold make_idea in Em. destruct (_ && _) eqn:Hc; [|discriminate]. injection Em as <-.
  apply andb_true_iff in Hc as [Hkm _]. apply negb_true_iff, Qle_bool_false in Hkm.
  destruct (alternatives_spec hood description km) as [Hlen Halt].
  exists hood. cbn. repeat split; auto; try lra. exact (select_hood_In _ _ _ _ Eh).
Qed.

(** [generate_from_description] raises only [ValueError] for a name the
    service does not know, [AttributeError] when the service has no
    neighbourhood at all, an exception of routing (or pydantic's
    [ValidationError] for a routed point out of range), pydantic's
    [ValidationError] for a point of the outline or of the mapping out of
    range (only when the neighbourhood's box is out of range), and
    pydantic's [ValidationError] for a routing result whose distance is
    not positive ([ShapeIdea]) or whose duration is not an integer
    ([DescribeResponse]). *)
Theorem generate_from_description_failure description km neighborhood find_area describe_to_shape e :
  generate_from_description description km neighborhood find_area describe_to_shape = Raised e ->
  (exists nm, neighborhood = Some nm /\ nm <> EmptyString /\ get_by_name strip hoods nm = None /\
     e = ValueError (String.append "Unknown neighborhood: " nm)) \/
  (hoods = [] /\ e = AttributeError "bbox") \/
  routing_raised e \/
  (e = ValidationError "Coordinate" /\
     exists hood, In hood hoods /\ (bbox_valid (bbox hood) -> ~ bbox_in_range (bbox hood))) \/
  (exists w routed, _route_waypoints proxy directions mapbox_token w = Returned routed /\
     ((e = ValidationError "ShapeIdea" /\ distance_km routed <= 0) \/
      (e = ValidationError "DescribeResponse" /\ int_valid (duration_minutes routed) = false))).
Proof.
  unfold generate_from_description.
  destruct (select_hood neighborhood find_area description) as [[hood|]|e'] eqn:Eh.
  - pose proof (select_hood_In _ _ _ _ Eh) as Hin. intros E. right; right.
    pose proof (control_points_in_bbox
                  (llm_control_points json_loads parse_float (shape_answer describe_to_shape description (bbox hood)))
                  description (bbox hood)) as Hcp.
    destruct (_generate_control_points _ _ _) as [cps|];
      [|injection E as <-; right; left; split; [reflexivity|exists hood; split; [exact Hin|exact Hcp]]].
    destruct (generate_route _ _ _ _ _ _) as [[[last n] tr] s'] eqn:Eg.
    destruct (generate_route_inv _ _ _ _ _ _ _ Eg) as [(routed & -> & Er & _ & _)|(e' & -> & [He|[-> [c Hc]]])].
    + right; right. exists (att_mapped last), routed. split; [exact Er|].
      destruct (make_idea _ _ _ _ _ _ _) as [shape|] eqn:Em.
      * destruct (int_valid _) eqn:Ei; [discriminate|]. injection E as <-. right. auto.
      * injection E as <-. left. split; [reflexivity|].
        unfold make_idea in Em. rewrite difficulty_label_ok, andb_true_r in Em.
        destruct (Qlt_boolP 0 (distance_km routed)); [discriminate|assumption].
    + injection E as <-. left. exact He.
    + injection E as <-. right; left. split; [reflexivity|]. exists hood.
      split; [exact Hin|intros Hv; exact (map_to_streets_None _ _ Hv Hc)].
  - pose proof (select_hood_None _ _ _ Eh) as Hh. rewrite Hh. intros [= <-]. right; left. split; reflexivity.
  - intros [= <-]. left. exact (select_hood_Raised _ _ _ _ Eh).
Qed.

End Pipeline.

(** an outline of three equal points passes the control-point check
    ([len(points) >= 3]), maps to a single waypoint, routes to a distance
    of 0 km, and then the [ShapeIdea] of the response fails pydantic's
    [estimated_distance_km > 0]: the request raises instead of
    answering. *)
Example degenerate_outline_fails :
  let pt := mkCoord (1444#100) (5008#100) in
  let loads := fun s : string =>
    if String.eqb s "deg" then Some (JObj [("control_points"%string, JArr (map coord_json [pt; pt; pt]))])
    else None in
  generate_from_description loads (fun _ => None) (fun s => s) (fun _ => 0) (fun l => l)
    (fun _ => None) (fun _ => Returned None) None None (fun _ _ _ => None) [example_hood] 2%nat 45%Z
    "blob" 10 None None (Some (shape_answering "deg")) = Raised (ValidationError "ShapeIdea").
Proof. vm_compute. reflexivity. Qed.

(** * Witnesses *)

(** A small neighbourhood (about 300 m across) for running the pipeline. *)
Definition small_hood : Neighborhood :=
  mkHood "Karlin" "Karlin" (mkCoord (14451#1000) (50093#1000))
         (mkBBox (1445#100) (50092#1000) (14453#1000) (50095#1000)) "grid" "Riverside" ["letters"]%string.

(** The model's answers used by the witnesses: a triangle in
    [example_hood], and three equal points. *)
Definition example_loads (s : string) : option Json :=
  if String.eqb s "tri" then
    Some (JObj [("control_points"%string,
                 JArr (map coord_json [mkCoord (1444#100) (5008#100); mkCoord (1445#100) (5008#100);
                                       mkCoord (14445#1000) (50085#1000)]))])
  else if String.eqb s "deg" then
    Some (JObj [("control_points"%string, JArr (map coord_json (repeat (mkCoord (1444#100) (5008#100)) 3)))])
  else None.

Lemma generate_from_description_sound_witness :
  exists resp,
    generate_from_description example_loads (fun _ => None) (fun s => s) (fun _ => 0) (fun l => l)
      (fun w => Some (mkRoute w 5 30)) (fun _ => Returned None) None (Some "key"%string)
      (fun _ _ _ => Some (80, "ok"%string)) [small_hood] 2%nat 45%Z "triangle" 10 None None (Some (shape_answering "tri"))
    = Returned resp /\
  exists hood, In hood [small_hood] /\ Describe.neighborhood resp = name hood /\
    Describe.bbox resp = bbox hood /\
    0 <= Describe.similarity_score resp <= 100 /\
    0 < Describe.distance_km resp /\
    Idea.estimated_distance_km (Describe.shape resp) = Describe.distance_km resp /\
    Idea.difficulty (Describe.shape resp) = difficulty_label (_difficulty_for_distance (Describe.distance_km resp)) /\
    Describe.waypoints resp = _extract_waypoints (Describe.routed_coordinates resp) /\
    (List.length (Describe.alternative_neighborhoods resp) <= 3)%nat /\
    Forall (fun n => n <> name hood /\ In n (map name [small_hood])) (Describe.alternative_neighborhoods resp).
Proof.
  destruct (generate_from_description example_loads (fun _ => None) (fun s => s) (fun _ => 0) (fun l => l)
      (fun w => Some (mkRoute w 5 30)) (fun _ => Returned None) None (Some "key"%string)
      (fun _ _ _ => Some (80, "ok"%string)) [small_hood] 2%nat 45%Z "triangle" 10 None None (Some (shape_answering "tri")))
    as [resp|e] eqn:E; [|exfalso; revert E; vm_compute; discriminate].
  exists resp. split; [reflexivity|].
  exact (generate_from_description_sound example_loads (fun _ => None) (fun s => s) (fun _ => 0) (fun l => l)
           (fun w => Some (mkRoute w 5 30)) (fun _ => Returned None) None (Some "key"%string)
           (fun _ _ _ => Some (80, "ok"%string)) [small_hood] 2%nat 45%Z "triangle" 10 None None (Some (shape_answering "tri")) resp E).
Defined.
