(* ===== verification/Routers.v ===== *)
(** * Routers: the HTTP endpoints

    Models the three FastAPI handlers of src/backend/routers:
    [generate_shapes] (generate.py 12-22), [describe_shape] (describe.py
    12-23) and [health_check] (health.py 10-12), with the request and
    health records of schemas.py ([GenerateRequest] 69-71, [DescribeRequest]
    80-83, [HealthResponse] 98-100).  FastAPI checks the body against the
    request record before the handler runs and answers 422; the handlers
    answer a [ValueError] (pydantic's [ValidationError] is one) with 400 and
    any other exception with 500, the exception's [str] as the detail.
    The text pydantic writes for a rejected record is the parameter
    [validation_text]. *)

From Stdlib Require Import String Ascii QArith Qabs Lqa List Lia PeanoNat Bool ZArith.
From S2P Require Import Prelude.
From S2P Require Import Geodesy.
From S2P Require Import StreetMapper.
From S2P Require Import Metrics.
From S2P Require Import Validator.
From S2P Require Import Generator.
From S2P Require Import Waypoints.
From S2P Require Import PyStr.
From S2P Require Import Templates.
From S2P Require Import Neighborhood.
From S2P Require Import Llm.
From S2P Require Import Predictors.
From S2P Require Import Ideas.
From S2P Require Import Pipeline.
Import ListNotations.
Open Scope Q_scope.
Open Scope geo_scope.

Module GenerateReq.
(** [class GenerateRequest(BaseModel)]. *)
Record GenerateRequest := mkGenerateRequest { neighborhood : string; count : Z }.
End GenerateReq.

Module DescribeReq.
(** [class DescribeRequest(BaseModel)]. *)
Record DescribeRequest := mkDescribeRequest {
  description : string; max_distance_km : Q; neighborhood : option string }.
End DescribeReq.

(** [class HealthResponse(BaseModel)]. *)
Record HealthResponse := mkHealth { status : string; version : string }.

(** What an endpoint answers: the response record (status 200), or an
    error status with its detail. *)
Inductive HttpResponse (A : Type) :=
| Ok (body : A)
| HTTPError (status_code : Z) (detail : string).
Arguments Ok {A} body.
Arguments HTTPError {A} status_code detail.

(** [health_check] (health.py 10-12). *)
Definition health_check : HealthResponse := mkHealth "ok" "2.0.0".

(** Example validators for the witnesses: an int is a JSON number with
    denominator 1, a float any JSON number. *)
Definition example_int (v : Json) : option Z :=
  match v with JNum q => if Z.eqb (Zpos (Qden q)) 1 then Some (Qnum q) else None | _ => None end.

Definition example_float (v : Json) : option Q :=
  match v with JNum q => Some q | _ => None end.

(** A model answer with one idea, the triangle of [example_idea]. *)
Definition example_ideas (s : string) : option Json :=
  if String.eqb s "good" then Some (JArr [example_idea "easy"]) else None.

Section Routers.
Context {G : Geodesy} {R : SampleRng} {D : LineDrawer} `{Trig} {FR : FloatRepr}.
(** pydantic's lax [int] and [float] validation of a JSON value. *)
Variable json_int : Json -> option Z.
Variable json_float : Json -> option Q.
Variable json_loads : string -> option Json.
Variable parse_float : string -> option Q.
Variable strip : string -> string.
Variable md5 : string -> Q.
Variable set_order : list string -> list string.
Variable proxy : list Coordinate -> option RouteResult.
Variable directions : list Coordinate -> Outcome (option DirectionsRoute).
Variable mapbox_token : option string.
Variable glm_api_key : option string.
Variable judge : string -> list Coordinate -> list Coordinate -> option (Q * string).
Variable hoods : list Neighborhood.
Variable MAX_RETRIES : nat.
Variable VALIDATION_THRESHOLD : Z.
Variable validation_text : string -> string.

(** [GenerateRequest] built from the JSON body: [neighborhood] a string,
    [count] an int with [Field(default=3, ge=1, le=6)]; [None] is the
    request validation error. *)
Definition parse_generate_request (body : Json) : option GenerateReq.GenerateRequest :=
  match body with
  | JObj fields =>
      match json_get "neighborhood" fields, option_map json_int (json_get "count" fields) with
      | Some (JStr nm), None => Some (GenerateReq.mkGenerateRequest nm 3)
      | Some (JStr nm), Some (Some c) =>
          if (1 <=? c)%Z && (c <=? 6)%Z then Some (GenerateReq.mkGenerateRequest nm c) else None
      | _, _ => None
      end
  | _ => None
  end.

(** [DescribeRequest] built from the JSON body: [description] a string,
    [max_distance_km] a float with [Field(default=10.0, ge=1.0, le=30.0)],
    [neighborhood] a string or null, absent meaning null. *)
Definition parse_describe_request (body : Json) : option DescribeReq.DescribeRequest :=
  match body with
  | JObj fields =>
      let km := match json_get "max_distance_km" fields with
                | None => Some 10
                | Some v => match json_float v with
                            | Some k => if (1 <=? k) && (k <=? 30) then Some k else None
                            | None => None
                            end
                end in
      let nb := match json_get "neighborhood" fields with
                | None | Some JNull => Some None
                | Some (JStr n) => Some (Some n)
                | Some _ => None
                end in
      match json_get "description" fields, km, nb with
      | Some (JStr d), Some k, Some n => Some (DescribeReq.mkDescribeRequest d k n)
      | _, _, _ => None
      end
  | _ => None
  end.

(** [str(exc)]. *)
Definition str_exc (e : PyExc) : string :=
  match e with
  | ValueError msg => msg
  | ValidationError model => validation_text model
  | AttributeError attr =>
      String.append "'NoneType' object has no attribute '" (String.append attr "'")
  | OtherError msg => msg
  end.

(** The [try ... except ValueError ... except Exception] of both handlers. *)
Definition respond {A} (o : Outcome A) : HttpResponse A :=
  match o with
  | Returned a => Ok a
  | Raised e => HTTPError (if is_value_error e then 400%Z else 500%Z) (str_exc e)
  end.

(** [generate_shapes] (generate.py 12-22) behind FastAPI's validation
    of the body; [llm] is the generator's ideas predictor. *)
Definition generate_shapes (body : Json)
    (llm : option (Predictor GenerateShapeIdeas.Input GenerateShapeIdeas.Output))
  : HttpResponse Response.GenerateResponse :=
  match parse_generate_request body with
  | Some req =>
      respond (generate_for_neighborhood json_loads parse_float strip hoods (GenerateReq.neighborhood req)
                 (Z.to_nat (GenerateReq.count req)) llm)
  | None => HTTPError 422 (validation_text "GenerateRequest")
  end.

(** [describe_shape] (describe.py 12-23) behind FastAPI's validation of
    the body; [find_area] and [describe_to_shape] are the generator's
    predictors. *)
Definition describe_shape (body : Json)
    (find_area : option (Predictor FindOptimalArea.Input FindOptimalArea.Output))
    (describe_to_shape : option (Predictor DescriptionToShape.Input DescriptionToShape.Output))
  : HttpResponse Describe.DescribeResponse :=
  match parse_describe_request body with
  | Some req =>
      respond (generate_from_description json_loads parse_float strip md5 set_order proxy directions
                 mapbox_token glm_api_key judge hoods MAX_RETRIES VALIDATION_THRESHOLD (DescribeReq.description req)
                 (DescribeReq.max_distance_km req) (DescribeReq.neighborhood req) find_area describe_to_shape)
  | None => HTTPError 422 (validation_text "DescribeRequest")
  end.

(** * Properties *)

Context {GL : GeodesyLaws} {RL : SampleRngLaws} {TL : TrigLaws}.

Lemma respond_error {A} (o : Outcome A) code detail :
  respond o = HTTPError code detail ->
  exists e, o = Raised e /\ code = (if is_value_error e then 400%Z else 500%Z) /\ detail = str_exc e.
Proof. destruct o as [a|e]; [discriminate|intros [= <- <-]; exists e; auto]. Qed.

Lemma parse_describe_request_range body req :
  parse_describe_request body = Some req -> 1 <= DescribeReq.max_distance_km req <= 30.
Proof.
  destruct body as [| | | | |fields]; try discriminate. unfold parse_describe_request. cbv zeta.
  destruct (json_get "max_distance_km" fields) as [v|];
    [destruct (json_float v) as [k|]; [destruct (Qle_boolP 1 k), (Qle_boolP k 30)|]|];
    cbn; repeat match goal with |- context [match ?x with _ => _ end] => destruct x end;
    try discriminate; intros [= <-]; cbn; split; lra.
Qed.

(** C12: [describe_shape] answers with an error status only for a body
    [DescribeRequest] rejects (422); for a neighbourhood name the service
    does not know (400, "Unknown neighborhood: <name>"); for an exception
    of routing (a Directions request outside any [try]: 400 for a
    [ValueError] such as a reply that is not JSON, 500 for any other, such
    as a network error); for a point of the outline or of the mapping
    out of range, which happens only when the neighbourhood's box is out
    of range (400); for a routed point out of range, a route whose
    distance is not positive or whose duration is not an integer (400,
    pydantic's [ValidationError] on what the server computed); or, when
    the service has no neighbourhood at all, with 500 and the
    [AttributeError] of [hood.bbox]. *)
Theorem describe_shape_errors body find_area describe_to_shape code detail :
  describe_shape body find_area describe_to_shape = HTTPError code detail ->
  (code = 422%Z /\ parse_describe_request body = None /\ detail = validation_text "DescribeRequest") \/
  (code = 400%Z /\ exists req nm, parse_describe_request body = Some req /\
      DescribeReq.neighborhood req = Some nm /\ nm <> EmptyString /\
      get_by_name strip hoods nm = None /\ detail = String.append "Unknown neighborhood: " nm) \/
  (exists e w, _route_waypoints proxy directions mapbox_token w = Raised e /\
      code = (if is_value_error e then 400%Z else 500%Z) /\ detail = str_exc e) \/
  (code = 400%Z /\ detail = validation_text "Coordinate" /\
     exists hood, In hood hoods /\ (bbox_valid (bbox hood) -> ~ bbox_in_range (bbox hood))) \/
  (code = 400%Z /\ exists w routed, _route_waypoints proxy directions mapbox_token w = Returned routed /\
      ((detail = validation_text "Coordinate" /\ routed_coords routed = None) \/
       (detail = validation_text "ShapeIdea" /\ distance_km routed <= 0) \/
       (detail = validation_text "DescribeResponse" /\ int_valid (duration_minutes routed) = false))) \/
  (code = 500%Z /\ hoods = [] /\ detail = "'NoneType' object has no attribute 'bbox'"%string).
Proof.
  unfold describe_shape. destruct (parse_describe_request body) as [req|] eqn:Hreq;
    [|intros [= <- <-]; left; auto].
  intros E. destruct (respond_error _ _ _ E) as (e & Eo & -> & ->).
  apply generate_from_description_failure in Eo
    as [(nm & Hn & Hne & Hg & ->)|[[Hh ->]|[[(w & Hw)|(-> & w & r & Hw & Hc)]
       |[(-> & hood & Hin & Hb)|(w & r & Hw & [[-> Hd]|[-> Hd]])]]]];
    try exact _.
  - right; left. split; [reflexivity|]. exists req, nm. auto.
  - right; right; right; right; right. auto.
  - right; right; left. eauto.
  - right; right; right; right; left. split; [reflexivity|]. exists w, r. auto.
  - right; right; right; left. split; [reflexivity|]. split; [reflexivity|]. eauto.
  - right; right; right; right; left. split; [reflexivity|]. exists w, r. auto.
  - right; right; right; right; left. split; [reflexivity|]. exists w, r. auto.
Qed.

(** C32: [generate_shapes] never answers 500: an error is 422 for a body
    [GenerateRequest] rejects (a missing name, a [count] outside [1, 6]),
    400 with "Unknown neighborhood: <name>" for a name the service does
    not know, or 400 for a template idea pydantic rejects or for a point
    of a template or of its mapping out of range, which happens only when
    the neighbourhood's box is out of range. *)
Theorem generate_shapes_errors body llm code detail :
  generate_shapes body llm = HTTPError code detail ->
  (code = 422%Z /\ parse_generate_request body = None /\ detail = validation_text "GenerateRequest") \/
  (code = 400%Z /\ exists req, parse_generate_request body = Some req /\
     get_by_name strip hoods (GenerateReq.neighborhood req) = None /\
     detail = String.append "Unknown neighborhood: " (GenerateReq.neighborhood req)) \/
  (code = 400%Z /\ detail = validation_text "ShapeIdea") \/
  (code = 400%Z /\ detail = validation_text "Coordinate" /\
     exists req hood, parse_generate_request body = Some req /\
       get_by_name strip hoods (GenerateReq.neighborhood req) = Some hood /\
       (bbox_valid (bbox hood) -> ~ bbox_in_range (bbox hood))).
Proof.
  unfold generate_shapes. destruct (parse_generate_request body) as [req|] eqn:Hreq;
    [|intros [= <- <-]; left; auto].
  intros E. destruct (respond_error _ _ _ E) as (e & Eo & -> & ->). right.
  unfold generate_for_neighborhood in Eo.
  destruct (get_by_name strip hoods (GenerateReq.neighborhood req)) as [hood|] eqn:Eg.
  - destruct (match llm with Some p => _ | None => _ end) as [|i rest]; [|discriminate].
    destruct (_generate_with_templates hood _) as [ideas|e'] eqn:Et; [discriminate|]. injection Eo as <-.
    destruct (templates_Raised _ _ _ Et) as [->|[-> Hb]]; [right; left; auto|].
    right; right. split; [reflexivity|split; [reflexivity|]]. exists req, hood. auto.
  - injection Eo as <-. left. split; [reflexivity|]. exists req. auto.
Qed.

End Routers.

(** * Witnesses *)

Local Open Scope string_scope.

(** The status codes test_api.py expects: 422 for a body without its
    required field or with [count] 10 or 0, 400 for an unknown
    neighbourhood, 200 for a known one (here with a model answer). *)
Example api_status_codes :
  let gen body := generate_shapes example_int example_ideas (fun _ => None) (fun s => s)
                    [example_hood] (fun m => m) body (Some (ideas_answering "good")) in
  gen (JObj []) = HTTPError 422 "GenerateRequest" /\
  gen (JObj [("neighborhood", JStr "NonExistent")]) = HTTPError 400 "Unknown neighborhood: NonExistent" /\
  gen (JObj [("neighborhood", JStr "Vinohrady"); ("count", JNum 10)]) = HTTPError 422 "GenerateRequest" /\
  gen (JObj [("neighborhood", JStr "Vinohrady"); ("count", JNum 0)]) = HTTPError 422 "GenerateRequest" /\
  (exists resp, gen (JObj [("neighborhood", JStr "Vinohrady"); ("count", JNum 2)]) = Ok resp) /\
  describe_shape example_float example_loads (fun _ => None) (fun s => s) (fun _ => 0) (fun l => l)
    (fun _ => None) (fun _ => Returned None) None None (fun _ _ _ => None) [example_hood] 2%nat 45%Z (fun m => m)
    (JObj []) None None = HTTPError 422 "DescribeRequest".
Proof. vm_compute. repeat split; eexists; reflexivity. Qed.

Lemma describe_shape_errors_witness :
  let body := JObj [("description", JStr "triangle")] in
  let tok := Some "token" in
  let route := _route_waypoints (fun _ => None) directions_down tok in
  describe_shape example_float example_loads (fun _ => None) (fun s => s) (fun _ => 0) (fun l => l)
    (fun _ => None) directions_down tok None (fun _ _ _ => None) [example_hood] 2%nat 45%Z (fun m => m)
    body None (Some (shape_answering "tri")) = HTTPError 500 "ConnectError" /\
  ((500%Z = 422%Z /\ parse_describe_request example_float body = None /\
      "ConnectError" = "DescribeRequest") \/
   (500%Z = 400%Z /\ exists req nm, parse_describe_request example_float body = Some req /\
      DescribeReq.neighborhood req = Some nm /\ nm <> EmptyString /\
      get_by_name (fun s => s) [example_hood] nm = None /\ "ConnectError" = String.append "Unknown neighborhood: " nm) \/
   (exists e w, route w = Raised e /\
      500%Z = (if is_value_error e then 400%Z else 500%Z) /\ "ConnectError" = str_exc (fun m => m) e) \/
   (500%Z = 400%Z /\ "ConnectError" = "Coordinate" /\
      exists hood, In hood [example_hood] /\ (bbox_valid (bbox hood) -> ~ bbox_in_range (bbox hood))) \/
   (500%Z = 400%Z /\ exists w routed, route w = Returned routed /\
      (("ConnectError" = "Coordinate" /\ routed_coords routed = None) \/
       ("ConnectError" = "ShapeIdea" /\ distance_km routed <= 0) \/
       ("ConnectError" = "DescribeResponse" /\ int_valid (duration_minutes routed) = false))) \/
   (500%Z = 500%Z /\ [example_hood] = [] /\ "ConnectError" = "'NoneType' object has no attribute 'bbox'")).
Proof.
  intros body tok route.
  assert (E : describe_shape example_float example_loads (fun _ => None) (fun s => s) (fun _ => 0) (fun l => l)
    (fun _ => None) directions_down tok None (fun _ _ _ => None) [example_hood] 2%nat 45%Z (fun m => m)
    body None (Some (shape_answering "tri")) = HTTPError 500 "ConnectError") by (vm_compute; reflexivity).
  split; [exact E|].
  exact (describe_shape_errors example_float example_loads (fun _ => None) (fun s => s) (fun _ => 0) (fun l => l)
           (fun _ => None) directions_down tok None (fun _ _ _ => None) [example_hood] 2%nat 45%Z (fun m => m)
           _ _ _ _ _ E).
Defined.

Lemma generate_shapes_errors_witness :
  let body := JObj [("neighborhood", JStr "Atlantis")] in
  generate_shapes example_int (fun _ => None) (fun _ => None) (fun s => s) [example_hood] (fun m => m)
    body None = HTTPError 400 "Unknown neighborhood: Atlantis" /\
  ((400%Z = 422%Z /\ parse_generate_request example_int body = None /\
      "Unknown neighborhood: Atlantis"%string = "GenerateRequest"%string) \/
   (400%Z = 400%Z /\ exists req, parse_generate_request example_int body = Some req /\
      get_by_name (fun s => s) [example_hood] (GenerateReq.neighborhood req) = None /\
      "Unknown neighborhood: Atlantis"%string = String.append "Unknown neighborhood: " (GenerateReq.neighborhood req)) \/
   (400%Z = 400%Z /\ "Unknown neighborhood: Atlantis"%string = "ShapeIdea"%string) \/
   (400%Z = 400%Z /\ "Unknown neighborhood: Atlantis"%string = "Coordinate"%string /\
      exists req hood, parse_generate_request example_int body = Some req /\
        get_by_name (fun s => s) [example_hood] (GenerateReq.neighborhood req) = Some hood /\
        (bbox_valid (bbox hood) -> ~ bbox_in_range (bbox hood)))).
Proof.
  intros body.
  assert (E : generate_shapes example_int (fun _ => None) (fun _ => None) (fun s => s) [example_hood] (fun m => m)
    body None = HTTPError 400 "Unknown neighborhood: Atlantis") by (vm_compute; reflexivity).
  split; [exact E|].
  exact (generate_shapes_errors example_int (fun _ => None) (fun _ => None) (fun s => s) [example_hood] (fun m => m)
           _ _ _ _ E).
Defined.
