(* ===== verification/Config.v ===== *)
(** * Config: the environment and the services' start-up state

    Models what the backend reads from the process environment and the
    objects it builds when it starts: [MAX_RETRIES] and [SVELTEKIT_URL]
    (src/backend/services/shape_generator.py 33-34),
    [VALIDATION_THRESHOLD] (shape_validator.py 16), [configure_llm]
    (llm.py 14-28), [ShapeValidator.__init__] (shape_validator.py
    231-232), the Mapbox token lookup of [_route_waypoints]
    (shape_generator.py 277-279), [ShapeGenerator.__init__]
    (shape_generator.py 37-45) and the module-level [generator =
    ShapeGenerator()] of routers/generate.py and routers/describe.py (line
    9 of each).  The endpoints of the running application compose
    [Routers] with that state: each predictor the generator holds is
    [dspy.Predict] of its signature on the configured model, [None] when
    there is none ([if self._generate_ideas:] and the like then skip the
    model), and the validator's judge is [vision_judge] over the vision
    call.  What the configured model predicts is the record [Model].

    [os.environ.get] is the parameter [environ]; [int] of a string is
    [py_int] ([None] when it raises [ValueError]).  A start-up that raises
    (a bad integer, an unreadable data file) is [None]: the import fails
    and the application does not start.  [dspy.configure(lm=lm)] sets
    dspy's global model; the model's settings are the record [LM]. *)

From Stdlib Require Import String Ascii QArith Qabs Lqa List Lia PeanoNat Bool ZArith.
From S2P Require Import Prelude.
From S2P Require Import Geodesy.
From S2P Require Import Metrics.
From S2P Require Import Validator.
From S2P Require Import Generator.
From S2P Require Import Waypoints.
From S2P Require Import Templates.
From S2P Require Import Neighborhood.
From S2P Require Import Llm.
From S2P Require Import HoodData.
From S2P Require Import Predictors.
From S2P Require Import Ideas.
From S2P Require Import Pipeline.
From S2P Require Import Routers.
Import ListNotations.
Open Scope Q_scope.
Open Scope geo_scope.

(** The settings [configure_llm] passes to [dspy.LM]. *)
Record LM := mkLM {
  lm_model : string; lm_api_key : string; lm_api_base : string;
  lm_timeout : Z; lm_num_retries : Z }.

(** A [ShapeGenerator] after [__init__]: the neighbourhoods of its
    [NeighborhoodService], its validator's key, its model and its three
    predictors ([StreetMapper] has no state). *)
Record ShapeGenerator := mkGenerator {
  neighborhood_service : list Neighborhood;
  validator_glm_api_key : option string;
  _lm : option LM;
  _generate_ideas : option (Predictor GenerateShapeIdeas.Input GenerateShapeIdeas.Output);
  _describe_to_shape : option (Predictor DescriptionToShape.Input DescriptionToShape.Output);
  _find_area : option (Predictor FindOptimalArea.Input FindOptimalArea.Output) }.

(** The running application: the generators of the two routers and the
    module-level constants. *)
Record App := mkApp {
  generate_generator : ShapeGenerator;
  describe_generator : ShapeGenerator;
  app_max_retries : Z;
  app_validation_threshold : Z;
  app_sveltekit_url : string;
  app_mapbox_token : option string }.

(** Python's [a or b] on two optional strings: [a] unless it is [None] or
    empty. *)
Definition py_or_str (a b : option string) : option string :=
  match a with Some (String _ _) => a | _ => b end.

(** Python's truth value of an object that may be [None]. *)
Definition is_set {A} (o : option A) : bool := match o with Some _ => true | None => false end.

(** [dspy.Predict(Sig) if self._lm else None] (shape_generator.py 43-45):
    [p] is what the configured model predicts for [Sig]. *)
Definition predict_if {I O} (lm : option LM) (p : Predictor I O) : option (Predictor I O) :=
  if is_set lm then Some p else None.

Section Config.
Variable environ : string -> option string.
Variable py_int : string -> option Z.

(** [os.environ.get(name, default)]. *)
Definition env_get_or (name default : string) : string :=
  match environ name with Some v => v | None => default end.

(** [MAX_RETRIES = int(os.environ.get("MAX_GENERATION_RETRIES", "2"))]. *)
Definition max_retries_of_env : option Z := py_int (env_get_or "MAX_GENERATION_RETRIES" "2").

(** [VALIDATION_THRESHOLD = int(os.environ.get("SHAPE_VALIDATION_THRESHOLD", "45"))]. *)
Definition validation_threshold_of_env : option Z :=
  py_int (env_get_or "SHAPE_VALIDATION_THRESHOLD" "45").

(** [SVELTEKIT_URL = os.environ.get("SVELTEKIT_URL", "http://127.0.0.1:4173")]. *)
Definition sveltekit_url_of_env : string := env_get_or "SVELTEKIT_URL" "http://127.0.0.1:4173".

(** Lines 277-279 of [_route_waypoints]. *)
Definition mapbox_token_of_env : option string :=
  py_or_str (environ "MAPBOX_ACCESS_TOKEN") (environ "VITE_MAPBOX_ACCESS_TOKEN").

(** [configure_llm] (llm.py 14-28). *)
Definition configure_llm : option LM :=
  match environ "GLM_API_KEY" with
  | None | Some EmptyString => None
  | Some api_key =>
      Some (mkLM "openai/glm-4-plus" api_key "https://open.bigmodel.cn/api/paas/v4/" 10 1)
  end.

(** [ShapeValidator.__init__] (shape_validator.py 231-232). *)
Definition validator_init : option string := environ "GLM_API_KEY".

Variable json_loads : string -> option Json.
Variable json_float : Json -> option Q.
Variable model : Model.

(** [ShapeGenerator.__init__] (shape_generator.py 37-45): [data_file] is
    the text of the neighbourhood file, as in [_load]. *)
Definition ShapeGenerator_init (data_file : option string) : option ShapeGenerator :=
  match NeighborhoodService_init json_loads json_float data_file with
  | None => None
  | Some hoods =>
      let lm := configure_llm in
      Some (mkGenerator hoods validator_init lm (predict_if lm (ideas_model model))
              (predict_if lm (shape_model model)) (predict_if lm (area_model model)))
  end.

(** Importing main.py: the constants of shape_validator.py and
    shape_generator.py, then one [ShapeGenerator()] per router. *)
Definition startup (data_file : option string) : option App :=
  match validation_threshold_of_env, max_retries_of_env,
        ShapeGenerator_init data_file, ShapeGenerator_init data_file with
  | Some threshold, Some retries, Some g1, Some g2 =>
      Some (mkApp g1 g2 retries threshold sveltekit_url_of_env mapbox_token_of_env)
  | _, _, _, _ => None
  end.

End Config.

Section Endpoints.
Context {G : Geodesy} {R : SampleRng} {D : LineDrawer} `{Trig} {FR : FloatRepr}.
Variable json_int : Json -> option Z.
Variable json_float : Json -> option Q.
Variable json_loads : string -> option Json.
Variable parse_float : string -> option Q.
Variable strip : string -> string.
Variable md5 : string -> Q.
Variable set_order : list string -> list string.
Variable proxy : list Coordinate -> option RouteResult.
Variable directions : list Coordinate -> Outcome (option DirectionsRoute).
Variable vision_call : string -> list Coordinate -> list Coordinate -> option string.
Variable validation_text : string -> string.
Variable app : App.

(** POST /generate/ on the running application. *)
Definition post_generate (body : Json)
  : HttpResponse Response.GenerateResponse :=
  let g := generate_generator app in
  generate_shapes json_int json_loads parse_float strip (neighborhood_service g) validation_text body
    (_generate_ideas g).

(** POST /describe/ on the running application. *)
Definition post_describe (body : Json)
  : HttpResponse Describe.DescribeResponse :=
  let g := describe_generator app in
  describe_shape json_float json_loads parse_float strip md5 set_order proxy directions
    (app_mapbox_token app) (validator_glm_api_key g) (vision_judge json_loads parse_float vision_call)
    (neighborhood_service g) (Z.to_nat (app_max_retries app)) (app_validation_threshold app)
    validation_text body (_find_area g) (_describe_to_shape g).

End Endpoints.

(** What start-up guarantees of a generator: its neighbourhoods passed
    pydantic's checks, and the model, its three predictors and the vision
    judge are all on or all off. *)
Definition generator_wf (g : ShapeGenerator) : Prop :=
  Forall hood_wf (neighborhood_service g) /\
  let present := is_set (_lm g) in
  api_key_set (validator_glm_api_key g) = present /\
  is_set (_generate_ideas g) = present /\ is_set (_describe_to_shape g) = present /\
  is_set (_find_area g) = present.

(** Example: the decimal integers [int] accepts without sign or spaces. *)
Definition decimal_int (s : string) : option Z :=
  let fix go (l : list ascii) (acc : Z) : option Z :=
    match l with
    | [] => Some acc
    | c :: rest =>
        let n := nat_of_ascii c in
        if (48 <=? n)%nat && (n <=? 57)%nat then go rest (acc * 10 + Z.of_nat (n - 48))%Z else None
    end in
  match list_ascii_of_string s with [] => None | l => go l 0%Z end.

(** * Properties *)

(** Python's guard [retries < MAX_RETRIES] on the environment's integer,
    negative ones included, is the guard of [retry_loop] on [Z.to_nat]. *)
Lemma retries_guard_to_nat (r : nat) (m : Z) : (Z.of_nat r < m)%Z <-> (r < Z.to_nat m)%nat.
Proof. lia. Qed.

Section ConfigFacts.
Variable environ : string -> option string.
Variable py_int : string -> option Z.
Variable json_loads : string -> option Json.
Variable json_float : Json -> option Q.
Variable model : Model.

Lemma ShapeGenerator_init_wf data g :
  ShapeGenerator_init environ json_loads json_float model data = Some g ->
  _load json_loads json_float data = Some (neighborhood_service g) /\ generator_wf g.
Proof.
  unfold ShapeGenerator_init, NeighborhoodService_init. destruct (_load json_loads json_float data) as [hoods|] eqn:E; [|discriminate].
  intros [= <-]. split; [reflexivity|]. split; [exact (load_wf _ _ _ _ E)|].
  cbn. unfold configure_llm, validator_init.
  destruct (environ "GLM_API_KEY") as [[|c k]|]; repeat split.
Qed.

Lemma startup_generators data app :
  startup environ py_int json_loads json_float model data = Some app ->
  ShapeGenerator_init environ json_loads json_float model data = Some (generate_generator app) /\
  ShapeGenerator_init environ json_loads json_float model data = Some (describe_generator app).
Proof.
  unfold startup.
  destruct (validation_threshold_of_env environ py_int), (max_retries_of_env environ py_int),
    (ShapeGenerator_init environ json_loads json_float model data); try discriminate.
  intros [= <-]. split; reflexivity.
Qed.

Lemma init_no_key data g :
  api_key_set (environ "GLM_API_KEY") = false ->
  ShapeGenerator_init environ json_loads json_float model data = Some g ->
  _generate_ideas g = None /\ _describe_to_shape g = None /\ _find_area g = None /\
  api_key_set (validator_glm_api_key g) = false.
Proof.
  intros Hk. unfold ShapeGenerator_init, NeighborhoodService_init, configure_llm, validator_init.
  destruct (_load json_loads json_float data); [|discriminate]. intros [= <-]. cbn.
  destruct (environ "GLM_API_KEY") as [[|c k]|]; [repeat split..|discriminate|repeat split].
Qed.

(** Without a key no predictor is built, so the model's behaviour does
    not reach the state start-up builds. *)
Lemma startup_no_key_model data model' :
  api_key_set (environ "GLM_API_KEY") = false ->
  startup environ py_int json_loads json_float model data = startup environ py_int json_loads json_float model' data.
Proof.
  intros Hk.
  assert (E : ShapeGenerator_init environ json_loads json_float model data =
              ShapeGenerator_init environ json_loads json_float model' data).
  { unfold ShapeGenerator_init, configure_llm.
    destruct (environ "GLM_API_KEY") as [[|c k]|]; [reflexivity|discriminate|reflexivity]. }
  unfold startup. rewrite E. reflexivity.
Qed.

(** C35: after a start-up that succeeds, both generators are well formed:
    their neighbourhoods passed pydantic's checks, and the language model,
    its three predictors and the validator's vision judge are either all
    on (a non-empty [GLM_API_KEY]) or all off; the two routers serve the
    same neighbourhoods. *)
Theorem startup_wf data app :
  startup environ py_int json_loads json_float model data = Some app ->
  generator_wf (generate_generator app) /\ generator_wf (describe_generator app) /\
  neighborhood_service (generate_generator app) = neighborhood_service (describe_generator app).
Proof.
  intros E. destruct (startup_generators _ _ E) as [E1 E2].
  destruct (ShapeGenerator_init_wf _ _ E1) as [L1 W1], (ShapeGenerator_init_wf _ _ E2) as [L2 W2].
  rewrite L1 in L2. injection L2 as L2. auto.
Qed.

End ConfigFacts.

Section NoKey.
Context {G : Geodesy} {R : SampleRng} {D : LineDrawer} `{Trig} {FR : FloatRepr}.
Variable environ : string -> option string.
Variable py_int : string -> option Z.
Variable json_int : Json -> option Z.
Variable json_float : Json -> option Q.
Variable json_loads : string -> option Json.
Variable parse_float : string -> option Q.
Variable strip : string -> string.
Variable md5 : string -> Q.
Variable set_order : list string -> list string.
Variable proxy : list Coordinate -> option RouteResult.
Variable directions : list Coordinate -> Outcome (option DirectionsRoute).
Variable validation_text : string -> string.

(** C36: without a (non-empty) [GLM_API_KEY], what the language model or
    the vision model would answer has no effect: applications started
    with two different models are the same, and their two POST endpoints
    answer every body the same, whatever each vision call returns. *)
Theorem no_key_model_free data model1 model2 app1 app2 vision1 vision2 body :
  startup environ py_int json_loads json_float model1 data = Some app1 ->
  startup environ py_int json_loads json_float model2 data = Some app2 ->
  api_key_set (environ "GLM_API_KEY") = false ->
  app1 = app2 /\
  post_describe json_float json_loads parse_float strip md5 set_order proxy directions vision1
    validation_text app1 body =
  post_describe json_float json_loads parse_float strip md5 set_order proxy directions vision2
    validation_text app2 body /\
  post_generate json_int json_loads parse_float strip validation_text app1 body =
  post_generate json_int json_loads parse_float strip validation_text app2 body.
Proof.
  intros E1 E2 Hk.
  rewrite (startup_no_key_model _ _ _ _ model1 data model2 Hk), E2 in E1. injection E1 as <-.
  destruct (startup_generators _ _ _ _ _ _ _ E2) as [_ Ed].
  destruct (init_no_key _ _ _ _ _ _ Hk Ed) as (_ & _ & _ & Hv).
  split; [reflexivity|split; [|reflexivity]].
  unfold post_describe, describe_shape, generate_from_description, check_step, validate.
  rewrite Hv. reflexivity.
Qed.

End NoKey.

(** With no variable set, the application starts with two retries, the
    threshold 45, the local SvelteKit proxy, no Mapbox token, no model, no
    predictor and no vision judge. *)
Example default_environment_startup :
  let loads := fun _ : string => Some (JArr [hood_json sample_hood]) in
  exists app, startup (fun _ => None) decimal_int loads num_float failing_model (Some "data"%string) = Some app /\
    app_max_retries app = 2%Z /\ app_validation_threshold app = 45%Z /\
    app_sveltekit_url app = "http://127.0.0.1:4173"%string /\ app_mapbox_token app = None /\
    _lm (describe_generator app) = None /\ is_set (_find_area (describe_generator app)) = false /\
    api_key_set (validator_glm_api_key (describe_generator app)) = false.
Proof. eexists. split; [vm_compute; reflexivity|]. vm_compute. repeat split. Qed.

(** * Witnesses *)

Lemma startup_wf_witness :
  let loads := fun _ : string => Some (JArr [hood_json sample_hood]) in
  let env := fun v : string => if String.eqb v "GLM_API_KEY" then Some "k"%string else None in
  exists app, startup env decimal_int loads num_float failing_model (Some "data"%string) = Some app /\
    generator_wf (generate_generator app) /\ generator_wf (describe_generator app) /\
    neighborhood_service (generate_generator app) = neighborhood_service (describe_generator app).
Proof.
  intros loads env.
  destruct (startup env decimal_int loads num_float failing_model (Some "data"%string)) as [app|] eqn:E;
    [|exfalso; revert E; vm_compute; discriminate].
  exists app. split; [reflexivity|].
  exact (startup_wf env decimal_int loads num_float failing_model (Some "data"%string) app E).
Defined.

Lemma no_key_model_free_witness :
  let loads := fun _ : string => Some (JArr [hood_json sample_hood]) in
  let body := JObj [("description", JStr "heart")]%string in
  let talkative := mkModel (ideas_answering "[]") (shape_answering "{}") (area_answering "Letna") in
  exists app1 app2,
    startup (fun _ => None) decimal_int loads num_float talkative (Some "data"%string) = Some app1 /\
    startup (fun _ => None) decimal_int loads num_float failing_model (Some "data"%string) = Some app2 /\
    api_key_set ((fun _ : string => @None string) "GLM_API_KEY"%string) = false /\
    app1 = app2 /\
    post_describe num_float loads (fun _ => None) (fun s => s) (fun _ => 0) (fun l => l)
       (fun _ => None) (fun _ => Returned None) (fun _ _ _ => Some "{}"%string) (fun m => m) app1 body =
    post_describe num_float loads (fun _ => None) (fun s => s) (fun _ => 0) (fun l => l)
       (fun _ => None) (fun _ => Returned None) (fun _ _ _ => None) (fun m => m) app2 body /\
    post_generate example_int loads (fun _ => None) (fun s => s) (fun m => m) app1 body =
    post_generate example_int loads (fun _ => None) (fun s => s) (fun m => m) app2 body.
Proof.
  intros loads body talkative.
  destruct (startup (fun _ => None) decimal_int loads num_float talkative (Some "data"%string)) as [app1|] eqn:E1;
    [|exfalso; revert E1; vm_compute; discriminate].
  destruct (startup (fun _ => None) decimal_int loads num_float failing_model (Some "data"%string)) as [app2|] eqn:E2;
    [|exfalso; revert E2; vm_compute; discriminate].
  exists app1, app2. split; [reflexivity|]. split; [reflexivity|]. split; [reflexivity|].
  exact (no_key_model_free (fun _ => None) decimal_int example_int num_float loads (fun _ => None)
           (fun s => s) (fun _ => 0) (fun l => l) (fun _ => None) (fun _ => Returned None) (fun m => m)
           _ talkative failing_model app1 app2 (fun _ _ _ => Some "{}"%string) (fun _ _ _ => None) body
           E1 E2 eq_refl).
Defined.
